(* ===== verification/_CoqProject ===== *)
-Q . S2P
Prelude.v
Dates.v
Schema.v
Store.v
VehicleStore.v
Pricing.v
Settings.v
Checkout.v
EntryForm.v
System.v
Occupancy.v
Reads.v
EditDialog.v
SettingsScreen.v
Auth.v
CheckedOutList.v
Dashboard.v
Receipt.v
VehicleListScreen.v
Pool.v
CheckoutScreen.v
Interleave.v
