(* ===== verification/Prelude.v ===== *)
(** * A verification development for the vehicle-parking system

    The program.  [src/src/components/vehicle-management-server/server.js]
    is an Express server over a MySQL pool
    ([config/database.js]); the React screens under [src/src/components]
    call it.  The core the spec describes is split between the two:
    - VehicleRecordStore: POST/PUT/DELETE /api/vehicles, the plate
      search and the image upload (server.js 541-852);
    - CheckoutEngine: the quote is computed in the browser
      ([handleSearch], Checkout.jsx 62-116: plate search, status check,
      days, rate), the commit is POST /api/checkouts (server.js 763-795);
    - PricingResolver: the price table endpoints (server.js 404-430,
      464-472, 797-821) and the client's [priceData.price || 100];
    - LocationOccupancyView: counts of parked vehicles in four places,
      GET /api/settings/locations (server.js 207-225), GET
      /api/locations/:id/stats (228-312), GET
      /api/locations/vehicle-counts (929-947) and the dashboard
      (Dashboard.jsx 38-55, over GET /api/vehicles, server.js 66-104);
    - the settings routes, outside the spec's core: locations and
      vehicle types with their cascading deletes (server.js 141-204,
      313-383, 431-462).
    The components share one state, the database; they interact only
    through it and through the JSON the screens pass between requests
    (a quote is shown on a screen, then sent back as the checkout body).

    The files.
    - [Prelude] (this file): the result type, the state-and-error monad
      [SE] with its [let*] notation in [vps_scope], the hint databases
      [vps]/[vps_rw], JavaScript objects as association lists
      ([obj_set]/[obj_get]), row filters ([keep_unless]), ceiling
      division, decimal digits and [toLowerCase] ([js_lower]).
    - [Dates]: calendar days, the date part of [toISOString]
      ([iso_date]), MySQL's reading of a ["YYYY-MM-DD"] string into a
      [DATE] ([parse_iso_date]), mysql2's server-local midnight, the
      full [toISOString] [res.json] writes for a [Date] ([iso_string])
      and the ["HH:MM:SS"] of a time ([clock_text]).
    - [Schema]: the tables as lists of rows in primary-key order (the
      repository has no schema file; columns are those the SQL names).
    - [Store]: every write statement of the handlers as a constructor of
      [stmt], its effect [apply_stmt] (with the MySQL OK packet), [exec]
      with an oracle [fault] deciding storage failures, [transaction]
      (begin/commit/rollback), and frames: [preserves F m] says every
      run of handler [m] relates its states by the preorder [F].
    - [VehicleStore]: [post_vehicles], [delete_vehicle], [put_vehicle]
      (with [replace_tyres]/[replace_documents]), [post_images],
      [search_by_plate]; each handler is the code's sequence of
      [await connection.query] calls, with its guards and early exits.
    - [Pricing]: [post_prices], [pair_price], [client_rate]; the spec's
      PricingResolver is the class [RateResolver] with its contract
      [implements_spec]; [endpoint_rate] and [deployed_rate] are the two
      instances the code offers.
    - [Checkout]: [days_stayed_of], [js_trim], [handle_search] (the
      quote, parameterised by a [RateResolver] and by the collation of
      the plate column), [payment_body], [post_checkouts],
      [checkout_status].
    - [EntryForm]: the intake wizard the client routes to
      (VehicleEntryForm/VehicleEntryForm.jsx and its Steps): the form,
      the edits of each step, [validate_step], navigation ([ui_apply]),
      the submission ([submit_attempt]) and its retry loop
      ([submit_chain]) against the database model, as a step relation
      [wizard_step].
    - [Settings]: [post_location] (with MySQL's conversion of the
      capacity string, [sql_int_of_string]), [delete_location],
      [put_location], [post_vehicle_type], [delete_vehicle_type].
    - [System]: the requests of the shipped screens as a step relation
      [step] on the database and the quotes shown on screens (a quote
      may be paid arbitrarily later, so operators interleave), with
      [reachable]; executable traces ([run_trace]) for concrete
      scenarios; the invariant [db_inv] with its boolean check [db_invb].
    - [Occupancy]: the four occupancy read paths as functions of the
      store ([location_counts], [location_stats], [vehicle_counts],
      [dashboard_counts] over [vehicle_list]); the SQL queries compare
      names under the columns' collation ([sql_eq], a parameter), the
      JavaScript filters with [===] ([at_location]).
    - [Reads]: GET /api/vehicles and /:id, with MySQL's [GROUP_CONCAT]
      ([group_concat]) and the route's decoding ([decode_tyres],
      [decode_documents], [js_split]).
    - [EditDialog]: the vehicle list's edit dialog (VehicleList.jsx
      846-1190), its initial state from a row ([dialog_of]), every action
      on it ([edit_step]: the text fields, document checkboxes, image
      upload and removal, save, cancel) and the body its Save sends
      ([save_body]).
    - [SettingsScreen]: the Settings page (Settings.jsx) as a record of
      its React state, one definition per handler ([handle_save_prices],
      [handle_add_location], ...), the price matrix as a JavaScript
      object keyed by [price_key], and [settings_step], one user action
      against the server model.
    - [Auth]: the users routes and POST /api/auth/login over a users
      table of its own (the hash and the collation are parameters); the
      client session of AuthContext.jsx ([session]: React state,
      localStorage, pending logout timers, clock) with one event per
      page load, login, logout click or timer ([auth_step]); App.jsx's
      route guard and Navigation.jsx's links ([nav_links]); the users tab
      of Settings.jsx.
    - [CheckedOutList]: GET /api/vehicles/checked-out and the checked-out
      list of Checkout.jsx with its search filter.
    - [Dashboard]: the location view of Dashboard.jsx (its two loaders,
      the search, the stat cards and the table).
    - [Receipt]: the snapshot a checkout stores ([snapshot_json], the
      search route's object, dates as the strings [res.json] writes),
      [printReceipt] on the object it is given ([print_receipt], [None]
      for a template that throws), the payment's [checkoutData]
      ([checkout_json]) and a row of the checked-out list
      ([checkout_row_json]).
    - [VehicleListScreen]: the vehicle list page of VehicleList.jsx: its
      state ([vl_screen]) and every handler that changes it ([vl_step]:
      search, location, sort headers, selection, preview and its dialog
      ([list_preview_of] on the body of GET /api/vehicles/:id), print,
      bulk print and [BulkPrintDialog], delete, filters, pagination), the
      rows as the JSON GET /api/vehicles sends ([row_json]), JavaScript's
      stable sort with a NaN comparator ([js_sort]) and the printed sheet
      ([print_sheet_of]).
    - [Pool]: mysql2's pool of ten connections (config/database.js) in
      front of every route: [server_step] answers a request while a
      connection can be had and queues it otherwise, and [releases]
      says, per route and per path (a failing [beginTransaction]
      included), whether the connection is given back.
    - [CheckoutScreen]: the checkout page of Checkout.jsx ([co_screen],
      [co_step]): the search field, the quote, the payment and success
      dialogs, the checked-out list of [CheckedOutList], the details
      button ([view_details], [combinedData]) and the preview dialog.
    - [Interleave]: requests in flight at the same time.  A handler is a
      [task] that waits at each [await] for one statement; the event loop
      resumes the tasks of a pool in the order a schedule gives
      ([interleave]).  Transactions run as one step; POST
      /api/settings/prices is two ([post_prices_task]); GET
      /api/settings/prices is one read ([get_prices_task]).

    What is proved.
    - Atomicity and functional behaviour of each handler, on every
      branch: intake is all-or-nothing under any storage failures and
      commits exactly the aggregate; delete removes the aggregate and
      keeps checkouts; update never touches checkouts (the frozen
      snapshot) and succeeds on unknown ids; the price replace is not
      atomic (it can leave an empty table).
    - Billing: at least one day, the ceiling characterisation of the
      days, monotonicity; the quote's guard against checked-out cars.
    - Refinement: the per-pair endpoint through the client's fallback
      implements the PricingResolver contract (on tables without zero
      prices); the shipped screen does not (it always bills 100).
    - The system invariant, by rule induction over every client
      interleaving and storage-failure pattern: ids distinct and below
      the counter, statuses active/checked_out, and checked_out exactly
      when a checkout row exists.  Concrete traces show what it does not
      give: two screens can check out one car twice; a car taken in again
      under a checked-out plate can never be quoted; the API (not the
      shipped screen) can re-activate a checked-out car.
    - Occupancy: on every store satisfying the invariant, under any
      collation, the settings page (active vehicles, joined in SQL)
      counts at each location what the dashboard counts (vehicles
      without a checkout row, compared with [===]) plus the active
      vehicles whose place is a collation variant of the name: the two
      agree under a binary collation and differ under MySQL's default
      case-insensitive one; the stats endpoint agrees with the settings
      page; the vehicle-counts endpoint always shows zero; the rounded
      percentage lies in [0, 100] and is the nearest integer.
    - Settings: deleting a vehicle type removes its vehicles with all
      their child rows; deleting a location removes its vehicles but
      orphans their child rows; any integer capacity is accepted.
    - The intake wizard: an invariant of every reachable state (each
      step before the current one is valid, the form keeps its shape);
      every intake it submits is complete in the spec's sense and is
      committed; the battery and tyre conditions it holds are always
      options of its radio groups; a persistent upload failure makes
      one click retry without end, storing a new copy of the vehicle on
      each attempt; an empty date is stored as the UTC date.
    - Round trips: [toISOString] then MySQL's [DATE] gives the day back
      (checked for the days of [checked_days]); GROUP_CONCAT then the
      route's split gives the tyre and document rows back when their
      fields hold no separator, and in general answers one more tyre
      object per comma in the tyres' fields; saving the edit dialog
      unchanged writes the row back on a server at or west of UTC, and
      moves the date a day back on a server east of it.
    - The Settings page: the keys of the price object never collide, so
      it holds the last row of each pair; saving the editor unchanged
      rewrites the table into one row per displayed nonzero pair;
      emptying every cell and saving wipes the table while the page
      still shows the old prices; a pair without a price is shown as 0
      but billed 100; a typed price, negative ones included, is stored
      and shown after the reload.
    - Sessions: whatever the browser stored, no page shows a user past
      three hours after the stored login (the next event always comes
      no later); but logging out leaves the login's timer armed, and it
      cuts a later session short.  An account added on the server can
      log in (an older account with the same name and password wins);
      no action of the users tab removes a user.
    - Deleting a checked-out vehicle takes its checkouts off the
      checked-out list although the rows stay; the dashboard's type
      cards exceed its Total Vehicles card by the rows the search hides.
    - Every receipt, after a payment or from the checked-out list,
      prints "-" for the battery and for each tyre's condition (the
      template reads keys the snapshot does not have).
    - The vehicle list, after any sequence of actions, shows exactly the
      server's current rows that match the search and the location, in
      the server's order (the sort headers, the filters and the
      pagination have no effect); a deleted vehicle stays selected and
      [Print Selected] prints fewer sheets than it announces; the sheet
      printed from the list keeps the battery and the tyre conditions.
    - The pool: routes that always release leave it transparent (the
      database evolves as the handlers make it); ten POSTs of a location
      with a blank field (or ten previews of a deleted vehicle) keep
      their connections, and from then on no request is ever answered.
    - The checkout page: after a payment the quote stays, and paying
      again stores a second checkout of the same car; every run of the
      page, that second payment included, keeps [System.db_inv] under
      any storage failures ([page_inv] adds that the quote on screen
      names an issued id); the receipt buttons of the success and
      details dialogs print blank windows on every reachable state.
    - The edit dialog never removes a stored image (its delete button
      only edits the dialog); uploads are stored at once.
    - Termination: the submit retry loop ends after one attempt in a
      render whose count reached three, for every fuel, and a loop that
      ended keeps its result under more fuel ([submit_chain_more_fuel]).
    - Concurrency: two screens' quotes of one car both commit
      ([System]); run alone, each request split at its awaits is the
      atomic handler of [System.serve], and two overlapping price saves
      both succeed and leave the rows of both, which no serial order
      gives.
    - The vehicle list's preview shows the stored columns, battery,
      documents and images of a vehicle (no tyres) and a blank form for
      one deleted meanwhile; its bulk print dialog can never open.
    - Roles: no screen reads the role, so any logged-in account sees the
      Settings page and can create an admin account.

    Bounds and choices.  Numbers are exact integers: instants in
    milliseconds, dates as day numbers ([new Date(DATE)] is midnight),
    times of day in seconds, prices and amounts in whole currency units.
    JavaScript doubles agree with these below 2^53, which covers dates and
    realistic amounts.  Time zones are taken as UTC except where a
    theorem names an offset.  Reads are total functions of the state (a failing read only changes the HTTP answer,
    except [checkout_status], whose failure is modelled because it
    answers "not checked out").  The collation of the columns the
    queries compare ([registration_number] in the plate search, the
    place and type names in the occupancy queries) is a parameter: the
    repository ships no schema.  JSON dates are the strings [res.json]
    writes ([toISOString] of the server-local midnight, the server at
    UTC); the client reads them back only through [new Date].  No fuel is needed: every definition is structurally
    recursive except the retry loop of the wizard, [submit_chain], whose
    fuel is the number of attempts; its theorems hold for every fuel
    (a run that ended is the same with more fuel).
    The date round trip is checked by evaluation for every day from
    1970 to 2169 ([checked_days]), which covers the intake dates the
    program can meet.  Time zones are offsets in minutes east of UTC.

    Not modelled.  The collation in the store's deletes by name
    ([DELETE FROM vehicles WHERE in_place = ?] and [WHERE vehicle_type =
    ?] in [Store]): they compare exactly, so under a case-insensitive
    collation the model keeps the case variants of a deleted location's
    or type's name that MySQL would delete too.  The statements of two
    transactions interleaving inside InnoDB (a transaction is one step of [Interleave], as if
    serializable) and a failing [rollback], which needs a broken
    connection; LocationDashboard.jsx, which calls helpers it never
    defines; SHA-256 (a library call, the parameter [hash]); the login
    form's two text fields; routes/auth.js and AuthWrapper.jsx, which
    nothing mounts; CheckedOutVehiclesTable of Checkout.jsx, never
    rendered; the top-level VehicleEntryForm.jsx, which declares
    [getStepContent] three times in one scope and cannot be parsed
    (App.jsx routes the wizard of VehicleEntryForm/ instead); the
    placeholder screens of src/components (dummy data, not wired to the
    server); layout, styling and the loading spinners.  Prices on the
    Settings page are integers (a number input holding a fraction is
    outside the model).  The wizard's vehicle type and location are
    any text in [EntryForm]: the two selects of VehicleDetails.jsx offer
    only the names fetched on mount, a list the wizard's state does not
    record, so what the theorems say of any text holds of those names. *)

(** Prelude: the result type, the handler monad and shared lemmas. *)

From stdpp Require Import base list strings decidable.
From Stdlib Require Import ZArith Lia Ascii.

(** ** Results *)

Inductive result (A E : Type) : Type :=
| Ok (a : A)
| Err (e : E).
Arguments Ok {A E} a.
Arguments Err {A E} e.

Definition is_ok {A E} (r : result A E) : bool :=
  match r with Ok _ => true | Err _ => false end.

(** ** The state-and-error monad *)

Definition SE (S E A : Type) : Type := S -> result A E * S.

Definition se_ret {S E A} (a : A) : SE S E A := fun s => (Ok a, s).

Definition se_bind {S E A B} (m : SE S E A) (k : A -> SE S E B) : SE S E B :=
  fun s =>
    match m s with
    | (Ok a, s') => k a s'
    | (Err e, s') => (Err e, s')
    end.

Definition se_throw {S E A} (e : E) : SE S E A := fun s => (Err e, s).

Definition se_get {S E} : SE S E S := fun s => (Ok s, s).

(** [when b m] runs [m] only when [b] holds: the [if (...) { ... }]
    blocks of the handlers. *)
Definition se_when {S E} (b : bool) (m : SE S E unit) : SE S E unit :=
  if b then m else se_ret tt.

Declare Scope vps_scope.
Delimit Scope vps_scope with vps.

Notation "'let*' x ':=' c1 'in' c2" := (se_bind c1 (fun x => c2))
  (at level 100, x pattern, c1 at next level, right associativity,
   format "'[v' 'let*'  x  ':='  c1  'in' '/' c2 ']'") : vps_scope.

Notation "c1 ;; c2" := (se_bind c1 (fun _ => c2))
  (at level 100, right associativity) : vps_scope.

Open Scope vps_scope.

Section MonadLaws.
Context {S E : Type}.

Lemma se_bind_ret_l {A B} (a : A) (k : A -> SE S E B) s :
  se_bind (se_ret a) k s = k a s.
Proof. reflexivity. Qed.

Lemma se_bind_ok {A B} (m : SE S E A) (k : A -> SE S E B) s a s' :
  m s = (Ok a, s') -> se_bind m k s = k a s'.
Proof. intros H. unfold se_bind. by rewrite H. Qed.

Lemma se_bind_err {A B} (m : SE S E A) (k : A -> SE S E B) s e s' :
  m s = (Err e, s') -> se_bind m k s = (Err e, s').
Proof. intros H. unfold se_bind. by rewrite H. Qed.

Lemma se_bind_assoc {A B C} (m : SE S E A) (k : A -> SE S E B)
      (h : B -> SE S E C) s :
  se_bind (se_bind m k) h s = se_bind m (fun a => se_bind (k a) h) s.
Proof. unfold se_bind. by destruct (m s) as [[a|e] s']. Qed.
End MonadLaws.

(** [se_step] performs one bind whose first action has been computed in
    a hypothesis, the usual step of a proof about a handler. *)
Ltac se_step :=
  match goal with
  | H : ?m ?s = (Ok _, _) |- context [se_bind ?m _ ?s] =>
      rewrite (se_bind_ok _ _ _ _ _ H)
  | H : ?m ?s = (Err _, _) |- context [se_bind ?m _ ?s] =>
      rewrite (se_bind_err _ _ _ _ _ H)
  end.

(** A decidable proposition about concrete data, by evaluation. *)
Ltac decide_by_eval := apply (bool_decide_unpack _); vm_compute; exact I.

(** ** Rows: the SQL [DELETE ... WHERE] filter *)

Definition keep_unless {A} (p : A -> bool) (l : list A) : list A :=
  List.filter (fun x => negb (p x)) l.

Lemma keep_unless_none {A} (p : A -> bool) (l : list A) :
  Forall (fun x => p x = false) l -> keep_unless p l = l.
Proof.
  unfold keep_unless. induction 1 as [|x l Hx _ IH]; [done|].
  simpl. by rewrite Hx, IH.
Qed.

Lemma keep_unless_spec {A} (p : A -> bool) (l : list A) x :
  In x (keep_unless p l) <-> In x l /\ p x = false.
Proof. unfold keep_unless. rewrite filter_In, negb_true_iff. tauto. Qed.

Lemma keep_unless_app {A} (p : A -> bool) (l1 l2 : list A) :
  keep_unless p (l1 ++ l2) = keep_unless p l1 ++ keep_unless p l2.
Proof. apply List.filter_app. Qed.

(** ** Ceiling division on non-negative integers

    JavaScript's [Math.ceil(d / q)] for a non-negative integer [d] and a
    positive integer [q]. *)

Definition ceil_div (d q : Z) : Z := (d + q - 1) / q.

Lemma ceil_div_bounds d q :
  (0 < q)%Z -> (0 <= d)%Z ->
  (q * (ceil_div d q - 1) < d <= q * ceil_div d q)%Z.
Proof.
  intros Hq Hd. unfold ceil_div.
  pose proof (Z.div_mod (d + q - 1) q ltac:(lia)) as Hdm.
  pose proof (Z.mod_pos_bound (d + q - 1) q Hq). lia.
Qed.

Lemma ceil_div_pos d q : (0 < q)%Z -> (0 < d)%Z -> (0 < ceil_div d q)%Z.
Proof. intros Hq Hd. pose proof (ceil_div_bounds d q Hq). lia. Qed.

Lemma ceil_div_zero q : (0 < q)%Z -> ceil_div 0 q = 0%Z.
Proof. intros Hq. unfold ceil_div. apply Z.div_small. lia. Qed.

Lemma ceil_div_mono d1 d2 q :
  (0 < q)%Z -> (d1 <= d2)%Z -> (ceil_div d1 q <= ceil_div d2 q)%Z.
Proof. intros Hq Hd. unfold ceil_div. apply Z.div_le_mono; lia. Qed.

Create HintDb vps discriminated.
#[export] Hint Resolve ceil_div_pos ceil_div_mono : vps.
Create Rewrite HintDb vps_rw.
#[export] Hint Rewrite @se_bind_ret_l @keep_unless_app : vps_rw.

(** [o] or, when it is [None], the JavaScript exception [e]. *)
Definition se_of_option {S E A} (e : E) (o : option A) : SE S E A :=
  fun s => match o with Some a => (Ok a, s) | None => (Err e, s) end.

(** ** JavaScript objects with string keys

    An object is the list of its entries in insertion order.
    [obj_set k v o] is [o[k] = v]: an existing key keeps its position and
    takes the new value, a new key is appended. *)

Fixpoint obj_set {V} (k : string) (v : V) (o : list (string * V)) : list (string * V) :=
  match o with
  | [] => [(k, v)]
  | (k', v') :: o' => if String.eqb k k' then (k, v) :: o' else (k', v') :: obj_set k v o'
  end.

Fixpoint obj_get {V} (k : string) (o : list (string * V)) : option V :=
  match o with
  | [] => None
  | (k', v') :: o' => if String.eqb k k' then Some v' else obj_get k o'
  end.

(** ** Decimal digits *)

(** The value of a decimal digit character. *)
Definition digit_val (c : ascii) : option Z :=
  let n := nat_of_ascii c in
  if Nat.leb 48 n && Nat.leb n 57 then Some (Z.of_nat (n - 48)) else None.

Fixpoint digits_acc (s : string) (acc : Z) : option Z :=
  match s with
  | EmptyString => Some acc
  | String c s' =>
      match digit_val c with
      | Some k => digits_acc s' (10 * acc + k)%Z
      | None => None
      end
  end.

Definition digit_char (k : Z) : ascii := ascii_of_nat (48 + Z.to_nat k).

(** The last [w] decimal digits of [0 <= n], zeros in front: the
    [padStart(w, '0')] of the date and time formatters. *)
Fixpoint fixed_decimal (w : nat) (n : Z) : string :=
  match w with
  | O => EmptyString
  | S w' => fixed_decimal w' (n / 10)%Z ++ String (digit_char (n mod 10)%Z) EmptyString
  end.

(** [String(n)] of a natural number; [fuel] counts the digits left. *)
Fixpoint nat_decimal_aux (fuel n : nat) (acc : string) : string :=
  match fuel with
  | O => acc
  | S fuel' =>
      let acc' := String (digit_char (Z.of_nat (n mod 10))) acc in
      if Nat.ltb n 10 then acc' else nat_decimal_aux fuel' (n / 10) acc'
  end.

Definition nat_decimal (n : nat) : string := nat_decimal_aux (S n) n EmptyString.

(** [String(z)] of an integer. *)
Definition z_decimal (z : Z) : string :=
  if Z.ltb z 0 then ("-" ++ nat_decimal (Z.to_nat (- z)))%string else nat_decimal (Z.to_nat z).

Lemma obj_get_set_eq {V} k (v : V) o : obj_get k (obj_set k v o) = Some v.
Proof.
  induction o as [|[k' v'] o IH]; simpl.
  - by rewrite String.eqb_refl.
  - destruct (String.eqb k k') eqn:E; simpl; [by rewrite String.eqb_refl|].
    by rewrite E.
Qed.

(** [s.includes(c)]. *)
Fixpoint has_char (c : ascii) (s : string) : bool :=
  match s with
  | EmptyString => false
  | String x s' => Ascii.eqb x c || has_char c s'
  end.

(** [toLowerCase] on ASCII. *)
Definition ascii_lower (c : ascii) : ascii :=
  let n := nat_of_ascii c in
  if Nat.leb 65 n && Nat.leb n 90 then ascii_of_nat (n + 32) else c.

Fixpoint js_lower (s : string) : string :=
  match s with EmptyString => EmptyString | String c s' => String (ascii_lower c) (js_lower s') end.

Lemma digits_acc_app s t k :
  digits_acc (s ++ t) k = match digits_acc s k with Some k' => digits_acc t k' | None => None end.
Proof.
  revert k. induction s as [|c s IH]; intros k; simpl; [done|].
  destruct (digit_val c); [apply IH|done].
Qed.

Lemma digit_val_char k : (0 <= k < 10)%Z -> digit_val (digit_char k) = Some k.
Proof.
  intros Hk.
  assert (k = 0 \/ k = 1 \/ k = 2 \/ k = 3 \/ k = 4 \/ k = 5 \/ k = 6 \/ k = 7 \/ k = 8 \/ k = 9)%Z
    as Hc by lia.
  repeat destruct Hc as [->|Hc]; try reflexivity. subst. reflexivity.
Qed.

Lemma string_app_assoc s t u : ((s ++ t) ++ u = s ++ (t ++ u))%string.
Proof. induction s as [|c s IH]; [reflexivity | exact (f_equal (String c) IH)]. Qed.

Lemma nat_decimal_aux_app f n acc :
  nat_decimal_aux f n acc = (nat_decimal_aux f n EmptyString ++ acc)%string.
Proof.
  revert n acc. induction f as [|f IH]; intros n acc; simpl; [done|].
  destruct (Nat.ltb n 10); [done|].
  rewrite IH, (IH (n / 10) (String _ EmptyString)), string_app_assoc. reflexivity.
Qed.

Lemma nat_decimal_aux_val f n :
  n < f -> digits_acc (nat_decimal_aux f n EmptyString) 0 = Some (Z.of_nat n).
Proof.
  revert n. induction f as [|f IH]; intros n Hn; [lia|]. cbn [nat_decimal_aux].
  pose proof (Nat.mod_upper_bound n 10 ltac:(lia)) as Hm.
  assert (Hd : digit_val (digit_char (Z.of_nat (n mod 10))) = Some (Z.of_nat (n mod 10)))
    by (apply digit_val_char; lia).
  destruct (Nat.ltb_spec n 10) as [Hlt|Hge].
  - cbn [digits_acc]. by rewrite Hd, Nat.mod_small.
  - rewrite nat_decimal_aux_app, digits_acc_app, IH by (pose proof (Nat.div_lt n 10); lia).
    cbn [digits_acc]. rewrite Hd. f_equal.
    pose proof (Nat.div_mod n 10 ltac:(lia)) as Hdm.
    rewrite Hdm at 3. lia.
Qed.

(** [String(n)] read back as a decimal number is [n]. *)
Lemma nat_decimal_val n : digits_acc (nat_decimal n) 0 = Some (Z.of_nat n).
Proof. apply nat_decimal_aux_val. lia. Qed.

Lemma nat_decimal_inj m n : nat_decimal m = nat_decimal n -> m = n.
Proof.
  intros H. pose proof (nat_decimal_val m) as Hm. rewrite H, nat_decimal_val in Hm.
  injection Hm. lia.
Qed.

Lemma digits_acc_no_char s k v c :
  digits_acc s k = Some v -> digit_val c = None -> has_char c s = false.
Proof.
  revert k. induction s as [|x s IH]; intros k Hs Hc; simpl; [done|]. simpl in Hs.
  destruct (digit_val x) eqn:Hx; [|discriminate].
  destruct (Ascii.eqb_spec x c) as [->|]; [congruence|]. simpl. by apply (IH _ Hs).
Qed.

(** Two strings split at the first occurrence of a separator neither
    prefix holds. *)
Lemma app_sep_inj c s1 s2 t1 t2 :
  has_char c s1 = false -> has_char c s2 = false ->
  (s1 ++ String c t1)%string = (s2 ++ String c t2)%string -> s1 = s2 /\ t1 = t2.
Proof.
  revert s2. induction s1 as [|x s1 IH]; intros s2 H1 H2 H; destruct s2 as [|y s2]; simpl in *.
  - by injection H.
  - injection H as -> _. by rewrite Ascii.eqb_refl in H2.
  - injection H as -> _. by rewrite Ascii.eqb_refl in H1.
  - injection H as -> H. apply orb_false_iff in H1 as [_ H1]. apply orb_false_iff in H2 as [_ H2].
    destruct (IH s2 H1 H2 H) as [-> ->]. done.
Qed.

Lemma obj_set_keys {V} k (v : V) o :
  In k (map fst o) -> map fst (obj_set k v o) = map fst o.
Proof.
  induction o as [|[k' v'] o IH]; simpl; [done|]. intros Hin.
  destruct (String.eqb_spec k k') as [->|Hne]; simpl; [done|].
  f_equal. apply IH. destruct Hin; [congruence|done].
Qed.

Lemma obj_set_fresh {V} k (v : V) o :
  ~ In k (map fst o) -> obj_set k v o = o ++ [(k, v)].
Proof.
  induction o as [|[k' v'] o IH]; simpl; [done|]. intros Hk.
  destruct (String.eqb_spec k k') as [->|_]; [tauto|]. rewrite IH; tauto.
Qed.

(** Setting fresh keys one after the other appends them. *)
Lemma fold_obj_set_fresh {V} (l acc : list (string * V)) :
  List.NoDup (map fst (acc ++ l)) ->
  fold_left (fun acc '(k, v) => obj_set k v acc) l acc = acc ++ l.
Proof.
  revert acc. induction l as [|[k v] l IH]; intros acc Hnd; simpl; [by rewrite app_nil_r|].
  rewrite obj_set_fresh.
  - rewrite IH; [by rewrite <- app_assoc|]. by rewrite <- app_assoc.
  - rewrite map_app in Hnd. simpl in Hnd. apply List.NoDup_remove_2 in Hnd.
    rewrite in_app_iff in Hnd. tauto.
Qed.

Lemma obj_get_set_ne {V} k k2 (v : V) o :
  k <> k2 -> obj_get k2 (obj_set k v o) = obj_get k2 o.
Proof.
  intros Hne. induction o as [|[k' v'] o IH]; simpl.
  - apply String.eqb_neq in Hne. rewrite String.eqb_sym. by rewrite Hne.
  - destruct (String.eqb k k') eqn:E; simpl.
    + apply String.eqb_eq in E as ->.
      apply String.eqb_neq in Hne. rewrite String.eqb_sym in Hne. by rewrite Hne.
    + by rewrite IH.
Qed.

Lemma Forall_weaken {A} (P Q : A -> Prop) (l : list A) :
  Forall P l -> (forall x, P x -> Q x) -> Forall Q l.
Proof. intros H HPQ. induction H; constructor; auto. Qed.

Lemma map_keep_unless {A B} (f : A -> B) (p : B -> bool) (l : list A) :
  map f (keep_unless (fun x => p (f x)) l) = keep_unless p (map f l).
Proof.
  induction l as [|x l IH]; [done|]. simpl.
  destruct (p (f x)); simpl; by rewrite IH.
Qed.

Lemma keep_unless_Forall {A} (P : A -> Prop) (p : A -> bool) (l : list A) :
  Forall P l -> Forall P (keep_unless p l).
Proof.
  induction 1 as [|x l Hx _ IH]; [constructor|]. simpl.
  destruct (p x); simpl; [done|]. by constructor.
Qed.

Lemma keep_unless_NoDup {A} (p : A -> bool) (l : list A) :
  List.NoDup l -> List.NoDup (keep_unless p l).
Proof. apply List.NoDup_filter. Qed.

(** Remove the first occurrence of [x]. *)
Fixpoint remove_one {A} `{EqDecision A} (x : A) (l : list A) : list A :=
  match l with
  | [] => []
  | y :: l' => if decide (x = y) then l' else y :: remove_one x l'
  end.

Lemma Forall_remove_one {A} `{EqDecision A} (P : A -> Prop) x l :
  Forall P l -> Forall P (remove_one x l).
Proof.
  induction 1 as [|y l Hy Hl IH]; simpl; [constructor|].
  destruct (decide (x = y)); [done|]. by constructor.
Qed.

(** ** Sublists: what a [DELETE] leaves of a table *)

Lemma sublist_map_keep_unless {A B} (g : A -> B) (p : A -> bool) (l : list A) :
  map g (keep_unless p l) `sublist_of` map g l.
Proof.
  induction l as [|x l IH]; simpl; [done|].
  destruct (p x); simpl; [by apply sublist_cons | by apply sublist_skip].
Qed.

Lemma Forall_sublist_of {A} (P : A -> Prop) (l1 l2 : list A) :
  l1 `sublist_of` l2 -> Forall P l2 -> Forall P l1.
Proof.
  induction 1 as [|x l1 l2 _ IH|x l1 l2 _ IH]; intros H; [done| |].
  - inversion H; subst. constructor; auto.
  - inversion H; subst. auto.
Qed.

Lemma List_NoDup_sublist {A} (l1 l2 : list A) :
  l1 `sublist_of` l2 -> List.NoDup l2 -> List.NoDup l1.
Proof. intros Hs H. apply NoDup_ListNoDup. apply NoDup_ListNoDup in H. by eapply sublist_NoDup. Qed.

(** Two members of a list with the same image under a map without
    duplicates are equal. *)
Lemma NoDup_map_eq {A B} (f : A -> B) l x y :
  List.NoDup (map f l) -> In x l -> In y l -> f x = f y -> x = y.
Proof.
  induction l as [|a l IH]; [done|]. simpl. intros Hnd Hx Hy Hf.
  inversion Hnd as [|? ? Hn Hnd']; subst.
  destruct Hx as [<-|Hx], Hy as [<-|Hy]; auto; exfalso; apply Hn;
    [rewrite Hf | rewrite <- Hf]; by apply in_map.
Qed.

(** [find] finds nothing when no member passes the test. *)
Lemma find_none_intro {A} (f : A -> bool) l :
  (forall x, In x l -> f x = false) -> List.find f l = None.
Proof.
  induction l as [|a l IH]; intros H; [done|]. simpl.
  rewrite (H a (or_introl eq_refl)). apply IH. intros x Hx. apply H. by right.
Qed.
