(* ===== verification/Dates.v ===== *)
(** * Dates: calendar days, JavaScript's [toISOString] and MySQL's [DATE]

    The program moves dates between three forms: the [DATE] columns of
    MySQL ([vehicles.in_date], [checkouts.checkout_date]), JavaScript
    [Date] values (milliseconds since 1970-01-01T00:00Z), and the
    strings ["YYYY-MM-DD"] of date inputs and of
    [new Date(...).toISOString().split('T')[0]] (Checkout.jsx 103,
    VehicleEntryForm/VehicleEntryForm.jsx 159, VehicleList.jsx 866 and
    916).  A date is a day number, 0 being 1970-01-01.

    [civil_from_days] and [days_from_civil] are the proleptic Gregorian
    conversions; [iso_date] is the date part of [toISOString];
    [parse_iso_date] is the conversion MySQL applies to a string bound to
    a [DATE] column in strict mode, for the ten-character form the date
    inputs and [toISOString] produce (MySQL's other accepted spellings
    are never produced by the program and are refused here).

    mysql2 turns a [DATE] value into the [Date] of midnight in the
    server's time zone, [local_midnight_ms]; the time zone is an offset
    in minutes east of UTC.  [res.json] writes a [Date] as its
    [toISOString] ([iso_string]); a time of day is written
    ["HH:MM:SS"] ([clock_text]). *)

From stdpp Require Import base list strings decidable.
From Stdlib Require Import ZArith Lia Ascii.
From S2P Require Import Prelude.

Local Open Scope Z_scope.

Definition day_ms : Z := 86400000.

(** ** Calendar conversions *)

Definition days_from_civil (y m d : Z) : Z :=
  let y' := if m <=? 2 then y - 1 else y in
  let era := y' / 400 in
  let yoe := y' - era * 400 in
  let doy := (153 * (if m >? 2 then m - 3 else m + 9) + 2) / 5 + d - 1 in
  let doe := yoe * 365 + yoe / 4 - yoe / 100 + doy in
  era * 146097 + doe - 719468.

Definition civil_from_days (z : Z) : Z * Z * Z :=
  let z' := z + 719468 in
  let era := z' / 146097 in
  let doe := z' - era * 146097 in
  let yoe := (doe - doe / 1460 + doe / 36524 - doe / 146096) / 365 in
  let doy := doe - (365 * yoe + yoe / 4 - yoe / 100) in
  let mp := (5 * doy + 2) / 153 in
  let d := doy - (153 * mp + 2) / 5 + 1 in
  let m := if mp <? 10 then mp + 3 else mp - 9 in
  (if m <=? 2 then yoe + era * 400 + 1 else yoe + era * 400, m, d).

Definition is_leap (y : Z) : bool :=
  (y mod 4 =? 0) && (negb (y mod 100 =? 0) || (y mod 400 =? 0)).

Definition days_in_month (y m : Z) : Z :=
  if m =? 2 then (if is_leap y then 29 else 28)
  else if (m =? 4) || (m =? 6) || (m =? 9) || (m =? 11) then 30
  else 31.

(** ** Strings *)

(** The date part of [toISOString()] (years 0 to 9999). *)
Definition iso_date (z : Z) : string :=
  let '(y, m, d) := civil_from_days z in
  fixed_decimal 4 y ++ "-" ++ fixed_decimal 2 m ++ "-" ++ fixed_decimal 2 d.

(** [new Date(ms).toISOString().split('T')[0]]. *)
Definition iso_date_of_ms (ms : Z) : string := iso_date (ms / day_ms).

(** ["HH:MM:SS"] of a time of day in seconds: [toTimeString().split(' ')[0]]
    in a UTC browser, and mysql2's string for a [TIME] value. *)
Definition clock_text (secs : Z) : string :=
  fixed_decimal 2 (secs / 3600) ++ ":" ++ fixed_decimal 2 (secs / 60 mod 60) ++ ":" ++
  fixed_decimal 2 (secs mod 60).

(** [new Date(ms).toISOString()]: ["YYYY-MM-DDTHH:mm:ss.sssZ"], which is
    also what [res.json] writes for a [Date] (its [toJSON]). *)
Definition iso_string (ms : Z) : string :=
  let t := ms mod day_ms in
  iso_date_of_ms ms ++ "T" ++ fixed_decimal 2 (t / 3600000) ++ ":" ++
  fixed_decimal 2 (t / 60000 mod 60) ++ ":" ++ fixed_decimal 2 (t / 1000 mod 60) ++ "." ++
  fixed_decimal 3 (t mod 1000) ++ "Z".

Definition is_digit (c : ascii) : bool :=
  match digit_val c with Some _ => true | None => false end.

(** A string bound to a [DATE] column: ["YYYY-MM-DD"] naming a day of
    the calendar, else the statement fails. *)
Definition parse_iso_date (s : string) : option Z :=
  match s with
  | String y1 (String y2 (String y3 (String y4 (String s1
      (String m1 (String m2 (String s2 (String d1 (String d2 EmptyString))))))))) =>
      if forallb is_digit [y1; y2; y3; y4; m1; m2; d1; d2] &&
         Ascii.eqb s1 "-" && Ascii.eqb s2 "-" then
        match digits_acc (String y1 (String y2 (String y3 (String y4 EmptyString)))) 0,
              digits_acc (String m1 (String m2 EmptyString)) 0,
              digits_acc (String d1 (String d2 EmptyString)) 0 with
        | Some y, Some m, Some d =>
            if (1 <=? m) && (m <=? 12) && (1 <=? d) && (d <=? days_in_month y m)
            then Some (days_from_civil y m d) else None
        | _, _, _ => None
        end
      else None
  | _ => None
  end.

(** The time part of [toISOString], ["THH:mm:ss.sssZ"], as milliseconds
    into the day. *)
Definition parse_iso_time (s : string) : option Z :=
  match s with
  | String t (String h1 (String h2 (String c1 (String m1 (String m2 (String c2
      (String s1 (String s2 (String dot (String f1 (String f2 (String f3
      (String z EmptyString))))))))))))) =>
      if Ascii.eqb t "T" && Ascii.eqb c1 ":" && Ascii.eqb c2 ":" && Ascii.eqb dot "." &&
         Ascii.eqb z "Z" then
        match digits_acc (String h1 (String h2 EmptyString)) 0,
              digits_acc (String m1 (String m2 EmptyString)) 0,
              digits_acc (String s1 (String s2 EmptyString)) 0,
              digits_acc (String f1 (String f2 (String f3 EmptyString))) 0 with
        | Some h, Some m, Some sec, Some ms =>
            if (h <? 24) && (m <? 60) && (sec <? 60)
            then Some (h * 3600000 + m * 60000 + sec * 1000 + ms) else None
        | _, _, _, _ => None
        end
      else None
  | _ => None
  end.

(** [new Date(s)] for the two forms the program writes, ["YYYY-MM-DD"]
    (UTC midnight) and the full [toISOString]; [None] ([NaN]) for every
    other string (JavaScript also accepts a few spellings the program
    never produces). *)
Definition js_date_of_string (s : string) : option Z :=
  match parse_iso_date (String.substring 0 10 s) with
  | None => None
  | Some z =>
      match String.substring 10 (String.length s - 10) s with
      | EmptyString => Some (z * day_ms)
      | rest => option_map (fun t => z * day_ms + t) (parse_iso_time rest)
      end
  end.

(** mysql2's [Date] for a [DATE] value: midnight in the server's zone,
    [offset_min] minutes east of UTC. *)
Definition local_midnight_ms (offset_min z : Z) : Z := z * day_ms - offset_min * 60000.

(** The days checked exhaustively: 1970-01-01 to 2169-12-31. *)
Definition checked_days : Z := 73049.

Fixpoint iso_roundtrip_check (n : nat) (z : Z) : bool :=
  match n with
  | O => true
  | S n' => bool_decide (parse_iso_date (iso_date z) = Some z) && iso_roundtrip_check n' (z + 1)
  end.

(** ** Theorems *)

Lemma iso_roundtrip_check_spec n z0 :
  iso_roundtrip_check n z0 = true ->
  forall z, z0 <= z < z0 + Z.of_nat n -> parse_iso_date (iso_date z) = Some z.
Proof.
  revert z0. induction n as [|n IH]; intros z0 Hc z Hz; [lia|].
  cbn [iso_roundtrip_check] in Hc. apply andb_true_iff in Hc as [H1 H2].
  destruct (Z.eq_dec z z0) as [->|Hne]; [by apply bool_decide_eq_true in H1|].
  apply (IH (z0 + 1) H2). lia.
Qed.

Lemma iso_roundtrip_checked : iso_roundtrip_check (Z.to_nat checked_days) 0 = true.
Proof. vm_compute. reflexivity. Qed.

Lemma checked_days_range z : 0 <= z < checked_days -> 0 <= z < 0 + Z.of_nat (Z.to_nat checked_days).
Proof. rewrite Z2Nat.id; unfold checked_days; lia. Qed.

(** The UTC date of the server-local midnight of day [z]: the day before
    in a zone east of UTC, [z] itself in a zone west of it or at UTC. *)
Theorem iso_date_of_local_midnight off z :
  -1440 < off < 1440 ->
  iso_date_of_ms (local_midnight_ms off z) = iso_date (if 0 <? off then z - 1 else z).
Proof.
  intros Hoff. unfold iso_date_of_ms, local_midnight_ms.
  replace ((z * day_ms - off * 60000) / day_ms) with (if 0 <? off then z - 1 else z);
    [reflexivity|].
  unfold day_ms. destruct (0 <? off) eqn:E; [apply Z.ltb_lt in E | apply Z.ltb_ge in E].
  - apply Z.div_unique with (86400000 - off * 60000); [left|]; lia.
  - apply Z.div_unique with (- off * 60000); [left|]; lia.
Qed.

Lemma iso_date_of_local_midnight_witness :
  iso_date_of_ms (local_midnight_ms 330 19723) = iso_date 19722 /\ iso_date 19722 = "2023-12-31".
Proof.
  split; [apply (iso_date_of_local_midnight 330 19723); lia | vm_compute; reflexivity].
Defined.
