(* ===== verification/Schema.v ===== *)
(** * Schema: the MySQL tables the server reads and writes

    The repository ships no schema file; the tables and columns below are
    the ones named by the SQL text of
    [src/src/components/vehicle-management-server/server.js].  A table is
    a list of rows in primary-key order (auto-increment ids make that the
    insertion order), which is the order a [SELECT] without [ORDER BY]
    returns on InnoDB and the order [vehicles[0]] / [result[0]] picks
    from.  Two columns rely on schema defaults the code never writes:
    [vehicles.status] (the code queries ['active'], so its default is
    taken to be ['active']) and [vehicles.created_at]. *)

From stdpp Require Import base list strings decidable.
From Stdlib Require Import ZArith Lia.
From S2P Require Import Prelude.

(** ** vehicles *)

(** The sixteen columns [POST /api/vehicles] inserts
    (server.js 546-565).  [in_date] is a SQL [DATE]; it is kept as a
    day number, which is what [DATEDIFF] and the client's [new Date]
    (midnight of that day) use. *)
Record intake := {
  agreement_no : string;
  financier_name : string;
  owner_name : string;
  address : string;
  registration_number : string;
  vehicle_type : string;
  make : string;
  model : string;
  year : string;
  engine_no : string;
  chassis_no : string;
  kms_run : string;
  in_date : Z;
  in_time : string;
  in_place : string;
  additional_details : string
}.

Record vehicle := {
  v_id : nat;
  v_data : intake;
  v_status : string;
  v_created_at : Z
}.

Definition status_active : string := "active".
Definition status_checked_out : string := "checked_out".

(** ** child tables of a vehicle *)

Record doc_row := { d_vehicle_id : nat; d_doc_type : string; d_is_available : bool }.

Record battery_row := {
  b_vehicle_id : nat; b_make : string; b_number : string; b_condition : string
}.

Record tyre_row := {
  t_vehicle_id : nat; t_position : string; t_make : string;
  t_number : string; t_condition : string
}.

Record image_row := { i_vehicle_id : nat; i_url : string; i_name : string }.

(** ** checkouts *)

(** The vehicle object the search endpoint answers with
    (server.js 740-748): the vehicle row, its first battery row or
    [null], its tyre rows and its documents as an object. *)
Record search_result := {
  sr_vehicle : vehicle;
  sr_battery : option battery_row;
  sr_tyres : list tyre_row;
  sr_documents : list (string * bool)
}.

(** The billing figures the client computes ([billingDetails] in
    Checkout.jsx 99-105). *)
Record billing := {
  days_stayed : Z;
  rate_per_day : Z;
  total_amount : Z;
  checkout_date : Z;
  checkout_time : Z
}.

(** One row of [checkouts] (server.js 770-779): the vehicle id, the
    JSON snapshot of the vehicle the client sent, the JSON billing
    details and the billing columns, all copied from the request.
    Dates are day numbers, times seconds after midnight. *)
Record checkout_row := {
  c_vehicle_id : nat;
  c_vehicle_details : search_result;
  c_billing_details : billing;
  c_checkout_date : Z;
  c_checkout_time : Z;
  c_days_stayed : Z;
  c_price_per_day : Z;
  c_total_amount : Z
}.

(** ** reference data *)

Record price_row := { p_location_id : nat; p_vehicle_type_id : nat; p_price : Z }.

Record location_row := {
  l_id : nat; l_name : string; l_address : string; l_capacity : Z
}.

Record vtype_row := { vt_id : nat; vt_name : string }.

(** ** The database *)

Record db := {
  vehicles : list vehicle;
  documents : list doc_row;
  battery_details : list battery_row;
  tyre_details : list tyre_row;
  vehicle_images : list image_row;
  checkouts : list checkout_row;
  location_vehicle_prices : list price_row;
  locations : list location_row;
  vehicle_types : list vtype_row;
  next_vehicle_id : nat;
  next_location_id : nat;
  next_vtype_id : nat
}.

Definition empty_db : db := {|
  vehicles := []; documents := []; battery_details := []; tyre_details := [];
  vehicle_images := []; checkouts := []; location_vehicle_prices := [];
  locations := []; vehicle_types := [];
  next_vehicle_id := 1; next_location_id := 1; next_vtype_id := 1
|}.

(** ** Decidable equality, so that [decide] and [bool_decide] compute *)

#[export] Instance intake_eq_dec : EqDecision intake.
Proof. solve_decision. Defined.
#[export] Instance vehicle_eq_dec : EqDecision vehicle.
Proof. solve_decision. Defined.
#[export] Instance doc_row_eq_dec : EqDecision doc_row.
Proof. solve_decision. Defined.
#[export] Instance battery_row_eq_dec : EqDecision battery_row.
Proof. solve_decision. Defined.
#[export] Instance tyre_row_eq_dec : EqDecision tyre_row.
Proof. solve_decision. Defined.
#[export] Instance image_row_eq_dec : EqDecision image_row.
Proof. solve_decision. Defined.
#[export] Instance search_result_eq_dec : EqDecision search_result.
Proof. solve_decision. Defined.
#[export] Instance billing_eq_dec : EqDecision billing.
Proof. solve_decision. Defined.
#[export] Instance checkout_row_eq_dec : EqDecision checkout_row.
Proof. solve_decision. Defined.
#[export] Instance price_row_eq_dec : EqDecision price_row.
Proof. solve_decision. Defined.
#[export] Instance location_row_eq_dec : EqDecision location_row.
Proof. solve_decision. Defined.
#[export] Instance vtype_row_eq_dec : EqDecision vtype_row.
Proof. solve_decision. Defined.
#[export] Instance db_eq_dec : EqDecision db.
Proof. solve_decision. Defined.

(** ** Row selectors used by the [WHERE] clauses *)

Definition find_vehicle (d : db) (vid : nat) : option vehicle :=
  List.find (fun v => Nat.eqb (v_id v) vid) (vehicles d).

Definition has_checkout (d : db) (vid : nat) : bool :=
  existsb (fun c => Nat.eqb (c_vehicle_id c) vid) (checkouts d).

Definition checkouts_of (d : db) (vid : nat) : list checkout_row :=
  List.filter (fun c => Nat.eqb (c_vehicle_id c) vid) (checkouts d).

Definition docs_of (d : db) (vid : nat) : list doc_row :=
  List.filter (fun r => Nat.eqb (d_vehicle_id r) vid) (documents d).

Definition batteries_of (d : db) (vid : nat) : list battery_row :=
  List.filter (fun r => Nat.eqb (b_vehicle_id r) vid) (battery_details d).

Definition tyres_of (d : db) (vid : nat) : list tyre_row :=
  List.filter (fun r => Nat.eqb (t_vehicle_id r) vid) (tyre_details d).

Definition images_of (d : db) (vid : nat) : list image_row :=
  List.filter (fun r => Nat.eqb (i_vehicle_id r) vid) (vehicle_images d).
