(* ===== verification/Store.v ===== *)
(** * Store: the SQL statements of server.js and their execution

    Every write the server issues is one constructor of [stmt], carrying
    the values the handler binds to the [?] placeholders.  [apply_stmt]
    gives its effect on the tables and the MySQL OK packet it answers
    with ([insertId], [affectedRows]).  Three kinds of failure exist:
    - [ParseError]: mysql2 expands [VALUES ?] with an empty array and
      [SET ?] with an empty object to SQL text the server rejects;
    - [StorageError]: anything the storage engine refuses (a constraint
      of the unpublished schema, a lost connection).  It is chosen by the
      oracle [fault], a [Context] of the section below, so every theorem
      about a handler holds for every pattern of storage failures;
    - [TypeError]: a JavaScript exception raised by the handler itself
      (e.g. [Object.entries(undefined)]) before the statement is sent.
    [transaction] is [beginTransaction] / [commit] / [rollback]:
    a failure restores the state at [beginTransaction]. *)

From stdpp Require Import base list strings decidable.
From Stdlib Require Import ZArith Lia.
From S2P Require Import Prelude Schema.

Inductive err :=
| StorageError
| ParseError
| TypeError
| NotFound
| BadRequest.

#[export] Instance err_eq_dec : EqDecision err.
Proof. solve_decision. Defined.

(** The object bound to [UPDATE vehicles SET ?] (server.js 657-659):
    the request body without [battery_details], [tyres], [documents].
    An absent key leaves its column unchanged. *)
Record vpatch := {
  vp_agreement_no : option string; vp_financier_name : option string;
  vp_owner_name : option string; vp_address : option string;
  vp_registration_number : option string; vp_vehicle_type : option string;
  vp_make : option string; vp_model : option string; vp_year : option string;
  vp_engine_no : option string; vp_chassis_no : option string;
  vp_kms_run : option string; vp_in_date : option Z;
  vp_in_time : option string; vp_in_place : option string;
  vp_additional_details : option string; vp_status : option string
}.

Definition vpatch_empty (p : vpatch) : bool :=
  match p with
  | {| vp_agreement_no := None; vp_financier_name := None; vp_owner_name := None;
       vp_address := None; vp_registration_number := None; vp_vehicle_type := None;
       vp_make := None; vp_model := None; vp_year := None; vp_engine_no := None;
       vp_chassis_no := None; vp_kms_run := None; vp_in_date := None;
       vp_in_time := None; vp_in_place := None; vp_additional_details := None;
       vp_status := None |} => true
  | _ => false
  end.

Definition patch_intake (p : vpatch) (i : intake) : intake := {|
  agreement_no := default (agreement_no i) (vp_agreement_no p);
  financier_name := default (financier_name i) (vp_financier_name p);
  owner_name := default (owner_name i) (vp_owner_name p);
  address := default (address i) (vp_address p);
  registration_number := default (registration_number i) (vp_registration_number p);
  vehicle_type := default (vehicle_type i) (vp_vehicle_type p);
  make := default (make i) (vp_make p);
  model := default (model i) (vp_model p);
  year := default (year i) (vp_year p);
  engine_no := default (engine_no i) (vp_engine_no p);
  chassis_no := default (chassis_no i) (vp_chassis_no p);
  kms_run := default (kms_run i) (vp_kms_run p);
  in_date := default (in_date i) (vp_in_date p);
  in_time := default (in_time i) (vp_in_time p);
  in_place := default (in_place i) (vp_in_place p);
  additional_details := default (additional_details i) (vp_additional_details p)
|}.

Definition patch_vehicle (p : vpatch) (v : vehicle) : vehicle := {|
  v_id := v_id v; v_data := patch_intake p (v_data v);
  v_status := default (v_status v) (vp_status p); v_created_at := v_created_at v
|}.

(** The object bound to [UPDATE battery_details SET ?] (server.js 662-663);
    [None] is an absent [battery_details] key. *)
Record bpatch := {
  bp_make : option string; bp_number : option string; bp_condition : option string
}.

Definition bpatch_empty (p : option bpatch) : bool :=
  match p with
  | None | Some {| bp_make := None; bp_number := None; bp_condition := None |} => true
  | _ => false
  end.

Definition patch_battery (p : bpatch) (b : battery_row) : battery_row := {|
  b_vehicle_id := b_vehicle_id b;
  b_make := default (b_make b) (bp_make p);
  b_number := default (b_number b) (bp_number p);
  b_condition := default (b_condition b) (bp_condition p)
|}.

Inductive stmt :=
| InsertVehicle (i : intake) (created_at : Z)
| InsertDocuments (rows : list doc_row)
| InsertBattery (r : battery_row)
| InsertTyres (rows : list tyre_row)
| InsertImages (rows : list image_row)
| DeleteDocuments (vid : nat)
| DeleteBattery (vid : nat)
| DeleteTyres (vid : nat)
| DeleteImages (vid : nat)
| DeleteVehicle (vid : nat)
| UpdateVehicle (p : vpatch) (vid : nat)
| UpdateBattery (p : option bpatch) (vid : nat)
| InsertCheckout (r : checkout_row)
| MarkCheckedOut (vid : nat)
| DeleteAllPrices
| InsertPrices (rows : list price_row)
| InsertLocation (name address : string) (capacity : Z)
| UpdateLocation (id : nat) (name address : string) (capacity : Z)
| DeleteLocation (id : nat)
| DeleteLocationPrices (id : nat)
| DeleteVehiclesAt (name : string)
| InsertVehicleType (name : string)
| DeleteVehicleType (id : nat)
| DeleteTypePrices (id : nat)
| DeleteImagesOf (vids : list nat)
| DeleteTyresOf (vids : list nat)
| DeleteBatteriesOf (vids : list nat)
| DeleteDocumentsOf (vids : list nat)
| DeleteVehiclesOfType (name : string).

Record ok_packet := { insert_id : nat; affected_rows : nat }.

(** ** Table updates *)

Definition set_vehicles (l : list vehicle) (n : nat) (d : db) : db := {|
  vehicles := l; documents := documents d; battery_details := battery_details d;
  tyre_details := tyre_details d; vehicle_images := vehicle_images d;
  checkouts := checkouts d; location_vehicle_prices := location_vehicle_prices d;
  locations := locations d; vehicle_types := vehicle_types d;
  next_vehicle_id := n; next_location_id := next_location_id d;
  next_vtype_id := next_vtype_id d |}.

Definition set_documents (l : list doc_row) (d : db) : db := {|
  vehicles := vehicles d; documents := l; battery_details := battery_details d;
  tyre_details := tyre_details d; vehicle_images := vehicle_images d;
  checkouts := checkouts d; location_vehicle_prices := location_vehicle_prices d;
  locations := locations d; vehicle_types := vehicle_types d;
  next_vehicle_id := next_vehicle_id d; next_location_id := next_location_id d;
  next_vtype_id := next_vtype_id d |}.

Definition set_batteries (l : list battery_row) (d : db) : db := {|
  vehicles := vehicles d; documents := documents d; battery_details := l;
  tyre_details := tyre_details d; vehicle_images := vehicle_images d;
  checkouts := checkouts d; location_vehicle_prices := location_vehicle_prices d;
  locations := locations d; vehicle_types := vehicle_types d;
  next_vehicle_id := next_vehicle_id d; next_location_id := next_location_id d;
  next_vtype_id := next_vtype_id d |}.

Definition set_tyres (l : list tyre_row) (d : db) : db := {|
  vehicles := vehicles d; documents := documents d; battery_details := battery_details d;
  tyre_details := l; vehicle_images := vehicle_images d;
  checkouts := checkouts d; location_vehicle_prices := location_vehicle_prices d;
  locations := locations d; vehicle_types := vehicle_types d;
  next_vehicle_id := next_vehicle_id d; next_location_id := next_location_id d;
  next_vtype_id := next_vtype_id d |}.

Definition set_images (l : list image_row) (d : db) : db := {|
  vehicles := vehicles d; documents := documents d; battery_details := battery_details d;
  tyre_details := tyre_details d; vehicle_images := l;
  checkouts := checkouts d; location_vehicle_prices := location_vehicle_prices d;
  locations := locations d; vehicle_types := vehicle_types d;
  next_vehicle_id := next_vehicle_id d; next_location_id := next_location_id d;
  next_vtype_id := next_vtype_id d |}.

Definition set_checkouts (l : list checkout_row) (d : db) : db := {|
  vehicles := vehicles d; documents := documents d; battery_details := battery_details d;
  tyre_details := tyre_details d; vehicle_images := vehicle_images d;
  checkouts := l; location_vehicle_prices := location_vehicle_prices d;
  locations := locations d; vehicle_types := vehicle_types d;
  next_vehicle_id := next_vehicle_id d; next_location_id := next_location_id d;
  next_vtype_id := next_vtype_id d |}.

Definition set_prices (l : list price_row) (d : db) : db := {|
  vehicles := vehicles d; documents := documents d; battery_details := battery_details d;
  tyre_details := tyre_details d; vehicle_images := vehicle_images d;
  checkouts := checkouts d; location_vehicle_prices := l;
  locations := locations d; vehicle_types := vehicle_types d;
  next_vehicle_id := next_vehicle_id d; next_location_id := next_location_id d;
  next_vtype_id := next_vtype_id d |}.

Definition set_locations (l : list location_row) (n : nat) (d : db) : db := {|
  vehicles := vehicles d; documents := documents d; battery_details := battery_details d;
  tyre_details := tyre_details d; vehicle_images := vehicle_images d;
  checkouts := checkouts d; location_vehicle_prices := location_vehicle_prices d;
  locations := l; vehicle_types := vehicle_types d;
  next_vehicle_id := next_vehicle_id d; next_location_id := n;
  next_vtype_id := next_vtype_id d |}.

Definition set_vtypes (l : list vtype_row) (n : nat) (d : db) : db := {|
  vehicles := vehicles d; documents := documents d; battery_details := battery_details d;
  tyre_details := tyre_details d; vehicle_images := vehicle_images d;
  checkouts := checkouts d; location_vehicle_prices := location_vehicle_prices d;
  locations := locations d; vehicle_types := l;
  next_vehicle_id := next_vehicle_id d; next_location_id := next_location_id d;
  next_vtype_id := n |}.

(** [vehicle_id IN (?)]. *)
Definition in_ids (vids : list nat) (i : nat) : bool := existsb (Nat.eqb i) vids.

Definition count_where {A} (p : A -> bool) (l : list A) : nat :=
  length (List.filter p l).

Definition ok_n (n : nat) : ok_packet := {| insert_id := 0; affected_rows := n |}.

(** [INSERT ... VALUES ?] with a list of rows: an empty list is a
    parse error, otherwise the rows are appended. *)
Definition bulk_insert {A} (rows : list A) (tbl : list A) : result (list A) err :=
  match rows with
  | [] => Err ParseError
  | _ => Ok (tbl ++ rows)
  end.

Definition apply_stmt (s : stmt) (d : db) : result (ok_packet * db) err :=
  match s with
  | InsertVehicle i t =>
      let id := next_vehicle_id d in
      let row := {| v_id := id; v_data := i; v_status := status_active;
                    v_created_at := t |} in
      Ok ({| insert_id := id; affected_rows := 1 |},
          set_vehicles (vehicles d ++ [row]) (S id) d)
  | InsertDocuments rows =>
      match bulk_insert rows (documents d) with
      | Ok l => Ok (ok_n (length rows), set_documents l d)
      | Err e => Err e
      end
  | InsertBattery r =>
      Ok (ok_n 1, set_batteries (battery_details d ++ [r]) d)
  | InsertTyres rows =>
      match bulk_insert rows (tyre_details d) with
      | Ok l => Ok (ok_n (length rows), set_tyres l d)
      | Err e => Err e
      end
  | InsertImages rows =>
      match bulk_insert rows (vehicle_images d) with
      | Ok l => Ok (ok_n (length rows), set_images l d)
      | Err e => Err e
      end
  | DeleteDocuments vid =>
      let p r := Nat.eqb (d_vehicle_id r) vid in
      Ok (ok_n (count_where p (documents d)),
          set_documents (keep_unless p (documents d)) d)
  | DeleteBattery vid =>
      let p r := Nat.eqb (b_vehicle_id r) vid in
      Ok (ok_n (count_where p (battery_details d)),
          set_batteries (keep_unless p (battery_details d)) d)
  | DeleteTyres vid =>
      let p r := Nat.eqb (t_vehicle_id r) vid in
      Ok (ok_n (count_where p (tyre_details d)),
          set_tyres (keep_unless p (tyre_details d)) d)
  | DeleteImages vid =>
      let p r := Nat.eqb (i_vehicle_id r) vid in
      Ok (ok_n (count_where p (vehicle_images d)),
          set_images (keep_unless p (vehicle_images d)) d)
  | DeleteVehicle vid =>
      let p v := Nat.eqb (v_id v) vid in
      Ok (ok_n (count_where p (vehicles d)),
          set_vehicles (keep_unless p (vehicles d)) (next_vehicle_id d) d)
  | UpdateVehicle pt vid =>
      if vpatch_empty pt then Err ParseError else
      let p v := Nat.eqb (v_id v) vid in
      Ok (ok_n (count_where p (vehicles d)),
          set_vehicles (map (fun v => if p v then patch_vehicle pt v else v)
                            (vehicles d)) (next_vehicle_id d) d)
  | UpdateBattery opt vid =>
      match opt with
      | Some pt =>
          if bpatch_empty opt then Err ParseError else
          let p r := Nat.eqb (b_vehicle_id r) vid in
          Ok (ok_n (count_where p (battery_details d)),
              set_batteries (map (fun r => if p r then patch_battery pt r else r)
                                 (battery_details d)) d)
      | None => Err ParseError
      end
  | InsertCheckout r => Ok (ok_n 1, set_checkouts (checkouts d ++ [r]) d)
  | MarkCheckedOut vid =>
      let p v := Nat.eqb (v_id v) vid in
      let mark v := {| v_id := v_id v; v_data := v_data v;
                       v_status := status_checked_out;
                       v_created_at := v_created_at v |} in
      Ok (ok_n (count_where p (vehicles d)),
          set_vehicles (map (fun v => if p v then mark v else v) (vehicles d))
                       (next_vehicle_id d) d)
  | DeleteAllPrices =>
      Ok (ok_n (length (location_vehicle_prices d)), set_prices [] d)
  | InsertPrices rows =>
      match bulk_insert rows (location_vehicle_prices d) with
      | Ok l => Ok (ok_n (length rows), set_prices l d)
      | Err e => Err e
      end
  | InsertLocation nm ad cap =>
      let id := next_location_id d in
      Ok ({| insert_id := id; affected_rows := 1 |},
          set_locations (locations d ++ [{| l_id := id; l_name := nm; l_address := ad;
                                            l_capacity := cap |}]) (S id) d)
  | UpdateLocation id nm ad cap =>
      let p l := Nat.eqb (l_id l) id in
      Ok (ok_n (count_where p (locations d)),
          set_locations (map (fun l => if p l then {| l_id := l_id l; l_name := nm;
                                                      l_address := ad; l_capacity := cap |}
                                       else l) (locations d)) (next_location_id d) d)
  | DeleteLocation id =>
      let p l := Nat.eqb (l_id l) id in
      Ok (ok_n (count_where p (locations d)),
          set_locations (keep_unless p (locations d)) (next_location_id d) d)
  | DeleteLocationPrices id =>
      let p r := Nat.eqb (p_location_id r) id in
      Ok (ok_n (count_where p (location_vehicle_prices d)),
          set_prices (keep_unless p (location_vehicle_prices d)) d)
  | DeleteVehiclesAt nm =>
      let p v := String.eqb (in_place (v_data v)) nm in
      Ok (ok_n (count_where p (vehicles d)),
          set_vehicles (keep_unless p (vehicles d)) (next_vehicle_id d) d)
  | InsertVehicleType nm =>
      let id := next_vtype_id d in
      Ok ({| insert_id := id; affected_rows := 1 |},
          set_vtypes (vehicle_types d ++ [{| vt_id := id; vt_name := nm |}]) (S id) d)
  | DeleteVehicleType id =>
      let p t := Nat.eqb (vt_id t) id in
      Ok (ok_n (count_where p (vehicle_types d)),
          set_vtypes (keep_unless p (vehicle_types d)) (next_vtype_id d) d)
  | DeleteTypePrices id =>
      let p r := Nat.eqb (p_vehicle_type_id r) id in
      Ok (ok_n (count_where p (location_vehicle_prices d)),
          set_prices (keep_unless p (location_vehicle_prices d)) d)
  | DeleteImagesOf vids =>
      let p r := in_ids vids (i_vehicle_id r) in
      Ok (ok_n (count_where p (vehicle_images d)),
          set_images (keep_unless p (vehicle_images d)) d)
  | DeleteTyresOf vids =>
      let p r := in_ids vids (t_vehicle_id r) in
      Ok (ok_n (count_where p (tyre_details d)),
          set_tyres (keep_unless p (tyre_details d)) d)
  | DeleteBatteriesOf vids =>
      let p r := in_ids vids (b_vehicle_id r) in
      Ok (ok_n (count_where p (battery_details d)),
          set_batteries (keep_unless p (battery_details d)) d)
  | DeleteDocumentsOf vids =>
      let p r := in_ids vids (d_vehicle_id r) in
      Ok (ok_n (count_where p (documents d)),
          set_documents (keep_unless p (documents d)) d)
  | DeleteVehiclesOfType nm =>
      let p v := String.eqb (vehicle_type (v_data v)) nm in
      Ok (ok_n (count_where p (vehicles d)),
          set_vehicles (keep_unless p (vehicles d)) (next_vehicle_id d) d)
  end.

(** ** Execution against a store that may fail *)

(** A handler is a computation in [SE db err]. *)
Abbreviation handler := (SE db err).

Section Exec.
(** [fault s d] holds when the storage engine refuses [s] in state [d]. *)
Context (fault : stmt -> db -> bool).

(** [await connection.query(sql, params)] for a write. *)
Definition exec (s : stmt) : handler ok_packet :=
  fun d =>
    if fault s d then (Err StorageError, d) else
    match apply_stmt s d with
    | Ok (pk, d') => (Ok pk, d')
    | Err e => (Err e, d)
    end.

(** [beginTransaction]; body; [commit], with [rollback] in the
    [catch] block. *)
Definition transaction {A} (body : handler A) : handler A :=
  fun d =>
    match body d with
    | (Ok a, d') => (Ok a, d')
    | (Err e, _) => (Err e, d)
    end.
End Exec.

(** The store without storage failures, used by the witnesses. *)
Definition no_fault : stmt -> db -> bool := fun _ _ => false.

(** ** Frame conditions

    A [frame] is a preorder on database states, such as "the checkouts
    table is unchanged".  [preserves F m]: every run of [m], successful
    or not, relates its initial and final states by [F]. *)
Record frame := {
  fr_rel :> db -> db -> Prop;
  fr_refl : forall d, fr_rel d d;
  fr_trans : forall d1 d2 d3, fr_rel d1 d2 -> fr_rel d2 d3 -> fr_rel d1 d3
}.

Definition preserves {A} (F : frame) (m : handler A) : Prop :=
  forall d r d', m d = (r, d') -> F d d'.

(** [F] holds across every successful statement satisfying [P]. *)
Definition stmt_preserves (F : frame) (P : stmt -> Prop) : Prop :=
  forall s d pk d', P s -> apply_stmt s d = Ok (pk, d') -> F d d'.

(** The frame "the checkouts table is unchanged". *)
Definition same_checkouts : frame := {|
  fr_rel := fun d d' => checkouts d' = checkouts d;
  fr_refl := fun d => eq_refl;
  fr_trans := fun d1 d2 d3 H1 H2 => eq_trans H2 H1
|}.

(** ** Execution lemmas *)

Section ExecLemmas.
Context (fault : stmt -> db -> bool).

Lemma exec_fault s d :
  fault s d = true -> exec fault s d = (Err StorageError, d).
Proof. intros H. unfold exec. by rewrite H. Qed.

Lemma exec_ok s d pk d' :
  fault s d = false -> apply_stmt s d = Ok (pk, d') ->
  exec fault s d = (Ok pk, d').
Proof. intros H1 H2. unfold exec. by rewrite H1, H2. Qed.

(** A failed statement writes nothing. *)
Lemma exec_err_state s d e d' :
  exec fault s d = (Err e, d') -> d' = d.
Proof.
  unfold exec. destruct (fault s d); [congruence|].
  destruct (apply_stmt s d) as [[? ?]|?]; congruence.
Qed.

Lemma exec_no_fault_iff s d pk d' :
  exec no_fault s d = (Ok pk, d') <-> apply_stmt s d = Ok (pk, d').
Proof.
  unfold exec, no_fault. simpl.
  destruct (apply_stmt s d) as [[? ?]|?]; split; congruence.
Qed.

(** Atomicity of [transaction]: on failure the state is the one at
    [beginTransaction]. *)
Lemma transaction_rollback {A} (body : handler A) d e d' :
  body d = (Err e, d') -> transaction body d = (Err e, d).
Proof. intros H. unfold transaction. by rewrite H. Qed.

Lemma transaction_commit {A} (body : handler A) d a d' :
  body d = (Ok a, d') -> transaction body d = (Ok a, d').
Proof. intros H. unfold transaction. by rewrite H. Qed.

Lemma transaction_err_state {A} (body : handler A) d e d' :
  transaction body d = (Err e, d') -> d' = d.
Proof.
  unfold transaction. destruct (body d) as [[a|e'] d'']; congruence.
Qed.
End ExecLemmas.

#[export] Hint Resolve exec_err_state transaction_err_state : vps.

Section Preserves.
Context (F : frame).

Lemma preserves_ret {A} (a : A) : preserves F (se_ret a).
Proof. intros d r d' H. injection H as _ <-. apply fr_refl. Qed.

Lemma preserves_throw {A} e : preserves F (se_throw (A:=A) e).
Proof. intros d r d' H. injection H as _ <-. apply fr_refl. Qed.

Lemma preserves_get : preserves F se_get.
Proof. intros d r d' H. injection H as _ <-. apply fr_refl. Qed.

Lemma preserves_of_option {A} e (o : option A) : preserves F (se_of_option e o).
Proof.
  intros d r d' H. unfold se_of_option in H.
  destruct o; injection H as _ <-; apply fr_refl.
Qed.

Lemma preserves_bind {A B} (m : handler A) (k : A -> handler B) :
  preserves F m -> (forall a, preserves F (k a)) -> preserves F (se_bind m k).
Proof.
  intros Hm Hk d r d' H. unfold se_bind in H.
  destruct (m d) as [[a|e] d1] eqn:E.
  - eapply fr_trans; [by eapply Hm | by eapply Hk].
  - injection H as _ <-. by eapply Hm.
Qed.

Lemma preserves_exec fault (P : stmt -> Prop) s :
  stmt_preserves F P -> P s -> preserves F (exec fault s).
Proof.
  intros HP Hs d r d' H. unfold exec in H.
  destruct (fault s d); [injection H as _ <-; apply fr_refl|].
  destruct (apply_stmt s d) as [[pk d1]|e] eqn:E.
  - injection H as _ <-. by eapply HP.
  - injection H as _ <-. apply fr_refl.
Qed.

Lemma preserves_transaction {A} (m : handler A) :
  preserves F m -> preserves F (transaction m).
Proof.
  intros Hm d r d' H. unfold transaction in H.
  destruct (m d) as [[a|e] d1] eqn:E.
  - injection H as _ <-. by eapply Hm.
  - injection H as _ <-. apply fr_refl.
Qed.
End Preserves.

(** [preserves_tac] decomposes a handler into its statements. *)
Ltac preserves_tac :=
  repeat match goal with
  | |- preserves _ (transaction _) => apply preserves_transaction
  | |- preserves _ (se_bind _ _) => apply preserves_bind; [|intros ?]
  | |- preserves _ (se_ret _) => apply preserves_ret
  | |- preserves _ (se_throw _) => apply preserves_throw
  | |- preserves _ (se_of_option _ _) => apply preserves_of_option
  | |- preserves _ se_get => apply preserves_get
  | |- preserves _ (se_when _ _) => unfold se_when
  | |- preserves _ (match ?x with _ => _ end) => destruct x
  | |- preserves _ (if ?b then _ else _) => destruct b
  end.

(** Only [InsertCheckout] writes the [checkouts] table. *)
Lemma checkouts_frame :
  stmt_preserves same_checkouts
                 (fun s => forall r, s <> InsertCheckout r).
Proof.
  intros s d pk d' Hs H. simpl.
  destruct s; simpl in H; repeat case_match; simplify_eq; try done.
  by destruct (Hs r).
Qed.
