(* ===== verification/VehicleStore.v ===== *)
(** * VehicleStore: the vehicle-record handlers of server.js

    [post_vehicles]   POST   /api/vehicles          (server.js 541-621)
    [delete_vehicle]  DELETE /api/vehicles/:id      (server.js 623-646)
    [put_vehicle]     PUT    /api/vehicles/:id      (server.js 649-703)
    [search_by_plate] GET    /api/vehicles/search/:regNo (server.js 708-758)
    [post_images]     POST   /api/vehicles/:id/images    (server.js 824-852)

    Each handler is a computation of [SE db err] over the statements of
    [Store]; the storage-failure oracle [fault] is a section variable, so
    each handler takes it as its first argument. *)

From stdpp Require Import base list strings decidable.
From Stdlib Require Import ZArith Lia.
From S2P Require Import Prelude Schema Store.

(** ** Request bodies *)

(** One element of [req.body.tyres] (server.js 588-594). *)
Record tyre_in := {
  ti_position : string; ti_make : string; ti_number : string; ti_condition : string
}.

(** The body of [POST /api/vehicles]: the sixteen vehicle columns, the
    [documents] object (its entries, [None] when the key is absent), the
    three battery fields and the [tyres] array ([None] when absent). *)
Record create_body := {
  cb_intake : intake;
  cb_documents : option (list (string * bool));
  cb_battery_make : string;
  cb_battery_number : string;
  cb_battery_condition : string;
  cb_tyres : option (list tyre_in)
}.

Definition doc_rows (vid : nat) (entries : list (string * bool)) : list doc_row :=
  map (fun '(k, v) => {| d_vehicle_id := vid; d_doc_type := k; d_is_available := v |})
      entries.

Definition tyre_rows (vid : nat) (ts : list tyre_in) : list tyre_row :=
  map (fun t => {| t_vehicle_id := vid; t_position := ti_position t;
                   t_make := ti_make t; t_number := ti_number t;
                   t_condition := ti_condition t |}) ts.

Arguments tyre_rows : simpl never.

Definition battery_of (vid : nat) (b : create_body) : battery_row :=
  {| b_vehicle_id := vid; b_make := cb_battery_make b;
     b_number := cb_battery_number b; b_condition := cb_battery_condition b |}.

(** One element of the [documents] array of PUT /api/vehicles/:id
    (server.js 683-687). *)
Record doc_in := { di_doc_type : string; di_is_available : bool }.

Definition doc_in_rows (vid : nat) (ds : list doc_in) : list doc_row :=
  map (fun x => {| d_vehicle_id := vid; d_doc_type := di_doc_type x;
                   d_is_available := di_is_available x |}) ds.

(** The body of PUT /api/vehicles/:id, split the way line 658 splits it. *)
Record put_body := {
  pb_vehicle : vpatch;
  pb_battery : option bpatch;
  pb_tyres : option (list tyre_in);
  pb_documents : option (list doc_in)
}.

Section Handlers.
Context (fault : stmt -> db -> bool).

(** POST /api/vehicles.  [Object.entries(req.body.documents)] and
    [req.body.tyres.map] throw a [TypeError] when the key is absent;
    an empty [documents] object or [tyres] array makes the bulk insert
    a parse error.  Everything runs inside one transaction. *)
Definition post_vehicles (b : create_body) (now : Z) : handler nat :=
  transaction (
    let* pk := exec fault (InsertVehicle (cb_intake b) now) in
    let vid := insert_id pk in
    let* entries := se_of_option TypeError (cb_documents b) in
    exec fault (InsertDocuments (doc_rows vid entries)) ;;
    exec fault (InsertBattery (battery_of vid b)) ;;
    let* ts := se_of_option TypeError (cb_tyres b) in
    exec fault (InsertTyres (tyre_rows vid ts)) ;;
    se_ret vid).

(** DELETE /api/vehicles/:id: the four child tables, then the vehicle,
    in one transaction.  [checkouts] is not touched. *)
Definition delete_vehicle (vid : nat) : handler unit :=
  transaction (
    exec fault (DeleteDocuments vid) ;;
    exec fault (DeleteBattery vid) ;;
    exec fault (DeleteTyres vid) ;;
    exec fault (DeleteImages vid) ;;
    exec fault (DeleteVehicle vid) ;;
    se_ret tt).

(** The [if (tyres && tyres.length)] block of PUT /api/vehicles/:id:
    delete the vehicle's tyres, then insert the new ones. *)
Definition replace_tyres (vid : nat) (ots : option (list tyre_in)) : handler unit :=
  match ots with
  | Some (t0 :: ts) =>
      exec fault (DeleteTyres vid) ;;
      exec fault (InsertTyres (tyre_rows vid (t0 :: ts))) ;;
      se_ret tt
  | _ => se_ret tt
  end.

(** The [if (documents && documents.length)] block. *)
Definition replace_documents (vid : nat) (ods : option (list doc_in)) : handler unit :=
  match ods with
  | Some (d0 :: ds) =>
      exec fault (DeleteDocuments vid) ;;
      exec fault (InsertDocuments (doc_in_rows vid (d0 :: ds))) ;;
      se_ret tt
  | _ => se_ret tt
  end.

(** PUT /api/vehicles/:id.  The [UPDATE]s report how many rows they
    matched, and the handler ignores it. *)
Definition put_vehicle (vid : nat) (b : put_body) : handler unit :=
  transaction (
    exec fault (UpdateVehicle (pb_vehicle b) vid) ;;
    exec fault (UpdateBattery (pb_battery b) vid) ;;
    replace_tyres vid (pb_tyres b) ;;
    replace_documents vid (pb_documents b) ;;
    se_ret tt).

(** POST /api/vehicles/:id/images, after multer stored the files
    ([upload.array('images', 10)]: more than ten files are refused
    before the handler runs).  No transaction: one bulk insert. *)
Definition post_images (vid : nat) (files : list (string * string))
  : handler (list string) :=
  if Nat.ltb 10 (length files) then se_throw BadRequest else
  exec fault (InsertImages (map (fun '(fname, orig) =>
                 {| i_vehicle_id := vid; i_url := "/uploads/" ++ fname;
                    i_name := orig |}) files)) ;;
  se_ret (map fst files).
End Handlers.

(** ** The effect of a successful intake *)

(** The state [post_vehicles] commits: the vehicle row, the documents,
    the battery and the tyres appended, the id counter advanced. *)
Definition intake_effect (b : create_body) (now : Z)
           (entries : list (string * bool)) (ts : list tyre_in) (d : db) : db :=
  let vid := next_vehicle_id d in
  {| vehicles := vehicles d ++ [{| v_id := vid; v_data := cb_intake b;
                                   v_status := status_active; v_created_at := now |}];
     documents := documents d ++ doc_rows vid entries;
     battery_details := battery_details d ++ [battery_of vid b];
     tyre_details := tyre_details d ++ tyre_rows vid ts;
     vehicle_images := vehicle_images d;
     checkouts := checkouts d;
     location_vehicle_prices := location_vehicle_prices d;
     locations := locations d;
     vehicle_types := vehicle_types d;
     next_vehicle_id := S vid;
     next_location_id := next_location_id d;
     next_vtype_id := next_vtype_id d |}.

(** The state a committed [delete_vehicle] leaves. *)
Definition purge_vehicle (vid : nat) (d : db) : db :=
  let d1 := set_documents (keep_unless (fun r => Nat.eqb (d_vehicle_id r) vid) (documents d)) d in
  let d2 := set_batteries (keep_unless (fun r => Nat.eqb (b_vehicle_id r) vid) (battery_details d1)) d1 in
  let d3 := set_tyres (keep_unless (fun r => Nat.eqb (t_vehicle_id r) vid) (tyre_details d2)) d2 in
  let d4 := set_images (keep_unless (fun r => Nat.eqb (i_vehicle_id r) vid) (vehicle_images d3)) d3 in
  set_vehicles (keep_unless (fun v => Nat.eqb (v_id v) vid) (vehicles d4)) (next_vehicle_id d4) d4.

(** ** Search by registration number *)

(** The answer of GET /api/vehicles/search/:regNo is a [search_result]
    (Schema); its documents are folded into an object
    ([acc[doc.doc_type] = doc.is_available === 1], server.js 744-747). *)
Definition docs_object (rows : list doc_row) : list (string * bool) :=
  fold_left (fun acc r => obj_set (d_doc_type r) (d_is_available r) acc) rows [].

Section Search.
(** [WHERE registration_number = ?] compares under the column's
    collation, which the repository does not fix: [collate] maps a
    string to its collation key (the identity for a binary collation,
    case folding for a [_ci] one). *)
Context (collate : string -> string).

Definition plate_matches (plate : string) (v : vehicle) : bool :=
  String.eqb (collate (registration_number (v_data v))) (collate plate).

(** [vehicles[0]] of the matching rows, in primary-key order. *)
Definition search_by_plate (plate : string) (d : db) : option search_result :=
  match List.find (plate_matches plate) (vehicles d) with
  | None => None
  | Some v =>
      Some {| sr_vehicle := v;
              sr_battery := head (batteries_of d (v_id v));
              sr_tyres := tyres_of d (v_id v);
              sr_documents := docs_object (docs_of d (v_id v)) |}
  end.
End Search.

(** ** Sample requests, used by the witnesses *)

Definition sample_intake : intake := {|
  agreement_no := "AG-1"; financier_name := "Fin"; owner_name := "Owner";
  address := "Addr"; registration_number := "KA01AB1234"; vehicle_type := "Car";
  make := "Make"; model := "Model"; year := "2020"; engine_no := "E1";
  chassis_no := "C1"; kms_run := "1000"; in_date := 19723; in_time := "00:00";
  in_place := "Yard A"; additional_details := ""
|}.

Definition sample_tyre (pos : string) : tyre_in :=
  {| ti_position := pos; ti_make := "MRF"; ti_number := "T1"; ti_condition := "good" |}.

Definition sample_tyres : list tyre_in :=
  map sample_tyre ["Front Left"; "Front Right"; "Rear Left"; "Rear Right"; "Stepney"].

Definition sample_body (plate : string) (ts : list tyre_in) : create_body := {|
  cb_intake := {| agreement_no := "AG-1"; financier_name := "Fin"; owner_name := "Owner";
                  address := "Addr"; registration_number := plate; vehicle_type := "Car";
                  make := "Make"; model := "Model"; year := "2020"; engine_no := "E1";
                  chassis_no := "C1"; kms_run := "1000"; in_date := 19723;
                  in_time := "00:00"; in_place := "Yard A"; additional_details := "" |};
  cb_documents := Some [("registrationCardBook", true); ("insuranceCertificate", false)];
  cb_battery_make := "Exide"; cb_battery_number := "B1"; cb_battery_condition := "good";
  cb_tyres := Some ts
|}.

Definition full_vpatch (i : intake) : vpatch := {|
  vp_agreement_no := Some (agreement_no i); vp_financier_name := Some (financier_name i);
  vp_owner_name := Some (owner_name i); vp_address := Some (address i);
  vp_registration_number := Some (registration_number i);
  vp_vehicle_type := Some (vehicle_type i); vp_make := Some (make i);
  vp_model := Some (model i); vp_year := Some (year i); vp_engine_no := Some (engine_no i);
  vp_chassis_no := Some (chassis_no i); vp_kms_run := Some (kms_run i);
  vp_in_date := Some (in_date i); vp_in_time := Some (in_time i);
  vp_in_place := Some (in_place i); vp_additional_details := Some (additional_details i);
  vp_status := None
|}.

(** The body VehicleList.jsx's edit dialog sends (VehicleList.jsx 901-935). *)
Definition sample_put_body : put_body := {|
  pb_vehicle := full_vpatch sample_intake;
  pb_battery := Some {| bp_make := Some "Exide"; bp_number := Some "B2";
                        bp_condition := Some "average" |};
  pb_tyres := Some [sample_tyre "Front Left"];
  pb_documents := Some [{| di_doc_type := "tcBook"; di_is_available := true |}]
|}.

(** ** Theorems on the intake handler *)

(** C4: Failure of any one step leaves no row of the attempted intake. *)
Lemma post_vehicles_all_or_nothing fault b now d :
  match post_vehicles fault b now d with
  | (Ok vid, d') =>
      vid = next_vehicle_id d /\
      exists entries ts, cb_documents b = Some entries /\ cb_tyres b = Some ts /\
        entries <> [] /\ ts <> [] /\ d' = intake_effect b now entries ts d
  | (Err _, d') => d' = d
  end.
Proof.
  unfold post_vehicles, transaction, se_bind, se_of_option, se_ret, exec.
  destruct (fault _ d) eqn:F1; [done|]. simpl.
  destruct (cb_documents b) as [entries|] eqn:Hd; [|done].
  destruct (fault (InsertDocuments _) _) eqn:F2; [done|]. simpl.
  destruct entries as [|e0 entries]; [done|]. simpl.
  destruct (fault (InsertBattery _) _) eqn:F3; [done|]. simpl.
  destruct (cb_tyres b) as [ts|] eqn:Ht; [|done].
  destruct (fault (InsertTyres _) _) eqn:F4; [done|]. simpl.
  destruct ts as [|t0 ts]; [done|]. simpl.
  split; [done|]. exists (e0 :: entries), (t0 :: ts).
  do 4 (split; [done|]). reflexivity.
Qed.

(** C5: With a store that accepts every statement, an intake with a
    non-empty [documents] object and a non-empty [tyres] array is
    committed whatever the document tags and tyre positions are. *)
Lemma post_vehicles_success b now d entries ts :
  cb_documents b = Some entries -> entries <> [] ->
  cb_tyres b = Some ts -> ts <> [] ->
  post_vehicles no_fault b now d =
    (Ok (next_vehicle_id d), intake_effect b now entries ts d).
Proof.
  intros Hd Hne Ht Htne.
  unfold post_vehicles, transaction, se_bind, se_of_option, se_ret, exec, no_fault.
  simpl. rewrite Hd. destruct entries as [|e0 entries]; [done|]. simpl.
  rewrite Ht. destruct ts as [|t0 ts]; [done|]. reflexivity.
Qed.

(** One tyre, no position check: the intake is committed. *)
Lemma post_vehicles_success_witness :
  post_vehicles no_fault (sample_body "KA01AB1234" [sample_tyre "Front Left"]) 0 empty_db =
  (Ok 1, intake_effect (sample_body "KA01AB1234" [sample_tyre "Front Left"]) 0
           [("registrationCardBook", true); ("insuranceCertificate", false)]
           [sample_tyre "Front Left"] empty_db).
Proof. apply post_vehicles_success; [reflexivity | discriminate | reflexivity | discriminate]. Defined.

(** An intake whose [tyres] array is empty fails for every behaviour of
    the store and leaves the database as it was. *)
Lemma post_vehicles_empty_tyres fault b now d :
  cb_tyres b = Some [] -> exists e, post_vehicles fault b now d = (Err e, d).
Proof.
  intros Ht. pose proof (post_vehicles_all_or_nothing fault b now d) as H.
  destruct (post_vehicles fault b now d) as [[vid|e] d'] eqn:E.
  - destruct H as (_ & entries & ts & _ & Ht' & _ & Hts & _). congruence.
  - subst. by exists e.
Qed.

Lemma post_vehicles_empty_tyres_witness :
  exists e, post_vehicles no_fault (sample_body "KA01AB1234" []) 0 empty_db = (Err e, empty_db).
Proof. apply post_vehicles_empty_tyres. reflexivity. Defined.

(** ** Theorems on delete *)

Lemma delete_vehicle_all_or_nothing fault vid d :
  match delete_vehicle fault vid d with
  | (Ok _, d') => d' = purge_vehicle vid d
  | (Err _, d') => d' = d
  end.
Proof.
  unfold delete_vehicle, transaction, se_bind, se_ret, exec.
  repeat match goal with
         | |- context [fault ?s ?x] => destruct (fault s x); simpl
         end; reflexivity.
Qed.

Lemma find_keep_unless_eq vid (l : list vehicle) :
  List.find (fun v => Nat.eqb (v_id v) vid)
            (keep_unless (fun v => Nat.eqb (v_id v) vid) l) = None.
Proof.
  induction l as [|v l IH]; [done|]. simpl.
  destruct (Nat.eqb (v_id v) vid) eqn:E; simpl; [done|]. by rewrite E.
Qed.

Lemma filter_keep_unless_eq {A} (f : A -> nat) vid (l : list A) :
  List.filter (fun r => Nat.eqb (f r) vid) (keep_unless (fun r => Nat.eqb (f r) vid) l) = [].
Proof.
  induction l as [|x l IH]; [done|]. simpl.
  destruct (Nat.eqb (f x) vid) eqn:E; simpl; [done|]. by rewrite E.
Qed.

(** A committed delete removes the vehicle and its four child
    collections, and leaves every checkout row as it was. *)
Lemma delete_vehicle_removes_aggregate vid d :
  let d' := snd (delete_vehicle no_fault vid d) in
  fst (delete_vehicle no_fault vid d) = Ok tt /\
  find_vehicle d' vid = None /\ docs_of d' vid = [] /\
  batteries_of d' vid = [] /\ tyres_of d' vid = [] /\ images_of d' vid = [] /\
  checkouts d' = checkouts d.
Proof.
  pose proof (delete_vehicle_all_or_nothing no_fault vid d) as H.
  assert (Hok : fst (delete_vehicle no_fault vid d) = Ok tt) by reflexivity.
  destruct (delete_vehicle no_fault vid d) as [[[]|e] d'] eqn:E; simpl in Hok; [|done].
  subst d'. simpl. split; [done|].
  unfold find_vehicle, docs_of, batteries_of, tyres_of, images_of. simpl.
  rewrite find_keep_unless_eq, !filter_keep_unless_eq. done.
Qed.

(** ** Theorems on update *)

Lemma find_vehicle_map_patch pt vid (l : list vehicle) :
  List.find (fun v => Nat.eqb (v_id v) vid)
    (map (fun v => if Nat.eqb (v_id v) vid then patch_vehicle pt v else v) l) =
  option_map (patch_vehicle pt) (List.find (fun v => Nat.eqb (v_id v) vid) l).
Proof.
  induction l as [|v l IH]; [done|]. simpl.
  destruct (Nat.eqb (v_id v) vid) eqn:E; simpl; [by rewrite E|]. by rewrite E.
Qed.

Lemma filter_tyre_rows vid ts :
  List.filter (fun r => Nat.eqb (t_vehicle_id r) vid) (tyre_rows vid ts) = tyre_rows vid ts.
Proof. induction ts as [|t ts IH]; simpl; [done|]. by rewrite Nat.eqb_refl, IH. Qed.

(** Updating a vehicle, successful or not, never changes a checkout
    row: the frozen snapshot and the billed figures stay. *)
Lemma put_vehicle_keeps_checkouts fault vid b :
  preserves same_checkouts (put_vehicle fault vid b).
Proof.
  unfold put_vehicle, replace_tyres, replace_documents.
  preserves_tac; apply (preserves_exec _ _ _ _ checkouts_frame); done.
Qed.

Lemma delete_vehicle_keeps_checkouts fault vid :
  preserves same_checkouts (delete_vehicle fault vid).
Proof.
  unfold delete_vehicle.
  preserves_tac; apply (preserves_exec _ _ _ _ checkouts_frame); done.
Qed.

(** PUT /api/vehicles/:id with a non-empty patch, a battery object and
    a non-empty tyre array succeeds whether or not the vehicle exists:
    the vehicle row (if any) is patched and the tyre rows of [vid] are
    exactly the new ones. *)
Lemma put_vehicle_success vid b d t0 ts :
  vpatch_empty (pb_vehicle b) = false -> bpatch_empty (pb_battery b) = false ->
  pb_tyres b = Some (t0 :: ts) ->
  let (r, d') := put_vehicle no_fault vid b d in
  r = Ok tt /\
  find_vehicle d' vid = option_map (patch_vehicle (pb_vehicle b)) (find_vehicle d vid) /\
  tyres_of d' vid = tyre_rows vid (t0 :: ts).
Proof.
  intros Hp Hb Ht.
  unfold put_vehicle, replace_tyres, replace_documents, transaction, se_bind, se_ret, exec, no_fault.
  simpl. rewrite Hp. destruct (pb_battery b) as [bp|]; [|done]. simpl in Hb |- *. rewrite Hb, Ht. simpl.
  unfold find_vehicle, tyres_of.
  destruct (pb_documents b) as [[|d0 ds]|]; simpl;
    rewrite find_vehicle_map_patch, List.filter_app, filter_keep_unless_eq, filter_tyre_rows;
    done.
Qed.

(** Vehicle 7 does not exist: the update still succeeds and writes a
    tyre row for it. *)
Lemma put_vehicle_success_witness :
  let (r, d') := put_vehicle no_fault 7 sample_put_body empty_db in
  r = Ok tt /\
  find_vehicle d' 7 = option_map (patch_vehicle (pb_vehicle sample_put_body))
                                 (find_vehicle empty_db 7) /\
  tyres_of d' 7 = tyre_rows 7 [sample_tyre "Front Left"].
Proof. apply put_vehicle_success; reflexivity. Defined.
