(* ===== verification/Pricing.v ===== *)
(** * Pricing: the price table, its endpoints and the client's rate

    [post_prices]  POST /api/settings/prices  (server.js 404-430): whole
                   table replace, without a transaction.
    [pair_price]   GET /api/settings/prices/:vehicleType/:location
                   (server.js 797-821): the price of one pair, or 0.
    [client_rate]  the rate Checkout.jsx derives from a price response
                   ([priceData.price || 100], Checkout.jsx 91-97).

    The spec's PricingResolver is the class [RateResolver]: a rate for
    each (location, vehicle type) of a database.  [spec_rate] is its
    contract (the table's entry, else the default 100); [endpoint_rate]
    (the per-pair endpoint seen through the client's fallback) and
    [deployed_rate] (what Checkout.jsx actually requests) are instances. *)

From stdpp Require Import base list strings decidable.
From Stdlib Require Import ZArith Lia.
From S2P Require Import Prelude Schema Store.

Section Handlers.
Context (fault : stmt -> db -> bool).

(** [prices] is [None] when the body's [prices] is missing or not an
    array (the 400 answer).  The [DELETE] and the [INSERT] are two
    auto-committed statements. *)
Definition post_prices (prices : option (list price_row)) : handler unit :=
  match prices with
  | None => se_throw BadRequest
  | Some ps =>
      exec fault DeleteAllPrices ;;
      exec fault (InsertPrices ps) ;;
      se_ret tt
  end.
End Handlers.

(** The rows of the three-way join of server.js 802-808, in the order
    of [location_vehicle_prices]: each price row with the names of its
    vehicle type and of its location. *)
Definition joined_prices (d : db) : list (string * string * Z) :=
  flat_map (fun p =>
    flat_map (fun vt =>
      flat_map (fun l => [(vt_name vt, l_name l, p_price p)])
        (List.filter (fun l => Nat.eqb (l_id l) (p_location_id p)) (locations d)))
      (List.filter (fun vt => Nat.eqb (vt_id vt) (p_vehicle_type_id p)) (vehicle_types d)))
    (location_vehicle_prices d).

Definition pair_matches (vtype loc : string) (e : string * string * Z) : bool :=
  let '(vt, l, _) := e in String.eqb vt vtype && String.eqb l loc.

(** [prices.length > 0 ? prices[0].price : 0]. *)
Definition pair_price (d : db) (vtype loc : string) : Z :=
  match List.find (pair_matches vtype loc) (joined_prices d) with
  | Some (_, _, p) => p
  | None => 0
  end.

(** The two JSON bodies a price request can answer with. *)
Inductive price_response :=
| PriceList (rows : list price_row)  (* GET /api/settings/prices: {success, data} *)
| PairPrice (p : Z).                 (* GET /api/settings/prices/:type/:loc: {price} *)

(** The property access [priceData.price]. *)
Definition response_price (r : price_response) : option Z :=
  match r with PriceList _ => None | PairPrice p => Some p end.

Definition default_rate : Z := 100.

(** [priceData.price || 100]: [undefined] and [0] are falsy. *)
Definition client_rate (r : price_response) : Z :=
  match response_price r with
  | Some p => if Z.eqb p 0 then default_rate else p
  | None => default_rate
  end.

(** ** The PricingResolver interface *)

Class RateResolver := rate_for : db -> string (* location *) -> string (* type *) -> Z.

(** The contract of the spec: the table's entry for the pair, else the
    default rate.  The table is keyed by names, as the joined rows. *)
Definition spec_rate (table : list (string * string * Z)) (loc vtype : string) : Z :=
  match List.find (pair_matches vtype loc) table with
  | Some (_, _, p) => p
  | None => default_rate
  end.

Definition implements_spec (R : RateResolver) : Prop :=
  forall d loc vtype,
    Forall (fun p => p_price p <> 0%Z) (location_vehicle_prices d) ->
    rate_for d loc vtype = spec_rate (joined_prices d) loc vtype.

(** The per-pair endpoint read through the client's fallback. *)
#[export] Instance endpoint_rate : RateResolver :=
  fun d loc vtype => client_rate (PairPrice (pair_price d vtype loc)).

(** What Checkout.jsx does: it requests the whole table. *)
#[export] Instance deployed_rate : RateResolver :=
  fun d _ _ => client_rate (PriceList (location_vehicle_prices d)).

(** ** Sample data, used by the witnesses *)

(** Reference data of the spec's example: location "Yard A", vehicle
    type "Car", price 150 a day. *)
Definition yard_ref_db : db := {|
  vehicles := []; documents := []; battery_details := []; tyre_details := [];
  vehicle_images := []; checkouts := [];
  location_vehicle_prices := [{| p_location_id := 1; p_vehicle_type_id := 1; p_price := 150 |}];
  locations := [{| l_id := 1; l_name := "Yard A"; l_address := "Main road"; l_capacity := 10 |}];
  vehicle_types := [{| vt_id := 1; vt_name := "Car" |}];
  next_vehicle_id := 1; next_location_id := 2; next_vtype_id := 2
|}.

(** ** Theorems *)


(** An entry of the join names a price row, a vehicle type and a
    location whose ids the row holds. *)
Lemma joined_prices_in d vt l p :
  In (vt, l, p) (joined_prices d) ->
  exists r t x, In r (location_vehicle_prices d) /\ In t (vehicle_types d) /\ In x (locations d) /\
    vt_id t = p_vehicle_type_id r /\ l_id x = p_location_id r /\
    vt = vt_name t /\ l = l_name x /\ p = p_price r.
Proof.
  unfold joined_prices. rewrite in_flat_map. intros (r & Hr & H).
  rewrite in_flat_map in H. destruct H as (t & Ht & H). apply filter_In in Ht as [Ht Htid].
  rewrite in_flat_map in H. destruct H as (x & Hx & [H|[]]). apply filter_In in Hx as [Hx Hxid].
  injection H as <- <- <-. apply Nat.eqb_eq in Htid, Hxid. exists r, t, x. tauto.
Qed.



(** A pair priced 0 in the table is billed at the default rate. *)
Lemma endpoint_rate_zero_entry d loc vtype :
  pair_price d vtype loc = 0%Z -> endpoint_rate d loc vtype = default_rate.
Proof. intros H. unfold endpoint_rate, client_rate. simpl. by rewrite H. Qed.

(** C17: The rate Checkout.jsx uses ignores the price table. *)
Theorem deployed_rate_not_spec : ~ implements_spec deployed_rate.
Proof.
  intros H. specialize (H yard_ref_db "Yard A" "Car" ltac:(repeat constructor; simpl; lia)).
  vm_compute in H. discriminate.
Qed.

(** POST /api/settings/prices is not atomic: it either installs exactly
    the new rows, or fails leaving the old table, or fails after the
    [DELETE] leaving an empty table.  Other tables never change. *)
Theorem post_prices_outcomes fault ps d :
  let (r, d') := post_prices fault (Some ps) d in
  (r = Ok tt /\ d' = set_prices ps d) \/
  (exists e, r = Err e /\ (d' = d \/ d' = set_prices [] d)).
Proof.
  unfold post_prices, se_bind, se_ret, exec.
  destruct (fault DeleteAllPrices d); [right; eauto|]. simpl.
  destruct (fault (InsertPrices ps) _); [right; eauto|]. simpl.
  destruct ps as [|p ps]; simpl; [right; eauto|]. by left.
Qed.

(** An empty [prices] array wipes the table and answers an error. *)
Lemma post_prices_empty_wipes d :
  post_prices no_fault (Some []) d = (Err ParseError, set_prices [] d).
Proof. reflexivity. Qed.
