(* ===== verification/Settings.v ===== *)
(** * Settings: locations and vehicle types

    [post_location]       POST   /api/settings/locations     (server.js 313-351)
    [delete_location]     DELETE /api/settings/locations/:id (server.js 352-383)
    [put_location]        PUT    /api/settings/locations/:id (server.js 431-462)
    [post_vehicle_type]   POST   /api/settings/vehicle-types (server.js 141-153)
    [delete_vehicle_type] DELETE /api/settings/vehicle-types/:id
                                                              (server.js 155-204)

    Settings.jsx sends the new location as the strings of its form
    fields ([newLocation], Settings.jsx 39, 131-147); the [INT] column
    [capacity] receives the string, which MySQL (strict mode) converts
    or refuses: [sql_int_of_string]. *)

From stdpp Require Import base list strings decidable.
From Stdlib Require Import ZArith Lia Ascii.
From S2P Require Import Prelude Schema Store VehicleStore.

(** ** Values *)

(** JavaScript truthiness of an optional string: [undefined] and [""]
    are falsy. *)
Definition js_truthy (o : option string) : bool :=
  match o with Some s => negb (String.eqb s "") | None => false end.

(** The integer MySQL stores for a string bound to an [INT] column:
    an optional minus sign and decimal digits; anything else is refused. *)
Definition sql_int_of_string (s : string) : option Z :=
  match s with
  | EmptyString => None
  | String c s' =>
      if Ascii.eqb c "-"%char then
        match s' with EmptyString => None | _ => option_map Z.opp (digits_acc s' 0) end
      else digits_acc s 0
  end.

(** The body of POST /api/settings/locations. *)
Record location_body := {
  lb_name : option string; lb_address : option string; lb_capacity : option string
}.

Section Handlers.
Context (fault : stmt -> db -> bool).

(** [if (!name || !address || !capacity)] answers 400; a capacity the
    column refuses is a storage error. *)
Definition post_location (b : location_body) : handler nat :=
  if negb (js_truthy (lb_name b) && js_truthy (lb_address b) && js_truthy (lb_capacity b))
  then se_throw BadRequest else
  match sql_int_of_string (default "" (lb_capacity b)) with
  | None => se_throw StorageError
  | Some cap =>
      let* pk := exec fault (InsertLocation (default "" (lb_name b))
                                            (default "" (lb_address b)) cap) in
      se_ret (insert_id pk)
  end.

(** [location[0].name] throws when no row has the id.  The vehicles at
    the location are deleted, their child rows are not. *)
Definition delete_location (id : nat) : handler unit :=
  transaction (
    let* d := se_get in
    match List.find (fun l => Nat.eqb (l_id l) id) (locations d) with
    | None => se_throw TypeError
    | Some l =>
        exec fault (DeleteLocationPrices id) ;;
        exec fault (DeleteVehiclesAt (l_name l)) ;;
        exec fault (DeleteLocation id) ;;
        se_ret tt
    end).

(** Two auto-committed statements: the update, then the read back. *)
Definition put_location (id : nat) (nm ad : string) (cap : Z) : handler (option location_row) :=
  exec fault (UpdateLocation id nm ad cap) ;;
  let* d := se_get in
  se_ret (List.find (fun l => Nat.eqb (l_id l) id) (locations d)).

Definition post_vehicle_type (nm : string) : handler nat :=
  let* pk := exec fault (InsertVehicleType nm) in
  se_ret (insert_id pk).

(** The ids of the vehicles of a type ([SELECT id FROM vehicles WHERE
    vehicle_type = ?]). *)
Definition ids_of_type (nm : string) (d : db) : list nat :=
  map v_id (List.filter (fun v => String.eqb (vehicle_type (v_data v)) nm) (vehicles d)).

Definition delete_vehicle_type (id : nat) : handler unit :=
  transaction (
    let* d := se_get in
    match List.find (fun t => Nat.eqb (vt_id t) id) (vehicle_types d) with
    | None => se_throw TypeError
    | Some t =>
        let nm := vt_name t in
        exec fault (DeleteTypePrices id) ;;
        let* d1 := se_get in
        let vids := ids_of_type nm d1 in
        se_when (negb (Nat.eqb (length vids) 0))
          (exec fault (DeleteImagesOf vids) ;;
           exec fault (DeleteTyresOf vids) ;;
           exec fault (DeleteBatteriesOf vids) ;;
           exec fault (DeleteDocumentsOf vids) ;;
           se_ret tt) ;;
        exec fault (DeleteVehiclesOfType nm) ;;
        exec fault (DeleteVehicleType id) ;;
        se_ret tt
    end).
End Handlers.

(** ** Sample bodies, used by the witnesses *)

Definition sample_location (cap : string) : location_body :=
  {| lb_name := Some "Yard B"; lb_address := Some "Ring road"; lb_capacity := Some cap |}.

Definition sample_yard : location_row :=
  {| l_id := 1; l_name := "Yard A"; l_address := "Ring road"; l_capacity := 10 |}.

(** One location, one vehicle type and one vehicle of that type parked
    there, created through POST /api/vehicles. *)
Definition sample_fleet_db : db :=
  snd (post_vehicles no_fault (sample_body "KA01AB1234" sample_tyres) 0
         (set_locations [sample_yard] 2
            (set_vtypes [{| vt_id := 1; vt_name := "Car" |}] 2 empty_db))).

Definition sample_fleet_vehicle : vehicle :=
  {| v_id := 1; v_data := cb_intake (sample_body "KA01AB1234" sample_tyres);
     v_status := status_active; v_created_at := 0 |}.

(** ** Theorems *)

(** C18: Deleting a location deletes the vehicles parked there but leaves
    their tyres, documents, battery and images, and their checkouts:
    the child rows are orphaned (compare [delete_vehicle_type]). *)
Theorem delete_location_orphans d id l v :
  List.find (fun l => Nat.eqb (l_id l) id) (locations d) = Some l ->
  In v (vehicles d) -> in_place (v_data v) = l_name l ->
  let (r, d') := delete_location no_fault id d in
  r = Ok tt /\ ~ In v (vehicles d') /\
  tyres_of d' (v_id v) = tyres_of d (v_id v) /\ docs_of d' (v_id v) = docs_of d (v_id v) /\
  batteries_of d' (v_id v) = batteries_of d (v_id v) /\
  images_of d' (v_id v) = images_of d (v_id v) /\ checkouts d' = checkouts d.
Proof.
  intros Hl Hv Hp.
  unfold delete_location, transaction, se_bind, se_get, se_ret, exec, no_fault. simpl.
  rewrite Hl. simpl. split; [done|]. split; [|done].
  rewrite keep_unless_spec, Hp, String.eqb_refl. intros [_ ?]. discriminate.
Qed.

Lemma delete_location_orphans_witness :
  let (r, d') := delete_location no_fault 1 sample_fleet_db in
  r = Ok tt /\ ~ In sample_fleet_vehicle (vehicles d') /\
  tyres_of d' 1 = tyres_of sample_fleet_db 1 /\ docs_of d' 1 = docs_of sample_fleet_db 1 /\
  batteries_of d' 1 = batteries_of sample_fleet_db 1 /\
  images_of d' 1 = images_of sample_fleet_db 1 /\ checkouts d' = checkouts sample_fleet_db.
Proof.
  apply (delete_location_orphans sample_fleet_db 1 sample_yard sample_fleet_vehicle);
    [reflexivity | vm_compute; left; reflexivity | reflexivity].
Defined.

Lemma filter_keep_unless_in {A} (f : A -> nat) vids vid (l : list A) :
  In vid vids ->
  List.filter (fun r => Nat.eqb (f r) vid) (keep_unless (fun r => in_ids vids (f r)) l) = [].
Proof.
  intros Hin. induction l as [|x l IH]; [done|]. simpl.
  destruct (in_ids vids (f x)) eqn:E; simpl; [done|].
  destruct (Nat.eqb_spec (f x) vid) as [<-|]; [|done].
  assert (in_ids vids (f x) = true) as E'
    by (apply existsb_exists; exists (f x); split; [exact Hin | apply Nat.eqb_refl]).
  congruence.
Qed.

(** Deleting a vehicle type deletes every vehicle of the type with all
    its child rows. *)
Theorem delete_vehicle_type_purges d id t :
  List.find (fun t => Nat.eqb (vt_id t) id) (vehicle_types d) = Some t ->
  let (r, d') := delete_vehicle_type no_fault id d in
  r = Ok tt /\
  Forall (fun v => vehicle_type (v_data v) <> vt_name t) (vehicles d') /\
  Forall (fun vid => tyres_of d' vid = [] /\ docs_of d' vid = [] /\
                     batteries_of d' vid = [] /\ images_of d' vid = [])
         (ids_of_type (vt_name t) d).
Proof.
  intros Ht.
  unfold delete_vehicle_type, transaction, se_bind, se_get, se_ret, se_when, exec, no_fault.
  simpl. rewrite Ht. simpl.
  assert (Hgone : forall l : list vehicle,
            Forall (fun v => vehicle_type (v_data v) <> vt_name t)
                   (keep_unless (fun v => String.eqb (vehicle_type (v_data v)) (vt_name t)) l)).
  { intros l. apply Forall_forall. intros v Hv E.
    apply keep_unless_spec in Hv as [_ Hf]. by rewrite E, String.eqb_refl in Hf. }
  unfold ids_of_type. simpl.
  set (vids := map v_id _).
  destruct (length vids =? 0)%nat eqn:Hz; simpl; (split; [done|]); (split; [apply Hgone|]).
  { apply Nat.eqb_eq, length_zero_iff_nil in Hz. rewrite Hz. constructor. }
  apply Forall_forall. intros vid Hin.
  unfold tyres_of, docs_of, batteries_of, images_of. simpl.
  rewrite !filter_keep_unless_in by exact Hin. done.
Qed.

Lemma delete_vehicle_type_purges_witness :
  match List.find (fun t => Nat.eqb (vt_id t) 1) (vehicle_types sample_fleet_db) with
  | Some t =>
      let (r, d') := delete_vehicle_type no_fault 1 sample_fleet_db in
      r = Ok tt /\
      Forall (fun v => vehicle_type (v_data v) <> vt_name t) (vehicles d') /\
      Forall (fun vid => tyres_of d' vid = [] /\ docs_of d' vid = [] /\
                         batteries_of d' vid = [] /\ images_of d' vid = [])
             (ids_of_type (vt_name t) sample_fleet_db)
  | None => False
  end.
Proof.
  destruct (List.find _ _) as [t|] eqn:E; [by apply delete_vehicle_type_purges | discriminate].
Defined.

(** POST /api/settings/locations accepts any capacity the column
    converts, negative ones included, and answers the new id. *)
Theorem post_location_accepts b d cap :
  js_truthy (lb_name b) = true -> js_truthy (lb_address b) = true ->
  js_truthy (lb_capacity b) = true ->
  sql_int_of_string (default "" (lb_capacity b)) = Some cap ->
  post_location no_fault b d =
    (Ok (next_location_id d),
     set_locations (locations d ++ [{| l_id := next_location_id d;
                                       l_name := default "" (lb_name b);
                                       l_address := default "" (lb_address b);
                                       l_capacity := cap |}])
                   (S (next_location_id d)) d).
Proof.
  intros Hn Ha Hc Hcap. unfold post_location. rewrite Hn, Ha, Hc, Hcap. reflexivity.
Qed.

Lemma post_location_accepts_witness :
  post_location no_fault (sample_location "-5") empty_db =
    (Ok 1, set_locations [{| l_id := 1; l_name := "Yard B"; l_address := "Ring road";
                             l_capacity := -5 |}] 2 empty_db).
Proof. apply (post_location_accepts (sample_location "-5") empty_db (-5)); reflexivity. Defined.

(** A location without a capacity (or with an empty one) is refused
    with 400 and nothing is written. *)
Lemma post_location_requires_capacity fault b d :
  js_truthy (lb_capacity b) = false -> post_location fault b d = (Err BadRequest, d).
Proof. intros H. unfold post_location. by rewrite H, !andb_false_r. Qed.
