(* ===== verification/Checkout.v ===== *)
(** * Checkout: the quote computed by the client and the commit handler

    [handle_search]    Checkout.jsx 62-116 (the quote): trim the query,
                       search by plate, ask the status endpoint, compute
                       the days and the rate.
    [days_stayed_of]   Checkout.jsx 86-89: [Math.ceil(|now - inDate| /
                       day) || 1].
    [payment_body]     Checkout.jsx 456-467 ([handlePayment]).
    [post_checkouts]   POST /api/checkouts (server.js 763-795).
    [checkout_status]  GET /api/checkouts/status/:id (server.js 473-485).

    Instants are integers of milliseconds (JavaScript [Date] values);
    dates are day numbers, [new Date(in_date)] being midnight of the
    day.  Numbers are exact integers: the client's doubles agree with
    them as long as they stay below 2^53, which milliseconds since 1970
    and realistic amounts do. *)

From stdpp Require Import base list strings decidable.
From Stdlib Require Import ZArith Lia Ascii.
From S2P Require Import Prelude Schema Store VehicleStore Pricing Dates.

(** [new Date(in_date)] for a [DATE] column. *)
Definition date_ms (day : Z) : Z := day * day_ms.

(** [Math.ceil(diffTime / (1000 * 60 * 60 * 24)) || 1]: a zero (same
    instant) becomes one day. *)
Definition days_stayed_of (now_ms in_day : Z) : Z :=
  let c := ceil_div (Z.abs (now_ms - date_ms in_day)) day_ms in
  if Z.eqb c 0 then 1 else c.

(** ** [String.prototype.trim] *)

Definition is_js_space (c : ascii) : bool :=
  match nat_of_ascii c with
  | 9 | 10 | 11 | 12 | 13 | 32 => true
  | _ => false
  end.

Fixpoint trim_start (s : string) : string :=
  match s with
  | EmptyString => EmptyString
  | String c s' => if is_js_space c then trim_start s' else s
  end.

Fixpoint trim_end (s : string) : string :=
  match s with
  | EmptyString => EmptyString
  | String c s' =>
      let t := trim_end s' in
      match t with
      | EmptyString => if is_js_space c then EmptyString else String c EmptyString
      | _ => String c t
      end
  end.

Definition js_trim (s : string) : string := trim_end (trim_start s).

(** ** The quote *)

Inductive quote_error :=
| EmptyQuery         (* "Please enter a registration number" *)
| VehicleNotFound    (* "Vehicle not found" *)
| AlreadyCheckedOut. (* "This vehicle has already been checked out" *)

#[export] Instance quote_error_eq_dec : EqDecision quote_error.
Proof. solve_decision. Defined.

(** The status endpoint: [isCheckedOut] is whether a checkout row
    exists, and [false] when the query fails ([status_fault]). *)
Definition checkout_status (status_fault : bool) (d : db) (vid : nat) : bool :=
  if status_fault then false else has_checkout d vid.

Section Quote.
Context (collate : string -> string) (R : RateResolver).

(** [handleSearch] at instant [now_ms] against database [d].  The
    rate comes from the resolver [R]; the shipped client is
    [deployed_rate] (it requests the whole price list). *)
Definition handle_search (status_fault : bool) (query : string) (now_ms : Z) (d : db)
  : result (search_result * billing) quote_error :=
  let q := js_trim query in
  if String.eqb q "" then Err EmptyQuery else
  match search_by_plate collate q d with
  | None => Err VehicleNotFound
  | Some sr =>
      let v := sr_vehicle sr in
      if checkout_status status_fault d (v_id v) then Err AlreadyCheckedOut else
      let days := days_stayed_of now_ms (in_date (v_data v)) in
      let rate := rate_for d (in_place (v_data v)) (vehicle_type (v_data v)) in
      Ok (sr, {| days_stayed := days; rate_per_day := rate;
                 total_amount := days * rate;
                 checkout_date := now_ms / day_ms;
                 checkout_time := (now_ms mod day_ms) / 1000 |})
  end.
End Quote.

(** [handlePayment]: the body of POST /api/checkouts. *)
Definition payment_body (sr : search_result) (bl : billing) : checkout_row := {|
  c_vehicle_id := v_id (sr_vehicle sr);
  c_vehicle_details := sr;
  c_billing_details := bl;
  c_checkout_date := checkout_date bl;
  c_checkout_time := checkout_time bl;
  c_days_stayed := days_stayed bl;
  c_price_per_day := rate_per_day bl;
  c_total_amount := total_amount bl
|}.

Section Commit.
Context (fault : stmt -> db -> bool).

(** POST /api/checkouts: insert the row, then flip the status, in one
    transaction, with no check of the vehicle's current state. *)
Definition post_checkouts (r : checkout_row) : handler unit :=
  transaction (
    exec fault (InsertCheckout r) ;;
    exec fault (MarkCheckedOut (c_vehicle_id r)) ;;
    se_ret tt).
End Commit.

(** The state a committed checkout leaves. *)
Definition mark_checked_out (vid : nat) (l : list vehicle) : list vehicle :=
  map (fun v => if Nat.eqb (v_id v) vid
                then {| v_id := v_id v; v_data := v_data v;
                        v_status := status_checked_out; v_created_at := v_created_at v |}
                else v) l.

Definition checkout_effect (r : checkout_row) (d : db) : db :=
  set_vehicles (mark_checked_out (c_vehicle_id r) (vehicles d)) (next_vehicle_id d)
               (set_checkouts (checkouts d ++ [r]) d).

(** ** Sample states, used by the witnesses *)

(** A car taken in at "Yard A" on 2024-01-01 (day 19723). *)
Definition yard_db : db :=
  snd (post_vehicles no_fault (sample_body "KA01AB1234" sample_tyres) 0 yard_ref_db).

(** 2024-01-03 10:00. *)
Definition spec_example_now : Z := date_ms 19725 + 36000000.

(** The same database after the car was checked out once. *)
Definition yard_checked_db : db :=
  match handle_search (fun s => s) deployed_rate false "KA01AB1234" spec_example_now yard_db with
  | Ok (sr, bl) => snd (post_checkouts no_fault (payment_body sr bl) yard_db)
  | Err _ => yard_db
  end.

(** ** Billing arithmetic *)

Lemma ceil_div_day_nonneg x : (0 <= ceil_div (Z.abs x) day_ms)%Z.
Proof. unfold ceil_div, day_ms. apply Z.div_pos; lia. Qed.

(** A stay is billed at least one day, a same-instant checkout too. *)
Theorem days_stayed_at_least_one now_ms in_day :
  (1 <= days_stayed_of now_ms in_day)%Z.
Proof.
  unfold days_stayed_of.
  pose proof (ceil_div_day_nonneg (now_ms - date_ms in_day)).
  destruct (Z.eqb_spec (ceil_div (Z.abs (now_ms - date_ms in_day)) day_ms) 0); lia.
Qed.

(** C22: Away from the intake instant, the days billed are the elapsed time
    rounded up to whole days, in either direction of time ([Math.abs]). *)
Theorem days_stayed_ceiling now_ms in_day :
  now_ms <> date_ms in_day ->
  let days := days_stayed_of now_ms in_day in
  (day_ms * (days - 1) < Z.abs (now_ms - date_ms in_day) <= day_ms * days)%Z.
Proof.
  intros Hne. unfold days_stayed_of.
  pose proof (ceil_div_bounds (Z.abs (now_ms - date_ms in_day)) day_ms
                ltac:(unfold day_ms; lia) ltac:(lia)) as Hb.
  pose proof (ceil_div_pos (Z.abs (now_ms - date_ms in_day)) day_ms
                ltac:(unfold day_ms; lia) ltac:(lia)) as Hp.
  destruct (Z.eqb_spec (ceil_div (Z.abs (now_ms - date_ms in_day)) day_ms) 0); lia.
Qed.

(** The spec's example: 2 days and 10 hours are 3 days. *)
Lemma days_stayed_ceiling_witness :
  let days := days_stayed_of spec_example_now 19723 in
  (day_ms * (days - 1) < Z.abs (spec_example_now - date_ms 19723) <= day_ms * days)%Z.
Proof. apply days_stayed_ceiling. unfold spec_example_now, date_ms, day_ms. lia. Defined.

(** The days billed do not decrease as the checkout instant moves later
    (after the intake day's midnight). *)
Lemma days_stayed_mono now1 now2 in_day :
  (date_ms in_day < now1 <= now2)%Z ->
  (days_stayed_of now1 in_day <= days_stayed_of now2 in_day)%Z.
Proof.
  intros H. unfold days_stayed_of.
  pose proof (ceil_div_mono (Z.abs (now1 - date_ms in_day)) (Z.abs (now2 - date_ms in_day))
                day_ms ltac:(unfold day_ms; lia) ltac:(lia)).
  pose proof (ceil_div_pos (Z.abs (now1 - date_ms in_day)) day_ms
                ltac:(unfold day_ms; lia) ltac:(lia)).
  destruct (Z.eqb_spec (ceil_div (Z.abs (now1 - date_ms in_day)) day_ms) 0);
  destruct (Z.eqb_spec (ceil_div (Z.abs (now2 - date_ms in_day)) day_ms) 0); lia.
Qed.

Lemma days_stayed_mono_witness :
  (days_stayed_of (date_ms 19723 + 1) 19723 <= days_stayed_of spec_example_now 19723)%Z.
Proof. apply days_stayed_mono. unfold spec_example_now, date_ms, day_ms. lia. Defined.

(** ** The quote *)

Section QuoteTheorems.
Context (collate : string -> string) (R : RateResolver).

(** A successful quote bills [days * rate] with at least one day, at
    the resolver's rate for the vehicle's location and type, for a
    vehicle the status endpoint reported as not checked out. *)
Theorem handle_search_ok status_fault query now_ms d sr bl :
  handle_search collate R status_fault query now_ms d = Ok (sr, bl) ->
  search_by_plate collate (js_trim query) d = Some sr /\
  checkout_status status_fault d (v_id (sr_vehicle sr)) = false /\
  total_amount bl = (days_stayed bl * rate_per_day bl)%Z /\
  (1 <= days_stayed bl)%Z /\
  rate_per_day bl = rate_for d (in_place (v_data (sr_vehicle sr)))
                             (vehicle_type (v_data (sr_vehicle sr))).
Proof.
  unfold handle_search. destruct (String.eqb _ _); [done|].
  destruct (search_by_plate _ _ _) as [sr'|]; [|done].
  destruct (checkout_status _ _ _) eqn:Hs; [done|].
  intros H. injection H as <- <-. simpl.
  repeat split; auto using days_stayed_at_least_one.
Qed.

(** The guard of the quote: when the status endpoint answers, a
    vehicle with a checkout row is refused. *)
Theorem handle_search_refuses_checked_out query now_ms d sr :
  js_trim query <> "" ->
  search_by_plate collate (js_trim query) d = Some sr ->
  has_checkout d (v_id (sr_vehicle sr)) = true ->
  handle_search collate R false query now_ms d = Err AlreadyCheckedOut.
Proof.
  intros Hq Hs Hc. unfold handle_search, checkout_status.
  destruct (String.eqb_spec (js_trim query) ""); [done|]. by rewrite Hs, Hc.
Qed.
End QuoteTheorems.

Lemma handle_search_ok_witness :
  match handle_search (fun s => s) deployed_rate false " KA01AB1234 " spec_example_now yard_db with
  | Ok (sr, bl) =>
      search_by_plate (fun s => s) (js_trim " KA01AB1234 ") yard_db = Some sr /\
      checkout_status false yard_db (v_id (sr_vehicle sr)) = false /\
      total_amount bl = (days_stayed bl * rate_per_day bl)%Z /\
      (1 <= days_stayed bl)%Z /\
      rate_per_day bl = deployed_rate yard_db (in_place (v_data (sr_vehicle sr)))
                                      (vehicle_type (v_data (sr_vehicle sr)))
  | Err _ => False
  end.
Proof.
  destruct (handle_search _ _ _ _ _ _) as [[sr bl]|e] eqn:E.
  - exact (handle_search_ok _ _ _ _ _ _ _ _ E).
  - vm_compute in E. discriminate.
Defined.

Lemma handle_search_refuses_checked_out_witness :
  match search_by_plate (fun s => s) "KA01AB1234" yard_checked_db with
  | Some sr =>
      handle_search (fun s => s) deployed_rate false "KA01AB1234" spec_example_now
                    yard_checked_db = Err AlreadyCheckedOut
  | None => False
  end.
Proof.
  destruct (search_by_plate _ _ _) as [sr|] eqn:E.
  - apply (handle_search_refuses_checked_out _ _ _ _ _ sr); [vm_compute; discriminate | exact E |].
    vm_compute in E. injection E as <-. reflexivity.
  - vm_compute in E. discriminate.
Defined.

(** The spec's worked example, as the shipped client computes it: 3
    days at the fallback rate 100, 300 in all, not 3 x 150. *)
Theorem spec_example_deployed :
  match handle_search (fun s => s) deployed_rate false "KA01AB1234" spec_example_now yard_db with
  | Ok (_, bl) => days_stayed bl = 3%Z /\ rate_per_day bl = 100%Z /\ total_amount bl = 300%Z
  | Err _ => False
  end.
Proof. vm_compute. auto. Qed.

(** The same example through the per-pair endpoint: 3 x 150 = 450, the
    spec's figure. *)
Lemma spec_example_endpoint :
  match handle_search (fun s => s) endpoint_rate false "KA01AB1234" spec_example_now yard_db with
  | Ok (_, bl) => days_stayed bl = 3%Z /\ rate_per_day bl = 150%Z /\ total_amount bl = 450%Z
  | Err _ => False
  end.
Proof. vm_compute. auto. Qed.

(** ** The commit *)

Lemma post_checkouts_all_or_nothing fault r d :
  match post_checkouts fault r d with
  | (Ok _, d') => d' = checkout_effect r d
  | (Err _, d') => d' = d
  end.
Proof.
  unfold post_checkouts, transaction, se_bind, se_ret, exec.
  destruct (fault (InsertCheckout r) d); [done|]. simpl.
  destruct (fault (MarkCheckedOut _) _); reflexivity.
Qed.

(** The commit has no guard: whatever the state of the vehicle (checked
    out already, or absent), a store that accepts the statements
    commits a new checkout row and flips the status. *)
Theorem post_checkouts_unguarded r d :
  post_checkouts no_fault r d = (Ok tt, checkout_effect r d).
Proof. reflexivity. Qed.
