(* ===== verification/EntryForm.v ===== *)
(** * EntryForm: the intake wizard of the shipped client

    [src/src/components/VehicleEntryForm/VehicleEntryForm.jsx] (the form
    App.jsx routes to [/new-entry]) and its five steps under [Steps/].

    - [form] is [formData]: the text fields, the [documents] object, the
      [tyres] array and the [images] array ([INITIAL_FORM_STATE], lines
      33-71, is [initial_form]).  [updateFormData] ([{...prev,
      ...updates}]) is [update_text] and the three handlers of the steps
      that edit the nested values: [handle_document_change]
      (DocumentDetails.jsx 11-18), [handle_tyre_change]
      (BatteryTyreDetails.jsx 93-98), [handle_image_upload] and
      [handle_remove_image] (ImageUpload.jsx 13-34).
    - [validate_step] is [validateStep] (lines 92-144): the errors object
      and the verdict.
    - [wizard] is the component's state ([activeStep], [formData],
      [errors], [retryCount]); [ui_apply] runs one user action on it,
      refusing the actions whose control is not on screen or disabled
      ([ui_control]) and the values a control cannot send (the condition
      radio groups offer [good], [average] and [bad]).
    - [submit_attempt] is one run of [handleSubmit]'s try block:
      [submitVehicleData] (POST /api/vehicles with the defaults for an
      empty date or time) then [uploadImages] (POST
      /api/vehicles/:id/images behind multer's limits, server.js 47-58,
      824).  [submit_chain] is the retry loop of [handleSubmitError]
      (lines 197-205): the handlers are closures of the render in which
      Submit was clicked, so the [retryCount] they read never changes
      during the loop.  Each attempt may run at another instant
      ([clock k] is the time of the [k]-th attempt).
    - [wizard_step] composes the user actions with the submission
      against the database; while a submission runs the [Backdrop]
      covers the page, so a submission is one step. *)

From stdpp Require Import base list strings decidable.
From Stdlib Require Import ZArith Lia Ascii.
From S2P Require Import Prelude Dates Schema Store VehicleStore Checkout.

(** ** The form *)

Inductive text_field :=
| AgreementNo | FinancierName | OwnerName | Address | RegistrationNumber
| VehicleType | Make | Model | Year | EngineNo | ChassisNo | KmsRun
| InDate | InTime | InPlace | BatteryMake | BatteryNumber | BatteryCondition
| AdditionalDetails.

#[export] Instance text_field_eq_dec : EqDecision text_field.
Proof. solve_decision. Defined.

(** The key of the field in [formData] and in [errors]. *)
Definition field_key (fld : text_field) : string :=
  match fld with
  | AgreementNo => "agreementNo" | FinancierName => "financierName"
  | OwnerName => "ownerName" | Address => "address"
  | RegistrationNumber => "registrationNumber" | VehicleType => "vehicleType"
  | Make => "make" | Model => "model" | Year => "year" | EngineNo => "engineNo"
  | ChassisNo => "chassisNo" | KmsRun => "kmsRun" | InDate => "inDate"
  | InTime => "inTime" | InPlace => "inPlace" | BatteryMake => "batteryMake"
  | BatteryNumber => "batteryNumber" | BatteryCondition => "batteryCondition"
  | AdditionalDetails => "additionalDetails"
  end.

(** The step whose screen has an input for the field.  No step edits
    [additionalDetails]. *)
Definition field_step (fld : text_field) : option nat :=
  match fld with
  | AgreementNo | FinancierName | OwnerName | Address => Some 0
  | RegistrationNumber | VehicleType | Make | Model | Year | EngineNo
  | ChassisNo | KmsRun | InDate | InTime | InPlace => Some 1
  | BatteryMake | BatteryNumber | BatteryCondition => Some 3
  | AdditionalDetails => None
  end.

(** A chosen file: its name and its size in bytes. *)
Record upload_file := { uf_name : string; uf_size : Z }.

(** An entry of [formData.images]: [{ id, file, preview }]. *)
Record form_image := { img_id : Z; img_file : option upload_file }.

Record form := {
  f_text : text_field -> string;
  f_documents : list (string * bool);
  f_tyres : list tyre_in;
  f_images : list form_image
}.

Definition document_keys : list string :=
  ["registrationCardBook"; "tcBook"; "insuranceCertificate"; "tyreReport";
   "tarpaulin"; "toolKit"; "radioStereo"; "ropeRaasi"].

Definition tyre_positions : list string :=
  ["Front Left"; "Front Right"; "Rear Left"; "Rear Right"; "Stepney"].

Definition initial_text (fld : text_field) : string :=
  match fld with BatteryCondition => "good" | _ => "" end.

Definition initial_form : form := {|
  f_text := initial_text;
  f_documents := map (fun k => (k, false)) document_keys;
  f_tyres := map (fun p => {| ti_position := p; ti_make := ""; ti_number := "";
                              ti_condition := "good" |}) tyre_positions;
  f_images := []
|}.

(** ** Edits *)

(** [updateFormData({ [field]: event.target.value })]. *)
Definition update_text (fld : text_field) (v : string) (f : form) : form := {|
  f_text := fun g => if decide (g = fld) then v else f_text f g;
  f_documents := f_documents f; f_tyres := f_tyres f; f_images := f_images f
|}.

(** [documents: { ...formData.documents, [documentKey]: checked }]. *)
Definition handle_document_change (key : string) (checked : bool) (f : form) : form := {|
  f_text := f_text f; f_documents := obj_set key checked (f_documents f);
  f_tyres := f_tyres f; f_images := f_images f
|}.

Inductive tyre_field := TyreMake | TyreNumber | TyreCondition.

Definition set_tyre_field (tf : tyre_field) (v : string) (t : tyre_in) : tyre_in :=
  match tf with
  | TyreMake => {| ti_position := ti_position t; ti_make := v; ti_number := ti_number t;
                   ti_condition := ti_condition t |}
  | TyreNumber => {| ti_position := ti_position t; ti_make := ti_make t; ti_number := v;
                     ti_condition := ti_condition t |}
  | TyreCondition => {| ti_position := ti_position t; ti_make := ti_make t;
                        ti_number := ti_number t; ti_condition := v |}
  end.

(** [formData.tyres.map(tyre => tyre.position === position ? {...tyre,
    [field]: value} : tyre)]. *)
Definition handle_tyre_change (pos : string) (tf : tyre_field) (v : string) (f : form) : form := {|
  f_text := f_text f; f_documents := f_documents f;
  f_tyres := map (fun t => if String.eqb (ti_position t) pos then set_tyre_field tf v t else t)
                 (f_tyres f);
  f_images := f_images f
|}.

(** More than ten images in all is refused with an alert. *)
Definition handle_image_upload (news : list form_image) (f : form) : form :=
  if Nat.ltb 10 (length (f_images f) + length news) then f else {|
    f_text := f_text f; f_documents := f_documents f; f_tyres := f_tyres f;
    f_images := f_images f ++ news |}.

Definition handle_remove_image (id : Z) (f : form) : form := {|
  f_text := f_text f; f_documents := f_documents f; f_tyres := f_tyres f;
  f_images := List.filter (fun i => negb (Z.eqb (img_id i) id)) (f_images f)
|}.

(** ** Validation *)

Definition errors := list (string * string).

(** [!formData[field]?.trim()]. *)
Definition blank (s : string) : bool := String.eqb (js_trim s) "".

Definition required_fields (step : nat) : list text_field :=
  match step with
  | 0 => [AgreementNo; FinancierName; OwnerName; Address]
  | 1 => [RegistrationNumber; VehicleType; Make; Model; Year; EngineNo; ChassisNo; KmsRun]
  | _ => []
  end.

Definition check_required (f : form) (flds : list text_field) (acc : errors * bool)
  : errors * bool :=
  fold_left (fun acc fld =>
               if blank (f_text f fld)
               then (obj_set (field_key fld) "Required" (fst acc), false) else acc)
            flds acc.

(** [formData.tyres.forEach((tyre, index) => ...)], [index] from [i]. *)
Fixpoint check_tyres (i : nat) (ts : list tyre_in) (acc : errors * bool) : errors * bool :=
  match ts with
  | [] => acc
  | t :: ts' =>
      let acc' := if blank (ti_make t) || blank (ti_number t)
                  then (obj_set ("tyre" ++ nat_decimal i) "All tyre details are required"
                                (fst acc), false)
                  else acc in
      check_tyres (S i) ts' acc'
  end.

Definition validate_step (step : nat) (f : form) : errors * bool :=
  match step with
  | 0 | 1 => check_required f (required_fields step) ([], true)
  | 2 => if existsb snd (f_documents f) then ([], true)
         else ([("documents", "Please select at least one document")], false)
  | 3 =>
      let bm := blank (f_text f BatteryMake) in
      let bn := blank (f_text f BatteryNumber) in
      let acc := if bm || bn
                 then (obj_set "batteryNumber" (if bn then "Required" else "")
                         (obj_set "batteryMake" (if bm then "Required" else "") []), false)
                 else ([], true) in
      check_tyres 0 (f_tyres f) acc
  | 4 => if Nat.eqb (length (f_images f)) 0
         then ([("images", "Please upload at least one image")], false) else ([], true)
  | _ => ([], true)
  end.

Definition step_valid (step : nat) (f : form) : bool := snd (validate_step step f).

(** ** The wizard *)

Definition last_step : nat := 4.

Record wizard := {
  w_step : nat;
  w_form : form;
  w_errors : errors;
  w_retry : nat
}.

Definition wizard_init : wizard :=
  {| w_step := 0; w_form := initial_form; w_errors := []; w_retry := 0 |}.

Definition with_form (w : wizard) (f : form) : wizard :=
  {| w_step := w_step w; w_form := f; w_errors := w_errors w; w_retry := w_retry w |}.

Definition handle_next (w : wizard) : wizard :=
  let '(errs, ok) := validate_step (w_step w) (w_form w) in
  {| w_step := if ok then S (w_step w) else w_step w; w_form := w_form w;
     w_errors := errs; w_retry := w_retry w |}.

Definition handle_back (w : wizard) : wizard :=
  {| w_step := Nat.pred (w_step w); w_form := w_form w; w_errors := w_errors w;
     w_retry := w_retry w |}.

(** The user's actions other than Submit. *)
Inductive ui_event :=
| EvText (fld : text_field) (v : string)
| EvDocument (key : string) (checked : bool)
| EvTyre (pos : string) (tf : tyre_field) (v : string)
| EvAddImages (news : list form_image)
| EvRemoveImage (id : Z)
| EvNext
| EvBack.

#[export] Instance upload_file_eq_dec : EqDecision upload_file.
Proof. solve_decision. Defined.
#[export] Instance form_image_eq_dec : EqDecision form_image.
Proof. solve_decision. Defined.
#[export] Instance tyre_field_eq_dec : EqDecision tyre_field.
Proof. solve_decision. Defined.
#[export] Instance ui_event_eq_dec : EqDecision ui_event.
Proof. solve_decision. Defined.

(** [None] when the action's control is not on the current screen or is
    disabled: an input belongs to one step; Next is replaced by Submit on
    the last step (and disabled there on mobile); Back is disabled on
    the first. *)
Definition ui_control (w : wizard) (ev : ui_event) : option wizard :=
  match ev with
  | EvText fld v =>
      if decide (field_step fld = Some (w_step w))
      then Some (with_form w (update_text fld v (w_form w))) else None
  | EvDocument key checked =>
      if Nat.eqb (w_step w) 2 && bool_decide (key ∈ document_keys)
      then Some (with_form w (handle_document_change key checked (w_form w))) else None
  | EvTyre pos tf v =>
      if Nat.eqb (w_step w) 3 && bool_decide (pos ∈ map ti_position (f_tyres (w_form w)))
      then Some (with_form w (handle_tyre_change pos tf v (w_form w))) else None
  | EvAddImages news =>
      if Nat.eqb (w_step w) 4 then Some (with_form w (handle_image_upload news (w_form w)))
      else None
  | EvRemoveImage id =>
      if Nat.eqb (w_step w) 4 then Some (with_form w (handle_remove_image id (w_form w)))
      else None
  | EvNext => if Nat.ltb (w_step w) last_step then Some (handle_next w) else None
  | EvBack => if Nat.eqb (w_step w) 0 then None else Some (handle_back w)
  end.

(** The options of the condition radio groups of BatteryTyreDetails.jsx
    (lines 55-82 for a tyre, 161-186 for the battery):
    [['Good', 'Average', 'Bad']] with [value={condition.toLowerCase()}]. *)
Definition condition_options : list string := ["good"; "average"; "bad"].

(** A value the control can send: a radio group sends one of its options,
    a text field any text. *)
Definition control_value_ok (ev : ui_event) : bool :=
  match ev with
  | EvText BatteryCondition v | EvTyre _ TyreCondition v => bool_decide (v ∈ condition_options)
  | _ => true
  end.

(** One user action. *)
Definition ui_apply (w : wizard) (ev : ui_event) : option wizard :=
  if control_value_ok ev then ui_control w ev else None.

Fixpoint ui_run (w : wizard) (evs : list ui_event) : option wizard :=
  match evs with
  | [] => Some w
  | ev :: evs' => match ui_apply w ev with Some w' => ui_run w' evs' | None => None end
  end.

(** ** Submission *)

(** JavaScript's [a || b] on strings. *)
Definition or_default (s d : string) : string := if String.eqb s "" then d else s.

(** [new Date().toTimeString().split(' ')[0]]: the local time of day,
    ["HH:MM:SS"], in a browser [client_off] minutes east of UTC. *)
Definition local_time_string (client_off now_ms : Z) : string :=
  let t := (((now_ms + client_off * 60000) mod day_ms) / 1000)%Z in
  fixed_decimal 2 (t / 3600)%Z ++ ":" ++ fixed_decimal 2 ((t / 60) mod 60)%Z ++ ":" ++
  fixed_decimal 2 (t mod 60)%Z.

(** The vehicle row POST /api/vehicles inserts from the JSON of
    [{...formData, inDate, inTime}]; a date MySQL refuses is [None]. *)
Definition form_intake (client_off now_ms : Z) (f : form) : option intake :=
  let date := or_default (f_text f InDate) (iso_date_of_ms now_ms) in
  let time := or_default (f_text f InTime) (local_time_string client_off now_ms) in
  match parse_iso_date date with
  | None => None
  | Some z => Some {|
      agreement_no := f_text f AgreementNo; financier_name := f_text f FinancierName;
      owner_name := f_text f OwnerName; address := f_text f Address;
      registration_number := f_text f RegistrationNumber;
      vehicle_type := f_text f VehicleType; make := f_text f Make; model := f_text f Model;
      year := f_text f Year; engine_no := f_text f EngineNo; chassis_no := f_text f ChassisNo;
      kms_run := f_text f KmsRun; in_date := z; in_time := time;
      in_place := f_text f InPlace; additional_details := f_text f AdditionalDetails |}
  end.

Definition form_body (client_off now_ms : Z) (f : form) : option create_body :=
  option_map (fun i => {|
      cb_intake := i; cb_documents := Some (f_documents f);
      cb_battery_make := f_text f BatteryMake; cb_battery_number := f_text f BatteryNumber;
      cb_battery_condition := f_text f BatteryCondition; cb_tyres := Some (f_tyres f) |})
    (form_intake client_off now_ms f).

(** multer's [limits: { fileSize: 50 * 1024 * 1024 }]. *)
Definition multer_max_file_size : Z := (50 * 1024 * 1024)%Z.

Inductive chain_end := Submitted | GaveUp | StillRetrying | NotValid.

Section Submit.
Context (fault : stmt -> db -> bool) (client_off : Z) (stored_name : upload_file -> string).

(** [submitVehicleData]: a refused date makes the first INSERT fail and
    the server roll back. *)
Definition submit_vehicle_data (now_ms : Z) (f : form) : handler nat :=
  match form_body client_off now_ms f with
  | None => se_throw StorageError
  | Some b => post_vehicles fault b now_ms
  end.

(** [uploadImages]: the files of the images, through multer (a file over
    the limit is an Express error page, which [response.json()] fails to
    parse) and the route's handler. *)
Definition upload_images (vid : nat) (f : form) : handler unit :=
  let files := omap img_file (f_images f) in
  if forallb (fun u => Z.leb (uf_size u) multer_max_file_size) files then
    post_images fault vid (map (fun u => (stored_name u, uf_name u)) files) ;; se_ret tt
  else se_throw StorageError.

Definition submit_attempt (now_ms : Z) (f : form) : handler nat :=
  let* vid := submit_vehicle_data now_ms f in
  (if Nat.eqb (length (f_images f)) 0 then se_ret tt else upload_images vid f) ;;
  se_ret vid.

(** The attempts of one click on Submit, the [k]-th at [clock k]; [c] is
    the [retryCount] of the render in which Submit was clicked.  The
    result is how the loop ended, the number of retries and the
    database. *)
Fixpoint submit_chain (clock : nat -> Z) (fuel k c step : nat) (f : form) (d : db)
  : chain_end * nat * db :=
  match fuel with
  | O => (StillRetrying, 0, d)
  | S fuel' =>
      if negb (step_valid step f) then (NotValid, 0, d) else
      match submit_attempt (clock k) f d with
      | (Ok _, d') => (Submitted, 0, d')
      | (Err _, d') =>
          if Nat.ltb c 3 then
            let '(e, r, d'') := submit_chain clock fuel' (S k) c step f d' in (e, S r, d'')
          else (GaveUp, 0, d')
      end
  end.
End Submit.

(** The wizard after a click on Submit: [handleSubmitSuccess] resets the
    form; each retry adds two to [retryCount], the click one more (the
    click event is passed as [isRetry]). *)
Definition after_submit (w : wizard) (e : chain_end) (r : nat) : wizard :=
  match e with
  | NotValid =>
      {| w_step := w_step w; w_form := w_form w;
         w_errors := fst (validate_step (w_step w) (w_form w)); w_retry := w_retry w |}
  | Submitted =>
      {| w_step := 0; w_form := initial_form; w_errors := []; w_retry := w_retry w + 1 + 2 * r |}
  | _ =>
      {| w_step := w_step w; w_form := w_form w; w_errors := []; w_retry := w_retry w + 1 + 2 * r |}
  end.

Inductive wizard_step (clock : nat -> Z) : wizard * db -> wizard * db -> Prop :=
| ws_ui w d ev w' : ui_apply w ev = Some w' -> wizard_step clock (w, d) (w', d)
| ws_submit fault client_off names fuel w d e r d' :
    w_step w = last_step ->
    submit_chain fault client_off names clock fuel 0 (w_retry w) (w_step w) (w_form w) d = (e, r, d') ->
    e <> StillRetrying ->
    wizard_step clock (w, d) (after_submit w e r, d').

Inductive wizard_reachable (clock : nat -> Z) : wizard * db -> Prop :=
| wr_init d : wizard_reachable clock (wizard_init, d)
| wr_step s s' : wizard_reachable clock s -> wizard_step clock s s' -> wizard_reachable clock s'.

(** The shape of [formData] no action changes: the eight checklist keys,
    the five tyre positions, at most ten images. *)
Definition form_shape (f : form) : Prop :=
  map fst (f_documents f) = document_keys /\
  map ti_position (f_tyres f) = tyre_positions /\
  length (f_images f) <= 10.

(** ** A filled form, used by the witnesses *)

Definition sample_photo (size : Z) : form_image :=
  {| img_id := 1; img_file := Some {| uf_name := "front.jpg"; uf_size := size |} |}.

(** The actions of an operator who fills every step, in order. *)
Definition fill_events (date : string) (photo : form_image) : list ui_event :=
  [EvText AgreementNo "AG-1"; EvText FinancierName "Fin"; EvText OwnerName "Owner";
   EvText Address "Addr"; EvNext;
   EvText RegistrationNumber "KA01AB1234"; EvText VehicleType "Car"; EvText Make "Make";
   EvText Model "Model"; EvText Year "2020"; EvText EngineNo "E1"; EvText ChassisNo "C1";
   EvText KmsRun "1000"; EvText InDate date; EvText InPlace "Yard A"; EvNext;
   EvDocument "registrationCardBook" true; EvNext;
   EvText BatteryMake "Exide"; EvText BatteryNumber "B1"] ++
  flat_map (fun p => [EvTyre p TyreMake "MRF"; EvTyre p TyreNumber "T1"]) tyre_positions ++
  [EvNext; EvAddImages [photo]].

Definition filled_wizard (date : string) (photo : form_image) : wizard :=
  default wizard_init (ui_run wizard_init (fill_events date photo)).

(** A photo of 2 MB and one of 60 MB (over multer's limit). *)
Definition small_photo : form_image := sample_photo 2000000.
Definition big_photo : form_image := sample_photo 60000000.

(** The attempts of a retry loop, a minute apart. *)
Definition attempt_clock (k : nat) : Z := (spec_example_now + Z.of_nat k * 60000)%Z.

Definition wizard_inv (w : wizard) : Prop :=
  form_shape (w_form w) /\ w_step w <= last_step /\
  forall j, j < w_step w -> step_valid j (w_form w) = true.

(** What the spec asks of a complete intake: the checklist documents
    (one at least available), the five tyre positions with make and
    number, the battery, and the required vehicle fields non-blank. *)
Definition intake_complete (b : create_body) : Prop :=
  (exists docs, cb_documents b = Some docs /\ map fst docs = document_keys /\
                existsb snd docs = true) /\
  (exists ts, cb_tyres b = Some ts /\ map ti_position ts = tyre_positions /\
              Forall (fun t => blank (ti_make t) = false /\ blank (ti_number t) = false) ts) /\
  blank (cb_battery_make b) = false /\ blank (cb_battery_number b) = false /\
  Forall (fun s => blank s = false)
    (let i := cb_intake b in
     [agreement_no i; financier_name i; owner_name i; address i; registration_number i;
      vehicle_type i; make i; model i; year i; engine_no i; chassis_no i; kms_run i]).

(** ** Theorems *)

Lemma check_required_ext f f' flds acc :
  (forall g, In g flds -> f_text f g = f_text f' g) ->
  check_required f flds acc = check_required f' flds acc.
Proof.
  unfold check_required. revert acc.
  induction flds as [|g flds IH]; intros acc H; simpl; [done|].
  rewrite (H g) by (left; done). apply IH. intros g' Hg. apply H. by right.
Qed.

Lemma check_required_ok f flds acc :
  snd (check_required f flds acc) = snd acc && forallb (fun g => negb (blank (f_text f g))) flds.
Proof.
  unfold check_required. revert acc.
  induction flds as [|g flds IH]; intros acc; simpl; [by rewrite andb_true_r|].
  rewrite IH. destruct (blank (f_text f g)); simpl; [by rewrite andb_false_r|done].
Qed.

Lemma check_tyres_ok i ts acc :
  snd (check_tyres i ts acc) =
  snd acc && forallb (fun t => negb (blank (ti_make t) || blank (ti_number t))) ts.
Proof.
  revert i acc. induction ts as [|t ts IH]; intros i acc; simpl; [by rewrite andb_true_r|].
  rewrite IH. destruct (blank (ti_make t) || blank (ti_number t)); simpl;
    [by rewrite andb_false_r|done].
Qed.

Lemma validate_step_ext j f f' :
  (forall fld, field_step fld = Some j -> f_text f fld = f_text f' fld) ->
  (j = 2 -> f_documents f = f_documents f') ->
  (j = 3 -> f_tyres f = f_tyres f') ->
  (j = 4 -> f_images f = f_images f') ->
  validate_step j f = validate_step j f'.
Proof.
  intros Ht Hd Hty Hi.
  destruct j as [|[|[|[|[|j]]]]]; cbn [validate_step required_fields];
    try (apply check_required_ext; intros g Hg; apply Ht;
         repeat (destruct Hg as [<-|Hg]; [reflexivity|]); destruct Hg).
  - by rewrite (Hd eq_refl).
  - rewrite (Ht BatteryMake), (Ht BatteryNumber) by done. by try rewrite (Hty eq_refl).
  - by rewrite (Hi eq_refl).
  - reflexivity.
Qed.

(** An action on the screen of step [s] leaves the verdict of every other
    step as it was. *)
Lemma ui_edit_other_step w ev w' j :
  ui_control w ev = Some w' -> ev <> EvNext -> ev <> EvBack -> j <> w_step w ->
  step_valid j (w_form w') = step_valid j (w_form w).
Proof.
  intros H Hn Hb Hj. unfold step_valid. f_equal.
  destruct ev as [fld v|key c|pos tf v|news|id| |]; simpl in H; try congruence.
  - destruct (decide _) as [Hs|]; [|discriminate]. injection H as <-.
    apply validate_step_ext; simpl; try done.
    intros g Hg. destruct (decide (g = fld)) as [->|]; congruence.
  - destruct (_ && _) eqn:E; [|discriminate]. injection H as <-.
    apply andb_true_iff in E as [E _]. apply Nat.eqb_eq in E.
    apply validate_step_ext; simpl; try done. intros ->. congruence.
  - destruct (_ && _) eqn:E; [|discriminate]. injection H as <-.
    apply andb_true_iff in E as [E _]. apply Nat.eqb_eq in E.
    apply validate_step_ext; simpl; try done. intros ->. congruence.
  - destruct (Nat.eqb _ _) eqn:E; [|discriminate]. injection H as <-.
    apply Nat.eqb_eq in E. unfold handle_image_upload. simpl.
    destruct (Nat.ltb _ _); [done|].
    apply validate_step_ext; simpl; try done. intros ->. congruence.
  - destruct (Nat.eqb _ _) eqn:E; [|discriminate]. injection H as <-.
    apply Nat.eqb_eq in E.
    apply validate_step_ext; simpl; try done. intros ->. congruence.
Qed.

Lemma tyre_change_positions pos tf v ts :
  map ti_position (map (fun t => if String.eqb (ti_position t) pos then set_tyre_field tf v t else t) ts)
  = map ti_position ts.
Proof.
  rewrite map_map. apply map_ext. intros t.
  destruct (String.eqb _ _); [by destruct tf|done].
Qed.

Lemma ui_control_shape w ev w' :
  form_shape (w_form w) -> ui_control w ev = Some w' -> form_shape (w_form w').
Proof.
  intros (Hd & Ht & Hi) H.
  destruct ev as [fld v|key c|pos tf v|news|id| |]; simpl in H.
  - destruct (decide _); [|discriminate]. injection H as <-. done.
  - destruct (_ && _) eqn:E; [|discriminate]. injection H as <-.
    apply andb_true_iff in E as [_ E]. apply bool_decide_eq_true, list_elem_of_In in E.
    split; [|done]. simpl. rewrite obj_set_keys; [done|]. by rewrite Hd.
  - destruct (_ && _); [|discriminate]. injection H as <-.
    split; [done|]. split; [|done]. simpl. by rewrite tyre_change_positions.
  - destruct (Nat.eqb _ _); [|discriminate]. injection H as <-. simpl.
    unfold handle_image_upload. destruct (Nat.ltb _ _) eqn:E; [done|].
    apply Nat.ltb_ge in E. split; [done|]. split; [done|]. simpl. rewrite length_app. lia.
  - destruct (Nat.eqb _ _); [|discriminate]. injection H as <-.
    split; [done|]. split; [done|]. simpl.
    pose proof (List.filter_length_le (fun i => negb (Z.eqb (img_id i) id)) (f_images (w_form w))).
    lia.
  - destruct (Nat.ltb _ _); [|discriminate]. injection H as <-.
    unfold handle_next. by destruct (validate_step _ _).
  - destruct (Nat.eqb _ _); [discriminate|]. injection H as <-. done.
Qed.

Lemma ui_control_inv w ev w' : wizard_inv w -> ui_control w ev = Some w' -> wizard_inv w'.
Proof.
  intros (Hs & Hle & Hv) H. split; [by eapply ui_control_shape|].
  destruct (decide (ev = EvNext)) as [->|Hn].
  { simpl in H. destruct (Nat.ltb_spec (w_step w) last_step); [|discriminate].
    injection H as <-. unfold handle_next.
    destruct (validate_step (w_step w) (w_form w)) as [errs ok] eqn:E.
    destruct ok; simpl; [|done]. split; [lia|]. intros j Hj.
    destruct (decide (j = w_step w)) as [->|]; [by unfold step_valid; rewrite E|].
    apply Hv. lia. }
  destruct (decide (ev = EvBack)) as [->|Hb].
  { simpl in H. destruct (Nat.eqb _ _); [discriminate|]. injection H as <-. simpl.
    split; [lia|]. intros j Hj. apply Hv. lia. }
  assert (Hstep : w_step w' = w_step w).
  { destruct ev; simpl in H; try congruence; case_match; try discriminate;
      injection H as <-; reflexivity. }
  rewrite Hstep. split; [done|]. intros j Hj.
  rewrite (ui_edit_other_step w ev w' j H Hn Hb); [by apply Hv | lia].
Qed.

Lemma ui_apply_control w ev w' : ui_apply w ev = Some w' -> ui_control w ev = Some w'.
Proof. unfold ui_apply. by destruct (control_value_ok ev). Qed.

Lemma ui_apply_inv w ev w' : wizard_inv w -> ui_apply w ev = Some w' -> wizard_inv w'.
Proof. intros Hw H. eapply ui_control_inv; [exact Hw|]. by apply ui_apply_control. Qed.

Lemma initial_inv : form_shape initial_form.
Proof. split; [reflexivity | split; [reflexivity | unfold initial_form; simpl; lia]]. Qed.

Lemma after_submit_inv w e r : wizard_inv w -> wizard_inv (after_submit w e r).
Proof.
  intros Hinv. destruct e; simpl; try exact Hinv.
  split; [exact initial_inv|]. split; [unfold last_step; simpl; lia|]. intros j Hj. simpl in Hj. lia.
Qed.

Lemma reachable_wizard_inv clock s : wizard_reachable clock s -> wizard_inv (fst s).
Proof.
  induction 1 as [d|s s' _ IH Hstep]; simpl.
  - split; [exact initial_inv|]. unfold wizard_init, last_step; simpl.
    split; [lia|]. intros j Hj. lia.
  - destruct Hstep as [w d ev w' H|fault off names fuel w d e r d' _ _ _]; simpl in *.
    + by eapply ui_apply_inv.
    + by apply after_submit_inv.
Qed.

(** C19: In every state of the wizard the user can reach, with any answers of
    the server, the form keeps its eight checklist keys, five tyre
    positions and at most ten images, the step is one of the five, and
    every step before the current one passes its validation. *)
Theorem wizard_reachable_inv clock w d : wizard_reachable clock (w, d) -> wizard_inv w.
Proof. intros H. exact (reachable_wizard_inv clock (w, d) H). Qed.

(** The conditions the form holds are options of the radio groups. *)
Definition conditions_ok (f : form) : Prop :=
  f_text f BatteryCondition ∈ condition_options /\
  Forall (fun t => ti_condition t ∈ condition_options) (f_tyres f).

Lemma initial_conditions : conditions_ok initial_form.
Proof. split; [apply list_elem_of_In; by left|]. repeat constructor; apply list_elem_of_In; by left. Qed.

Lemma tyre_change_conditions pos tf v ts :
  (tf = TyreCondition -> v ∈ condition_options) ->
  Forall (fun t => ti_condition t ∈ condition_options) ts ->
  Forall (fun t => ti_condition t ∈ condition_options)
         (map (fun t => if String.eqb (ti_position t) pos then set_tyre_field tf v t else t) ts).
Proof.
  intros Hv Ht. apply Forall_map. apply (Forall_weaken _ _ _ Ht). intros t Hc.
  destruct (String.eqb _ _); [|done]. destruct tf; cbn; [done|done|by apply Hv].
Qed.

Lemma ui_apply_conditions w ev w' :
  conditions_ok (w_form w) -> ui_apply w ev = Some w' -> conditions_ok (w_form w').
Proof.
  intros [Hb Ht] H. unfold ui_apply in H. destruct (control_value_ok ev) eqn:Ev; [|discriminate].
  destruct ev as [fld v|key c|pos tf v|news|id| |]; cbn in H.
  - destruct (decide _); [|discriminate]. injection H as <-. split; [|done]. cbn.
    destruct (decide (BatteryCondition = fld)) as [<-|]; [|done]. cbn in Ev. by apply bool_decide_eq_true in Ev.
  - destruct (_ && _); [|discriminate]. injection H as <-. by split.
  - destruct (_ && _); [|discriminate]. injection H as <-. split; [done|]. cbn.
    apply tyre_change_conditions; [|done]. intros ->. cbn in Ev. by apply bool_decide_eq_true in Ev.
  - destruct (Nat.eqb _ _); [|discriminate]. injection H as <-. cbn.
    unfold handle_image_upload. by destruct (Nat.ltb _ _).
  - destruct (Nat.eqb _ _); [|discriminate]. injection H as <-. by split.
  - destruct (Nat.leb _ _); [|discriminate]. injection H as <-. unfold handle_next.
    by destruct (validate_step _ _).
  - destruct (Nat.eqb _ _); [discriminate|]. injection H as <-. by split.
Qed.

(** Every state the wizard reaches holds, for the battery and for each
    tyre, one of the options of the condition radio groups, [good] when
    nothing was chosen: the conditions the wizard submits are among
    [good], [average] and [bad]. *)
Lemma wizard_conditions_from_radios clock w d :
  wizard_reachable clock (w, d) -> conditions_ok (w_form w).
Proof.
  intros H. change w with (fst (w, d)). induction H as [d0|[w1 d1] [w2 d2] _ IH Hstep]; cbn in *.
  - exact initial_conditions.
  - inversion Hstep as [? ? ev ? Hui|fault off names fuel ? ? e r d' _ _ _]; subst.
    + by eapply ui_apply_conditions.
    + destruct e; cbn; first [exact initial_conditions | exact IH].
Qed.

Lemma ui_run_reachable clock w d evs w' :
  wizard_reachable clock (w, d) -> ui_run w evs = Some w' -> wizard_reachable clock (w', d).
Proof.
  revert w. induction evs as [|ev evs IH]; intros w Hr H; simpl in H; [by injection H as <-|].
  destruct (ui_apply w ev) as [w1|] eqn:E; [|discriminate].
  apply (IH w1); [|done]. eapply wr_step; [exact Hr | by apply ws_ui with ev].
Qed.

Lemma required_nonblank f :
  step_valid 0 f = true -> step_valid 1 f = true ->
  Forall (fun s => blank s = false) (map (f_text f) (required_fields 0 ++ required_fields 1)).
Proof.
  unfold step_valid. cbn [validate_step]. rewrite !check_required_ok. simpl snd.
  intros H0 H1. apply Forall_forall. intros s Hs.
  apply in_map_iff in Hs as (g & <- & Hg). apply in_app_or in Hg as [Hg|Hg];
    [apply forallb_forall with (x := g) in H0 | apply forallb_forall with (x := g) in H1];
    try done; by apply negb_true_iff.
Qed.

Lemma battery_tyres_nonblank f :
  step_valid 3 f = true ->
  blank (f_text f BatteryMake) = false /\ blank (f_text f BatteryNumber) = false /\
  Forall (fun t => blank (ti_make t) = false /\ blank (ti_number t) = false) (f_tyres f).
Proof.
  unfold step_valid. cbn [validate_step]. rewrite check_tyres_ok.
  destruct (blank (f_text f BatteryMake)), (blank (f_text f BatteryNumber)); simpl;
    try discriminate.
  intros H. do 2 (split; [done|]). apply Forall_forall. intros t Ht.
  apply forallb_forall with (x := t) in H; [|done].
  apply negb_true_iff, orb_false_iff in H. done.
Qed.

Lemma form_body_fields client_off now_ms f b :
  form_body client_off now_ms f = Some b ->
  cb_documents b = Some (f_documents f) /\ cb_tyres b = Some (f_tyres f) /\
  cb_battery_make b = f_text f BatteryMake /\ cb_battery_number b = f_text f BatteryNumber /\
  [agreement_no (cb_intake b); financier_name (cb_intake b); owner_name (cb_intake b);
   address (cb_intake b); registration_number (cb_intake b); vehicle_type (cb_intake b);
   make (cb_intake b); model (cb_intake b); year (cb_intake b); engine_no (cb_intake b);
   chassis_no (cb_intake b); kms_run (cb_intake b)]
  = map (f_text f) (required_fields 0 ++ required_fields 1).
Proof.
  unfold form_body, form_intake. destruct (parse_iso_date _); [|discriminate].
  intros H. injection H as <-. done.
Qed.

(** A body built from a form with documents and tyres is committed by a
    store without failures. *)
Lemma post_form_commits client_off now_ms f b d :
  f_documents f <> [] -> f_tyres f <> [] -> form_body client_off now_ms f = Some b ->
  post_vehicles no_fault b now_ms d =
    (Ok (next_vehicle_id d), intake_effect b now_ms (f_documents f) (f_tyres f) d).
Proof.
  intros Hd Ht Hb. destruct (form_body_fields _ _ _ _ Hb) as (Hbd & Hbt & _).
  unfold post_vehicles, transaction, se_bind, se_of_option, se_ret, exec, no_fault.
  simpl. rewrite Hbd. destruct (f_documents f) as [|e0 es]; [done|]. simpl.
  rewrite Hbt. destruct (f_tyres f) as [|t0 ts]; [done|]. reflexivity.
Qed.

(** C8: Every body the wizard submits is a complete intake in the sense of
    the spec (so the spec's [ValidationError] cannot arise from the
    shipped screen), and a store without failures commits it. *)
Theorem wizard_submission_complete clock w d client_off now_ms b :
  wizard_reachable clock (w, d) -> w_step w = last_step ->
  step_valid last_step (w_form w) = true ->
  form_body client_off now_ms (w_form w) = Some b ->
  intake_complete b /\
  post_vehicles no_fault b now_ms d =
    (Ok (next_vehicle_id d), intake_effect b now_ms (f_documents (w_form w)) (f_tyres (w_form w)) d).
Proof.
  intros Hr Hs _ Hb.
  destruct (reachable_wizard_inv _ _ Hr) as ((Hd & Ht & _) & _ & Hprev). simpl in *.
  rewrite Hs in Hprev. unfold last_step in Hprev.
  destruct (form_body_fields _ _ _ _ Hb) as (Hbd & Hbt & Hbm & Hbn & Hfields).
  destruct (battery_tyres_nonblank (w_form w) (Hprev 3 ltac:(lia))) as (Hm & Hn & Hty).
  split.
  - split; [exists (f_documents (w_form w)); do 2 (split; [done|])|].
    { pose proof (Hprev 2 ltac:(lia)) as H2. unfold step_valid in H2. simpl in H2.
      by destruct (existsb snd _). }
    split; [exists (f_tyres (w_form w)); by do 2 (split; [done|])|].
    rewrite Hbm, Hbn. do 2 (split; [done|]). simpl. rewrite Hfields.
    apply required_nonblank; apply Hprev; lia.
  - apply (post_form_commits client_off); [| |done].
    + intros E. rewrite E in Hd. discriminate.
    + intros E. rewrite E in Ht. discriminate.
Qed.

Lemma form_body_dated client_off now_ms f z :
  parse_iso_date (f_text f InDate) = Some z -> form_body client_off now_ms f <> None.
Proof.
  intros H. unfold form_body, form_intake, or_default.
  destruct (String.eqb_spec (f_text f InDate) "") as [E|_]; [rewrite E in H; discriminate|].
  rewrite H. discriminate.
Qed.

Lemma intake_effect_vehicles b now_ms es ts d :
  length (vehicles (intake_effect b now_ms es ts d)) = S (length (vehicles d)).
Proof. simpl. rewrite length_app. simpl. lia. Qed.

Lemma upload_images_too_big fault names vid f d :
  existsb (fun u => Z.ltb multer_max_file_size (uf_size u)) (omap img_file (f_images f)) = true ->
  upload_images fault names vid f d = (Err StorageError, d).
Proof.
  intros H. unfold upload_images.
  replace (forallb _ _) with false; [reflexivity|].
  symmetry. apply not_true_iff_false. intros Hall.
  apply existsb_exists in H as (u & Hu & Hbig). apply forallb_forall with (x := u) in Hall;
    [|done]. apply Z.leb_le in Hall. apply Z.ltb_lt in Hbig. lia.
Qed.

(** C9: The Submit button of a form holding a photo over multer's limit,
    clicked in a render whose [retryCount] is below three: every attempt
    commits the vehicle, then fails on the upload, and the loop retries
    again.  However many attempts are run, the loop has not ended and
    each attempt has added a vehicle row. *)
Theorem retry_loop_unbounded client_off names clock n k c f d :
  c < 3 -> step_valid last_step f = true ->
  f_documents f <> [] -> f_tyres f <> [] ->
  (forall k, form_body client_off (clock k) f <> None) ->
  existsb (fun u => Z.ltb multer_max_file_size (uf_size u)) (omap img_file (f_images f)) = true ->
  let '(e, r, d') := submit_chain no_fault client_off names clock n k c last_step f d in
  e = StillRetrying /\ r = n /\ length (vehicles d') = length (vehicles d) + n.
Proof.
  intros Hc Hv Hd Ht Hbody Hbig. revert k d.
  induction n as [|n IH]; intros k d; simpl; [split; [done | lia]|].
  rewrite Hv. simpl.
  destruct (form_body client_off (clock k) f) as [b|] eqn:Hb; [|by destruct (Hbody k)].
  unfold submit_attempt, submit_vehicle_data, se_bind at 1. rewrite Hb.
  rewrite (post_form_commits client_off (clock k) f b d Hd Ht Hb).
  assert (Himg : Nat.eqb (length (f_images f)) 0 = false).
  { apply Nat.eqb_neq. intros E. apply length_zero_iff_nil in E. rewrite E in Hbig. done. }
  unfold se_bind. rewrite Himg, upload_images_too_big by exact Hbig.
  rewrite (proj2 (Nat.ltb_lt c 3) Hc).
  specialize (IH (S k) (intake_effect b (clock k) (f_documents f) (f_tyres f) d)).
  destruct (submit_chain _ _ _ _ n (S k) c last_step f _) as [[e r] d'].
  destruct IH as (-> & -> & Hlen). do 2 (split; [done|]). rewrite Hlen, intake_effect_vehicles. lia.
Qed.

Section DefaultDate.
Local Open Scope Z_scope.

Lemma day_after_local_midnight o now_ms :
  (0 < o < day_ms -> (now_ms + o) mod day_ms < o ->
   (now_ms + o) / day_ms = now_ms / day_ms + 1)%Z.
Proof.
  intros Ho Hm. unfold day_ms in *.
  pose proof (Z.div_mod now_ms 86400000 ltac:(lia)) as Hq.
  pose proof (Z.mod_pos_bound now_ms 86400000 ltac:(lia)) as Hr.
  set (q := now_ms / 86400000) in *. set (r := now_ms mod 86400000) in *.
  destruct (Z.lt_ge_cases (r + o) 86400000) as [Hlt|Hge].
  - exfalso.
    assert (E : r + o = (now_ms + o) mod 86400000) by (apply Z.mod_unique with q; lia).
    lia.
  - symmetry. apply Z.div_unique with (r + o - 86400000); lia.
Qed.

(** A form whose date is left empty records the UTC date of the
    submission, [toISOString]'s: in a browser east of UTC, before the
    offset has elapsed after local midnight, that is the day before the
    local date. *)
Theorem default_in_date client_off now_ms f :
  f_text f InDate = "" -> (0 <= now_ms / day_ms < checked_days)%Z ->
  exists i, form_intake client_off now_ms f = Some i /\ in_date i = (now_ms / day_ms)%Z /\
    (0 < client_off < 1440 -> (now_ms + client_off * 60000) mod day_ms < client_off * 60000 ->
     in_date i = (now_ms + client_off * 60000) / day_ms - 1)%Z.
Proof.
  intros Hd Hz. unfold form_intake. rewrite Hd.
  change (or_default "" (iso_date_of_ms now_ms)) with (iso_date_of_ms now_ms).
  unfold iso_date_of_ms.
  rewrite (iso_roundtrip_check_spec _ 0 iso_roundtrip_checked _ (checked_days_range _ Hz)).
  eexists. split; [reflexivity|]. split; [reflexivity|]. cbn [in_date].
  intros Ho Hm. rewrite (day_after_local_midnight (client_off * 60000)); [lia| |done].
  unfold day_ms. lia.
Qed.
End DefaultDate.

Lemma filled_wizard_reachable clock d photo :
  photo = small_photo \/ photo = big_photo ->
  wizard_reachable clock (filled_wizard "2024-01-01" photo, d).
Proof.
  intros Hp. apply (ui_run_reachable clock wizard_init d (fill_events "2024-01-01" photo));
    [constructor|].
  unfold filled_wizard.
  destruct (ui_run _ _) eqn:E; [reflexivity|].
  destruct Hp as [->| ->]; vm_compute in E; discriminate.
Qed.

Lemma wizard_reachable_inv_witness :
  wizard_inv (filled_wizard "2024-01-01" small_photo) /\
  w_step (filled_wizard "2024-01-01" small_photo) = last_step.
Proof.
  split; [|vm_compute; reflexivity].
  apply (wizard_reachable_inv (fun _ => 0%Z) _ empty_db).
  exact (filled_wizard_reachable _ _ _ (or_introl eq_refl)).
Defined.

Lemma wizard_submission_complete_witness :
  let w := filled_wizard "2024-01-01" small_photo in
  match form_body 330 spec_example_now (w_form w) with
  | Some b =>
      intake_complete b /\
      post_vehicles no_fault b spec_example_now empty_db =
        (Ok (next_vehicle_id empty_db),
         intake_effect b spec_example_now (f_documents (w_form w)) (f_tyres (w_form w)) empty_db)
  | None => False
  end.
Proof.
  intros w. destruct (form_body 330 spec_example_now (w_form w)) as [b|] eqn:E;
    [|vm_compute in E; discriminate].
  apply (wizard_submission_complete (fun _ => 0%Z) w empty_db 330 spec_example_now b);
    [exact (filled_wizard_reachable _ _ _ (or_introl eq_refl)) | vm_compute; reflexivity
    | vm_compute; reflexivity | exact E].
Defined.

Lemma retry_loop_unbounded_witness :
  let f := w_form (filled_wizard "2024-01-01" big_photo) in
  let '(e, r, d') := submit_chain no_fault 330 uf_name attempt_clock 3 0 0 last_step f empty_db in
  e = StillRetrying /\ r = 3 /\ length (vehicles d') = length (vehicles empty_db) + 3.
Proof.
  apply retry_loop_unbounded; [lia | vm_compute; reflexivity | vm_compute; discriminate
  | vm_compute; discriminate | intros k; apply (form_body_dated _ _ _ 19723); vm_compute; reflexivity
  | vm_compute; reflexivity].
Defined.

(** A run that ended is not changed by more fuel. *)
Lemma submit_chain_more_fuel fault client_off names clock fuel fuel' k c step f d e r d' :
  submit_chain fault client_off names clock fuel k c step f d = (e, r, d') -> e <> StillRetrying ->
  fuel <= fuel' -> submit_chain fault client_off names clock fuel' k c step f d = (e, r, d').
Proof.
  revert fuel' k d e r d'. induction fuel as [|fuel IH]; intros fuel' k d e r d' Hrun He Hle;
    [cbn in Hrun; congruence|].
  destruct fuel' as [|fuel']; [lia|]. cbn [submit_chain] in *.
  destruct (negb (step_valid step f)); [done|].
  destruct (submit_attempt _ _ _ _ _ _) as [[] d1]; [done|].
  destruct (Nat.ltb c 3); [|done].
  destruct (submit_chain _ _ _ _ fuel _ _ _ _ _) as [[e1 r1] d2] eqn:E.
  injection Hrun as <- <- <-. rewrite (IH fuel' (S k) d1 e1 r1 d2 E He) by lia. done.
Qed.

(** C39: The retry loop of a click ends after one attempt in a render
    whose [retryCount] has reached three, whatever the storage and the
    upload do: the attempt succeeds, the form is refused, or the failure
    is reported; the result is the same for every fuel of one or more,
    so the fuel bound of [submit_chain] never cuts such a run short. *)
Theorem submit_chain_terminates fault client_off names clock k c step f d fuel :
  3 <= c -> 1 <= fuel ->
  submit_chain fault client_off names clock fuel k c step f d =
  submit_chain fault client_off names clock 1 k c step f d /\
  fst (fst (submit_chain fault client_off names clock 1 k c step f d)) <> StillRetrying.
Proof.
  intros Hc Hf. destruct fuel as [|fuel]; [lia|]. cbn [submit_chain].
  destruct (negb (step_valid step f)); [done|].
  destruct (submit_attempt _ _ _ _ _ _) as [[] d']; [done|].
  replace (Nat.ltb c 3) with false by (symmetry; apply Nat.ltb_ge; lia). done.
Qed.

(** The photo over the limit, clicked in a render whose count is three:
    the loop gives up after one attempt. *)
Lemma submit_chain_terminates_witness :
  let f := w_form (filled_wizard "2024-01-01" big_photo) in
  submit_chain no_fault 330 uf_name attempt_clock 5 0 3 last_step f empty_db =
  submit_chain no_fault 330 uf_name attempt_clock 1 0 3 last_step f empty_db /\
  fst (fst (submit_chain no_fault 330 uf_name attempt_clock 1 0 3 last_step f empty_db)) <> StillRetrying.
Proof. apply submit_chain_terminates; lia. Defined.

Lemma default_in_date_witness :
  exists i, form_intake 330 (date_ms 19723 + 72000000) initial_form = Some i /\
    in_date i = ((date_ms 19723 + 72000000) / day_ms)%Z /\
    ((0 < 330 < 1440)%Z -> ((date_ms 19723 + 72000000 + 330 * 60000) mod day_ms < 330 * 60000)%Z ->
     in_date i = ((date_ms 19723 + 72000000 + 330 * 60000) / day_ms - 1)%Z).
Proof.
  apply default_in_date;
    [reflexivity | unfold date_ms, day_ms, checked_days; split; [vm_compute; discriminate | vm_compute; reflexivity]].
Defined.

(** The operator reaches the battery and tyre step, marks the front left
    tyre [average] and the battery [bad]. *)
Definition condition_events : list ui_event :=
  firstn 18 (fill_events "2024-01-01" small_photo) ++
  [EvTyre "Front Left" TyreCondition "average"; EvText BatteryCondition "bad"].

Lemma wizard_conditions_from_radios_witness :
  conditions_ok (w_form (default wizard_init (ui_run wizard_init condition_events))).
Proof.
  apply (wizard_conditions_from_radios attempt_clock _ yard_db).
  apply (ui_run_reachable attempt_clock wizard_init yard_db condition_events); [constructor|].
  destruct (ui_run _ _) eqn:E; [reflexivity|]. vm_compute in E. discriminate.
Defined.
