(* ===== verification/System.v ===== *)
(** * System: the requests the shipped client issues, as a step relation

    The server answers one request at a time against the shared MySQL
    database; the handlers' transactions make each request atomic, so an
    execution is a sequence of requests.  Operators' screens run
    concurrently: a checkout is a quote ([handleSearch], Checkout.jsx)
    followed, arbitrarily later, by a payment ([handlePayment]).  The
    system state is therefore the database and the quotes shown on
    screens and not yet paid.  Every step may meet any pattern of
    storage failures ([fault] is chosen per step).

    [client_reachable] allows the requests the shipped screens send:
    VehicleEntryForm.jsx (intake and images), VehicleList.jsx (edit,
    whose patch never names [status], and delete), Settings.jsx (price
    table, locations, vehicle types) and Checkout.jsx (quote, pay).
    [api_reachable] also allows any PUT body, which the API accepts.

    The invariant [db_inv] (ids distinct and below the counter, status
    [active] or [checked_out], [checked_out] exactly when a checkout row
    names the vehicle) is proved of every client-reachable state; every
    handler but intake and checkout only shrinks the vehicle table
    ([shrink]), which keeps it. *)

From stdpp Require Import base list strings decidable.
From Stdlib Require Import ZArith Lia.
From S2P Require Import Prelude Schema Store VehicleStore Pricing Settings Checkout.

(** The writing requests other than the payment. *)
Inductive request :=
| RCreate (b : create_body) (now : Z)
| RDelete (vid : nat)
| RUpdate (vid : nat) (b : put_body)
| RImages (vid : nat) (files : list (string * string))
| RPrices (ps : option (list price_row))
| RAddLocation (b : location_body)
| RDeleteLocation (id : nat)
| RUpdateLocation (id : nat) (name address : string) (capacity : Z)
| RAddVehicleType (name : string)
| RDeleteVehicleType (id : nat).

Definition serve (fault : stmt -> db -> bool) (rq : request) : handler unit :=
  match rq with
  | RCreate b now => post_vehicles fault b now ;; se_ret tt
  | RDelete vid => delete_vehicle fault vid
  | RUpdate vid b => put_vehicle fault vid b
  | RImages vid files => post_images fault vid files ;; se_ret tt
  | RPrices ps => post_prices fault ps
  | RAddLocation b => post_location fault b ;; se_ret tt
  | RDeleteLocation id => delete_location fault id
  | RUpdateLocation id nm ad cap => put_location fault id nm ad cap ;; se_ret tt
  | RAddVehicleType nm => post_vehicle_type fault nm ;; se_ret tt
  | RDeleteVehicleType id => delete_vehicle_type fault id
  end.

(** The shipped edit dialog never sends [status]. *)
Definition client_request (rq : request) : Prop :=
  match rq with
  | RUpdate _ b => vp_status (pb_vehicle b) = None
  | _ => True
  end.

Record sys := { sdb : db; pending : list checkout_row }.

Definition sys_init : sys := {| sdb := empty_db; pending := [] |}.

Section Steps.
(** The collation of [registration_number], fixed by the deployment. *)
Context (collate : string -> string).
(** Which requests may be sent. *)
Context (allowed : request -> Prop).

Inductive step : sys -> sys -> Prop :=
| step_request fault rq s r d' :
    allowed rq -> serve fault rq (sdb s) = (r, d') ->
    step s {| sdb := d'; pending := pending s |}
| step_quote status_fault query now_ms s sr bl :
    handle_search collate deployed_rate status_fault query now_ms (sdb s) = Ok (sr, bl) ->
    step s {| sdb := sdb s; pending := payment_body sr bl :: pending s |}
| step_pay fault r s res d' :
    In r (pending s) -> post_checkouts fault r (sdb s) = (res, d') ->
    step s {| sdb := d'; pending := remove_one r (pending s) |}.

Inductive reachable : sys -> Prop :=
| reach_init : reachable sys_init
| reach_step s s' : reachable s -> step s s' -> reachable s'.
End Steps.

Definition client_reachable collate := reachable collate client_request.
Definition api_reachable collate := reachable collate (fun _ => True).

(** ** Executable traces

    A trace is a list of operators' actions run against a store that
    accepts every statement: a request, a quote taken on a screen, or
    the payment of the [k]-th quote on screen.  A quote that fails
    leaves the system as it was (the screen shows the error). *)
Inductive action :=
| ARequest (rq : request)
| AQuote (query : string) (now_ms : Z)
| APay (k : nat).

Definition run_action (collate : string -> string) (s : sys) (a : action) : sys :=
  match a with
  | ARequest rq => {| sdb := snd (serve no_fault rq (sdb s)); pending := pending s |}
  | AQuote q now =>
      match handle_search collate deployed_rate false q now (sdb s) with
      | Ok (sr, bl) => {| sdb := sdb s; pending := payment_body sr bl :: pending s |}
      | Err _ => s
      end
  | APay k =>
      match nth_error (pending s) k with
      | Some r => {| sdb := snd (post_checkouts no_fault r (sdb s));
                     pending := remove_one r (pending s) |}
      | None => s
      end
  end.

Definition run_trace (collate : string -> string) (s : sys) (tr : list action) : sys :=
  fold_left (run_action collate) tr s.

Definition action_allowed (allowed : request -> Prop) (a : action) : Prop :=
  match a with ARequest rq => allowed rq | _ => True end.

(** Two operators quote the same car a minute apart, then both pay. *)
Definition race_trace : list action := [
  ARequest (RCreate (sample_body "KA01AB1234" sample_tyres) 0);
  AQuote "KA01AB1234" spec_example_now;
  AQuote "KA01AB1234" (spec_example_now + 60000);
  APay 0;
  APay 0].

(** A car is checked out, and later taken in again under the same
    registration number. *)
Definition reintake_trace : list action := [
  ARequest (RCreate (sample_body "KA01AB1234" sample_tyres) 0);
  AQuote "KA01AB1234" spec_example_now;
  APay 0;
  ARequest (RCreate (sample_body "KA01AB1234" sample_tyres) 1)].

(** A checked-out car whose status is set back through the API. *)
Definition reactivate_patch : vpatch := {|
  vp_agreement_no := None; vp_financier_name := None; vp_owner_name := None;
  vp_address := None; vp_registration_number := None; vp_vehicle_type := None;
  vp_make := None; vp_model := None; vp_year := None; vp_engine_no := None;
  vp_chassis_no := None; vp_kms_run := None; vp_in_date := None; vp_in_time := None;
  vp_in_place := None; vp_additional_details := None; vp_status := Some status_active
|}.

Definition reactivate_trace : list action := [
  ARequest (RCreate (sample_body "KA01AB1234" sample_tyres) 0);
  AQuote "KA01AB1234" spec_example_now;
  APay 0;
  ARequest (RUpdate 1 {| pb_vehicle := reactivate_patch;
                         pb_battery := pb_battery sample_put_body;
                         pb_tyres := None; pb_documents := None |})].

(** ** The consistency invariant *)

(** The (id, status) pairs of the vehicles table. *)
Definition id_status (d : db) : list (nat * string) :=
  map (fun v => (v_id v, v_status v)) (vehicles d).

(** One vehicle is consistent: its id is below the counter, its status
    is [active] or [checked_out], and it is [checked_out] exactly when a
    checkout row names it.  The last point makes the two notions of
    "parked" the code uses agree: [status = 'active'] (occupancy,
    server.js 216) and [NOT IN (SELECT vehicle_id FROM checkouts)]
    (vehicle list, server.js 83). *)
Definition vehicle_ok (d : db) (e : nat * string) : Prop :=
  let '(i, st) := e in
  i < next_vehicle_id d /\
  (st = status_active \/ st = status_checked_out) /\
  (st = status_checked_out <-> has_checkout d i = true).

Definition db_inv (d : db) : Prop :=
  List.NoDup (map fst (id_status d)) /\
  Forall (vehicle_ok d) (id_status d) /\
  Forall (fun c => c_vehicle_id c < next_vehicle_id d) (checkouts d).

(** The quotes on screen name vehicles that were taken in. *)
Definition sys_inv (s : sys) : Prop :=
  db_inv (sdb s) /\ Forall (fun c => c_vehicle_id c < next_vehicle_id (sdb s)) (pending s).

(** The invariant as a boolean check, to test concrete stores. *)
Definition vehicle_okb (d : db) (e : nat * string) : bool :=
  let '(i, st) := e in
  Nat.ltb i (next_vehicle_id d) &&
  (String.eqb st status_active || String.eqb st status_checked_out) &&
  Bool.eqb (String.eqb st status_checked_out) (has_checkout d i).

Definition db_invb (d : db) : bool :=
  bool_decide (NoDup (map fst (id_status d))) &&
  forallb (vehicle_okb d) (id_status d) &&
  forallb (fun c => Nat.ltb (c_vehicle_id c) (next_vehicle_id d)) (checkouts d).

(** ** The shrink frame

    Every handler other than intake and checkout at most deletes
    vehicles, and keeps the status of the others, the checkouts and the
    id counter: the (id, status) list of the result is a sublist of the
    initial one. *)
Definition shrink : frame := {|
  fr_rel := fun d d' => id_status d' `sublist_of` id_status d /\
                        checkouts d' = checkouts d /\
                        next_vehicle_id d' = next_vehicle_id d;
  fr_refl := ltac:(intros d; split; [reflexivity | split; reflexivity]);
  fr_trans := ltac:(intros d1 d2 d3 (H1 & H2 & H3) (H4 & H5 & H6);
                    split; [etransitivity; eassumption | split; congruence])
|}.

Definition shrink_stmt (s : stmt) : Prop :=
  match s with
  | InsertVehicle _ _ | InsertCheckout _ | MarkCheckedOut _ => False
  | UpdateVehicle p _ => vp_status p = None
  | _ => True
  end.

(** ** Frame lemmas *)

Lemma id_status_patch p vid (l : list vehicle) :
  vp_status p = None ->
  map (fun v => (v_id v, v_status v))
      (map (fun v => if Nat.eqb (v_id v) vid then patch_vehicle p v else v) l) =
  map (fun v => (v_id v, v_status v)) l.
Proof.
  intros Hp. induction l as [|v l IH]; [done|]. simpl. rewrite IH.
  destruct (Nat.eqb (v_id v) vid); [|done]. unfold patch_vehicle. simpl. by rewrite Hp.
Qed.

Lemma shrink_frame : stmt_preserves shrink shrink_stmt.
Proof.
  intros s d pk d' Hs H.
  destruct s; simpl in Hs; try contradiction; simpl in H;
    repeat case_match; simplify_eq; simpl;
    (split; [|split; reflexivity]); unfold id_status; simpl;
    try reflexivity; try apply sublist_map_keep_unless.
  by rewrite id_status_patch.
Qed.

Ltac shrink_tac :=
  preserves_tac; try (apply (preserves_exec _ _ _ _ shrink_frame); simpl; done).

Lemma put_vehicle_shrink fault vid b :
  vp_status (pb_vehicle b) = None -> preserves shrink (put_vehicle fault vid b).
Proof. intros Hp. unfold put_vehicle, replace_tyres, replace_documents. shrink_tac. Qed.

Lemma delete_vehicle_shrink fault vid : preserves shrink (delete_vehicle fault vid).
Proof. unfold delete_vehicle. shrink_tac. Qed.

Lemma post_images_shrink fault vid files : preserves shrink (post_images fault vid files).
Proof. unfold post_images. shrink_tac. Qed.

Lemma post_prices_shrink fault ps : preserves shrink (post_prices fault ps).
Proof. unfold post_prices. shrink_tac. Qed.

Lemma post_location_shrink fault b : preserves shrink (post_location fault b).
Proof. unfold post_location. shrink_tac. Qed.

Lemma delete_location_shrink fault id : preserves shrink (delete_location fault id).
Proof. unfold delete_location. shrink_tac. Qed.

Lemma put_location_shrink fault id nm ad cap : preserves shrink (put_location fault id nm ad cap).
Proof. unfold put_location. shrink_tac. Qed.

Lemma post_vehicle_type_shrink fault nm : preserves shrink (post_vehicle_type fault nm).
Proof. unfold post_vehicle_type. shrink_tac. Qed.

Lemma delete_vehicle_type_shrink fault id : preserves shrink (delete_vehicle_type fault id).
Proof. unfold delete_vehicle_type. shrink_tac. Qed.

(** ** The invariant, handler by handler *)

Lemma has_checkout_spec d i :
  has_checkout d i = true <-> exists c, In c (checkouts d) /\ c_vehicle_id c = i.
Proof.
  unfold has_checkout. rewrite existsb_exists.
  split; intros (c & Hc & E); exists c; split; try done; by apply Nat.eqb_eq in E || apply Nat.eqb_eq.
Qed.

(** No checkout row names an id at or above the counter. *)
Lemma has_checkout_fresh d i :
  Forall (fun c => c_vehicle_id c < next_vehicle_id d) (checkouts d) ->
  next_vehicle_id d <= i -> has_checkout d i = false.
Proof.
  intros Hall Hi. destruct (has_checkout d i) eqn:E; [|done].
  apply has_checkout_spec in E as (c & Hc & <-).
  rewrite Forall_forall in Hall. specialize (Hall c Hc). lia.
Qed.

Lemma vehicle_ok_transport d d' e :
  next_vehicle_id d' = next_vehicle_id d -> checkouts d' = checkouts d ->
  vehicle_ok d e -> vehicle_ok d' e.
Proof.
  destruct e as [i st]. unfold vehicle_ok, has_checkout. intros -> ->. done.
Qed.

Lemma db_inv_shrink d d' : shrink d d' -> db_inv d -> db_inv d'.
Proof.
  intros (Hsub & Hc & Hn) (Hnd & Hv & Hco). unfold db_inv.
  rewrite Hc, Hn. split; [|split; [|done]].
  - eapply List_NoDup_sublist; [|exact Hnd]. by apply fmap_sublist.
  - apply (Forall_sublist_of _ _ _ Hsub). apply (Forall_weaken _ _ _ Hv). intros e.
    by apply vehicle_ok_transport.
Qed.

(** Intake: a fresh id, status [active], no checkout row for it. *)
Lemma db_inv_intake b now es ts d :
  db_inv d -> db_inv (intake_effect b now es ts d).
Proof.
  intros (Hnd & Hv & Hco). unfold db_inv, id_status in *. simpl.
  rewrite map_app. simpl. rewrite map_app. simpl.
  assert (Hfresh : ~ In (next_vehicle_id d) (map fst (map (fun v => (v_id v, v_status v)) (vehicles d)))).
  { intros Hin. apply in_map_iff in Hin as ([i st] & Ei & Hin). simpl in Ei. subst i.
    rewrite Forall_forall in Hv. specialize (Hv _ Hin). simpl in Hv. lia. }
  split; [|split].
  - apply List.NoDup_app; [done | repeat constructor; simpl; tauto |].
    intros x Hx [<-|[]]. by apply Hfresh.
  - apply Forall_app. split.
    + apply (Forall_weaken _ _ _ Hv). intros [i st] (Hi & Hst & Hiff).
      unfold vehicle_ok, has_checkout in *. simpl. split; [lia | tauto].
    + constructor; [|done]. unfold vehicle_ok. simpl.
      split; [lia|]. split; [by left|]. split.
      * intros E. discriminate E.
      * intros E. unfold has_checkout in E. simpl in E.
        fold (has_checkout d (next_vehicle_id d)) in E.
        rewrite (has_checkout_fresh d (next_vehicle_id d) Hco (le_n _)) in E. discriminate.
  - apply (Forall_weaken _ _ _ Hco). simpl. intros c Hc. lia.
Qed.

Lemma has_checkout_effect r d i :
  has_checkout (checkout_effect r d) i = has_checkout d i || Nat.eqb (c_vehicle_id r) i.
Proof. unfold has_checkout. simpl. rewrite existsb_app. simpl. by rewrite orb_false_r. Qed.

Lemma id_status_mark vid (l : list vehicle) :
  map (fun v => (v_id v, v_status v)) (mark_checked_out vid l) =
  map (fun e => if Nat.eqb (fst e) vid then (fst e, status_checked_out) else e)
      (map (fun v => (v_id v, v_status v)) l).
Proof. induction l as [|v l IH]; [done|]. simpl. rewrite IH. by destruct (Nat.eqb _ _). Qed.

(** Checkout: the named vehicle becomes [checked_out] and gains a
    checkout row; the others keep both. *)
Lemma db_inv_checkout r d :
  c_vehicle_id r < next_vehicle_id d -> db_inv d -> db_inv (checkout_effect r d).
Proof.
  intros Hr (Hnd & Hv & Hco). unfold db_inv, id_status in *. simpl.
  rewrite id_status_mark.
  split; [|split].
  - rewrite map_map. erewrite map_ext; [exact Hnd|]. intros [i st]. simpl.
    by destruct (Nat.eqb i _).
  - rewrite !Forall_map. rewrite Forall_map in Hv. apply (Forall_weaken _ _ _ Hv).
    intros v (Hi & Hst & Hiff). simpl.
    destruct (Nat.eqb_spec (v_id v) (c_vehicle_id r)) as [E|E];
      unfold vehicle_ok; rewrite has_checkout_effect; simpl.
    + rewrite E, Nat.eqb_refl, orb_true_r. split; [lia|]. split; [by right|done].
    + rewrite (proj2 (Nat.eqb_neq _ _) (not_eq_sym E)), orb_false_r. tauto.
  - apply Forall_app. split; [done|]. by constructor.
Qed.

Lemma db_inv_vehicle_lt d v : db_inv d -> In v (vehicles d) -> v_id v < next_vehicle_id d.
Proof.
  intros (_ & Hv & _) Hin. unfold id_status in Hv. rewrite Forall_map, Forall_forall in Hv.
  apply (Hv v Hin).
Qed.

Lemma search_by_plate_in collate q d sr :
  search_by_plate collate q d = Some sr -> In (sr_vehicle sr) (vehicles d).
Proof.
  unfold search_by_plate. destruct (List.find _ _) as [v|] eqn:E; [|done].
  intros H. injection H as <-. simpl. by apply find_some in E as [? _].
Qed.

(** A client request keeps the invariant of the database and never
    lowers the id counter. *)
Lemma serve_inv fault rq d r d' :
  client_request rq -> serve fault rq d = (r, d') -> db_inv d ->
  db_inv d' /\ next_vehicle_id d <= next_vehicle_id d'.
Proof.
  intros Hc Hs Hinv.
  assert (Hsh : preserves shrink (serve fault rq) ->
            db_inv d' /\ next_vehicle_id d <= next_vehicle_id d').
  { intros Hm. pose proof (Hm _ _ _ Hs) as Hf.
    split; [by eapply db_inv_shrink|]. destruct Hf as (_ & _ & ->). lia. }
  destruct rq as [b now|vid|vid b|vid files|ps|b|id|id nm ad cap|nm|id]; simpl in Hs.
  - pose proof (post_vehicles_all_or_nothing fault b now d) as H.
    unfold se_bind in Hs. destruct (post_vehicles fault b now d) as [[vid|e] d1].
    + injection Hs as _ <-. destruct H as (_ & es & ts & _ & _ & _ & _ & ->).
      split; [by apply db_inv_intake|]. simpl. lia.
    + injection Hs as _ <-. subst. split; [done | lia].
  - apply Hsh, delete_vehicle_shrink.
  - apply Hsh, put_vehicle_shrink, Hc.
  - apply Hsh, preserves_bind; [apply post_images_shrink | intros; apply preserves_ret].
  - apply Hsh, post_prices_shrink.
  - apply Hsh, preserves_bind; [apply post_location_shrink | intros; apply preserves_ret].
  - apply Hsh, delete_location_shrink.
  - apply Hsh, preserves_bind; [apply put_location_shrink | intros; apply preserves_ret].
  - apply Hsh, preserves_bind; [apply post_vehicle_type_shrink | intros; apply preserves_ret].
  - apply Hsh, delete_vehicle_type_shrink.
Qed.

(** C1: Every state the shipped client can reach, through any
    interleaving of operators' screens and any storage failures, has
    distinct vehicle ids below the counter, statuses [active] or
    [checked_out], and a vehicle is [checked_out] exactly when a
    checkout row names it. *)
Theorem client_reachable_inv collate s : client_reachable collate s -> sys_inv s.
Proof.
  induction 1 as [|s s' Hr IH Hstep].
  { split; [split; [constructor | split; constructor] | constructor]. }
  destruct IH as [Hdb Hpend].
  destruct Hstep as [fault rq s r d' Hc Hs|status_fault query now_ms s sr bl Hq|fault r s res d' Hin Hp].
  - destruct (serve_inv fault rq (sdb s) r d' Hc Hs Hdb) as [Hdb' Hle].
    split; [done|]. simpl. apply (Forall_weaken _ _ _ Hpend). intros c Hlt. lia.
  - split; [done|]. simpl. constructor; [|done].
    apply handle_search_ok in Hq as (Hsr & _).
    apply (db_inv_vehicle_lt _ _ Hdb). by eapply search_by_plate_in.
  - pose proof (post_checkouts_all_or_nothing fault r (sdb s)) as H. rewrite Hp in H.
    rewrite Forall_forall in Hpend. pose proof (Hpend r Hin) as Hlt.
    rewrite <- Forall_forall in Hpend.
    destruct res; subst; (split; [|simpl; by apply Forall_remove_one]).
    + by apply db_inv_checkout.
    + done.
Qed.


(** ** Traces are executions *)

Lemma run_action_reachable collate allowed s a :
  action_allowed allowed a -> reachable collate allowed s ->
  reachable collate allowed (run_action collate s a).
Proof.
  intros Ha Hr. destruct a as [rq|q now|k]; cbn -[serve handle_search post_checkouts].
  - destruct (serve no_fault rq (sdb s)) as [r d'] eqn:E. simpl.
    eapply reach_step; [exact Hr|]. by eapply step_request.
  - destruct (handle_search _ _ _ _ _ _) as [[sr bl]|e] eqn:E; [|done].
    eapply reach_step; [exact Hr|]. by eapply step_quote.
  - destruct (nth_error (pending s) k) as [r|] eqn:E; [|done].
    destruct (post_checkouts no_fault r (sdb s)) as [res d'] eqn:Ep. simpl.
    eapply reach_step; [exact Hr|]. eapply step_pay; [|exact Ep].
    by eapply nth_error_In.
Qed.

Lemma run_trace_reachable collate allowed s tr :
  Forall (action_allowed allowed) tr -> reachable collate allowed s ->
  reachable collate allowed (run_trace collate s tr).
Proof.
  unfold run_trace. intros Htr. revert s.
  induction Htr as [|a tr Ha _ IH]; intros s Hr; simpl; [done|].
  apply IH. by apply run_action_reachable.
Qed.

Lemma vehicle_okb_spec d e : vehicle_okb d e = true <-> vehicle_ok d e.
Proof.
  destruct e as [i st]. unfold vehicle_okb, vehicle_ok.
  rewrite !andb_true_iff, orb_true_iff, Nat.ltb_lt, !String.eqb_eq.
  destruct (String.eqb_spec st status_checked_out), (has_checkout d i); simpl;
    intuition congruence.
Qed.

Lemma db_invb_spec d : db_invb d = true <-> db_inv d.
Proof.
  unfold db_invb, db_inv.
  rewrite !andb_true_iff, bool_decide_eq_true, NoDup_ListNoDup, !forallb_forall, !Forall_forall.
  setoid_rewrite vehicle_okb_spec. setoid_rewrite Nat.ltb_lt. tauto.
Qed.

(** A vehicle of a consistent store is [active] or [checked_out], and
    it has no checkout row exactly when it is [active]. *)
Lemma db_inv_vehicle d v :
  db_inv d -> In v (vehicles d) ->
  (v_status v = status_active \/ v_status v = status_checked_out) /\
  negb (has_checkout d (v_id v)) = String.eqb (v_status v) status_active.
Proof.
  intros (_ & Hok & _) Hv. rewrite Forall_forall in Hok.
  destruct (Hok (v_id v, v_status v)) as (_ & Hst & Hiff);
    [unfold id_status; by apply (in_map (fun v => (v_id v, v_status v)))|].
  split; [done|].
  destruct Hst as [E|E]; rewrite E in Hiff |- *.
  - destruct (has_checkout d (v_id v)); [|done].
    pose proof (proj2 Hiff eq_refl). discriminate.
  - by rewrite (proj1 Hiff eq_refl).
Qed.

(** ** What the invariant does not give *)

(** C2: Two screens that quoted the same car before either paid both
    commit: the car has two checkout rows and was billed twice.  The
    spec's "at most one checkout per vehicle" fails under the client's
    own concurrency, because the commit does not re-check the status. *)
Theorem concurrent_quotes_double_checkout :
  let s := run_trace (fun x => x) sys_init race_trace in
  client_reachable (fun x => x) s /\ length (checkouts_of (sdb s) 1) = 2.
Proof.
  split.
  - apply run_trace_reachable; [repeat constructor | constructor].
  - vm_compute. reflexivity.
Qed.

(** C23: A car taken in again under the registration number of a car that
    was checked out can never be quoted: the search returns the older
    row ([vehicles[0]]), which has a checkout. *)
Theorem reintake_cannot_checkout :
  let s := run_trace (fun x => x) sys_init reintake_trace in
  client_reachable (fun x => x) s /\
  option_map v_status (find_vehicle (sdb s) 2) = Some status_active /\
  has_checkout (sdb s) 2 = false /\
  forall now_ms, handle_search (fun x => x) deployed_rate false "KA01AB1234" now_ms (sdb s)
                 = Err AlreadyCheckedOut.
Proof.
  split; [apply run_trace_reachable; [repeat constructor | constructor]|].
  split; [vm_compute; reflexivity|]. split; [vm_compute; reflexivity|].
  intros now_ms. vm_compute. reflexivity.
Qed.

(** The API accepts a [status] in PUT /api/vehicles/:id: a checked-out
    car can be made [active] again while its checkout row stays, which
    breaks the invariant (the spec makes [checked_out] terminal). *)
Theorem api_update_reactivates :
  let s := run_trace (fun x => x) sys_init reactivate_trace in
  api_reachable (fun x => x) s /\ ~ db_inv (sdb s).
Proof.
  split; [apply run_trace_reachable; [repeat constructor | constructor]|].
  intros (_ & Hv & _). vm_compute in Hv.
  inversion Hv as [|e l Hok _]. destruct Hok as (_ & _ & _ & Hiff).
  specialize (Hiff eq_refl). discriminate Hiff.
Qed.

(** The state after the race trace (before its duplicate is judged) is
    covered by the invariant. *)
Lemma client_reachable_inv_witness :
  sys_inv (run_trace (fun x => x) sys_init race_trace).
Proof.
  apply (client_reachable_inv (fun x => x)).
  apply run_trace_reachable; [repeat constructor | constructor].
Defined.
