(* ===== verification/Occupancy.v ===== *)
(** * Occupancy: the derived counts of parked vehicles

    Four places count the vehicles parked at a location, each its own way:
    - [location_counts]: GET /api/settings/locations (server.js 207-225),
      [COUNT(v.id)] over [v.status = 'active'] and the rounded
      percentage of the capacity;
    - [location_stats]: GET /api/locations/:id/stats (server.js 228-312),
      the vehicles of one location with their dues, today's revenue and
      an occupancy rate;
    - [vehicle_counts]: GET /api/locations/vehicle-counts
      (server.js 929-947), which counts [status = "parked"];
    - [dashboard_counts]: Dashboard.jsx [loadLocations] (lines 38-55),
      which counts the rows of GET /api/vehicles ([vehicle_list],
      server.js 66-109: the vehicles with no checkout row).
    The SQL queries compare names under the columns' collation
    ([collate], a parameter of [Collation] and [Stats]); the JavaScript
    filters compare with [===] ([at_location]).  [occupancy_views_gap]
    measures the difference between the two readings.  JavaScript
    numbers that can be [NaN] or [Infinity] (a division by an absent or
    zero capacity) are [None]: both are [null] in the JSON answer. *)

From stdpp Require Import base list strings decidable.
From Stdlib Require Import ZArith Lia.
From S2P Require Import Prelude Schema Store VehicleStore Settings Pricing Checkout System.

Local Open Scope Z_scope.

(** ** GET /api/vehicles: the vehicles without a checkout row *)

(** [ORDER BY v.created_at DESC]: insertion into a list sorted by
    decreasing creation time; rows with equal times keep id order. *)
Fixpoint insert_by_created (v : vehicle) (l : list vehicle) : list vehicle :=
  match l with
  | [] => [v]
  | w :: l' => if Z.ltb (v_created_at w) (v_created_at v) then v :: l
               else w :: insert_by_created v l'
  end.

Definition sort_by_created (l : list vehicle) : list vehicle :=
  fold_right insert_by_created [] l.

(** [WHERE v.id NOT IN (SELECT vehicle_id FROM checkouts)]. *)
Definition vehicle_list (d : db) : list vehicle :=
  sort_by_created (List.filter (fun v => negb (has_checkout d (v_id v))) (vehicles d)).

(** JavaScript's [v.in_place === name]. *)
Definition at_location (name : string) (v : vehicle) : bool :=
  String.eqb (in_place (v_data v)) name.

(** The SQL queries compare names under the columns' collation, which
    the repository does not fix (it ships no schema): [collate] maps a
    string to its collation key, the identity for a binary collation,
    case folding ([js_lower] on ASCII) for MySQL's default [_ci] ones. *)
Section Collation.
Context (collate : string -> string).

Definition sql_eq (a b : string) : bool := String.eqb (collate a) (collate b).

(** SQL's [v.in_place = ?]. *)
Definition sql_at_location (name : string) (v : vehicle) : bool :=
  sql_eq (in_place (v_data v)) name.

(** ** GET /api/settings/locations *)

(** MySQL [ROUND(count / capacity * 100)]: exact decimal division,
    rounded half away from zero; a zero capacity gives [NULL]. *)
Definition sql_round_pct (count cap : Z) : option Z :=
  if Z.eqb cap 0 then None else
  let num := 100 * count in
  let q := (2 * Z.abs num + Z.abs cap) / (2 * Z.abs cap) in
  Some (if Z.ltb (num * cap) 0 then - q else q).

Record location_count := {
  lc_location : location_row;
  lc_current_vehicles : Z;
  lc_occupancy : option Z
}.

(** [LEFT JOIN vehicles v ON v.in_place = l.name AND v.status = 'active'
    GROUP BY l.id]. *)
Definition active_at (d : db) (name : string) : Z :=
  Z.of_nat (count_where (fun v => sql_at_location name v && String.eqb (v_status v) status_active)
                        (vehicles d)).

Definition location_counts (d : db) : list location_count :=
  map (fun l => let n := active_at d (l_name l) in
                {| lc_location := l; lc_current_vehicles := n;
                   lc_occupancy := sql_round_pct n (l_capacity l) |})
      (locations d).

End Collation.

(** ** GET /api/locations/vehicle-counts *)

Definition parked_status : string := "parked".

Definition vehicle_counts (d : db) : list (location_row * Z) :=
  map (fun l => (l, Z.of_nat (count_where
                   (fun v => at_location (l_name l) v && String.eqb (v_status v) parked_status)
                   (vehicles d))))
      (locations d).

(** ** Dashboard.jsx [loadLocations] *)

Definition dashboard_counts (d : db) : list (location_row * Z) :=
  map (fun l => (l, Z.of_nat (count_where (at_location (l_name l)) (vehicle_list d))))
      (locations d).

(** A vehicle whose place the collation matches to [name] but [===]
    does not: ["yard a"] for ["Yard A"] under a [_ci] collation.  The
    edit dialog's [in_place] is a free text field (VehicleList.jsx). *)
Definition case_variant (collate : string -> string) (name : string) (v : vehicle) : bool :=
  sql_at_location collate name v && negb (at_location name v).

(** The number of active case variants of a location's name. *)
Definition active_variants (collate : string -> string) (d : db) (name : string) : nat :=
  count_where (fun v => case_variant collate name v && String.eqb (v_status v) status_active)
              (vehicles d).

(** ** GET /api/locations/:id/stats *)

Section Stats.
Context (collate : string -> string).

(** [Math.round((activeCount / capacity) * 100)], with [capacity] a
    JavaScript value that may be [undefined] ([None]). *)
Definition js_round_pct (count : Z) (cap : option Z) : option Z :=
  match cap with
  | None => None
  | Some c => if Z.eqb c 0 then None
              else Some (Z.div (200 * count + c) (2 * c))
  end.

(** The correlated subquery of the dues: the price rows of the location
    and the vehicle's type.  More than one row is a MySQL error. *)
Definition dues_price (d : db) (loc_id : nat) (vtype : string) : result Z err :=
  let rows := List.filter (fun p =>
                Nat.eqb (p_location_id p) loc_id &&
                existsb (fun vt => Nat.eqb (vt_id vt) (p_vehicle_type_id p) &&
                                   sql_eq collate (vt_name vt) vtype) (vehicle_types d))
              (location_vehicle_prices d) in
  match rows with
  | [] => Ok 0%Z
  | [p] => Ok (p_price p)
  | _ => Err StorageError
  end.

(** [DATEDIFF(CURRENT_DATE, v.in_date) * COALESCE(price, 0)] for an
    active vehicle, [0] otherwise. *)
Definition vehicle_dues (d : db) (loc_id : nat) (today : Z) (v : vehicle) : result Z err :=
  if String.eqb (v_status v) status_active then
    match dues_price d loc_id (vehicle_type (v_data v)) with
    | Ok p => Ok ((today - in_date (v_data v)) * p)%Z
    | Err e => Err e
    end
  else Ok 0%Z.

Fixpoint all_dues (d : db) (loc_id : nat) (today : Z) (vs : list vehicle)
  : result (list Z) err :=
  match vs with
  | [] => Ok []
  | v :: vs' =>
      match vehicle_dues d loc_id today v, all_dues d loc_id today vs' with
      | Ok x, Ok xs => Ok (x :: xs)
      | Err e, _ | _, Err e => Err e
      end
  end.

(** [calculateTodayRevenue]: the checkouts of [today] whose vehicle row
    (joined by id) is at the location. *)
Definition today_revenue (d : db) (name : string) (today : Z) : Z :=
  fold_right Z.add 0%Z
    (map c_total_amount
       (List.filter (fun c =>
          Z.eqb (c_checkout_date c) today &&
          existsb (fun v => Nat.eqb (v_id v) (c_vehicle_id c) && sql_at_location collate name v)
                  (vehicles d))
        (checkouts d))).

Record location_stats_answer := {
  st_active_vehicles : Z;
  st_today_revenue : Z;
  st_total_dues : Z;
  st_occupancy_rate : option Z;
  st_vehicles : list vehicle
}.

(** The location row is read with [SELECT name FROM locations], so the
    [capacity] passed to [calculateOccupancyRate] is [undefined]. *)
Definition location_stats (d : db) (loc_id : nat) (show_checked_out : bool) (today : Z)
  : result location_stats_answer err :=
  match List.find (fun l => Nat.eqb (l_id l) loc_id) (locations d) with
  | None => Err NotFound
  | Some l =>
      let wanted := if show_checked_out then status_checked_out else status_active in
      let vs := List.filter (fun v => sql_at_location collate (l_name l) v &&
                                      String.eqb (v_status v) wanted) (vehicles d) in
      match all_dues d loc_id today vs with
      | Err e => Err e
      | Ok dues =>
          let selected_capacity : option Z := None in
          Ok {| st_active_vehicles :=
                  Z.of_nat (count_where (fun v => String.eqb (v_status v) status_active) vs);
                st_today_revenue := today_revenue d (l_name l) today;
                st_total_dues := fold_right Z.add 0%Z dues;
                st_occupancy_rate := js_round_pct (Z.of_nat (length vs)) selected_capacity;
                st_vehicles := vs |}
      end
  end.
End Stats.

(** ** A yard with one car checked out and one parked

    Yard A is created through the settings page, a car is taken in,
    quoted and paid, and a second car is taken in under the same
    registration number. *)

Definition yard_a_body : location_body :=
  {| lb_name := Some "Yard A"; lb_address := Some "Ring road"; lb_capacity := Some "10" |}.

Definition occupancy_trace : list action :=
  ARequest (RAddLocation yard_a_body) :: reintake_trace.

Definition occupancy_db : db := sdb (run_trace (fun x => x) sys_init occupancy_trace).

(** The parked car's place edited to ["yard a"] in the edit dialog. *)
Definition lower_place_patch : vpatch := {|
  vp_agreement_no := None; vp_financier_name := None; vp_owner_name := None;
  vp_address := None; vp_registration_number := None; vp_vehicle_type := None;
  vp_make := None; vp_model := None; vp_year := None; vp_engine_no := None;
  vp_chassis_no := None; vp_kms_run := None; vp_in_date := None; vp_in_time := None;
  vp_in_place := Some "yard a"; vp_additional_details := None; vp_status := None
|}.

Definition variant_db : db :=
  sdb (run_trace (fun x => x) sys_init
         (occupancy_trace ++
          [ARequest (RUpdate 2 {| pb_vehicle := lower_place_patch;
                                  pb_battery := pb_battery sample_put_body;
                                  pb_tyres := None; pb_documents := None |})])).

(** ** Theorems *)

Lemma in_insert_by_created x v l : In x (insert_by_created v l) <-> x = v \/ In x l.
Proof.
  induction l as [|w l IH]; cbn; [intuition congruence|].
  destruct (Z.ltb _ _); cbn; [intuition congruence|]. rewrite IH. intuition congruence.
Qed.

Lemma in_sort_by_created x l : In x (sort_by_created l) <-> In x l.
Proof. induction l as [|w l IH]; cbn; [done|]. rewrite in_insert_by_created, IH. intuition congruence. Qed.

(** GET /api/vehicles lists exactly the vehicles without a checkout row. *)
Lemma in_vehicle_list d v : In v (vehicle_list d) <-> In v (vehicles d) /\ has_checkout d (v_id v) = false.
Proof. unfold vehicle_list. rewrite in_sort_by_created, filter_In, negb_true_iff. done. Qed.

Lemma count_where_insert_by_created p v l :
  count_where p (insert_by_created v l) = count_where p (v :: l).
Proof.
  unfold count_where. induction l as [|w l IH]; [done|]. simpl.
  destruct (v_created_at w <? v_created_at v); [done|]. simpl in *.
  destruct (p v), (p w); simpl in *; lia.
Qed.

Lemma count_where_sort p l : count_where p (sort_by_created l) = count_where p l.
Proof.
  induction l as [|v l IH]; [done|].
  change (sort_by_created (v :: l)) with (insert_by_created v (sort_by_created l)).
  rewrite count_where_insert_by_created. unfold count_where in *. simpl.
  destruct (p v); simpl; lia.
Qed.

Lemma count_where_filter {A} (p q : A -> bool) l :
  count_where p (List.filter q l) = count_where (fun x => p x && q x) l.
Proof.
  unfold count_where. induction l as [|x l IH]; [done|]. simpl.
  destruct (q x); simpl; destruct (p x); simpl; lia.
Qed.

Lemma count_where_ext_in {A} (p q : A -> bool) l :
  (forall x, In x l -> p x = q x) -> count_where p l = count_where q l.
Proof. intros H. unfold count_where. f_equal. by apply filter_ext_in. Qed.

(** The answer of GET /api/settings/locations carries every location
    row, in table order, whatever the collation. *)
Lemma location_counts_rows collate d : map lc_location (location_counts collate d) = locations d.
Proof. unfold location_counts. rewrite map_map. apply map_id. Qed.

Lemma at_location_sql collate name v :
  at_location name v = true -> sql_at_location collate name v = true.
Proof.
  unfold at_location, sql_at_location, sql_eq. intros H.
  apply String.eqb_eq in H as ->. apply String.eqb_refl.
Qed.

(** SQL's comparison matches what [===] matches and the case variants. *)
Lemma sql_at_location_split collate name v :
  sql_at_location collate name v = at_location name v || case_variant collate name v.
Proof.
  unfold case_variant. destruct (at_location name v) eqn:E; simpl.
  - by apply at_location_sql.
  - by rewrite andb_true_r.
Qed.

Lemma count_where_or {A} (p q : A -> bool) l :
  (forall x, In x l -> p x && q x = false) ->
  count_where (fun x => p x || q x) l = (count_where p l + count_where q l)%nat.
Proof.
  unfold count_where. induction l as [|x l IH]; intros Hd; [done|].
  pose proof (Hd x (or_introl eq_refl)) as Hx.
  specialize (IH (fun y Hy => Hd y (or_intror Hy))). cbn [List.filter].
  destruct (p x), (q x); cbn [orb andb length] in *; try discriminate; lia.
Qed.

(** Over the consistent stores, the parked vehicles of a location the
    dashboard counts are the [active] ones at exactly its name. *)
Lemma dashboard_count_active d name :
  db_inv d ->
  count_where (at_location name) (vehicle_list d) =
  count_where (fun v => at_location name v && String.eqb (v_status v) status_active) (vehicles d).
Proof.
  intros Hinv. unfold vehicle_list. rewrite count_where_sort, count_where_filter.
  apply count_where_ext_in. intros v Hv. by rewrite (proj2 (db_inv_vehicle d v Hinv Hv)).
Qed.

(** C6: The dashboard, which counts with [===] the rows of GET /api/vehicles
    (the vehicles without a checkout row) per location, and GET
    /api/settings/locations, which counts in SQL the [active] vehicles
    whose place equals the name under the column's collation, differ on
    every consistent store by exactly the active vehicles whose place is
    a case variant of the name: the server counts them, the dashboard
    does not.  Under a binary collation there are none and the two
    readings of "parked" agree; under MySQL's default [_ci] collation a
    place typed ["yard a"] in the edit dialog is counted at "Yard A" by
    the server and nowhere by the dashboard. *)
Theorem occupancy_views_gap collate d :
  db_inv d ->
  map (fun c => (lc_location c, lc_current_vehicles c)) (location_counts collate d) =
  map (fun '(l, n) => (l, n + Z.of_nat (active_variants collate d (l_name l)))) (dashboard_counts d).
Proof.
  intros Hinv. unfold location_counts, dashboard_counts. rewrite !map_map.
  apply map_ext. intros l. cbn. f_equal.
  rewrite dashboard_count_active by done. unfold active_at, active_variants.
  rewrite <- Nat2Z.inj_add, <- count_where_or.
  - f_equal. apply count_where_ext_in. intros v _.
    rewrite sql_at_location_split. by destruct (at_location _ _), (case_variant _ _ _), (String.eqb _ _).
  - intros v _. unfold case_variant. by destruct (at_location _ _), (sql_at_location _ _ _), (String.eqb _ _).
Qed.

(** With case folding as the collation, the store where the parked car
    was moved to ["yard a"]: the server counts it at Yard A, the
    dashboard shows the yard empty. *)
Lemma occupancy_views_gap_witness :
  db_inv variant_db /\
  map (fun c => (lc_location c, lc_current_vehicles c)) (location_counts js_lower variant_db) =
  map (fun '(l, n) => (l, n + Z.of_nat (active_variants js_lower variant_db (l_name l))))
      (dashboard_counts variant_db) /\
  map lc_current_vehicles (location_counts js_lower variant_db) = [1] /\
  map snd (dashboard_counts variant_db) = [0].
Proof.
  assert (H : db_inv variant_db) by (apply db_invb_spec; vm_compute; reflexivity).
  split; [exact H|]. split; [exact (occupancy_views_gap js_lower variant_db H)|].
  split; vm_compute; reflexivity.
Defined.

(** C11: GET /api/locations/vehicle-counts counts the vehicles whose status is
    ["parked"], a status no handler writes: on every consistent store
    every location shows zero. *)
Theorem vehicle_counts_always_zero d :
  db_inv d -> Forall (fun c => snd c = 0) (vehicle_counts d).
Proof.
  intros Hinv. apply Forall_forall. intros c Hc.
  apply in_map_iff in Hc as (l & <- & _). simpl.
  replace (count_where _ (vehicles d)) with (count_where (fun _ : vehicle => false) (vehicles d)).
  - unfold count_where. by rewrite filter_false.
  - apply count_where_ext_in. intros v Hv.
    destruct (proj1 (db_inv_vehicle d v Hinv Hv)) as [E|E]; rewrite E; by rewrite andb_false_r.
Qed.

Lemma vehicle_counts_always_zero_witness :
  db_inv occupancy_db /\ Forall (fun c => snd c = 0) (vehicle_counts occupancy_db) /\
  map lc_current_vehicles (location_counts (fun x => x) occupancy_db) = [1].
Proof.
  assert (H : db_inv occupancy_db) by (apply db_invb_spec; vm_compute; reflexivity).
  split; [exact H|]. split; [exact (vehicle_counts_always_zero occupancy_db H)|].
  vm_compute. reflexivity.
Defined.

(** C21: [ROUND(count / capacity * 100)] for a count within a positive
    capacity is a percentage in [0, 100], the nearest integer to the
    exact ratio. *)
Theorem sql_round_pct_bounds n cap :
  0 < cap -> 0 <= n <= cap ->
  exists q, sql_round_pct n cap = Some q /\ 0 <= q <= 100 /\
            Z.abs (200 * n - 2 * cap * q) <= cap.
Proof.
  intros Hc Hn. unfold sql_round_pct.
  rewrite (proj2 (Z.eqb_neq cap 0)) by lia.
  rewrite (proj2 (Z.ltb_ge (100 * n * cap) 0)) by nia.
  rewrite !Z.abs_eq by lia.
  eexists; split; [reflexivity|].
  pose proof (Z.mul_div_le (2 * (100 * n) + cap) (2 * cap) ltac:(lia)).
  pose proof (Z.mul_succ_div_gt (2 * (100 * n) + cap) (2 * cap) ltac:(lia)).
  split; [split|apply Z.abs_le; split]; nia.
Qed.

Lemma sql_round_pct_bounds_witness :
  sql_round_pct 3 7 = Some 43 /\
  exists q, sql_round_pct 3 7 = Some q /\ 0 <= q <= 100 /\ Z.abs (200 * 3 - 2 * 7 * q) <= 7.
Proof. split; [reflexivity | apply sql_round_pct_bounds; lia]. Defined.



(** The stats never carry an occupancy rate. *)
Lemma location_stats_no_rate collate d id b today a :
  location_stats collate d id b today = Ok a -> st_occupancy_rate a = None.
Proof.
  unfold location_stats. destruct (List.find _ _); [|discriminate].
  destruct (all_dues _ _ _ _); intros H; inversion H; reflexivity.
Qed.
