(* ===== verification/Reads.v ===== *)
(** * Reads: GET /api/vehicles and GET /api/vehicles/:id

    Both routes (server.js 66-104 and 488-539) join a vehicle with its
    child rows and fold each child table into one string with
    [GROUP_CONCAT(DISTINCT ...)]: the image urls, the tyres as
    [position:make:number:condition] and the documents as
    [doc_type:is_available], each list joined by [","] and cut at
    [group_concat_max_len] (1024 bytes by default).  The route then
    splits the strings again in JavaScript.

    - [group_concat] is MySQL's aggregate over the non-NULL values of a
      group: [None] (NULL) for no value, the distinct values joined by
      [","] and cut at 1024 otherwise.  [DISTINCT] keeps the first
      occurrence of a value ([distinct_first]).  Without [ORDER BY]
      inside [GROUP_CONCAT] the order of the values is unspecified; the
      model takes the rows in table order.
    - [js_split] is [String.prototype.split] with a one-character
      separator.
    - [decode_tyres], [decode_documents] and [decode_images] are the
      [vehicles.map(...)] of lines 89-101 (and 518-531).
    - The battery columns come from the first battery row of the
      vehicle: the query selects them outside [GROUP BY] (MySQL picks a
      row of the group; with [ONLY_FULL_GROUP_BY] the query would be
      refused, and the model assumes the mode is off).
    - [get_vehicles] lists the vehicles without a checkout row, newest
      first ([vehicle_list]); [get_vehicle] reads one vehicle by id,
      checked out or not, with its image urls from a separate query. *)

From stdpp Require Import base list strings decidable.
From Stdlib Require Import ZArith Lia Ascii.
From S2P Require Import Prelude Schema Store VehicleStore Occupancy.

(** ** Strings *)

(** [s.split(c)] for a one-character separator [c]. *)
Fixpoint js_split (c : ascii) (s : string) : list string :=
  match s with
  | EmptyString => [EmptyString]
  | String x s' =>
      if Ascii.eqb x c then EmptyString :: js_split c s'
      else match js_split c s' with
           | [] => [String x EmptyString]
           | w :: ws => String x w :: ws
           end
  end.

(** [l.join(c)], and the separator MySQL puts between values. *)
Definition join (c : ascii) (l : list string) : string :=
  String.concat (String c EmptyString) l.

(** ** GROUP_CONCAT *)

Definition group_concat_max_len : nat := 1024.

(** [DISTINCT]: a value is kept where it first occurs. *)
Definition distinct_first (l : list string) : list string :=
  rev (fold_left (fun acc x => if bool_decide (x ∈ acc) then acc else x :: acc) l []).

Definition group_concat (l : list string) : option string :=
  match distinct_first l with
  | [] => None
  | l' => Some (String.substring 0 group_concat_max_len (join "," l'))
  end.

Definition tyre_code (t : tyre_row) : string :=
  join ":" [t_position t; t_make t; t_number t; t_condition t].

Definition doc_code (r : doc_row) : string :=
  join ":" [d_doc_type r; if d_is_available r then "1" else "0"].

(** ** Decoding in the route *)

(** [const [position, make, number, condition] = tyre.split(':')]: a
    missing part is [undefined] ([None]). *)
Record tyre_obj := {
  to_position : option string; to_make : option string;
  to_number : option string; to_condition : option string
}.

Definition decode_tyre (s : string) : tyre_obj :=
  let parts := js_split ":" s in
  {| to_position := nth_error parts 0; to_make := nth_error parts 1;
     to_number := nth_error parts 2; to_condition := nth_error parts 3 |}.

(** [const [type, available] = doc.split(':'); return [type, available === '1']]. *)
Definition decode_document (s : string) : string * bool :=
  let parts := js_split ":" s in
  (default "" (head parts), bool_decide (nth_error parts 1 = Some "1")).

(** A column that is NULL or [""] is falsy: the route answers [[]] or [{}]. *)
Definition split_column (o : option string) : list string :=
  match o with
  | None | Some EmptyString => []
  | Some s => js_split "," s
  end.

Definition decode_images (o : option string) : list string := split_column o.

Definition decode_tyres (o : option string) : list tyre_obj := map decode_tyre (split_column o).

(** [Object.fromEntries]: a later entry overrides an earlier one. *)
Definition decode_documents (o : option string) : list (string * bool) :=
  fold_left (fun acc '(k, v) => obj_set k v acc) (map decode_document (split_column o)) [].

(** ** The rows the routes answer *)

Record list_row := {
  lr_vehicle : vehicle;
  lr_images : list string;
  lr_tyres : list tyre_obj;
  lr_documents : list (string * bool);
  lr_battery : option battery_row
}.

Definition list_row_of (d : db) (v : vehicle) : list_row := {|
  lr_vehicle := v;
  lr_images := decode_images (group_concat (map i_url (images_of d (v_id v))));
  lr_tyres := decode_tyres (group_concat (map tyre_code (tyres_of d (v_id v))));
  lr_documents := decode_documents (group_concat (map doc_code (docs_of d (v_id v))));
  lr_battery := head (batteries_of d (v_id v))
|}.

(** GET /api/vehicles. *)
Definition get_vehicles (d : db) : list list_row := map (list_row_of d) (vehicle_list d).

(** GET /api/vehicles/:id: [None] is the 404. *)
Definition get_vehicle (d : db) (vid : nat) : option list_row :=
  match find_vehicle d vid with
  | None => None
  | Some v =>
      let r := list_row_of d v in
      Some {| lr_vehicle := v; lr_images := map i_url (images_of d vid);
              lr_tyres := lr_tyres r; lr_documents := lr_documents r;
              lr_battery := lr_battery r |}
  end.

(** The object a tyre row should come back as. *)
Definition tyre_obj_of (t : tyre_row) : tyre_obj :=
  {| to_position := Some (t_position t); to_make := Some (t_make t);
     to_number := Some (t_number t); to_condition := Some (t_condition t) |}.

(** No field of the row contains a separator of the encoding. *)
Definition tyre_clean (t : tyre_row) : bool :=
  forallb (fun s => negb (has_char "," s) && negb (has_char ":" s))
          [t_position t; t_make t; t_number t; t_condition t].

(** The number of occurrences of [c] in [s]. *)
Fixpoint count_char (c : ascii) (s : string) : nat :=
  match s with
  | EmptyString => 0
  | String x s' => (if Ascii.eqb x c then 1 else 0) + count_char c s'
  end.

(** The commas in the four fields of a tyre row. *)
Definition tyre_commas (t : tyre_row) : nat :=
  count_char "," (t_position t) + count_char "," (t_make t) +
  count_char "," (t_number t) + count_char "," (t_condition t).

(** ** Theorems *)

Lemma has_char_app c s t : has_char c (s ++ t) = has_char c s || has_char c t.
Proof. induction s as [|x s IH]; simpl; [done|]. by rewrite IH, orb_assoc. Qed.

Lemma js_split_nochar c s : has_char c s = false -> js_split c s = [s].
Proof.
  induction s as [|x s IH]; simpl; [done|]. intros H.
  apply orb_false_iff in H as [Hx Hs]. rewrite Hx, IH by done. done.
Qed.

Lemma js_split_app c s t :
  has_char c s = false -> js_split c (s ++ String c t) = s :: js_split c t.
Proof.
  induction s as [|x s IH]; simpl; intros H.
  - by rewrite Ascii.eqb_refl.
  - apply orb_false_iff in H as [Hx Hs]. rewrite Hx, IH by done. done.
Qed.

(** Splitting a join gives the parts back when no part holds the
    separator. *)
Lemma js_split_join c l :
  l <> [] -> Forall (fun s => has_char c s = false) l -> js_split c (join c l) = l.
Proof.
  unfold join. induction l as [|x l IH]; intros Hne Hf; [done|].
  inversion Hf as [|? ? Hx Hl]; subst.
  destruct l as [|y l].
  - simpl. by apply js_split_nochar.
  - change (String.concat (String c "") (x :: y :: l))
      with (x ++ String c (String.concat (String c "") (y :: l)))%string.
    rewrite (js_split_app c x (String.concat (String c "") (y :: l))) by done.
    f_equal. by apply IH.
Qed.

Lemma substring_all n s : String.length s <= n -> String.substring 0 n s = s.
Proof.
  revert n. induction s as [|x s IH]; intros n Hn; destruct n; simpl in *; try done; [lia|].
  rewrite IH; [done|lia].
Qed.

Lemma fold_distinct_fresh (l acc : list string) :
  NoDup l -> (forall x, x ∈ l -> x ∉ acc) ->
  fold_left (fun acc x => if bool_decide (x ∈ acc) then acc else x :: acc) l acc = rev l ++ acc.
Proof.
  revert acc. induction l as [|x l IH]; intros acc Hnd Hfr; [done|].
  inversion Hnd as [|? ? Hx Hl]; subst. cbn [fold_left].
  rewrite bool_decide_false by (apply Hfr; constructor).
  rewrite IH; [cbn [rev]; by rewrite <- app_assoc | done |].
  intros y Hy Hin. apply elem_of_cons in Hin as [->|Hin]; [done|].
  by apply (Hfr y); [constructor|].
Qed.

Lemma distinct_first_id l : NoDup l -> distinct_first l = l.
Proof.
  intros Hnd. unfold distinct_first.
  rewrite fold_distinct_fresh by (done || by intros ?? ?%elem_of_nil).
  by rewrite app_nil_r, rev_involutive.
Qed.

Lemma join_nonempty c x l : x <> EmptyString -> join c (x :: l) <> EmptyString.
Proof. unfold join. destruct x; [done|]. intros _. destruct l; simpl; discriminate. Qed.

Lemma split_column_some s : s <> EmptyString -> split_column (Some s) = js_split "," s.
Proof. by destruct s. Qed.

(** A column whose values are distinct, separator-free and short enough
    comes back from [group_concat] and [split_column] as the values. *)
Lemma split_group_concat l :
  NoDup l -> Forall (fun s => s <> EmptyString /\ has_char "," s = false) l ->
  String.length (join "," l) <= group_concat_max_len ->
  split_column (group_concat l) = l.
Proof.
  intros Hnd Hf Hlen. unfold group_concat. rewrite distinct_first_id by done.
  destruct l as [|x l]; [done|].
  inversion Hf as [|? ? [Hx _] _]; subst.
  change (split_column (Some (String.substring 0 group_concat_max_len (join "," (x :: l))))
          = x :: l).
  rewrite substring_all by done. rewrite split_column_some by (by apply join_nonempty).
  apply js_split_join; [done|]. by apply (Forall_weaken _ _ _ Hf); intros s [_ ?].
Qed.

Lemma tyre_code_clean t :
  tyre_clean t = true ->
  tyre_code t <> EmptyString /\ has_char "," (tyre_code t) = false /\
  decode_tyre (tyre_code t) = tyre_obj_of t.
Proof.
  unfold tyre_clean. simpl. rewrite !andb_true_r, !andb_true_iff, !negb_true_iff.
  intros ([Hp1 Hp2] & [Hm1 Hm2] & [Hn1 Hn2] & [Hc1 Hc2]).
  split; [unfold tyre_code, join; simpl; by destruct (t_position t)|].
  split.
  - unfold tyre_code, join. simpl. repeat (rewrite has_char_app; simpl).
    by rewrite Hp1, Hm1, Hn1, Hc1.
  - unfold decode_tyre, tyre_code.
    rewrite (js_split_join ":" [t_position t; t_make t; t_number t; t_condition t]);
      [done | discriminate | repeat constructor; assumption].
Qed.

(** The tyres of a row of GET /api/vehicles are the tyre rows of the
    vehicle when their fields hold no [","] or [":"], they are distinct
    and their encoding fits in [group_concat_max_len]. *)
Theorem list_row_tyres_roundtrip d v :
  Forall (fun t => tyre_clean t = true) (tyres_of d (v_id v)) ->
  NoDup (map tyre_code (tyres_of d (v_id v))) ->
  String.length (join "," (map tyre_code (tyres_of d (v_id v)))) <= group_concat_max_len ->
  lr_tyres (list_row_of d v) = map tyre_obj_of (tyres_of d (v_id v)).
Proof.
  intros Hc Hnd Hlen. simpl. unfold decode_tyres.
  rewrite split_group_concat; [|done| |done].
  - rewrite map_map. apply map_ext_in. intros t Ht.
    rewrite Forall_forall in Hc. by apply tyre_code_clean, Hc.
  - apply Forall_forall. intros s Hs. apply in_map_iff in Hs as (t & <- & Ht).
    rewrite Forall_forall in Hc. by destruct (tyre_code_clean t (Hc t Ht)) as (? & ? & _).
Qed.

Definition doc_entry (r : doc_row) : string * bool := (d_doc_type r, d_is_available r).

Definition doc_clean (r : doc_row) : bool :=
  negb (has_char "," (d_doc_type r)) && negb (has_char ":" (d_doc_type r)).

Lemma doc_code_clean r :
  doc_clean r = true ->
  doc_code r <> EmptyString /\ has_char "," (doc_code r) = false /\
  decode_document (doc_code r) = doc_entry r.
Proof.
  unfold doc_clean. rewrite andb_true_iff, !negb_true_iff. intros [H1 H2].
  split; [unfold doc_code, join; simpl; by destruct (d_doc_type r)|].
  split.
  - unfold doc_code, join. simpl. rewrite has_char_app, H1. by destruct (d_is_available r).
  - unfold decode_document, doc_code, doc_entry.
    rewrite (js_split_join ":" [d_doc_type r; if d_is_available r then "1" else "0"]);
      [| discriminate | repeat constructor; [done | by destruct (d_is_available r)]].
    simpl. f_equal. by destruct (d_is_available r).
Qed.

(** The documents of a row of GET /api/vehicles are the document rows of
    the vehicle, as [type: available] entries, when the types are
    distinct and hold no separator and the encoding fits. *)
Theorem list_row_documents_roundtrip d v :
  Forall (fun r => doc_clean r = true) (docs_of d (v_id v)) ->
  List.NoDup (map d_doc_type (docs_of d (v_id v))) ->
  String.length (join "," (map doc_code (docs_of d (v_id v)))) <= group_concat_max_len ->
  lr_documents (list_row_of d v) = map doc_entry (docs_of d (v_id v)).
Proof.
  intros Hc Hnd Hlen. rewrite Forall_forall in Hc.
  assert (Hdec : map decode_document (map doc_code (docs_of d (v_id v))) =
                 map doc_entry (docs_of d (v_id v))).
  { rewrite map_map. apply map_ext_in. intros r Hr. by apply doc_code_clean, Hc. }
  simpl. unfold decode_documents.
  rewrite split_group_concat.
  - rewrite Hdec. apply fold_obj_set_fresh. simpl.
    unfold doc_entry. by rewrite map_map.
  - apply NoDup_ListNoDup, (List.NoDup_map_inv decode_document). rewrite Hdec.
    apply (List.NoDup_map_inv fst). unfold doc_entry. by rewrite map_map.
  - apply Forall_forall. intros s Hs. apply in_map_iff in Hs as (r & <- & Hr).
    by destruct (doc_code_clean r (Hc r Hr)) as (? & ? & _).
  - done.
Qed.

Lemma js_split_length c s : length (js_split c s) = S (count_char c s).
Proof.
  induction s as [|x s IH]; [done|]. cbn [js_split count_char].
  destruct (Ascii.eqb x c); cbn [length]; [by rewrite IH|].
  destruct (js_split c s) as [|w ws]; cbn in *; lia.
Qed.

Lemma count_char_app c s t : count_char c (s ++ t) = count_char c s + count_char c t.
Proof. induction s as [|x s IH]; simpl; [done|]. rewrite IH. lia. Qed.

(** Joining [n] strings adds [n - 1] separators. *)
Lemma count_char_join c l :
  l <> [] -> S (count_char c (join c l)) = length l + sum_list_with (count_char c) l.
Proof.
  unfold join. induction l as [|x [|y l] IH]; intros Hne; [by destruct Hne| |].
  - cbn. lia.
  - change (String.concat (String c "") (x :: y :: l))
      with (x ++ String c (String.concat (String c "") (y :: l)))%string.
    rewrite count_char_app. cbn [count_char]. rewrite Ascii.eqb_refl.
    specialize (IH ltac:(discriminate)). cbn [length sum_list_with] in *. lia.
Qed.

Lemma tyre_code_commas t : count_char "," (tyre_code t) = tyre_commas t.
Proof.
  unfold tyre_code, join, tyre_commas. cbn [String.concat].
  rewrite !count_char_app. cbn [count_char Ascii.eqb Bool.eqb]. lia.
Qed.

Lemma sum_tyre_code_commas l :
  sum_list_with (count_char ",") (map tyre_code l) = sum_list_with tyre_commas l.
Proof. induction l as [|t l IH]; cbn [map sum_list_with]; [done|]. by rewrite tyre_code_commas, IH. Qed.

Lemma tyre_code_nonempty t : tyre_code t <> EmptyString.
Proof. unfold tyre_code, join. cbn. by destruct (t_position t). Qed.

(** C20: A tyre field holding a comma splits its tyre: the tyre objects of a
    row of GET /api/vehicles are the tyre rows of the vehicle plus one
    per comma in their fields (the route splits the [GROUP_CONCAT] at
    every [","]), whenever the tyre codes are distinct and fit in
    [group_concat_max_len].  A make such as "MRF, Inc" turns one tyre
    into two objects, the second made of the text after the comma. *)
Theorem tyre_separator_corrupts d v :
  NoDup (map tyre_code (tyres_of d (v_id v))) ->
  String.length (join "," (map tyre_code (tyres_of d (v_id v)))) <= group_concat_max_len ->
  length (lr_tyres (list_row_of d v)) =
    length (tyres_of d (v_id v)) + sum_list_with tyre_commas (tyres_of d (v_id v)).
Proof.
  intros Hnd Hlen. cbn [lr_tyres list_row_of]. unfold decode_tyres, group_concat.
  rewrite length_map, distinct_first_id by done.
  destruct (tyres_of d (v_id v)) as [|t ts]; [done|].
  cbn [map]. rewrite substring_all by done.
  rewrite split_column_some by (by apply join_nonempty, tyre_code_nonempty).
  rewrite js_split_length, count_char_join by discriminate.
  change (tyre_code t :: map tyre_code ts) with (map tyre_code (t :: ts)).
  by rewrite length_map, sum_tyre_code_commas.
Qed.

(** ** A tyre make with a comma *)

Definition comma_tyres : list tyre_in :=
  map (fun p => {| ti_position := p; ti_make := if String.eqb p "Stepney" then "MRF, Inc" else "MRF";
                   ti_number := "T1"; ti_condition := "good" |})
      ["Front Left"; "Front Right"; "Rear Left"; "Rear Right"; "Stepney"].

Definition comma_db : db := snd (post_vehicles no_fault (sample_body "KA01AB1234" comma_tyres) 0 empty_db).

(** The five tyres of [comma_db]'s car come back as six objects. *)
Lemma tyre_separator_corrupts_witness :
  match find_vehicle comma_db 1 with
  | Some v => length (tyres_of comma_db 1) = 5 /\ length (lr_tyres (list_row_of comma_db v)) = 6 /\
              length (lr_tyres (list_row_of comma_db v)) =
                length (tyres_of comma_db (v_id v)) + sum_list_with tyre_commas (tyres_of comma_db (v_id v))
  | None => False
  end.
Proof.
  destruct (find_vehicle comma_db 1) as [v|] eqn:E; [|vm_compute in E; discriminate].
  vm_compute in E. injection E as <-.
  split; [vm_compute; reflexivity|]. split; [vm_compute; reflexivity|].
  apply tyre_separator_corrupts;
    [apply (bool_decide_unpack (NoDup (map tyre_code (tyres_of comma_db 1)))); vm_compute; exact I
    | vm_compute; lia].
Defined.
