(* ===== verification/EditDialog.v ===== *)
(** * EditDialog: the edit dialog of the vehicle list

    VehicleList.jsx 853-953.  The dialog is opened on a row of GET
    /api/vehicles ([list_row]); [dialog_of] is the initial [editedData]
    (lines 853-876) and [save_body] the body [handleSave] sends to PUT
    /api/vehicles/:id (lines 901-936), split the way the server splits
    it (server.js 658).

    Dates: the row's [in_date] is a [DATE] that mysql2 turned into the
    server-local midnight, serialised by [res.json] as an ISO instant;
    line 866 takes the UTC date of that instant.  Line 916 turns the
    dialog's ["YYYY-MM-DD"] back into a [Date] (date-only strings are
    read as UTC midnight) and takes its UTC date again; an invalid date
    throws, and the save does not happen ([None]).

    A tyre field the route decoded as [undefined] is omitted by
    [JSON.stringify], and the server inserts NULL; the model inserts the
    empty string there (no theorem depends on that case). *)

From stdpp Require Import base list strings decidable.
From Stdlib Require Import ZArith Lia Ascii.
From S2P Require Import Prelude Dates Schema Store VehicleStore Reads.

(** [editedData]. *)
Record edited := {
  ed_agreement_no : string; ed_financier_name : string; ed_owner_name : string;
  ed_address : string; ed_registration_number : string; ed_vehicle_type : string;
  ed_make : string; ed_model : string; ed_year : string; ed_engine_no : string;
  ed_chassis_no : string; ed_kms_run : string; ed_in_date : string; ed_in_time : string;
  ed_in_place : string; ed_battery_make : string; ed_battery_number : string;
  ed_battery_condition : string; ed_additional_details : string;
  ed_tyres : list tyre_obj; ed_documents : list (string * bool); ed_images : list string
}.

(** The initial [editedData] of a row, on a server [server_off] minutes
    east of UTC.  A string column is never falsy in a way [|| ''] would
    change. *)
Definition dialog_of (server_off : Z) (r : list_row) : edited :=
  let i := v_data (lr_vehicle r) in
  let bat f := match lr_battery r with Some b => f b | None => "" end in
  {| ed_agreement_no := agreement_no i; ed_financier_name := financier_name i;
     ed_owner_name := owner_name i; ed_address := address i;
     ed_registration_number := registration_number i; ed_vehicle_type := vehicle_type i;
     ed_make := make i; ed_model := model i; ed_year := year i; ed_engine_no := engine_no i;
     ed_chassis_no := chassis_no i; ed_kms_run := kms_run i;
     ed_in_date := iso_date_of_ms (local_midnight_ms server_off (in_date i));
     ed_in_time := in_time i; ed_in_place := in_place i;
     ed_battery_make := bat b_make; ed_battery_number := bat b_number;
     ed_battery_condition := bat b_condition;
     ed_additional_details := additional_details i;
     ed_tyres := lr_tyres r; ed_documents := lr_documents r; ed_images := lr_images r |}.

(** [new Date(s).toISOString().split('T')[0]] for a date-only string. *)
Definition js_date_only (s : string) : option string :=
  match parse_iso_date s with Some z => Some (iso_date z) | None => None end.

Definition tyre_in_of_obj (o : tyre_obj) : tyre_in :=
  {| ti_position := default "" (to_position o); ti_make := default "" (to_make o);
     ti_number := default "" (to_number o); ti_condition := default "" (to_condition o) |}.

(** [handleSave]'s [updateData], as the server reads it: the vehicle
    columns (MySQL converting the date string), [battery_details], the
    tyres and the documents. *)
Definition save_body (e : edited) : option put_body :=
  match js_date_only (ed_in_date e) with
  | None => None
  | Some s =>
      match parse_iso_date s with
      | None => None
      | Some z => Some {|
          pb_vehicle := {|
            vp_agreement_no := Some (ed_agreement_no e);
            vp_financier_name := Some (ed_financier_name e);
            vp_owner_name := Some (ed_owner_name e); vp_address := Some (ed_address e);
            vp_registration_number := Some (ed_registration_number e);
            vp_vehicle_type := Some (ed_vehicle_type e); vp_make := Some (ed_make e);
            vp_model := Some (ed_model e); vp_year := Some (ed_year e);
            vp_engine_no := Some (ed_engine_no e); vp_chassis_no := Some (ed_chassis_no e);
            vp_kms_run := Some (ed_kms_run e); vp_in_date := Some z;
            vp_in_time := Some (ed_in_time e); vp_in_place := Some (ed_in_place e);
            vp_additional_details := Some (ed_additional_details e); vp_status := None |};
          pb_battery := Some {| bp_make := Some (ed_battery_make e);
                                bp_number := Some (ed_battery_number e);
                                bp_condition := Some (ed_battery_condition e) |};
          pb_tyres := Some (map tyre_in_of_obj (ed_tyres e));
          pb_documents := Some (map (fun '(k, b) => {| di_doc_type := k; di_is_available := b |})
                                    (ed_documents e)) |}
      end
  end.

(** ** The dialog's actions

    The text fields of the dialog (lines 985-1080) edit eleven of the
    columns; the type, make, model, address, dates, place, details and
    tyres are shown nowhere and sent back as they were.  A checkbox per
    document key (1105-1125) sets [documents[doc]]; [Upload Images]
    ([handleImageUpload], 878-899) posts the files at once and appends
    their urls; the delete button of an image (1160-1168) splices it out
    of [editedData.images]; [Save Changes] runs [handleSave] (901-953),
    which reloads the page on success; [Cancel] closes the dialog. *)

Inductive edit_field :=
| EdAgreementNo | EdFinancierName | EdOwnerName | EdRegistrationNumber | EdEngineNo
| EdChassisNo | EdKmsRun | EdYear | EdBatteryMake | EdBatteryNumber | EdBatteryCondition.

(** [editedData] with its eleven editable fields replaced. *)
Definition with_texts (ag fi ow rn en ch km yr bm bn bc : string) (e : edited) : edited :=
  {| ed_agreement_no := ag; ed_financier_name := fi; ed_owner_name := ow;
     ed_address := ed_address e; ed_registration_number := rn; ed_vehicle_type := ed_vehicle_type e;
     ed_make := ed_make e; ed_model := ed_model e; ed_year := yr; ed_engine_no := en;
     ed_chassis_no := ch; ed_kms_run := km; ed_in_date := ed_in_date e; ed_in_time := ed_in_time e;
     ed_in_place := ed_in_place e; ed_battery_make := bm; ed_battery_number := bn;
     ed_battery_condition := bc; ed_additional_details := ed_additional_details e;
     ed_tyres := ed_tyres e; ed_documents := ed_documents e; ed_images := ed_images e |}.

(** [setEditedData({...editedData, field: value})]. *)
Definition set_edit_field (f : edit_field) (v : string) (e : edited) : edited :=
  let ag := ed_agreement_no e in let fi := ed_financier_name e in let ow := ed_owner_name e in
  let rn := ed_registration_number e in let en := ed_engine_no e in let ch := ed_chassis_no e in
  let km := ed_kms_run e in let yr := ed_year e in let bm := ed_battery_make e in
  let bn := ed_battery_number e in let bc := ed_battery_condition e in
  match f with
  | EdAgreementNo => with_texts v fi ow rn en ch km yr bm bn bc e
  | EdFinancierName => with_texts ag v ow rn en ch km yr bm bn bc e
  | EdOwnerName => with_texts ag fi v rn en ch km yr bm bn bc e
  | EdRegistrationNumber => with_texts ag fi ow v en ch km yr bm bn bc e
  | EdEngineNo => with_texts ag fi ow rn v ch km yr bm bn bc e
  | EdChassisNo => with_texts ag fi ow rn en v km yr bm bn bc e
  | EdKmsRun => with_texts ag fi ow rn en ch v yr bm bn bc e
  | EdYear => with_texts ag fi ow rn en ch km v bm bn bc e
  | EdBatteryMake => with_texts ag fi ow rn en ch km yr v bn bc e
  | EdBatteryNumber => with_texts ag fi ow rn en ch km yr bm v bc e
  | EdBatteryCondition => with_texts ag fi ow rn en ch km yr bm bn v e
  end.

Definition with_lists (docs : list (string * bool)) (imgs : list string) (e : edited) : edited :=
  {| ed_agreement_no := ed_agreement_no e; ed_financier_name := ed_financier_name e;
     ed_owner_name := ed_owner_name e; ed_address := ed_address e;
     ed_registration_number := ed_registration_number e; ed_vehicle_type := ed_vehicle_type e;
     ed_make := ed_make e; ed_model := ed_model e; ed_year := ed_year e; ed_engine_no := ed_engine_no e;
     ed_chassis_no := ed_chassis_no e; ed_kms_run := ed_kms_run e; ed_in_date := ed_in_date e;
     ed_in_time := ed_in_time e; ed_in_place := ed_in_place e; ed_battery_make := ed_battery_make e;
     ed_battery_number := ed_battery_number e; ed_battery_condition := ed_battery_condition e;
     ed_additional_details := ed_additional_details e; ed_tyres := ed_tyres e;
     ed_documents := docs; ed_images := imgs |}.

(** [newImages.splice(index, 1)]. *)
Fixpoint splice_out {A} (i : nat) (l : list A) : list A :=
  match l, i with
  | [], _ => []
  | _ :: l', O => l'
  | x :: l', S i' => x :: splice_out i' l'
  end.

Inductive edit_event :=
| EditText (f : edit_field) (v : string)
| ToggleDocument (doc : string) (checked : bool)
| UploadImages (files : list (string * string))   (* stored name, original name *)
| RemoveImage (index : nat)
| SaveClick
| CancelClick.

Inductive edit_status := Editing | Reloaded | Closed.

Record edit_state := { ex_vid : nat; ex_data : edited; ex_status : edit_status }.

Definition with_data (e : edited) (s : edit_state) : edit_state :=
  {| ex_vid := ex_vid s; ex_data := e; ex_status := ex_status s |}.

Section Dialog.
Context (fault : stmt -> db -> bool).

(** One action on the open dialog; [None] when its control is absent (a
    document key or an image index that is not shown). *)
Definition edit_step (ev : edit_event) (s : edit_state) (d : db) : option (edit_state * db) :=
  let e := ex_data s in
  match ex_status s with
  | Editing =>
      match ev with
      | EditText f v => Some (with_data (set_edit_field f v e) s, d)
      | ToggleDocument doc b =>
          if existsb (fun '(k, _) => String.eqb k doc) (ed_documents e)
          then Some (with_data (with_lists (obj_set doc b (ed_documents e)) (ed_images e) e) s, d)
          else None
      | UploadImages files =>
          match post_images fault (ex_vid s) files d with
          | (Ok names, d') =>
              Some (with_data (with_lists (ed_documents e)
                                 (ed_images e ++ map (fun n => "/uploads/" ++ n)%string names) e) s, d')
          | (Err _, d') => Some (s, d')
          end
      | RemoveImage i =>
          if Nat.ltb i (length (ed_images e))
          then Some (with_data (with_lists (ed_documents e) (splice_out i (ed_images e)) e) s, d)
          else None
      | SaveClick =>
          match save_body e with
          | None => Some (s, d)
          | Some b =>
              match put_vehicle fault (ex_vid s) b d with
              | (Ok _, d') => Some ({| ex_vid := ex_vid s; ex_data := e; ex_status := Reloaded |}, d')
              | (Err _, d') => Some (s, d')
              end
          end
      | CancelClick => Some ({| ex_vid := ex_vid s; ex_data := e; ex_status := Closed |}, d)
      end
  | _ => None
  end.

Fixpoint edit_run (evs : list edit_event) (s : edit_state) (d : db) : edit_state * db :=
  match evs with
  | [] => (s, d)
  | ev :: evs' => match edit_step ev s d with
                  | Some (s', d') => edit_run evs' s' d'
                  | None => edit_run evs' s d
                  end
  end.

End Dialog.

(** ** A vehicle to edit *)

Definition edit_db : db :=
  snd (post_vehicles no_fault (sample_body "KA01AB1234" sample_tyres) 0 empty_db).

Definition edit_vehicle : vehicle :=
  {| v_id := 1; v_data := cb_intake (sample_body "KA01AB1234" sample_tyres);
     v_status := status_active; v_created_at := 0 |}.

(** ** Theorems *)

Lemma parse_iso_date_checked z :
  (0 <= z < checked_days)%Z -> parse_iso_date (iso_date z) = Some z.
Proof. intros H. exact (iso_roundtrip_check_spec _ 0 iso_roundtrip_checked z (checked_days_range z H)). Qed.

Lemma filter_eqb_Forall {A} (f : A -> nat) vid (l : list A) :
  Forall (fun x => f x = vid) (List.filter (fun x => Nat.eqb (f x) vid) l).
Proof.
  apply Forall_forall. intros x Hx. apply filter_In in Hx as [_ Hx]. by apply Nat.eqb_eq.
Qed.

Lemma tyre_rows_of_objs vid ts :
  Forall (fun t => t_vehicle_id t = vid) ts ->
  tyre_rows vid (map tyre_in_of_obj (map tyre_obj_of ts)) = ts.
Proof.
  induction 1 as [|t ts Ht _ IH]; [done|]. unfold tyre_rows in *. simpl. rewrite IH. f_equal.
  destruct t; simpl in *; by subst.
Qed.

Lemma doc_rows_of_entries vid rs :
  Forall (fun r => d_vehicle_id r = vid) rs ->
  doc_in_rows vid (map (fun '(k, b) => {| di_doc_type := k; di_is_available := b |})
                       (map doc_entry rs)) = rs.
Proof.
  induction 1 as [|r rs Hr _ IH]; [done|]. simpl. rewrite IH. f_equal.
  destruct r; simpl in *; by subst.
Qed.

(** C16: On a server east of UTC (India is 330 minutes east), opening the
    edit dialog and saving it unchanged writes the day before the
    vehicle's intake date: every save moves the date one day back. *)
Theorem edit_save_shifts_date server_off d v :
  (0 < server_off < 1440)%Z -> (1 <= in_date (v_data v) < checked_days)%Z ->
  exists b, save_body (dialog_of server_off (list_row_of d v)) = Some b /\
            vp_in_date (pb_vehicle b) = Some (in_date (v_data v) - 1)%Z.
Proof.
  intros Hoff Hz. unfold save_body, dialog_of, js_date_only. cbn [ed_in_date lr_vehicle list_row_of].
  rewrite iso_date_of_local_midnight by lia.
  rewrite (proj2 (Z.ltb_lt 0 server_off)) by lia.
  rewrite parse_iso_date_checked by lia. rewrite parse_iso_date_checked by lia.
  eexists. split; reflexivity.
Qed.

(** C15: On a server at UTC or west of it, saving the dialog unchanged writes
    back what the row holds: the vehicle columns, the battery, and the
    tyre and document rows of the vehicle, provided the tyre and
    document fields hold no separator of the GROUP_CONCAT encoding, are
    distinct and fit in [group_concat_max_len]. *)
Theorem edit_save_roundtrip server_off d v :
  (-1440 < server_off <= 0)%Z -> (0 <= in_date (v_data v) < checked_days)%Z ->
  Forall (fun t => tyre_clean t = true) (tyres_of d (v_id v)) ->
  NoDup (map tyre_code (tyres_of d (v_id v))) ->
  String.length (join "," (map tyre_code (tyres_of d (v_id v)))) <= group_concat_max_len ->
  Forall (fun r => doc_clean r = true) (docs_of d (v_id v)) ->
  List.NoDup (map d_doc_type (docs_of d (v_id v))) ->
  String.length (join "," (map doc_code (docs_of d (v_id v)))) <= group_concat_max_len ->
  exists b, save_body (dialog_of server_off (list_row_of d v)) = Some b /\
    patch_intake (pb_vehicle b) (v_data v) = v_data v /\
    option_map (tyre_rows (v_id v)) (pb_tyres b) = Some (tyres_of d (v_id v)) /\
    option_map (doc_in_rows (v_id v)) (pb_documents b) = Some (docs_of d (v_id v)) /\
    (forall bt, head (batteries_of d (v_id v)) = Some bt ->
                option_map (fun p => patch_battery p bt) (pb_battery b) = Some bt).
Proof.
  intros Hoff Hz Htc Htn Htl Hdc Hdn Hdl.
  pose proof (list_row_tyres_roundtrip d v Htc Htn Htl) as Ht.
  pose proof (list_row_documents_roundtrip d v Hdc Hdn Hdl) as Hd.
  unfold save_body, js_date_only. unfold dialog_of at 1.
  change (lr_vehicle (list_row_of d v)) with v. cbn [ed_in_date].
  rewrite iso_date_of_local_midnight by lia.
  rewrite (proj2 (Z.ltb_ge 0 server_off)) by lia.
  rewrite !parse_iso_date_checked by lia.
  eexists. split; [reflexivity|]. cbn -[list_row_of].
  rewrite Ht, Hd. split; [unfold patch_intake; simpl; by destruct (v_data v)|]. split.
  - f_equal. apply tyre_rows_of_objs, filter_eqb_Forall.
  - split; [f_equal; apply doc_rows_of_entries, filter_eqb_Forall|].
    intros bt Hbt. simpl. rewrite Hbt. by destruct bt.
Qed.

Lemma edit_save_shifts_date_witness :
  (exists b, save_body (dialog_of 330 (list_row_of edit_db edit_vehicle)) = Some b /\
             vp_in_date (pb_vehicle b) = Some (in_date (v_data edit_vehicle) - 1)%Z) /\
  match save_body (dialog_of 330 (list_row_of edit_db edit_vehicle)) with
  | Some b => option_map (fun v => in_date (v_data v))
                (find_vehicle (snd (put_vehicle no_fault 1 b edit_db)) 1) = Some 19722%Z
  | None => False
  end.
Proof.
  split; [apply edit_save_shifts_date; vm_compute; split; try discriminate; reflexivity|].
  vm_compute. reflexivity.
Defined.

Lemma edit_save_roundtrip_witness :
  exists b, save_body (dialog_of 0 (list_row_of edit_db edit_vehicle)) = Some b /\
    patch_intake (pb_vehicle b) (v_data edit_vehicle) = v_data edit_vehicle /\
    option_map (tyre_rows 1) (pb_tyres b) = Some (tyres_of edit_db 1) /\
    option_map (doc_in_rows 1) (pb_documents b) = Some (docs_of edit_db 1) /\
    (forall bt, head (batteries_of edit_db 1) = Some bt ->
                option_map (fun p => patch_battery p bt) (pb_battery b) = Some bt).
Proof.
  apply (edit_save_roundtrip 0 edit_db edit_vehicle);
    [lia | vm_compute; split; try discriminate; reflexivity | decide_by_eval | decide_by_eval
    | apply Nat.leb_le; vm_compute; reflexivity | decide_by_eval
    | apply NoDup_ListNoDup; decide_by_eval | apply Nat.leb_le; vm_compute; reflexivity].
Defined.

(** ** The stored images under the dialog *)

(** The frame "image rows are only appended". *)
Definition images_grow : frame := {|
  fr_rel := fun d d' => exists extra, vehicle_images d' = vehicle_images d ++ extra;
  fr_refl := fun d => ex_intro _ [] (eq_sym (app_nil_r _));
  fr_trans := fun d1 d2 d3 '(ex_intro _ e1 H1) '(ex_intro _ e2 H2) =>
                ex_intro _ (e1 ++ e2) (eq_trans H2 (eq_trans (f_equal (fun l => l ++ e2) H1)
                                                              (eq_sym (app_assoc _ _ _))))
|}.

Definition deletes_images (s : stmt) : bool :=
  match s with DeleteImages _ | DeleteImagesOf _ => true | _ => false end.

Lemma images_frame : stmt_preserves images_grow (fun s => deletes_images s = false).
Proof.
  intros s d pk d' Hs H. cbn.
  destruct s; cbn in Hs, H; try discriminate; unfold bulk_insert in H;
    repeat case_match; simplify_eq; try (exists []; by rewrite app_nil_r).
  by eexists.
Qed.

Lemma put_vehicle_images_grow fault vid b : preserves images_grow (put_vehicle fault vid b).
Proof.
  unfold put_vehicle, replace_tyres, replace_documents.
  preserves_tac; apply (preserves_exec _ _ _ _ images_frame); done.
Qed.

Lemma post_images_grow fault vid files : preserves images_grow (post_images fault vid files).
Proof. unfold post_images. preserves_tac; apply (preserves_exec _ _ _ _ images_frame); done. Qed.

Lemma edit_step_images fault ev s d s' d' :
  edit_step fault ev s d = Some (s', d') -> images_grow d d'.
Proof.
  unfold edit_step. destruct (ex_status s); try discriminate.
  destruct ev; intros H.
  - simplify_eq. apply fr_refl.
  - case_match; simplify_eq. apply fr_refl.
  - destruct (post_images fault (ex_vid s) files d) as [r d1] eqn:E.
    apply post_images_grow in E. destruct r; simplify_eq; exact E.
  - case_match; simplify_eq. apply fr_refl.
  - destruct (save_body (ex_data s)) as [b|]; [|simplify_eq; apply fr_refl].
    destruct (put_vehicle fault (ex_vid s) b d) as [r d1] eqn:E.
    apply put_vehicle_images_grow in E. destruct r; simplify_eq; exact E.
  - simplify_eq. apply fr_refl.
Qed.

(** C36: No sequence of actions on the edit dialog removes an image of
    the vehicle: the delete button only splices the url out of
    [editedData.images], [handleSave] sends no image list and PUT
    /api/vehicles/:id never touches [vehicle_images]; the stored images
    are the old ones followed by those uploaded, even when the dialog
    showed an image deleted and was saved. *)
Theorem edit_dialog_keeps_images fault evs s d :
  exists extra, vehicle_images (snd (edit_run fault evs s d)) = vehicle_images d ++ extra.
Proof.
  revert s d. induction evs as [|ev evs IH]; intros s d; cbn; [exists []; by rewrite app_nil_r|].
  destruct (edit_step fault ev s d) as [[s' d']|] eqn:E; [|apply IH].
  destruct (edit_step_images fault ev s d s' d' E) as [e1 H1].
  destruct (IH s' d') as [e2 H2]. exists (e1 ++ e2). by rewrite H2, H1, app_assoc.
Qed.
