(* ===== verification/SettingsScreen.v ===== *)
(** * SettingsScreen: the Settings page of the client

    [src/src/components/Settings.jsx].  The component's state ([tab],
    [locations], [vehicleTypes], [prices], [editMode], [tempPrices], the
    two dialogs and their forms) is the record [screen]; the users tab
    talks only to the users routes and is modelled with them in [Auth].

    - [fetch_locations], [fetch_vehicle_types] and [fetch_prices] are the
      three loaders of the mount effect (lines 42-58, 72-108); the price
      list becomes the object [prices_object] keyed by [price_key]
      ([`${location_id}-${vehicle_type_id}`]).
    - [handle_edit_prices], [edit_cell], [handle_save_prices] are the
      price editor (lines 196-234, 404-407, 449-452): the save walks the
      grid of locations and vehicle types, sends the truthy cells to POST
      /api/settings/prices ([Pricing.post_prices]) and reloads the table
      when the answer is 2xx.
    - [handle_add_location], [handle_add_vehicle_type],
      [handle_delete_location], [handle_delete_vehicle_type] call the
      routes of [Settings] and reload their list when the answer is 2xx.
    - [settings_step] is one user action on the page, refusing the
      actions whose control is not on screen.

    The responses of the loaders started by a handler arrive before the
    next user action.  GET /api/settings/vehicle-types answers [ORDER BY
    name] under the server's collation: [collate], a permutation of the
    table.  A price is an integer: a number input holding another number
    makes [js_number] [None], and the save is then outside the model. *)

From stdpp Require Import base list strings decidable.
From Stdlib Require Import ZArith Lia Ascii.
From S2P Require Import Prelude Schema Store Settings Pricing Occupancy.

(** ** Values of the price objects *)

(** A value of [prices] or [tempPrices]: a number as the server sends it,
    or the string a number input holds after an edit. *)
Inductive price_val := PNum (z : Z) | PStr (s : string).

#[export] Instance price_val_eq_dec : EqDecision price_val.
Proof. solve_decision. Defined.

(** JavaScript truthiness of a property read: [undefined], [0] and [""]
    are falsy. *)
Definition price_truthy (o : option price_val) : bool :=
  match o with
  | Some (PNum z) => negb (Z.eqb z 0)
  | Some (PStr s) => negb (String.eqb s "")
  | None => false
  end.

(** [Number(price)]. *)
Definition js_number (v : price_val) : option Z :=
  match v with PNum z => Some z | PStr s => sql_int_of_string s end.

(** The text of a truthy value in a template or an input. *)
Definition price_text (v : price_val) : string :=
  match v with PNum z => z_decimal z | PStr s => s end.

(** [`${location.id}-${type.id}`]. *)
Definition price_key (l t : nat) : string := (nat_decimal l ++ "-" ++ nat_decimal t)%string.

Definition price_object := list (string * price_val).

(** [data.data.forEach(price => { priceObject[key] = price.price })]:
    a later row of the same pair overrides an earlier one. *)
Definition prices_object (rows : list price_row) : price_object :=
  fold_left (fun o p => obj_set (price_key (p_location_id p) (p_vehicle_type_id p))
                                (PNum (p_price p)) o) rows [].

(** ** The page *)

Record location_form := { nl_name : string; nl_address : string; nl_capacity : string }.

Definition empty_location_form : location_form :=
  {| nl_name := ""; nl_address := ""; nl_capacity := "" |}.

Record screen := {
  sc_tab : nat;
  sc_locations : list location_row;
  sc_vehicle_types : list vtype_row;
  sc_prices : price_object;
  sc_edit_mode : bool;
  sc_temp_prices : price_object;
  sc_location_dialog : bool;
  sc_new_location : location_form;
  sc_vtype_dialog : bool;
  sc_new_vtype : string
}.

Section Page.
Context (fault : stmt -> db -> bool) (collate : list vtype_row -> list vtype_row).

(** GET /api/settings/locations, of which the page keeps the rows and
    never reads the counts: the rows are the table's whatever the
    collation ([Occupancy.location_counts_rows]). *)
Definition fetch_locations (d : db) : list location_row := locations d.

(** GET /api/settings/vehicle-types. *)
Definition fetch_vehicle_types (d : db) : list vtype_row := collate (vehicle_types d).

(** GET /api/settings/prices, turned into the object. *)
Definition fetch_prices (d : db) : price_object := prices_object (location_vehicle_prices d).

(** The first render and the mount effects. *)
Definition screen_init (d : db) : screen := {|
  sc_tab := 0; sc_locations := fetch_locations d; sc_vehicle_types := fetch_vehicle_types d;
  sc_prices := fetch_prices d; sc_edit_mode := false; sc_temp_prices := [];
  sc_location_dialog := false; sc_new_location := empty_location_form;
  sc_vtype_dialog := false; sc_new_vtype := ""
|}.

Definition with_prices (s : screen) (edit : bool) (prices temp : price_object) : screen := {|
  sc_tab := sc_tab s; sc_locations := sc_locations s; sc_vehicle_types := sc_vehicle_types s;
  sc_prices := prices; sc_edit_mode := edit; sc_temp_prices := temp;
  sc_location_dialog := sc_location_dialog s; sc_new_location := sc_new_location s;
  sc_vtype_dialog := sc_vtype_dialog s; sc_new_vtype := sc_new_vtype s
|}.

Definition with_locations (s : screen) (ls : list location_row) (dlg : bool) (f : location_form)
  : screen := {|
  sc_tab := sc_tab s; sc_locations := ls; sc_vehicle_types := sc_vehicle_types s;
  sc_prices := sc_prices s; sc_edit_mode := sc_edit_mode s; sc_temp_prices := sc_temp_prices s;
  sc_location_dialog := dlg; sc_new_location := f;
  sc_vtype_dialog := sc_vtype_dialog s; sc_new_vtype := sc_new_vtype s
|}.

Definition with_vtypes (s : screen) (ts : list vtype_row) (dlg : bool) (nm : string) : screen := {|
  sc_tab := sc_tab s; sc_locations := sc_locations s; sc_vehicle_types := ts;
  sc_prices := sc_prices s; sc_edit_mode := sc_edit_mode s; sc_temp_prices := sc_temp_prices s;
  sc_location_dialog := sc_location_dialog s; sc_new_location := sc_new_location s;
  sc_vtype_dialog := dlg; sc_new_vtype := nm
|}.

Definition with_tab (s : screen) (n : nat) : screen := {|
  sc_tab := n; sc_locations := sc_locations s; sc_vehicle_types := sc_vehicle_types s;
  sc_prices := sc_prices s; sc_edit_mode := sc_edit_mode s; sc_temp_prices := sc_temp_prices s;
  sc_location_dialog := sc_location_dialog s; sc_new_location := sc_new_location s;
  sc_vtype_dialog := sc_vtype_dialog s; sc_new_vtype := sc_new_vtype s
|}.

(** ** The price editor *)

(** [handleEditPrices]. *)
Definition handle_edit_prices (s : screen) : screen := with_prices s true (sc_prices s) (sc_prices s).

(** [setTempPrices(prev => ({...prev, [key]: e.target.value}))]. *)
Definition edit_cell (l t : nat) (v : string) (s : screen) : screen :=
  with_prices s (sc_edit_mode s) (sc_prices s) (obj_set (price_key l t) (PStr v) (sc_temp_prices s)).

(** The pairs of [locations.forEach(location => vehicleTypes.forEach(type => ...))]. *)
Definition price_grid (ls : list location_row) (ts : list vtype_row) : list (location_row * vtype_row) :=
  flat_map (fun l => map (fun t => (l, t)) ts) ls.

(** The body of the two loops: a truthy cell is pushed with [Number(price)]. *)
Fixpoint collect_updates (temp : price_object) (cells : list (location_row * vtype_row))
  : option (list price_row) :=
  match cells with
  | [] => Some []
  | (l, t) :: cs =>
      let v := obj_get (price_key (l_id l) (vt_id t)) temp in
      match v with
      | Some x =>
          if price_truthy v then
            match js_number x, collect_updates temp cs with
            | Some z, Some rest =>
                Some ({| p_location_id := l_id l; p_vehicle_type_id := vt_id t; p_price := z |} :: rest)
            | _, _ => None
            end
          else collect_updates temp cs
      | None => collect_updates temp cs
      end
  end.

(** [priceUpdates]. *)
Definition price_updates (s : screen) : option (list price_row) :=
  collect_updates (sc_temp_prices s) (price_grid (sc_locations s) (sc_vehicle_types s)).

(** [handleSavePrices]: on a 2xx answer [setPrices(tempPrices)], leave
    the edit mode and reload the table; otherwise the thrown error is
    logged and the page stays as it was. *)
Definition handle_save_prices (s : screen) (d : db) : option (screen * db) :=
  match price_updates s with
  | None => None
  | Some ups =>
      let '(r, d') := post_prices fault (Some ups) d in
      if is_ok r then Some (with_prices s false (fetch_prices d') (sc_temp_prices s), d')
      else Some (s, d')
  end.

(** ** Locations and vehicle types *)

(** [handleAddLocation]: [JSON.stringify(newLocation)] sends the three
    strings of the form. *)
Definition handle_add_location (s : screen) (d : db) : screen * db :=
  let f := sc_new_location s in
  let '(r, d') := post_location fault {| lb_name := Some (nl_name f); lb_address := Some (nl_address f);
                                          lb_capacity := Some (nl_capacity f) |} d in
  if is_ok r then (with_locations s (fetch_locations d') false empty_location_form, d')
  else (s, d').

(** [handleAddVehicleType]. *)
Definition handle_add_vehicle_type (s : screen) (d : db) : screen * db :=
  let '(r, d') := post_vehicle_type fault (sc_new_vtype s) d in
  if is_ok r then (with_vtypes s (fetch_vehicle_types d') false "", d') else (s, d').

(** [handleDeleteLocation]: nothing unless [window.confirm] says yes. *)
Definition handle_delete_location (id : nat) (confirmed : bool) (s : screen) (d : db) : screen * db :=
  if negb confirmed then (s, d) else
  let '(r, d') := delete_location fault id d in
  if is_ok r
  then (with_locations s (fetch_locations d') (sc_location_dialog s) (sc_new_location s), d')
  else (s, d').

(** [handleDeleteVehicleType]. *)
Definition handle_delete_vehicle_type (id : nat) (confirmed : bool) (s : screen) (d : db)
  : screen * db :=
  if negb confirmed then (s, d) else
  let '(r, d') := delete_vehicle_type fault id d in
  if is_ok r then (with_vtypes s (fetch_vehicle_types d') (sc_vtype_dialog s) (sc_new_vtype s), d')
  else (s, d').

(** ** User actions *)

Inductive location_field := LocName | LocAddress | LocCapacity.

Inductive settings_event :=
| SetTab (n : nat)
| OpenLocationDialog | CloseLocationDialog | EditLocationForm (fld : location_field) (v : string)
| AddLocation
| OpenVtypeDialog | CloseVtypeDialog | EditVtypeName (v : string) | AddVehicleType
| DeleteLocation (id : nat) (confirmed : bool)
| DeleteVehicleType (id : nat) (confirmed : bool)
| EditPrices | CancelEdit | EditCell (l t : nat) (v : string) | SavePrices.

(** [setNewLocation({ ...newLocation, [field]: e.target.value })]. *)
Definition set_location_field (fld : location_field) (v : string) (f : location_form) : location_form :=
  match fld with
  | LocName => {| nl_name := v; nl_address := nl_address f; nl_capacity := nl_capacity f |}
  | LocAddress => {| nl_name := nl_name f; nl_address := v; nl_capacity := nl_capacity f |}
  | LocCapacity => {| nl_name := nl_name f; nl_address := nl_address f; nl_capacity := v |}
  end.

Definition has_location (s : screen) (id : nat) : bool := existsb (fun l => Nat.eqb (l_id l) id) (sc_locations s).

Definition has_vtype (s : screen) (id : nat) : bool := existsb (fun t => Nat.eqb (vt_id t) id) (sc_vehicle_types s).

(** No dialog covers the page. *)
Definition page_free (s : screen) : bool := negb (sc_location_dialog s || sc_vtype_dialog s).

(** One action, [None] when its control is not on screen: the add and
    delete buttons of tabs 0 and 1, the Edit/Save/Cancel buttons and the
    cells of tab 2 (the cells are inputs only in edit mode), the fields
    and buttons of an open dialog. *)
Definition settings_step (e : settings_event) (s : screen) (d : db) : option (screen * db) :=
  match e with
  | SetTab n => if page_free s && Nat.ltb n 4 then Some (with_tab s n, d) else None
  | OpenLocationDialog =>
      if page_free s && Nat.eqb (sc_tab s) 0
      then Some (with_locations s (sc_locations s) true (sc_new_location s), d) else None
  | CloseLocationDialog =>
      if sc_location_dialog s
      then Some (with_locations s (sc_locations s) false (sc_new_location s), d) else None
  | EditLocationForm fld v =>
      if sc_location_dialog s
      then Some (with_locations s (sc_locations s) true (set_location_field fld v (sc_new_location s)), d)
      else None
  | AddLocation => if sc_location_dialog s then Some (handle_add_location s d) else None
  | OpenVtypeDialog =>
      if page_free s && Nat.eqb (sc_tab s) 1
      then Some (with_vtypes s (sc_vehicle_types s) true (sc_new_vtype s), d) else None
  | CloseVtypeDialog =>
      if sc_vtype_dialog s then Some (with_vtypes s (sc_vehicle_types s) false (sc_new_vtype s), d)
      else None
  | EditVtypeName v =>
      if sc_vtype_dialog s then Some (with_vtypes s (sc_vehicle_types s) true v, d) else None
  | AddVehicleType => if sc_vtype_dialog s then Some (handle_add_vehicle_type s d) else None
  | DeleteLocation id ok =>
      if page_free s && Nat.eqb (sc_tab s) 0 && has_location s id
      then Some (handle_delete_location id ok s d) else None
  | DeleteVehicleType id ok =>
      if page_free s && Nat.eqb (sc_tab s) 1 && has_vtype s id
      then Some (handle_delete_vehicle_type id ok s d) else None
  | EditPrices =>
      if page_free s && Nat.eqb (sc_tab s) 2 && negb (sc_edit_mode s)
      then Some (handle_edit_prices s, d) else None
  | CancelEdit =>
      if page_free s && Nat.eqb (sc_tab s) 2 && sc_edit_mode s
      then Some (with_prices s false (sc_prices s) (sc_temp_prices s), d) else None
  | EditCell l t v =>
      if page_free s && Nat.eqb (sc_tab s) 2 && sc_edit_mode s && has_location s l && has_vtype s t
      then Some (edit_cell l t v s, d) else None
  | SavePrices =>
      if page_free s && Nat.eqb (sc_tab s) 2 && sc_edit_mode s then handle_save_prices s d else None
  end.

Fixpoint settings_run (es : list settings_event) (s : screen) (d : db) : option (screen * db) :=
  match es with
  | [] => Some (s, d)
  | e :: es' =>
      match settings_step e s d with
      | Some (s', d') => settings_run es' s' d'
      | None => None
      end
  end.

End Page.

(** The pairs of the grid by id, and the actions that empty every cell
    of the price editor. *)
Definition grid_ids (s : screen) : list (nat * nat) :=
  map (fun '(l, t) => (l_id l, vt_id t)) (price_grid (sc_locations s) (sc_vehicle_types s)).

Definition clear_events (s : screen) : list settings_event :=
  map (fun '(l, t) => EditCell l t "") (grid_ids s).

(** ** What the page shows *)

(** The text of the cell of a pair in the price tab, in both layouts:
    the input's value [tempPrices[key] || ''] in edit mode, else
    [₹{prices[key] || '0'}]. *)
Definition price_cell (s : screen) (l t : nat) : string :=
  let k := price_key l t in
  if sc_edit_mode s then
    let v := obj_get k (sc_temp_prices s) in
    match v with Some x => if price_truthy v then price_text x else "" | None => "" end
  else
    let v := obj_get k (sc_prices s) in
    ("₹" ++ match v with Some x => if price_truthy v then price_text x else "0" | None => "0" end)%string.

(** The price tab: a row per location, a cell per vehicle type. *)
Definition price_table_view (s : screen) : list (string * list string) :=
  map (fun l => (l_name l, map (fun t => price_cell s (l_id l) (vt_id t)) (sc_vehicle_types s)))
      (sc_locations s).

(** The locations tab (the address column is hidden on a phone). *)
Definition locations_view (mobile : bool) (s : screen) : list (string * option string * Z) :=
  map (fun l => (l_name l, if mobile then None else Some (l_address l), l_capacity l)) (sc_locations s).

(** The vehicle types tab. *)
Definition vehicle_types_view (s : screen) : list string := map vt_name (sc_vehicle_types s).

(** ** The price table the spec speaks of *)

(** The rows of a pair, and the price of the last of them. *)
Definition pair_rows (rows : list price_row) (l t : nat) : list price_row :=
  List.filter (fun p => Nat.eqb (p_location_id p) l && Nat.eqb (p_vehicle_type_id p) t) rows.

Definition last_price (rows : list price_row) (l t : nat) : option Z :=
  option_map p_price (stdpp.list_basics.list.last (pair_rows rows l t)).

(** The table a save of the unchanged editor writes: one row per pair of
    the grid whose last price is not 0, in the order of the grid. *)
Definition normalised_table (ls : list location_row) (ts : list vtype_row) (rows : list price_row)
  : list price_row :=
  omap (fun '(l, t) =>
          match last_price rows (l_id l) (vt_id t) with
          | Some z => if Z.eqb z 0 then None
                      else Some {| p_location_id := l_id l; p_vehicle_type_id := vt_id t; p_price := z |}
          | None => None
          end) (price_grid ls ts).

(** The row a cell of the editor contributes to the save, if any. *)
Definition cell_row (temp : price_object) (c : location_row * vtype_row) : option price_row :=
  let '(l, t) := c in
  match obj_get (price_key (l_id l) (vt_id t)) temp with
  | Some x =>
      if price_truthy (Some x)
      then option_map (fun z => {| p_location_id := l_id l; p_vehicle_type_id := vt_id t;
                                   p_price := z |}) (js_number x)
      else None
  | None => None
  end.

(** ** Sample data, used by the witnesses *)

(** Yard A with two vehicle types; the table has two rows for (Yard A,
    Car), a zero price for (Yard A, Truck) and a row of a location that
    no longer exists. *)
Definition settings_db : db := {|
  vehicles := []; documents := []; battery_details := []; tyre_details := [];
  vehicle_images := []; checkouts := [];
  location_vehicle_prices := [
    {| p_location_id := 1; p_vehicle_type_id := 1; p_price := 120 |};
    {| p_location_id := 1; p_vehicle_type_id := 1; p_price := 150 |};
    {| p_location_id := 1; p_vehicle_type_id := 2; p_price := 0 |};
    {| p_location_id := 9; p_vehicle_type_id := 1; p_price := 80 |}];
  locations := [{| l_id := 1; l_name := "Yard A"; l_address := "Main road"; l_capacity := 10 |}];
  vehicle_types := [{| vt_id := 1; vt_name := "Car" |}; {| vt_id := 2; vt_name := "Truck" |}];
  next_vehicle_id := 1; next_location_id := 10; next_vtype_id := 3
|}.

Definition yard_a : location_row :=
  {| l_id := 1; l_name := "Yard A"; l_address := "Main road"; l_capacity := 10 |}.

Definition truck : vtype_row := {| vt_id := 2; vt_name := "Truck" |}.

(** The page after the pricing tab is opened and Edit Prices pressed. *)
Definition pricing_screen : screen :=
  handle_edit_prices (with_tab (screen_init (fun ts => ts) settings_db) 2).

(** ** Lemmas *)

Lemma nat_decimal_no_dash n : has_char "-" (nat_decimal n) = false.
Proof. apply (digits_acc_no_char _ 0 (Z.of_nat n)); [apply nat_decimal_val | reflexivity]. Qed.

Lemma price_key_injective l1 t1 l2 t2 : price_key l1 t1 = price_key l2 t2 -> l1 = l2 /\ t1 = t2.
Proof.
  intros H. destruct (app_sep_inj "-" _ _ _ _ (nat_decimal_no_dash l1) (nat_decimal_no_dash l2) H)
    as [H1 H2].
  split; by apply nat_decimal_inj.
Qed.

Lemma price_key_eqb l1 t1 l2 t2 :
  String.eqb (price_key l1 t1) (price_key l2 t2) = Nat.eqb l1 l2 && Nat.eqb t1 t2.
Proof.
  destruct (String.eqb_spec (price_key l1 t1) (price_key l2 t2)) as [H|H].
  - destruct (price_key_injective _ _ _ _ H) as [-> ->]. by rewrite !Nat.eqb_refl.
  - destruct (Nat.eqb_spec l1 l2), (Nat.eqb_spec t1 t2); subst; simpl; congruence.
Qed.

Lemma last_price_cons p rows l t :
  last_price (p :: rows) l t =
  match last_price rows l t with
  | Some z => Some z
  | None => if Nat.eqb (p_location_id p) l && Nat.eqb (p_vehicle_type_id p) t
            then Some (p_price p) else None
  end.
Proof.
  unfold last_price, pair_rows. cbn [List.filter].
  destruct (_ && _); [rewrite stdpp.list_basics.list.last_cons|]; by destruct (stdpp.list_basics.list.last _).
Qed.

Lemma prices_object_fold rows acc l t :
  obj_get (price_key l t)
    (fold_left (fun o p => obj_set (price_key (p_location_id p) (p_vehicle_type_id p))
                                   (PNum (p_price p)) o) rows acc) =
  match last_price rows l t with Some z => Some (PNum z) | None => obj_get (price_key l t) acc end.
Proof.
  revert acc. induction rows as [|p rows IH]; intros acc; [done|].
  cbn [fold_left]. rewrite IH, last_price_cons. destruct (last_price rows l t); [done|].
  destruct (Nat.eqb (p_location_id p) l && Nat.eqb (p_vehicle_type_id p) t) eqn:E.
  - apply andb_true_iff in E as [E1 E2]. apply Nat.eqb_eq in E1, E2. subst.
    apply obj_get_set_eq.
  - apply obj_get_set_ne. intros Hk. apply price_key_injective in Hk as [H1 H2].
    by rewrite H1, H2, !Nat.eqb_refl in E.
Qed.

(** The object [fetchPrices] builds from GET /api/settings/prices
    holds, under the key of a pair, the price of the last row of that
    pair, and nothing for a pair without a row: the keys
    [`${location_id}-${vehicle_type_id}`] of two pairs never collide. *)
Theorem prices_object_lookup rows l t :
  obj_get (price_key l t) (prices_object rows) = option_map PNum (last_price rows l t).
Proof. unfold prices_object. rewrite prices_object_fold. by destruct (last_price rows l t). Qed.


Lemma prices_object_get rows k l t :
  k = price_key l t ->
  obj_get k (prices_object rows) = option_map PNum (last_price rows l t).
Proof. intros ->. unfold prices_object. rewrite prices_object_fold. by destruct (last_price rows l t). Qed.

Lemma collect_updates_object rows cells :
  collect_updates (prices_object rows) cells =
  Some (omap (fun '(l, t) =>
          match last_price rows (l_id l) (vt_id t) with
          | Some z => if Z.eqb z 0 then None
                      else Some {| p_location_id := l_id l; p_vehicle_type_id := vt_id t; p_price := z |}
          | None => None
          end) cells).
Proof.
  induction cells as [|[l t] cells IH]; [done|]. cbn [collect_updates].
  rewrite (prices_object_get rows _ (l_id l) (vt_id t) eq_refl), IH. simpl.
  destruct (last_price rows (l_id l) (vt_id t)) as [z|]; simpl; [|done].
  by destruct (Z.eqb z 0).
Qed.

(** A nonempty [INSERT] after the [DELETE]: the table is replaced. *)
Lemma post_prices_replaces ps d :
  ps <> [] -> post_prices no_fault (Some ps) d = (Ok tt, set_prices ps d).
Proof. destruct ps; [done|reflexivity]. Qed.

Lemma handle_save_prices_ok s d ups :
  price_updates s = Some ups -> ups <> [] ->
  handle_save_prices no_fault s d =
  Some (with_prices s false (fetch_prices (set_prices ups d)) (sc_temp_prices s), set_prices ups d).
Proof. intros Hu Hne. unfold handle_save_prices. rewrite Hu, post_prices_replaces by done. done. Qed.

Lemma handle_save_prices_empty s d :
  price_updates s = Some [] -> handle_save_prices no_fault s d = Some (s, set_prices [] d).
Proof. intros Hu. unfold handle_save_prices. by rewrite Hu, post_prices_empty_wipes. Qed.

(** C24: Opening the pricing tab, pressing Edit Prices and saving without
    a change replaces the table by [normalised_table]: a row for each
    pair of the grid whose last row has a nonzero price, with that
    price.  Rows of a pair the page does not show (a location or type
    missing from its lists), rows of price 0 and all but the last row of
    a pair are dropped; the page then shows the new table. *)
Theorem save_unchanged_normalises collate d :
  normalised_table (locations d) (collate (vehicle_types d)) (location_vehicle_prices d) <> [] ->
  exists s',
    settings_run no_fault collate [SetTab 2; EditPrices; SavePrices] (screen_init collate d) d =
      Some (s', set_prices (normalised_table (locations d) (collate (vehicle_types d))
                                             (location_vehicle_prices d)) d) /\
    sc_edit_mode s' = false /\
    sc_prices s' = prices_object (normalised_table (locations d) (collate (vehicle_types d))
                                                   (location_vehicle_prices d)).
Proof.
  intros HN.
  assert (Hu : price_updates (handle_edit_prices (with_tab (screen_init collate d) 2)) =
               Some (normalised_table (locations d) (collate (vehicle_types d))
                                      (location_vehicle_prices d))).
  { unfold price_updates. cbn -[fetch_locations fetch_prices collect_updates].
    unfold fetch_locations. apply collect_updates_object. }
  eexists. cbn -[handle_save_prices fetch_locations fetch_prices].
  rewrite (handle_save_prices_ok _ _ _ Hu HN). done.
Qed.

Lemma settings_run_app collate es1 es2 s d :
  settings_run no_fault collate (es1 ++ es2) s d =
  match settings_run no_fault collate es1 s d with
  | Some (s', d') => settings_run no_fault collate es2 s' d'
  | None => None
  end.
Proof.
  revert s d. induction es1 as [|e es1 IH]; intros s d; [done|]. cbn [app settings_run].
  destruct (settings_step no_fault collate e s d) as [[s' d']|]; [apply IH|done].
Qed.

Lemma page_free_with_prices s e p t : page_free (with_prices s e p t) = page_free s.
Proof. reflexivity. Qed.

Lemma grid_ids_on_screen s :
  Forall (fun '(l, t) => has_location s l && has_vtype s t = true) (grid_ids s).
Proof.
  apply Forall_forall. intros [l t] Hin. unfold grid_ids, price_grid in Hin.
  apply in_map_iff in Hin as [[lr tr] [Heq Hin]]. injection Heq as <- <-.
  apply in_flat_map in Hin as [lr' [Hl Hin]]. apply in_map_iff in Hin as [tr' [Heq Ht]].
  injection Heq as <- <-. apply andb_true_iff. unfold has_location, has_vtype.
  split; apply existsb_exists; eauto using Nat.eqb_refl.
Qed.

(** Editing cells in edit mode sets their keys of [tempPrices], one after the other. *)
Lemma run_edit_cells collate v cells s d :
  page_free s = true -> sc_tab s = 2 -> sc_edit_mode s = true ->
  Forall (fun '(l, t) => has_location s l && has_vtype s t = true) cells ->
  settings_run no_fault collate (map (fun '(l, t) => EditCell l t v) cells) s d =
  Some (with_prices s true (sc_prices s)
          (fold_left (fun o '(l, t) => obj_set (price_key l t) (PStr v) o) cells (sc_temp_prices s)), d).
Proof.
  revert s. induction cells as [|[l t] cells IH]; intros s Hp Ht He Hc.
  - cbn. destruct s; simpl in *; by subst.
  - inversion Hc as [|? ? Hlt Hc']; subst. cbn [map settings_run settings_step].
    rewrite Hp, Ht, He. cbn [andb Nat.eqb]. rewrite Hlt.
    exact (IH (edit_cell l t v s) Hp Ht He Hc').
Qed.

Lemma obj_get_fold_other {V} (v : V) k cells o :
  ~ In k (map (fun '(l, t) => price_key l t) cells) ->
  obj_get k (fold_left (fun o '(l, t) => obj_set (price_key l t) v o) cells o) = obj_get k o.
Proof.
  revert o. induction cells as [|[l t] cells IH]; intros o Hk; [done|]. cbn [fold_left].
  simpl in Hk. rewrite IH by tauto. apply obj_get_set_ne. intros Heq. subst k. tauto.
Qed.

Lemma obj_get_fold_set {V} (v : V) k cells o :
  In k (map (fun '(l, t) => price_key l t) cells) ->
  obj_get k (fold_left (fun o '(l, t) => obj_set (price_key l t) v o) cells o) = Some v.
Proof.
  revert o. induction cells as [|[l t] cells IH]; intros o Hk; [done|]. cbn [fold_left].
  destruct (in_dec String.string_dec k (map (fun '(l, t) => price_key l t) cells)) as [Hin|Hnin];
    [by apply IH|].
  rewrite obj_get_fold_other by done. simpl in Hk.
  destruct Hk as [<-|]; [apply obj_get_set_eq | done].
Qed.

Lemma collect_updates_blank temp cells :
  Forall (fun '(l, t) => price_truthy (obj_get (price_key (l_id l) (vt_id t)) temp) = false) cells ->
  collect_updates temp cells = Some [].
Proof.
  induction 1 as [|[l t] cells Hx _ IH]; [done|]. cbn [collect_updates].
  destruct (obj_get _ temp); [by rewrite Hx | done].
Qed.

(** C25: Emptying every cell of the price editor and saving empties the
    price table: POST /api/settings/prices runs its [DELETE], then fails
    on the empty [INSERT] and answers 500.  The page stays in edit mode
    and keeps the prices it showed before, which the table no longer
    holds; every pair is then billed at the default rate. *)
Theorem clearing_prices_wipes_table collate s d :
  page_free s = true -> sc_tab s = 2 -> sc_edit_mode s = true ->
  exists s',
    settings_run no_fault collate (clear_events s ++ [SavePrices]) s d = Some (s', set_prices [] d) /\
    sc_prices s' = sc_prices s /\ sc_edit_mode s' = true /\
    (forall loc vtype, endpoint_rate (set_prices [] d) loc vtype = default_rate).
Proof.
  intros Hp Ht He. unfold clear_events. rewrite settings_run_app.
  rewrite run_edit_cells by (done || apply grid_ids_on_screen).
  eexists. cbn [settings_run settings_step]. rewrite page_free_with_prices, Hp.
  change (sc_tab (with_prices s ?e ?p ?t)) with (sc_tab s). rewrite Ht. cbn [andb Nat.eqb].
  rewrite handle_save_prices_empty; [repeat split; intros; reflexivity|].
  apply collect_updates_blank. apply Forall_forall. intros [l t] Hin. cbn [sc_temp_prices with_prices].
  rewrite obj_get_fold_set; [done|]. unfold grid_ids. rewrite map_map.
  apply in_map_iff. exists (l, t). split; [done|]. exact Hin.
Qed.

Lemma last_price_zero rows l t :
  Forall (fun p => p_price p = 0%Z) (pair_rows rows l t) ->
  last_price rows l t = None \/ last_price rows l t = Some 0%Z.
Proof.
  intros Hz. unfold last_price.
  destruct (stdpp.list_basics.list.last (pair_rows rows l t)) as [p|] eqn:E; [right|by left].
  apply last_Some_elem_of, list_elem_of_In in E. rewrite Forall_forall in Hz. simpl. by rewrite Hz.
Qed.

(** The per-pair endpoint answers the price of a row of the pair when
    the location and type names are unique. *)
Lemma pair_price_of_rows d l t :
  In l (locations d) -> In t (vehicle_types d) ->
  List.NoDup (map l_name (locations d)) -> List.NoDup (map vt_name (vehicle_types d)) ->
  pair_price d (vt_name t) (l_name l) = 0%Z \/
  exists r, In r (pair_rows (location_vehicle_prices d) (l_id l) (vt_id t)) /\
            pair_price d (vt_name t) (l_name l) = p_price r.
Proof.
  intros Hl Ht Hln Htn. unfold pair_price.
  destruct (List.find _ _) as [[[vt lo] pr]|] eqn:E; [right|by left].
  apply find_some in E as [Hin Hm]. unfold pair_matches in Hm.
  apply andb_true_iff in Hm as [Hvt Hlo]. apply String.eqb_eq in Hvt, Hlo. subst vt lo.
  destruct (joined_prices_in _ _ _ _ Hin) as (r & t' & x & Hr & Ht' & Hx & Htid & Hxid & Hn1 & Hn2 & ->).
  rewrite (NoDup_map_eq vt_name _ t t' Htn Ht Ht' Hn1) in *.
  rewrite (NoDup_map_eq l_name _ l x Hln Hl Hx Hn2) in *.
  exists r. split; [|done]. apply filter_In. split; [done|].
  by rewrite Htid, Hxid, !Nat.eqb_refl.
Qed.

(** A pair of the grid with no row in the price table, or only rows
    of price 0, is shown as [₹0] on the pricing tab, while checkout
    prices it at the default rate of 100 a day (the per-pair endpoint
    answers 0 and the client falls back to 100). *)
Theorem unpriced_pair_shows_zero collate d l t :
  In l (locations d) -> In t (vehicle_types d) ->
  List.NoDup (map l_name (locations d)) -> List.NoDup (map vt_name (vehicle_types d)) ->
  Forall (fun p => p_price p = 0%Z) (pair_rows (location_vehicle_prices d) (l_id l) (vt_id t)) ->
  price_cell (screen_init collate d) (l_id l) (vt_id t) = "₹0" /\
  endpoint_rate d (l_name l) (vt_name t) = default_rate.
Proof.
  intros Hl Ht Hln Htn Hz. split.
  - unfold price_cell. cbn [sc_edit_mode sc_prices screen_init]. unfold fetch_prices.
    rewrite (prices_object_get _ _ (l_id l) (vt_id t) eq_refl).
    by destruct (last_price_zero _ _ _ Hz) as [-> | ->].
  - apply endpoint_rate_zero_entry.
    destruct (pair_price_of_rows d l t Hl Ht Hln Htn) as [H | (r & Hr & ->)]; [done|].
    rewrite Forall_forall in Hz. by apply Hz.
Qed.

Lemma obj_get_Forall {V} (P : string * V -> Prop) o k x :
  Forall P o -> obj_get k o = Some x -> P (k, x).
Proof.
  induction 1 as [|[k' v'] o Hkv _ IH]; [done|]. simpl.
  destruct (String.eqb_spec k k') as [->|_]; [by intros [= <-] | exact IH].
Qed.

Lemma obj_get_set_cases {V} k k0 (v0 x : V) o :
  obj_get k (obj_set k0 v0 o) = Some x -> x = v0 \/ obj_get k o = Some x.
Proof.
  destruct (String.eq_dec k k0) as [->|Hne].
  - rewrite obj_get_set_eq. intros [= ->]. by left.
  - rewrite obj_get_set_ne by congruence. by right.
Qed.

Lemma collect_updates_rows temp cells :
  (forall k x, obj_get k temp = Some x -> js_number x <> None) ->
  collect_updates temp cells = Some (omap (cell_row temp) cells).
Proof.
  intros Hnum. induction cells as [|[l t] cells IH]; [done|]. cbn [collect_updates].
  change (omap (cell_row temp) ((l, t) :: cells))
    with (match cell_row temp (l, t) with
          | Some y => y :: omap (cell_row temp) cells | None => omap (cell_row temp) cells end).
  unfold cell_row at 1.
  destruct (obj_get _ temp) as [x|] eqn:E; [|exact IH].
  destruct (price_truthy (Some x)); [|exact IH].
  destruct (js_number x) as [z|] eqn:Ej; [by rewrite IH | by destruct (Hnum _ _ E)].
Qed.

Lemma cell_row_some temp l t r :
  cell_row temp (l, t) = Some r ->
  p_location_id r = l_id l /\ p_vehicle_type_id r = vt_id t /\
  exists x, obj_get (price_key (l_id l) (vt_id t)) temp = Some x /\ js_number x = Some (p_price r).
Proof.
  unfold cell_row. destruct (obj_get _ temp) as [x|]; [|done]. destruct (price_truthy (Some x)); [|done].
  destruct (js_number x) as [z|] eqn:E; [|done]. intros [= <-]. simpl. eauto.
Qed.

Lemma in_price_grid l t ls ts : In l ls -> In t ts -> In (l, t) (price_grid ls ts).
Proof. intros Hl Ht. apply in_flat_map. exists l. split; [done|]. by apply in_map. Qed.

Lemma has_location_in s l : In l (sc_locations s) -> has_location s (l_id l) = true.
Proof. intros H. apply existsb_exists. eauto using Nat.eqb_refl. Qed.

Lemma has_vtype_in s t : In t (sc_vehicle_types s) -> has_vtype s (vt_id t) = true.
Proof. intros H. apply existsb_exists. eauto using Nat.eqb_refl. Qed.

Lemma last_price_all rows l t r z :
  In r (pair_rows rows l t) -> Forall (fun r => p_price r = z) (pair_rows rows l t) ->
  last_price rows l t = Some z.
Proof.
  intros Hr Hz. unfold last_price.
  destruct (stdpp.list_basics.list.last (pair_rows rows l t)) as [p|] eqn:E.
  - apply last_Some_elem_of, list_elem_of_In in E. rewrite Forall_forall in Hz. simpl. by rewrite Hz.
  - apply last_None in E. by rewrite E in Hr.
Qed.

(** Every row a save sends for a pair carries the value of the pair's cell. *)
Lemma saved_rows_of_pair temp cells l t x z :
  obj_get (price_key (l_id l) (vt_id t)) temp = Some x -> js_number x = Some z ->
  Forall (fun r => p_price r = z) (pair_rows (omap (cell_row temp) cells) (l_id l) (vt_id t)).
Proof.
  intros Hx Hz. apply Forall_forall. intros r Hr. apply filter_In in Hr as [Hr Hid].
  apply andb_true_iff in Hid as [H1 H2]. apply Nat.eqb_eq in H1, H2.
  apply list_elem_of_In, list_elem_of_omap in Hr as [[l' t'] [_ Hc]].
  destruct (cell_row_some _ _ _ _ Hc) as (Hl & Ht & x' & Hx' & Hz').
  rewrite <- Hl, <- Ht, H1, H2, Hx in Hx'. injection Hx' as <-. congruence.
Qed.

Lemma sql_int_nonempty v z : sql_int_of_string v = Some z -> v <> "".
Proof. by destruct v. Qed.

(** Typing an integer in the cell of a pair of the grid and saving
    stores a row of the pair with that price, and after the reload the
    page shows that price in the cell (when every other value of the
    editor is an integer, so that the save is defined). *)
Theorem edited_price_saved collate s d l t v z :
  page_free s = true -> sc_tab s = 2 -> sc_edit_mode s = true ->
  In l (sc_locations s) -> In t (sc_vehicle_types s) ->
  Forall (fun e => js_number (snd e) <> None) (sc_temp_prices s) ->
  sql_int_of_string v = Some z ->
  exists s' d',
    settings_run no_fault collate [EditCell (l_id l) (vt_id t) v; SavePrices] s d = Some (s', d') /\
    In {| p_location_id := l_id l; p_vehicle_type_id := vt_id t; p_price := z |}
       (location_vehicle_prices d') /\
    price_cell s' (l_id l) (vt_id t) = ("₹" ++ (if Z.eqb z 0 then "0" else z_decimal z))%string.
Proof.
  intros Hp Ht He Hl Htv Hall Hv.
  set (key := price_key (l_id l) (vt_id t)).
  set (temp1 := obj_set key (PStr v) (sc_temp_prices s)).
  set (row := {| p_location_id := l_id l; p_vehicle_type_id := vt_id t; p_price := z |}).
  set (ups := omap (cell_row temp1) (price_grid (sc_locations s) (sc_vehicle_types s))).
  assert (Hk : obj_get key temp1 = Some (PStr v)) by apply obj_get_set_eq.
  assert (Hu : price_updates (edit_cell (l_id l) (vt_id t) v s) = Some ups).
  { apply collect_updates_rows. intros k x Hx.
    destruct (obj_get_set_cases _ _ _ _ _ Hx) as [->|Hx']; [simpl; by rewrite Hv|].
    exact (obj_get_Forall (fun e => js_number (snd e) <> None) _ _ _ Hall Hx'). }
  assert (Hrow : In row ups).
  { apply list_elem_of_In, list_elem_of_omap. exists (l, t). split.
    - apply list_elem_of_In, in_price_grid; done.
    - unfold cell_row. fold key. rewrite Hk. simpl.
      destruct (String.eqb_spec v "") as [->|_]; [done|]. simpl. by rewrite Hv. }
  assert (Hne : ups <> []) by (intros E; by rewrite E in Hrow).
  exists (with_prices (edit_cell (l_id l) (vt_id t) v s) false (fetch_prices (set_prices ups d)) temp1),
         (set_prices ups d).
  split; [|split; [exact Hrow|]].
  - cbn [settings_run settings_step]. rewrite Hp, Ht, He, has_location_in, has_vtype_in by done.
    cbn [andb Nat.eqb].
    change (page_free (edit_cell (l_id l) (vt_id t) v s)) with (page_free s). rewrite Hp.
    change (sc_tab (edit_cell (l_id l) (vt_id t) v s)) with (sc_tab s). rewrite Ht.
    change (sc_edit_mode (edit_cell (l_id l) (vt_id t) v s)) with (sc_edit_mode s). rewrite He.
    cbn [andb Nat.eqb]. by rewrite (handle_save_prices_ok _ _ _ Hu Hne).
  - unfold price_cell. cbn [sc_edit_mode sc_prices with_prices]. unfold fetch_prices.
    cbn [location_vehicle_prices set_prices]. fold key.
    rewrite (prices_object_get _ _ (l_id l) (vt_id t) eq_refl).
    rewrite (last_price_all _ _ _ row z); [| |exact (saved_rows_of_pair _ _ _ _ _ _ Hk Hv)].
    + simpl. by destruct (Z.eqb z 0).
    + apply filter_In. split; [done|]. simpl. by rewrite !Nat.eqb_refl.
Qed.

Lemma save_unchanged_normalises_witness :
  normalised_table (locations settings_db) (vehicle_types settings_db)
                   (location_vehicle_prices settings_db) =
    [{| p_location_id := 1; p_vehicle_type_id := 1; p_price := 150 |}] /\
  exists s',
    settings_run no_fault (fun ts => ts) [SetTab 2; EditPrices; SavePrices]
                 (screen_init (fun ts => ts) settings_db) settings_db =
      Some (s', set_prices (normalised_table (locations settings_db) (vehicle_types settings_db)
                                             (location_vehicle_prices settings_db)) settings_db) /\
    sc_edit_mode s' = false /\
    sc_prices s' = prices_object (normalised_table (locations settings_db) (vehicle_types settings_db)
                                                   (location_vehicle_prices settings_db)).
Proof.
  split; [vm_compute; reflexivity|].
  apply (save_unchanged_normalises (fun ts => ts) settings_db). vm_compute. discriminate.
Defined.

Lemma clearing_prices_wipes_table_witness :
  price_table_view pricing_screen = [("Yard A", ["150"; ""])] /\
  exists s',
    settings_run no_fault (fun ts => ts) (clear_events pricing_screen ++ [SavePrices])
                 pricing_screen settings_db = Some (s', set_prices [] settings_db) /\
    sc_prices s' = sc_prices pricing_screen /\ sc_edit_mode s' = true /\
    (forall loc vtype, endpoint_rate (set_prices [] settings_db) loc vtype = default_rate).
Proof.
  split; [vm_compute; reflexivity|].
  apply clearing_prices_wipes_table; vm_compute; reflexivity.
Defined.

Lemma unpriced_pair_shows_zero_witness :
  price_cell (screen_init (fun ts => ts) settings_db) (l_id yard_a) (vt_id truck) = "₹0" /\
  endpoint_rate settings_db (l_name yard_a) (vt_name truck) = default_rate.
Proof.
  apply unpriced_pair_shows_zero.
  - apply list_elem_of_In. decide_by_eval.
  - apply list_elem_of_In. decide_by_eval.
  - apply NoDup_ListNoDup. decide_by_eval.
  - apply NoDup_ListNoDup. decide_by_eval.
  - decide_by_eval.
Defined.

(** A negative price is accepted and stored. *)
Lemma edited_price_saved_witness :
  exists s' d',
    settings_run no_fault (fun ts => ts) [EditCell (l_id yard_a) (vt_id truck) "-50"; SavePrices]
                 pricing_screen settings_db = Some (s', d') /\
    In {| p_location_id := l_id yard_a; p_vehicle_type_id := vt_id truck; p_price := -50 |}
       (location_vehicle_prices d') /\
    price_cell s' (l_id yard_a) (vt_id truck) = ("₹" ++ (if Z.eqb (-50) 0 then "0" else z_decimal (-50)))%string.
Proof.
  apply edited_price_saved; try (vm_compute; reflexivity).
  - apply list_elem_of_In. decide_by_eval.
  - apply list_elem_of_In. decide_by_eval.
  - decide_by_eval.
Defined.
