(* ===== verification/Auth.v ===== *)
(** * Auth: users, login and the client's session

    The server's users routes (server.js 9-14, 855-927): the [users]
    table is a state of its own ([users_db]), which no other table
    references.  [hashPassword] is SHA-256 in hex, a library call: the
    parameter [hash].  MySQL compares the [WHERE] strings under the
    column's collation (case-insensitive by default): the parameter
    [same].  A refused [INSERT] (a unique index on [username], if the
    deployed schema has one; the repository has no schema file) is the
    oracle [insert_fails].

    The client: AuthContext.jsx keeps [user] and [loading] and mirrors
    the session in [localStorage] ([user], [loginTime]); [login] and
    every page load arm a [setTimeout(logout, ...)] for three hours after
    the login; Navigation.jsx's logout button calls [logout], which does
    not cancel the timers.  [session] is that state with the pending
    timers and the clock; [auth_step] is one event: a page load, a login
    answered by the server, the logout button, or the earliest timer
    firing.  An event at instant [now] happens no earlier than the clock
    and no later than a pending timer.  App.jsx's [PrivateRoute] and the
    [/login] route are [route_view].

    The users tab of Settings.jsx (lines 50-69, 112-128, 478-521,
    559-594) is [users_tab] with [users_tab_step]; its delete button calls
    [handleDeleteUser], which the component never defines. *)

From stdpp Require Import base list strings decidable.
From Stdlib Require Import ZArith Lia.
From S2P Require Import Prelude Store.

(** ** The server *)

Record user_row := { u_id : nat; u_username : string; u_password : string; u_role : string }.

Record users_db := { users : list user_row; next_user_id : nat }.

(** A row of [SELECT id, username, role FROM users]. *)
Record user_json := { uj_id : nat; uj_username : string; uj_role : string }.

#[export] Instance user_row_eq_dec : EqDecision user_row.
Proof. solve_decision. Defined.

#[export] Instance user_json_eq_dec : EqDecision user_json.
Proof. solve_decision. Defined.

Definition user_json_of (u : user_row) : user_json :=
  {| uj_id := u_id u; uj_username := u_username u; uj_role := u_role u |}.

(** The answers of POST /api/auth/login. *)
Inductive login_answer :=
| LoginOk (u : user_json) (token : string)
| LoginUnauthorized.

Section Server.
Context (hash : string -> string) (same : string -> string -> bool)
        (insert_fails : users_db -> user_row -> bool).

(** GET /api/settings/users. *)
Definition get_users (ud : users_db) : list user_json := map user_json_of (users ud).

(** POST /api/settings/users: the row with the hashed password. *)
Definition post_user (username password role : string) : SE users_db err user_json :=
  fun ud =>
    let r := {| u_id := next_user_id ud; u_username := username; u_password := hash password;
                u_role := role |} in
    if insert_fails ud r then (Err StorageError, ud)
    else (Ok (user_json_of r), {| users := users ud ++ [r]; next_user_id := S (next_user_id ud) |}).

(** DELETE /api/settings/users/:id. *)
Definition delete_user (id : nat) : SE users_db err unit :=
  fun ud => (Ok tt, {| users := List.filter (fun u => negb (Nat.eqb (u_id u) id)) (users ud);
                       next_user_id := next_user_id ud |}).

(** [WHERE username = ? AND password = ?]. *)
Definition login_matches (username password : string) (u : user_row) : bool :=
  same (u_username u) username && same (u_password u) (hash password).

(** POST /api/auth/login: the first matching row, with a constant token. *)
Definition post_login (username password : string) (ud : users_db) : login_answer :=
  match List.filter (login_matches username password) (users ud) with
  | [] => LoginUnauthorized
  | u :: _ => LoginOk (user_json_of u) "session-token"
  end.

End Server.

(** ** The client's session *)

Local Open Scope Z_scope.

Definition three_hours : Z := 3 * 60 * 60 * 1000.

Record session := {
  s_user : option user_json;        (* React state [user] *)
  s_loading : bool;                 (* React state [loading] *)
  ls_user : option user_json;       (* localStorage 'user' *)
  ls_login_time : option Z;         (* localStorage 'loginTime' *)
  s_timers : list Z;                (* instants of the pending [logout] timers *)
  s_clock : Z
}.

(** A browser with whatever [localStorage] holds, before the page loads. *)
Definition browser (stored : option user_json) (login_time : option Z) (now : Z) : session :=
  {| s_user := None; s_loading := true; ls_user := stored; ls_login_time := login_time;
     s_timers := []; s_clock := now |}.

(** [logout]: clears the state and the storage; the timers stay armed. *)
Definition logout (s : session) : session :=
  {| s_user := None; s_loading := s_loading s; ls_user := None; ls_login_time := None;
     s_timers := s_timers s; s_clock := s_clock s |}.

(** [login(userData)] at [now]. *)
Definition login (u : user_json) (now : Z) (s : session) : session :=
  {| s_user := Some u; s_loading := s_loading s; ls_user := Some u; ls_login_time := Some now;
     s_timers := s_timers s ++ [now + three_hours]; s_clock := now |}.

(** A page load at [now]: the React state and the timers of the old page
    are gone; the mount effect restores a session younger than three
    hours and arms its timer, and logs an older one out. *)
Definition page_load (now : Z) (s : session) : session :=
  let s0 := {| s_user := None; s_loading := true; ls_user := ls_user s;
               ls_login_time := ls_login_time s; s_timers := []; s_clock := now |} in
  let s1 :=
    match ls_user s, ls_login_time s with
    | Some u, Some lt =>
        if Z.ltb three_hours (now - lt) then logout s0
        else {| s_user := Some u; s_loading := true; ls_user := Some u; ls_login_time := Some lt;
                s_timers := [now + (three_hours - (now - lt))]; s_clock := now |}
    | _, _ => s0
    end in
  {| s_user := s_user s1; s_loading := false; ls_user := ls_user s1;
     ls_login_time := ls_login_time s1; s_timers := s_timers s1; s_clock := now |}.

Definition earliest (l : list Z) : option Z :=
  fold_right (fun d acc => match acc with Some e => Some (Z.min d e) | None => Some d end) None l.

(** The earliest pending timer fires: [logout] at its instant. *)
Definition fire (s : session) : option session :=
  match earliest (s_timers s) with
  | None => None
  | Some d =>
      Some (logout {| s_user := s_user s; s_loading := s_loading s; ls_user := ls_user s;
                      ls_login_time := ls_login_time s; s_timers := remove_one d (s_timers s);
                      s_clock := d |})
  end.

Inductive auth_event :=
| PageLoad (now : Z)
| LoginAnswered (u : user_json) (now : Z)   (* [handleLogin] got a 2xx answer *)
| LogoutClick (now : Z)                      (* Navigation.jsx [handleLogout] *)
| TimerFires.

(** [now] is not before the clock and no timer is overdue. *)
Definition on_time (now : Z) (s : session) : bool :=
  Z.leb (s_clock s) now && forallb (fun d => Z.leb now d) (s_timers s).

(** What the router shows. *)
Inductive view := Loading | LoginPage | Page (path : string).

(** [PrivateRoute] and the [/login] route of App.jsx. *)
Definition route_view (s : session) (path : string) : view :=
  if String.eqb path "/login" then
    match s_user s with None => LoginPage | Some _ => Page "/" end
  else if s_loading s then Loading
  else match s_user s with Some _ => Page path | None => LoginPage end.

(** [navItems] of Navigation.jsx (27-33), path and label. *)
Definition nav_items : list (string * string) :=
  [("/", "Dashboard"); ("/new-entry", "Entry"); ("/vehicles", "Vehicles");
   ("/checkout", "Checkout"); ("/settings", "Settings")].

(** The links of the app bar (App.jsx renders [Navigation] when [user]
    is set; Navigation.jsx 68-116, the drawer on mobile): the same five
    for every user, whatever its role. *)
Definition nav_links (s : session) : list string :=
  match s_user s with Some _ => map fst nav_items | None => [] end.

(** One event; the login form is on screen only when no user is, the
    logout button only when one is. *)
Definition auth_step (e : auth_event) (s : session) : option session :=
  match e with
  | PageLoad now => if on_time now s then Some (page_load now s) else None
  | LoginAnswered u now =>
      if on_time now s && negb (s_loading s) && bool_decide (s_user s = None)
      then Some (login u now s) else None
  | LogoutClick now =>
      if on_time now s && bool_decide (s_user s <> None)
      then Some (logout {| s_user := s_user s; s_loading := s_loading s; ls_user := ls_user s;
                           ls_login_time := ls_login_time s; s_timers := s_timers s;
                           s_clock := now |})
      else None
  | TimerFires => fire s
  end.

Fixpoint auth_run (es : list auth_event) (s : session) : option session :=
  match es with
  | [] => Some s
  | e :: es' => match auth_step e s with Some s' => auth_run es' s' | None => None end
  end.

Local Close Scope Z_scope.

(** ** The users tab of the Settings page *)

Record user_form := { nu_username : string; nu_password : string; nu_role : string }.

(** [{ username: '', password: '', role: 'user' }]. *)
Definition empty_user_form : user_form := {| nu_username := ""; nu_password := ""; nu_role := "user" |}.

Record users_tab := { ut_users : list user_json; ut_dialog : bool; ut_new_user : user_form }.

Inductive user_field := UserName | UserPassword | UserRole.

Inductive users_event :=
| OpenUserDialog | CloseUserDialog | EditUserForm (fld : user_field) (v : string) | AddUser
| DeleteUserClick (id : nat).

(** [setNewUser({ ...newUser, [field]: e.target.value })]; the role is
    chosen from a select of [admin] and [user]. *)
Definition set_user_field (fld : user_field) (v : string) (f : user_form) : user_form :=
  match fld with
  | UserName => {| nu_username := v; nu_password := nu_password f; nu_role := nu_role f |}
  | UserPassword => {| nu_username := nu_username f; nu_password := v; nu_role := nu_role f |}
  | UserRole => {| nu_username := nu_username f; nu_password := nu_password f; nu_role := v |}
  end.

Definition role_choices : list string := ["admin"; "user"].

Section UsersTab.
Context (hash : string -> string) (insert_fails : users_db -> user_row -> bool).

(** [fetchUsers] on mount. *)
Definition users_tab_init (ud : users_db) : users_tab :=
  {| ut_users := get_users ud; ut_dialog := false; ut_new_user := empty_user_form |}.

(** [handleAddUser]: on a 2xx answer reload, close and reset the dialog. *)
Definition handle_add_user (t : users_tab) (ud : users_db) : users_tab * users_db :=
  let f := ut_new_user t in
  let '(r, ud') := post_user hash insert_fails (nu_username f) (nu_password f) (nu_role f) ud in
  if is_ok r then ({| ut_users := get_users ud'; ut_dialog := false; ut_new_user := empty_user_form |}, ud')
  else (t, ud').

(** One action on the users tab ([tab_open]: the tab is the current
    one).  The delete button of a row calls [handleDeleteUser], an
    undefined name: the click throws a [ReferenceError] in the handler
    and nothing happens. *)
Definition users_tab_step (tab_open : bool) (e : users_event) (t : users_tab) (ud : users_db)
  : option (users_tab * users_db) :=
  match e with
  | OpenUserDialog =>
      if tab_open && negb (ut_dialog t)
      then Some ({| ut_users := ut_users t; ut_dialog := true; ut_new_user := ut_new_user t |}, ud)
      else None
  | CloseUserDialog =>
      if ut_dialog t
      then Some ({| ut_users := ut_users t; ut_dialog := false; ut_new_user := ut_new_user t |}, ud)
      else None
  | EditUserForm fld v =>
      if ut_dialog t && (match fld with UserRole => bool_decide (v ∈ role_choices) | _ => true end)
      then Some ({| ut_users := ut_users t; ut_dialog := true;
                    ut_new_user := set_user_field fld v (ut_new_user t) |}, ud)
      else None
  | AddUser => if ut_dialog t then Some (handle_add_user t ud) else None
  | DeleteUserClick id =>
      if tab_open && negb (ut_dialog t) && existsb (fun u => Nat.eqb (uj_id u) id) (ut_users t)
      then Some (t, ud) else None
  end.

Fixpoint users_tab_run (tab_open : bool) (es : list users_event) (t : users_tab) (ud : users_db)
  : option (users_tab * users_db) :=
  match es with
  | [] => Some (t, ud)
  | e :: es' =>
      match users_tab_step tab_open e t ud with
      | Some (t', ud') => users_tab_run tab_open es' t' ud'
      | None => None
      end
  end.

End UsersTab.

(** ** Sample data, used by the witnesses *)

Definition admin_json : user_json := {| uj_id := 1; uj_username := "admin"; uj_role := "admin" |}.

(** One account, [admin] with password [pw]; the witnesses take the
    identity for the hash and byte equality for the collation. *)
Definition users_fixture : users_db :=
  {| users := [{| u_id := 1; u_username := "admin"; u_password := "pw"; u_role := "admin" |}];
     next_user_id := 2 |}.

Definition no_insert_fault : users_db -> user_row -> bool := fun _ _ => false.

(** A login at 1000 ms after a page load at 0. *)
Definition admin_session : session := login admin_json 1000 (page_load 0 (browser None None 0)).

Definition users_actions : list users_event :=
  [DeleteUserClick 1; OpenUserDialog; EditUserForm UserName "admin"; EditUserForm UserPassword "pw";
   AddUser].

(** ** Theorems *)

Section SessionTheorems.
Local Open Scope Z_scope.

(** A shown user is the stored one, the clock has not passed three hours
    after the stored login time, and the timer of that instant is armed. *)
Definition session_ok (s : session) : Prop :=
  forall u, s_user s = Some u ->
  exists lt, ls_user s = Some u /\ ls_login_time s = Some lt /\
             s_clock s <= lt + three_hours /\ In (lt + three_hours) (s_timers s).

Lemma on_time_spec now s :
  on_time now s = true -> s_clock s <= now /\ forall d, In d (s_timers s) -> now <= d.
Proof.
  unfold on_time. intros H. apply andb_true_iff in H as [H1 H2]. apply Z.leb_le in H1.
  split; [done|]. intros d Hd. rewrite forallb_forall in H2. by apply Z.leb_le, H2.
Qed.

Lemma page_load_ok now s : session_ok (page_load now s).
Proof.
  intros u. unfold page_load.
  destruct (ls_user s) as [v|], (ls_login_time s) as [lt|]; cbn; try discriminate.
  destruct (Z.ltb_spec three_hours (now - lt)); cbn; [discriminate|].
  intros [= ->]. exists lt. repeat split; [lia | left; lia].
Qed.

Lemma auth_step_ok e s s' : auth_step e s = Some s' -> session_ok s'.
Proof.
  destruct e as [now|v now|now|]; cbn.
  - destruct (on_time now s); [intros [= <-]; apply page_load_ok | discriminate].
  - destruct (on_time now s && _ && _); [|discriminate]. intros [= <-] u [= <-].
    exists now. cbn. unfold three_hours. repeat split; [lia|]. apply in_app_iff. right. by left.
  - destruct (on_time now s && _); [|discriminate]. intros [= <-] u. discriminate.
  - unfold fire. destruct (earliest _); [|discriminate]. intros [= <-] u. discriminate.
Qed.

Lemma auth_run_ok es s s' : session_ok s -> auth_run es s = Some s' -> session_ok s'.
Proof.
  revert s. induction es as [|e es IH]; intros s Hok; cbn; [by intros [= <-]|].
  destruct (auth_step e s) as [s1|] eqn:E; [|discriminate]. apply IH. exact (auth_step_ok _ _ _ E).
Qed.

Lemma earliest_le l x : In x l -> exists e, earliest l = Some e /\ e <= x.
Proof.
  induction l as [|y l IH]; [done|].
  change (earliest (y :: l)) with (match earliest l with Some e => Some (Z.min y e) | None => Some y end).
  intros [->|Hx].
  - destruct (earliest l); eexists; split; [reflexivity| lia | reflexivity | lia].
  - destruct (IH Hx) as (e & -> & He). eexists. split; [reflexivity|lia].
Qed.

(** The next event of a page that shows a user happens no later than the
    armed timer. *)
Lemma next_event_bound s e s' u lt :
  s_user s = Some u -> ls_login_time s = Some lt -> In (lt + three_hours) (s_timers s) ->
  auth_step e s = Some s' -> s_clock s' <= lt + three_hours.
Proof.
  intros _ _ Hin. destruct e as [now|v now|now|]; cbn.
  - destruct (on_time now s) eqn:Ht; [|discriminate]. intros [= <-].
    apply on_time_spec in Ht as [_ Ht]. unfold page_load. cbn. by apply Ht.
  - destruct (on_time now s) eqn:Ht; cbn; [|discriminate]. destruct (_ && _); [|discriminate].
    intros [= <-]. apply on_time_spec in Ht as [_ Ht]. cbn. by apply Ht.
  - destruct (on_time now s) eqn:Ht; cbn; [|discriminate]. destruct (bool_decide _); [|discriminate].
    intros [= <-]. apply on_time_spec in Ht as [_ Ht]. cbn. by apply Ht.
  - unfold fire. destruct (earliest_le _ _ Hin) as (d & -> & Hd). intros [= <-]. exact Hd.
Qed.

(** C27: Whatever the browser stored before, in every state the client
    reaches, a page that shows a logged-in user shows the user the last
    login stored, and the next thing that happens (a reload, a click, the
    timer) happens no later than three hours after that login: no
    session is shown past three hours after its login time. *)
Theorem session_expires stored lt0 c es s u :
  auth_run es (browser stored lt0 c) = Some s -> s_user s = Some u ->
  exists lt, ls_user s = Some u /\ ls_login_time s = Some lt /\ s_clock s <= lt + three_hours /\
    forall e s', auth_step e s = Some s' -> s_clock s' <= lt + three_hours.
Proof.
  intros Hrun Hu.
  destruct (auth_run_ok es (browser stored lt0 c) s ltac:(intros v Hv; cbn in Hv; discriminate) Hrun u Hu) as (lt & Hs & Hl & Hc & Hin).
  exists lt. repeat split; [done..|]. intros e s' He. exact (next_event_bound s e s' u lt Hu Hl Hin He).
Qed.

End SessionTheorems.

Section TimerTheorems.
Local Open Scope Z_scope.

Lemma on_time_intro now s :
  s_clock s <= now -> Forall (fun d => now <= d) (s_timers s) -> on_time now s = true.
Proof.
  intros Hc Hd. unfold on_time. apply andb_true_iff. split; [by apply Z.leb_le|].
  apply forallb_forall. intros d Hin. rewrite Forall_forall in Hd. by apply Z.leb_le, Hd.
Qed.

(** C28: The logout button does not cancel the timer its login armed.
    After a login at [t0], a logout and a new login at [t2] within the
    three hours, the first timer fires at [t0 + 3h] and logs the second
    session out after less than three hours. *)
Theorem stale_timer_cuts_session u v c t0 t1 t2 :
  c <= t0 -> t0 <= t1 -> t1 <= t2 -> t0 < t2 < t0 + three_hours ->
  exists s,
    auth_run [PageLoad c; LoginAnswered u t0; LogoutClick t1; LoginAnswered v t2; TimerFires]
             (browser None None c) = Some s /\
    s_user s = None /\ s_clock s = t0 + three_hours /\ s_clock s < t2 + three_hours.
Proof.
  intros H0 H1 H2 H3. unfold three_hours in *.
  eexists. cbn [auth_run auth_step].
  do 4 (rewrite on_time_intro by (cbn; unfold three_hours; repeat constructor; lia); cbn).
  unfold fire. cbn.
  rewrite Z.min_l by lia. cbn.
  split; [reflexivity|]. cbn. unfold three_hours. repeat split; lia.
Qed.

End TimerTheorems.

Section UserTheorems.
Context (hash : string -> string) (same : string -> string -> bool)
        (insert_fails : users_db -> user_row -> bool).

(** Once POST /api/settings/users has stored an account, logging in
    with its username and password succeeds.  It answers the new
    account unless an older account matches the same username (under the
    collation) and password hash: that older row, and its role, wins. *)
Theorem login_after_add ud username password role ud' j :
  (forall x, same x x = true) ->
  post_user hash insert_fails username password role ud = (Ok j, ud') ->
  post_login hash same username password ud' =
  match List.filter (login_matches hash same username password) (users ud) with
  | [] => LoginOk j "session-token"
  | u :: _ => LoginOk (user_json_of u) "session-token"
  end.
Proof.
  intros Hsame. unfold post_user. destruct (insert_fails _ _); [discriminate|]. intros [= <- <-].
  unfold post_login. cbn [users]. rewrite filter_app. cbn.
  unfold login_matches at 2. cbn. rewrite !Hsame. cbn.
  by destruct (List.filter _ (users ud)).
Qed.

(** Each action of the users tab keeps the table or appends one row. *)
Lemma users_tab_step_grows tab e t ud t' ud' :
  users_tab_step hash insert_fails tab e t ud = Some (t', ud') ->
  exists added, users ud' = users ud ++ added.
Proof.
  destruct e; cbn;
    repeat match goal with |- context [if ?b then _ else _] => destruct b end;
    try discriminate; try (intros [= <- <-]; exists []; by rewrite app_nil_r).
  unfold handle_add_user, post_user.
  destruct (insert_fails _ _); cbn; intros [= <- <-]; [exists []; by rewrite app_nil_r|].
  eexists. reflexivity.
Qed.

(** No sequence of actions on the users tab of the Settings page
    removes a user: the table only grows by appended rows, because the
    delete button calls [handleDeleteUser], which is never defined. *)
Theorem users_tab_never_deletes tab es t ud t' ud' :
  users_tab_run hash insert_fails tab es t ud = Some (t', ud') ->
  exists added, users ud' = users ud ++ added.
Proof.
  revert t ud. induction es as [|e es IH]; intros t ud; cbn.
  - intros [= <- <-]. exists []. by rewrite app_nil_r.
  - destruct (users_tab_step _ _ _ e t ud) as [[t1 ud1]|] eqn:E; [|discriminate]. intros Hrun.
    destruct (users_tab_step_grows _ _ _ _ _ _ E) as [a1 H1].
    destruct (IH _ _ Hrun) as [a2 H2]. exists (a1 ++ a2). by rewrite H2, H1, app_assoc.
Qed.

(** C29: No screen reads the role: a logged-in account of any role, [user]
    included, sees the Settings link, opens the Settings page, and on
    its users tab creates an [admin] account (the server checks no
    session either), with which it can then log in as an admin. *)
Theorem any_user_can_add_admin s u ud name pw :
  s_user s = Some u -> s_loading s = false ->
  insert_fails ud {| u_id := next_user_id ud; u_username := name; u_password := hash pw;
                     u_role := "admin" |} = false ->
  In "/settings" (nav_links s) /\ route_view s "/settings" = Page "/settings" /\
  exists t,
    users_tab_run hash insert_fails true
      [OpenUserDialog; EditUserForm UserName name; EditUserForm UserPassword pw;
       EditUserForm UserRole "admin"; AddUser] (users_tab_init ud) ud =
    Some (t, {| users := users ud ++ [{| u_id := next_user_id ud; u_username := name;
                                         u_password := hash pw; u_role := "admin" |}];
                next_user_id := S (next_user_id ud) |}).
Proof.
  intros Hu Hl Hi. unfold nav_links, route_view. rewrite Hu, Hl. split; [cbn; tauto|]. split; [done|].
  eexists. cbn. rewrite (bool_decide_eq_true_2 ("admin" ∈ role_choices)) by constructor.
  unfold handle_add_user, post_user. cbn. rewrite Hi. reflexivity.
Qed.

End UserTheorems.

Lemma session_expires_witness :
  exists lt, ls_user admin_session = Some admin_json /\ ls_login_time admin_session = Some lt /\
    (s_clock admin_session <= lt + three_hours)%Z /\
    forall e s', auth_step e admin_session = Some s' -> (s_clock s' <= lt + three_hours)%Z.
Proof.
  apply (session_expires None None 0 [PageLoad 0; LoginAnswered admin_json 1000]); vm_compute; reflexivity.
Defined.

Lemma stale_timer_cuts_session_witness :
  exists s,
    auth_run [PageLoad 0; LoginAnswered admin_json 0; LogoutClick 3600000;
              LoginAnswered admin_json 7200000; TimerFires] (browser None None 0) = Some s /\
    s_user s = None /\ s_clock s = (0 + three_hours)%Z /\ (s_clock s < 7200000 + three_hours)%Z.
Proof. apply stale_timer_cuts_session; unfold three_hours; lia. Defined.

(** Adding a second [admin] with the same password: the login answers
    the older account, with its role. *)
Lemma login_after_add_witness :
  exists j ud',
    post_user (fun p => p) no_insert_fault "admin" "pw" "user" users_fixture = (Ok j, ud') /\
    post_login (fun p => p) String.eqb "admin" "pw" ud' = LoginOk admin_json "session-token".
Proof.
  eexists _, _. split; [reflexivity|].
  etransitivity;
    [apply (login_after_add (fun p => p) String.eqb no_insert_fault users_fixture "admin" "pw" "user");
       [exact String.eqb_refl | reflexivity]|].
  vm_compute. reflexivity.
Defined.

Lemma users_tab_never_deletes_witness :
  exists t' ud',
    users_tab_run (fun p => p) no_insert_fault true users_actions (users_tab_init users_fixture)
                  users_fixture = Some (t', ud') /\
    (exists added, users ud' = users users_fixture ++ added) /\ length (users ud') = 2.
Proof.
  destruct (users_tab_run (fun p => p) no_insert_fault true users_actions (users_tab_init users_fixture)
                          users_fixture) as [[t' ud']|] eqn:E; [|vm_compute in E; discriminate].
  exists t', ud'. split; [reflexivity|]. split; [exact (users_tab_never_deletes _ _ _ _ _ _ _ _ E)|].
  vm_compute in E. injection E as <- <-. reflexivity.
Defined.

(** An account of role [user] logs in and adds an administrator. *)
Lemma any_user_can_add_admin_witness :
  let s := login {| uj_id := 2; uj_username := "clerk"; uj_role := "user" |} 1000
                 (page_load 0 (browser None None 0)) in
  In "/settings" (nav_links s) /\ route_view s "/settings" = Page "/settings" /\
  exists t,
    users_tab_run (fun p => p) no_insert_fault true
      [OpenUserDialog; EditUserForm UserName "boss"; EditUserForm UserPassword "pw2";
       EditUserForm UserRole "admin"; AddUser] (users_tab_init users_fixture) users_fixture =
    Some (t, {| users := users users_fixture ++ [{| u_id := next_user_id users_fixture; u_username := "boss";
                                                   u_password := "pw2"; u_role := "admin" |}];
                next_user_id := S (next_user_id users_fixture) |}).
Proof. apply (any_user_can_add_admin (fun p => p) String.eqb no_insert_fault _ {| uj_id := 2; uj_username := "clerk"; uj_role := "user" |} users_fixture "boss" "pw2"); reflexivity. Defined.
