(* ===== verification/CheckedOutList.v ===== *)
(** * CheckedOutList: the checked-out vehicles of the checkout screen

    GET /api/vehicles/checked-out (server.js 112-129) joins every
    checkout row with its vehicle row ([JOIN vehicles v ON c.vehicle_id =
    v.id], an inner join: a checkout whose vehicle is gone has no row)
    and sorts by [checkout_date DESC, checkout_time DESC]; MySQL leaves
    the order of equal keys unspecified, the model fixes one (no theorem
    depends on it).

    Checkout.jsx 436-453 and 877-945: [View Checked Out Vehicles] loads
    the list, the search field filters it by a case-insensitive
    substring of the plate, the owner or the type (the [useEffect] that
    recomputes [filteredVehicles]), and the table shows the filtered
    rows with a message when none is left.  [toLowerCase] is modelled on
    ASCII letters.  The table component [CheckedOutVehiclesTable]
    (lines 153-235) is never rendered. *)

From stdpp Require Import base list strings decidable.
From Stdlib Require Import ZArith Lia Ascii.
From S2P Require Import Prelude Schema Store VehicleStore Checkout.

(** ** The route *)

(** A row of the answer: [c.*] with four columns of the vehicle. *)
Record checked_out_row := {
  co_checkout : checkout_row;
  co_registration_number : string;
  co_owner_name : string;
  co_vehicle_type : string;
  co_in_place : string
}.

Definition join_vehicle (d : db) (c : checkout_row) : list checked_out_row :=
  map (fun v => {| co_checkout := c; co_registration_number := registration_number (v_data v);
                   co_owner_name := owner_name (v_data v); co_vehicle_type := vehicle_type (v_data v);
                   co_in_place := in_place (v_data v) |})
      (List.filter (fun v => Nat.eqb (v_id v) (c_vehicle_id c)) (vehicles d)).

(** [ORDER BY c.checkout_date DESC, c.checkout_time DESC]. *)
Definition later_than (a b : checked_out_row) : bool :=
  let ca := co_checkout a in let cb := co_checkout b in
  Z.ltb (c_checkout_date cb) (c_checkout_date ca) ||
  (Z.eqb (c_checkout_date cb) (c_checkout_date ca) && Z.ltb (c_checkout_time cb) (c_checkout_time ca)).

Fixpoint insert_desc (r : checked_out_row) (l : list checked_out_row) : list checked_out_row :=
  match l with
  | [] => [r]
  | x :: l' => if later_than r x then r :: x :: l' else x :: insert_desc r l'
  end.

Definition sort_desc (l : list checked_out_row) : list checked_out_row := fold_right insert_desc [] l.

(** GET /api/vehicles/checked-out. *)
Definition get_checked_out (d : db) : list checked_out_row :=
  sort_desc (flat_map (join_vehicle d) (checkouts d)).

(** ** The search field *)

(** [s.includes(t)]. *)
Fixpoint js_includes (s t : string) : bool :=
  String.prefix t s || match s with EmptyString => false | String _ s' => js_includes s' t end.

Definition row_matches (term : string) (r : checked_out_row) : bool :=
  let t := js_lower term in
  js_includes (js_lower (co_registration_number r)) t ||
  js_includes (js_lower (co_owner_name r)) t ||
  js_includes (js_lower (co_vehicle_type r)) t.

(** ** The screen *)

Record list_screen := {
  ls_rows : list checked_out_row;     (* [checkedOutVehicles] *)
  ls_shown : bool;                     (* [showCheckedOutVehicles] *)
  ls_term : string;                    (* [searchTerm] *)
  ls_filtered : list checked_out_row   (* [filteredVehicles] *)
}.

Definition list_screen_init : list_screen :=
  {| ls_rows := []; ls_shown := false; ls_term := ""; ls_filtered := [] |}.

(** The effect on [searchTerm] and [checkedOutVehicles]. *)
Definition refilter (s : list_screen) : list_screen :=
  {| ls_rows := ls_rows s; ls_shown := ls_shown s; ls_term := ls_term s;
     ls_filtered := List.filter (row_matches (ls_term s)) (ls_rows s) |}.

Inductive list_event := ViewCheckedOut | BackToSearch | SetSearchTerm (v : string).

(** [fetchCheckedOutVehicles], the back arrow and the search field (shown
    with the list). *)
Definition list_step (e : list_event) (s : list_screen) (d : db) : option list_screen :=
  match e with
  | ViewCheckedOut =>
      Some (refilter {| ls_rows := get_checked_out d; ls_shown := true; ls_term := ls_term s;
                        ls_filtered := ls_filtered s |})
  | BackToSearch =>
      if ls_shown s then Some {| ls_rows := ls_rows s; ls_shown := false; ls_term := ls_term s;
                                 ls_filtered := ls_filtered s |} else None
  | SetSearchTerm v =>
      if ls_shown s then Some (refilter {| ls_rows := ls_rows s; ls_shown := true; ls_term := v;
                                           ls_filtered := ls_filtered s |}) else None
  end.

(** The table of the list: plate, owner, type, checkout date and amount
    of each filtered row, or the message row. *)
Inductive list_table := Rows (rs : list (string * string * string * Z * Z)) | NoMatch.

Definition list_table_of (s : list_screen) : option list_table :=
  if ls_shown s then
    Some (match ls_filtered s with
          | [] => NoMatch
          | rs => Rows (map (fun r => (co_registration_number r, co_owner_name r, co_vehicle_type r,
                                       c_checkout_date (co_checkout r), c_total_amount (co_checkout r))) rs)
          end)
  else None.

(** ** Theorems *)

Lemma in_insert_desc x r l : In x (insert_desc r l) <-> x = r \/ In x l.
Proof.
  induction l as [|y l IH]; cbn; [intuition congruence|].
  destruct (later_than r y); cbn; [intuition congruence|]. rewrite IH. intuition congruence.
Qed.

Lemma in_sort_desc x l : In x (sort_desc l) <-> In x l.
Proof.
  induction l as [|y l IH]; cbn; [tauto|]. rewrite in_insert_desc, IH. intuition congruence.
Qed.

Lemma in_get_checked_out d r :
  In r (get_checked_out d) <->
  exists c v, In c (checkouts d) /\ In v (vehicles d) /\ v_id v = c_vehicle_id c /\
    r = {| co_checkout := c; co_registration_number := registration_number (v_data v);
           co_owner_name := owner_name (v_data v); co_vehicle_type := vehicle_type (v_data v);
           co_in_place := in_place (v_data v) |}.
Proof.
  unfold get_checked_out. rewrite in_sort_desc, in_flat_map. split.
  - intros (c & Hc & Hr). unfold join_vehicle in Hr. apply in_map_iff in Hr as (v & <- & Hv).
    apply filter_In in Hv as [Hv Hid]. apply Nat.eqb_eq in Hid. exists c, v. done.
  - intros (c & v & Hc & Hv & Hid & ->). exists c. split; [done|]. unfold join_vehicle.
    apply in_map_iff. exists v. split; [done|]. apply filter_In. split; [done|]. by apply Nat.eqb_eq.
Qed.

(** C26: A committed DELETE /api/vehicles/:id of a checked-out vehicle
    takes its checkouts off the checkout screen's list of checked-out
    vehicles (the route's inner join finds no vehicle), although the
    checkout rows, with the amounts billed, stay in the table. *)
Theorem deleted_vehicle_leaves_list fault vid d u d' c :
  delete_vehicle fault vid d = (Ok u, d') ->
  In c (checkouts d) -> c_vehicle_id c = vid -> (exists v, In v (vehicles d) /\ v_id v = vid) ->
  (exists r, In r (get_checked_out d) /\ co_checkout r = c) /\
  In c (checkouts d') /\
  forall r, In r (get_checked_out d') -> c_vehicle_id (co_checkout r) <> vid.
Proof.
  intros Hdel Hc Hcv (v & Hv & Hvid).
  pose proof (delete_vehicle_all_or_nothing fault vid d) as Hd. rewrite Hdel in Hd. subst d'.
  split; [|split].
  - eexists. split; [apply in_get_checked_out; exists c, v; repeat split; congruence | reflexivity].
  - exact Hc.
  - intros r Hr. apply in_get_checked_out in Hr as (c' & v' & _ & Hv' & Hid & ->). cbn.
    cbn in Hv'. unfold keep_unless in Hv'. apply filter_In in Hv' as [_ Hn].
    intros Heq. rewrite Hid, Heq, Nat.eqb_refl in Hn. discriminate.
Qed.

(** The car of the spec's example, checked out once, then deleted: the
    list had one row and has none, the checkout row stays. *)
Lemma deleted_vehicle_leaves_list_witness :
  length (get_checked_out yard_checked_db) = 1 /\
  length (get_checked_out (snd (delete_vehicle no_fault 1 yard_checked_db))) = 0 /\
  match checkouts yard_checked_db, vehicles yard_checked_db with
  | c :: _, v :: _ =>
      (exists r, In r (get_checked_out yard_checked_db) /\ co_checkout r = c) /\
      In c (checkouts (snd (delete_vehicle no_fault 1 yard_checked_db))) /\
      forall r, In r (get_checked_out (snd (delete_vehicle no_fault 1 yard_checked_db))) ->
                c_vehicle_id (co_checkout r) <> 1
  | _, _ => False
  end.
Proof.
  split; [vm_compute; reflexivity|]. split; [vm_compute; reflexivity|].
  destruct (checkouts yard_checked_db) as [|c cs] eqn:Ec; [vm_compute in Ec; discriminate|].
  destruct (vehicles yard_checked_db) as [|v vs] eqn:Ev; [vm_compute in Ev; discriminate|].
  apply (deleted_vehicle_leaves_list no_fault 1 yard_checked_db tt).
  - vm_compute. reflexivity.
  - rewrite Ec. by left.
  - vm_compute in Ec. injection Ec as <- _. reflexivity.
  - exists v. split; [rewrite Ev; by left|]. vm_compute in Ev. injection Ev as <- _. reflexivity.
Defined.
