(* ===== verification/Dashboard.v ===== *)
(** * Dashboard: the location view of the dashboard

    Dashboard.jsx 14-101 and 199-330.  The location cards are
    [Occupancy.dashboard_counts]; choosing a card shows the vehicles of
    the location: [load_vehicles] (GET /api/vehicles, filtered by
    [in_place]) or, with the switch on, [load_checked_out] (GET
    /api/vehicles/checked-out, filtered by the [in_place] of the JSON
    snapshot each checkout stored).  The search field filters the rows
    ([filtered_rows]); the stat cards show the number of filtered rows
    and, per vehicle type, [type_counts] of the unfiltered rows.  The
    effect on [selectedLocation] and [showCheckedOut] reloads both lists;
    its answers arrive before the next user action. *)

From stdpp Require Import base list strings decidable.
From Stdlib Require Import ZArith Lia Ascii.
From S2P Require Import Prelude Schema Store VehicleStore Pricing Checkout System Occupancy Reads CheckedOutList.

(** A row of the table: the fields the view reads. *)
Record dash_row := {
  dr_id : nat; dr_registration_number : string; dr_vehicle_type : string;
  dr_owner_name : string; dr_date : Z
}.

(** [vehicles.filter(v => v.in_place === selectedLocation.name)]. *)
Definition load_vehicles (d : db) (name : string) : list dash_row :=
  map (fun r => let v := lr_vehicle r in
                {| dr_id := v_id v; dr_registration_number := registration_number (v_data v);
                   dr_vehicle_type := vehicle_type (v_data v); dr_owner_name := owner_name (v_data v);
                   dr_date := in_date (v_data v) |})
      (List.filter (fun r => String.eqb (in_place (v_data (lr_vehicle r))) name) (get_vehicles d)).

(** [JSON.parse(checkout.vehicle_details).in_place === selectedLocation.name],
    then the mapped object. *)
Definition load_checked_out (d : db) (name : string) : list dash_row :=
  map (fun r => {| dr_id := c_vehicle_id (co_checkout r);
                   dr_registration_number := co_registration_number r;
                   dr_vehicle_type := co_vehicle_type r; dr_owner_name := co_owner_name r;
                   dr_date := c_checkout_date (co_checkout r) |})
      (List.filter (fun r => String.eqb (in_place (v_data (sr_vehicle (c_vehicle_details (co_checkout r)))))
                                        name)
                   (get_checked_out d)).

(** The search condition of [filteredVehicles]. *)
Definition dash_match (term : string) (r : dash_row) : bool :=
  let t := js_lower term in
  js_includes (js_lower (dr_registration_number r)) t ||
  js_includes (js_lower (dr_owner_name r)) t ||
  js_includes (js_lower (dr_vehicle_type r)) t.

(** [filteredVehicles]. *)
Definition filtered_rows (term : string) (rows : list dash_row) : list dash_row :=
  List.filter (dash_match term) rows.

(** [getVehicleTypeCounts]: [acc[type] = (acc[type] || 0) + 1], an empty
    type counted as ['Unknown']. *)
Definition type_counts (rows : list dash_row) : list (string * nat) :=
  fold_left (fun acc r =>
               let ty := if String.eqb (dr_vehicle_type r) "" then "Unknown" else dr_vehicle_type r in
               obj_set ty (default 0 (obj_get ty acc) + 1) acc) rows [].

Record dash_screen := {
  ds_selected : option location_row;
  ds_show_checked_out : bool;
  ds_term : string;
  ds_vehicles : list dash_row;
  ds_checked_out : list dash_row
}.

(** The effect on [selectedLocation] and [showCheckedOut]:
    [loadVehicles] and [loadCheckedOutVehicles], both answered from the
    database of the moment (the view shows one of the two lists). *)
Definition reload (d : db) (s : dash_screen) : dash_screen :=
  match ds_selected s with
  | Some l => {| ds_selected := Some l; ds_show_checked_out := ds_show_checked_out s;
                 ds_term := ds_term s; ds_vehicles := load_vehicles d (l_name l);
                 ds_checked_out := load_checked_out d (l_name l) |}
  | None => s
  end.

Inductive dash_event := SelectLocation (l : location_row) | BackToLocations
                      | ToggleCheckedOut (b : bool) | SetDashTerm (v : string).

Definition dash_step (e : dash_event) (s : dash_screen) (d : db) : option dash_screen :=
  match e, ds_selected s with
  | SelectLocation l, None =>
      Some (reload d {| ds_selected := Some l; ds_show_checked_out := ds_show_checked_out s;
                        ds_term := ds_term s; ds_vehicles := ds_vehicles s;
                        ds_checked_out := ds_checked_out s |})
  | BackToLocations, Some _ =>
      Some {| ds_selected := None; ds_show_checked_out := ds_show_checked_out s; ds_term := ds_term s;
              ds_vehicles := ds_vehicles s; ds_checked_out := ds_checked_out s |}
  | ToggleCheckedOut b, Some _ =>
      Some (reload d {| ds_selected := ds_selected s; ds_show_checked_out := b; ds_term := ds_term s;
                        ds_vehicles := ds_vehicles s; ds_checked_out := ds_checked_out s |})
  | SetDashTerm v, Some _ =>
      Some {| ds_selected := ds_selected s; ds_show_checked_out := ds_show_checked_out s; ds_term := v;
              ds_vehicles := ds_vehicles s; ds_checked_out := ds_checked_out s |}
  | _, _ => None
  end.

(** The rows of the list the view shows. *)
Definition shown_rows (s : dash_screen) : list dash_row :=
  if ds_show_checked_out s then ds_checked_out s else ds_vehicles s.

(** The stat cards of the location view: [Total Vehicles] and one card
    per type. *)
Definition stat_cards (s : dash_screen) : nat * list (string * nat) :=
  (length (filtered_rows (ds_term s) (shown_rows s)), type_counts (shown_rows s)).

(** The table of the location view: plate, type, owner, the entry or
    checkout date, and the chip [In] or [Out]. *)
Definition dash_table (s : dash_screen) : list (string * string * string * Z * string) :=
  let rows := shown_rows s in
  map (fun r => (dr_registration_number r, dr_vehicle_type r, dr_owner_name r, dr_date r,
                 if ds_show_checked_out s then "Out" else "In"))
      (filtered_rows (ds_term s) rows).

(** ** Theorems *)

Definition counts_total (o : list (string * nat)) : nat := sum_list_with snd o.

Lemma obj_set_total k (o : list (string * nat)) :
  counts_total (obj_set k (default 0 (obj_get k o) + 1) o) = S (counts_total o).
Proof.
  unfold counts_total. induction o as [|[k' v'] o IH]; cbn; [lia|].
  destruct (String.eqb k k'); cbn; [lia|]. rewrite IH. lia.
Qed.

Lemma type_counts_fold rows acc :
  counts_total (fold_left (fun acc r =>
      let ty := if String.eqb (dr_vehicle_type r) "" then "Unknown" else dr_vehicle_type r in
      obj_set ty (default 0 (obj_get ty acc) + 1) acc) rows acc) = counts_total acc + length rows.
Proof.
  revert acc. induction rows as [|r rows IH]; intros acc; cbn [fold_left length]; [lia|].
  rewrite IH, obj_set_total. lia.
Qed.

(** The type cards count every row of the list, filtered or not: they add
    up to the total card only when the search keeps every row. *)
Lemma type_counts_total rows : counts_total (type_counts rows) = length rows.
Proof. unfold type_counts. by rewrite type_counts_fold. Qed.

Lemma length_filter_split {A} (p : A -> bool) l :
  length l = length (List.filter p l) + length (List.filter (fun x => negb (p x)) l).
Proof. induction l as [|x l IH]; cbn; [done|]. destruct (p x); cbn; lia. Qed.

(** C14: The stat cards of the location view disagree under a search: the
    [Total Vehicles] card counts the rows the search keeps
    ([filteredVehicles.length], Dashboard.jsx 264), while the cards of
    [getVehicleTypeCounts] count every row of the list; the type cards
    add up to the total plus exactly the rows the search hides. *)
Theorem type_cards_ignore_search s :
  counts_total (snd (stat_cards s)) =
  fst (stat_cards s) + length (List.filter (fun r => negb (dash_match (ds_term s) r)) (shown_rows s)).
Proof.
  unfold stat_cards, filtered_rows. cbn [fst snd].
  rewrite type_counts_total. apply length_filter_split.
Qed.
