(* ===== verification/Receipt.v ===== *)
(** * Receipt: the printed checkout receipt

    Checkout.jsx 485-750 ([printReceipt]).  The receipt is printed after
    a payment (from the request body) and from the checked-out list
    (from the row, whose [vehicle_details] column holds the same JSON);
    both read the snapshot the client took from GET
    /api/vehicles/search/:regNo (server.js 740-748): the vehicle row's
    columns, [battery_details] (the battery row or [null]), [tyres] (the
    tyre rows) and [documents] (an object of booleans).

    [snapshot_json] is that object, its nested rows with the columns the
    [INSERT]s name (server.js 569-598; an [id] column, if the tables
    have one, is never read by the receipt).  [print_receipt] is
    [printReceipt] on the object it is given: it reads
    [vehicle.vehicle_details] ([None] when that read throws a
    [TypeError]) and [receipt_fields] is what the template
    interpolates: each [${x || '-'}] is [or_dash] of a property read,
    [undefined] being [None].  [checkout_json] is the object a payment
    passes ([checkoutData]) and a checked-out row carries, and
    [receipt_of] the receipt printed from it; a row of the checked-out
    list is [checkout_row_json], which writes the date differently.
    Dates and times are the strings [res.json] and the client write
    (the [toLocaleDateString] rendering the template applies is
    presentation), and the receipt number ([Date.now()]) and the print
    dates are not modelled. *)

From stdpp Require Import base list strings decidable.
From Stdlib Require Import ZArith Lia Ascii.
From S2P Require Import Prelude Dates Schema.

(** ** JSON values *)

#[local] Set Warnings "-register-all".

Inductive jval :=
| JStr (s : string)
| JNum (z : Z)
| JBool (b : bool)
| JNull
| JObj (fields : list (string * jval))
| JArr (xs : list jval).

(** [String(v)] of the values the template prints. *)
Definition jtext (v : jval) : string :=
  match v with
  | JStr s => s
  | JNum z => z_decimal z
  | JBool b => if b then "true" else "false"
  | JNull => "null"
  | JObj _ => "[object Object]"
  | JArr _ => ""
  end.

(** JavaScript truthiness of a property read. *)
Definition jtruthy (o : option jval) : bool :=
  match o with
  | Some (JStr s) => negb (String.eqb s "")
  | Some (JNum z) => negb (Z.eqb z 0)
  | Some (JBool b) => b
  | Some JNull | None => false
  | Some (JObj _) | Some (JArr _) => true
  end.

(** [${x || '-'}]. *)
Definition or_dash (o : option jval) : string :=
  match o with Some v => if jtruthy o then jtext v else "-" | None => "-" end.

(** [vehicle?.x || '']. *)
Definition or_empty (o : option jval) : string :=
  match o with Some v => if jtruthy o then jtext v else "" | None => "" end.

(** [${x}] without a fallback. *)
Definition plain (o : option jval) : string :=
  match o with Some v => jtext v | None => "undefined" end.

(** ** The snapshot *)

Definition battery_json (b : battery_row) : jval :=
  JObj [("vehicle_id", JNum (Z.of_nat (b_vehicle_id b))); ("make", JStr (b_make b));
        ("number", JStr (b_number b)); ("condition_status", JStr (b_condition b))].

Definition tyre_json (t : tyre_row) : jval :=
  JObj [("vehicle_id", JNum (Z.of_nat (t_vehicle_id t))); ("position", JStr (t_position t));
        ("make", JStr (t_make t)); ("number", JStr (t_number t));
        ("condition_status", JStr (t_condition t))].

(** The columns of a [vehicles] row, [v.*] of the routes' [SELECT]s, as
    [res.json] writes them.  mysql2 reads [in_date] (a [DATE]) as the
    [Date] of its midnight in the server's zone, taken to be UTC as in
    [Checkout], and [created_at] as the [Date] of its instant (kept in
    milliseconds); [res.json] writes each [Date] as its [toISOString]. *)
Definition vehicle_columns (v : vehicle) : list (string * jval) :=
  let i := v_data v in
  [("id", JNum (Z.of_nat (v_id v))); ("agreement_no", JStr (agreement_no i));
   ("financier_name", JStr (financier_name i)); ("owner_name", JStr (owner_name i));
   ("address", JStr (address i)); ("registration_number", JStr (registration_number i));
   ("vehicle_type", JStr (vehicle_type i)); ("make", JStr (make i)); ("model", JStr (model i));
   ("year", JStr (year i)); ("engine_no", JStr (engine_no i)); ("chassis_no", JStr (chassis_no i));
   ("kms_run", JStr (kms_run i)); ("in_date", JStr (iso_string (in_date i * day_ms))); ("in_time", JStr (in_time i));
   ("in_place", JStr (in_place i)); ("additional_details", JStr (additional_details i));
   ("status", JStr (v_status v)); ("created_at", JStr (iso_string (v_created_at v)))].

(** [formattedVehicle]: [...vehicle] and the three child parts. *)
Definition snapshot_json (sr : search_result) : list (string * jval) :=
  vehicle_columns (sr_vehicle sr) ++
  [("battery_details", match sr_battery sr with Some b => battery_json b | None => JNull end);
   ("tyres", JArr (map tyre_json (sr_tyres sr)));
   ("documents", JObj (map (fun '(k, b) => (k, JBool b)) (sr_documents sr)))].

(** ** The receipt *)

Record receipt := {
  rc_title : string;
  rc_registration_number : string;
  rc_agreement_no : string;
  rc_financier_name : string;
  rc_owner_name : string;
  rc_vehicle_type : string;
  rc_make_model : string;
  rc_engine_no : string;
  rc_chassis_no : string;
  rc_year : string;
  rc_kms_run : string;
  rc_battery_make : string;
  rc_battery_number : string;
  rc_battery_condition : string;
  rc_tyres : list (string * string * string * string);
  rc_documents : list (string * bool);
  rc_in_date : option jval;
  rc_in_time : string;
  rc_checkout_date : option jval;
  rc_checkout_time : string;
  rc_days_stayed : string;
  rc_price_per_day : string;
  rc_total_amount : string
}.

(** A row of the tyre table: [${tyre.position || '-'}] ... [${tyre.condition || '-'}]. *)
Definition tyre_line (t : jval) : string * string * string * string :=
  match t with
  | JObj o => (or_dash (obj_get "position" o), or_dash (obj_get "make" o),
               or_dash (obj_get "number" o), or_dash (obj_get "condition" o))
  | _ => ("-", "-", "-", "-")
  end.

(** [Object.entries(vehicleDetails.documents || {})], shown as a tick or a cross. *)
Definition document_lines (o : option jval) : list (string * bool) :=
  match o with
  | Some (JObj fs) => map (fun '(k, v) => (k, jtruthy (Some v))) fs
  | _ => []
  end.

(** The fields the template interpolates, [o] being [vehicleDetails] and
    [v] the argument of [printReceipt]. *)
Definition receipt_fields (o v : list (string * jval)) : receipt :=
  let get k := obj_get k o in
  {| rc_title := ("Vehicle Receipt - " ++ plain (get "registration_number"))%string;
     rc_registration_number := plain (get "registration_number");
     rc_agreement_no := or_dash (get "agreement_no");
     rc_financier_name := or_dash (get "financier_name");
     rc_owner_name := or_dash (get "owner_name");
     rc_vehicle_type := or_dash (get "vehicle_type");
     rc_make_model := (plain (get "make") ++ " " ++ or_dash (get "model"))%string;
     rc_engine_no := or_dash (get "engine_no");
     rc_chassis_no := or_dash (get "chassis_no");
     rc_year := or_dash (get "year");
     rc_kms_run := or_dash (get "kms_run");
     rc_battery_make := or_dash (get "battery_make");
     rc_battery_number := or_dash (get "battery_number");
     rc_battery_condition := or_dash (get "battery_condition");
     rc_tyres := match get "tyres" with Some (JArr ts) => map tyre_line ts | _ => [] end;
     rc_documents := document_lines (get "documents");
     rc_in_date := get "in_date";
     rc_in_time := plain (get "in_time");
     rc_checkout_date := obj_get "checkout_date" v;
     rc_checkout_time := plain (obj_get "checkout_time" v);
     rc_days_stayed := plain (obj_get "days_stayed" v);
     rc_price_per_day := plain (obj_get "price_per_day" v);
     rc_total_amount := plain (obj_get "total_amount" v) |}.

(** [printReceipt(vehicle)]: [vehicle.vehicle_details], parsed when it
    is a string.  Reading [registration_number] of [undefined] or [null]
    throws a [TypeError] before the window is written: [None].  A number,
    boolean or array has no such properties: every read is [undefined].
    A string is passed to [JSON.parse]; the model's rows carry the parsed
    object, so a string is never met, and is taken as a parse failure. *)
Definition print_receipt (v : list (string * jval)) : option receipt :=
  match obj_get "vehicle_details" v with
  | Some (JObj o) => Some (receipt_fields o v)
  | Some (JNum _) | Some (JBool _) | Some (JArr _) => Some (receipt_fields [] v)
  | Some (JStr _) | Some JNull | None => None
  end.

(** [billingDetails] (Checkout.jsx 98-105): the date as
    [toISOString().split('T')[0]], the time as
    [toTimeString().split(' ')[0]]. *)
Definition billing_json (b : billing) : list (string * jval) :=
  [("daysStayed", JNum (days_stayed b)); ("ratePerDay", JNum (rate_per_day b));
   ("totalAmount", JNum (total_amount b)); ("checkoutDate", JStr (iso_date (checkout_date b)));
   ("checkoutTime", JStr (clock_text (checkout_time b)))].

(** The columns of a checkout, with [checkout_date] written as [date]. *)
Definition checkout_fields (date : jval) (c : checkout_row) : list (string * jval) :=
  [("vehicle_id", JNum (Z.of_nat (c_vehicle_id c)));
   ("vehicle_details", JObj (snapshot_json (c_vehicle_details c)));
   ("billing_details", JObj (billing_json (c_billing_details c)));
   ("checkout_date", date); ("checkout_time", JStr (clock_text (c_checkout_time c)));
   ("days_stayed", JNum (c_days_stayed c)); ("price_per_day", JNum (c_price_per_day c));
   ("total_amount", JNum (c_total_amount c))].

(** [checkoutData] of [handlePayment] (Checkout.jsx 456-465): the date
    and time strings of [billingDetails]. *)
Definition checkout_json (c : checkout_row) : list (string * jval) :=
  checkout_fields (JStr (iso_date (c_checkout_date c))) c.

(** A row of GET /api/vehicles/checked-out, [c.*] as [res.json] writes
    it (server.js 112-128): the [DATE] as the [toISOString] of its UTC
    midnight, the [TIME] as mysql2's ["HH:MM:SS"], [vehicle_details]
    parsed. *)
Definition checkout_row_json (c : checkout_row) : list (string * jval) :=
  checkout_fields (JStr (iso_string (c_checkout_date c * day_ms))) c.

(** The receipt printed after the payment, from [checkoutData]. *)
Definition receipt_of (c : checkout_row) : option receipt := print_receipt (checkout_json c).

(** ** Theorems *)

Lemma tyre_lines_of_rows ts :
  map tyre_line (map tyre_json ts) =
  map (fun t => (or_dash (Some (JStr (t_position t))), or_dash (Some (JStr (t_make t))),
                 or_dash (Some (JStr (t_number t))), "-")) ts.
Proof. induction ts as [|t ts IH]; [done|]. cbn [map]. rewrite IH. reflexivity. Qed.

Lemma document_lines_of_snapshot (ds : list (string * bool)) :
  document_lines (Some (JObj (map (fun '(k, b) => (k, JBool b)) ds))) = ds.
Proof.
  unfold document_lines. rewrite map_map. rewrite <- (map_id ds) at 2.
  apply map_ext. by intros [k b].
Qed.

(** C40: Every printed receipt, after a payment ([checkout_json], the
    date as ["YYYY-MM-DD"]) or from a row of the checked-out list
    ([checkout_row_json] and the row's vehicle columns, the date as an
    ISO timestamp), shows [-] for the battery's make, number and
    condition and for the condition of every tyre, whatever the intake
    recorded: the template reads [battery_make], [battery_number],
    [battery_condition] and [tyre.condition], which the snapshot does
    not have (it holds [battery_details] and the tyre rows'
    [condition_status]).  The plate, the tyre rows, the documents and
    the billed total are shown as the checkout stored them. *)
Theorem receipt_loses_battery_and_condition c date extra :
  let sr := c_vehicle_details c in
  exists r, print_receipt (checkout_fields date c ++ extra) = Some r /\
  rc_battery_make r = "-" /\ rc_battery_number r = "-" /\ rc_battery_condition r = "-" /\
  Forall (fun l => snd l = "-") (rc_tyres r) /\ length (rc_tyres r) = length (sr_tyres sr) /\
  rc_registration_number r = registration_number (v_data (sr_vehicle sr)) /\
  rc_documents r = sr_documents sr /\ rc_total_amount r = z_decimal (c_total_amount c).
Proof.
  cbn zeta. eexists. split; [reflexivity|].
  unfold receipt_fields, snapshot_json, vehicle_columns. cbn [app obj_get String.eqb Ascii.eqb Bool.eqb andb].
  repeat split.
  - rewrite tyre_lines_of_rows. apply Forall_forall. intros l Hl.
    apply in_map_iff in Hl as (t & <- & _). reflexivity.
  - rewrite tyre_lines_of_rows. apply length_map.
  - apply document_lines_of_snapshot.
Qed.
