(* ===== verification/VehicleListScreen.v ===== *)
(** * VehicleListScreen: the vehicle list page

    VehicleList.jsx.  The page loads GET /api/vehicles ([fetchVehicles],
    lines 101-116, the rows of [Reads.get_vehicles] sent as JSON by
    [res.json], server.js 88-104) and the location names of GET
    /api/settings/locations ([fetchLocations], 118-126).  The search
    field and the location select filter the rows, the two sortable
    headers set [sortConfig], and the rows are sorted by
    [new Date(b[field]) - new Date(a[field])] ([filteredVehicles],
    355-369).  Each row has a checkbox ([handleSelectVehicle], 342-353),
    a preview ([handlePreview], 295-303), a print button ([handlePrint],
    1204-1285, the sheet of 539-700) and a delete button
    ([handleDelete], 311-324); [Print Selected] prints every selected
    vehicle ([handleBulkPrint], 512-526).

    - A row is the object [res.json] sends: [row_json] (the vehicle
      columns, the decoded images, tyres and documents, and the three
      battery columns of the LEFT JOIN).  A property read is [obj_get];
      [undefined] is [None].
    - [Array.prototype.sort] is stable (ES2019) and takes a comparator
      result that is [NaN] as [0]: [js_sort] is the stable insertion
      sort with that reading, [None] standing for [NaN].  [new Date(x)]
      is [js_date]: numbers are time values, [null] is [0], [undefined]
      and the rows' strings are not dates (the columns the page can sort
      by are absent from the rows, so no string is ever parsed).
    - The requests answer before the next user action; GET
      /api/vehicles always answers (its [SELECT] is not given a fault).
    - The [useEffect] on [sortConfig] and [filters] refetches both lists;
      [setSortConfig] always makes a new object, and [Apply Filters] is
      modelled as refetching too (the answer is the same when the
      filters object is unchanged).
    - The edit dialog is [EditDialog]; the loading spinner and the error
      alert are not modelled (the fetch always answers). *)

From stdpp Require Import base list strings decidable.
From Stdlib Require Import ZArith Lia Ascii.
From S2P Require Import Prelude Dates Schema Store VehicleStore Checkout Occupancy Reads CheckedOutList Receipt.

(** ** The rows as the client sees them *)

Definition opt_field (k : string) (o : option string) : list (string * jval) :=
  match o with Some s => [(k, JStr s)] | None => [] end.

(** [{ position, make, number, condition }]: [JSON.stringify] drops the
    parts that are [undefined]. *)
Definition tyre_obj_json (t : tyre_obj) : jval :=
  JObj (opt_field "position" (to_position t) ++ opt_field "make" (to_make t) ++
        opt_field "number" (to_number t) ++ opt_field "condition" (to_condition t)).

Definition battery_column (f : battery_row -> string) (b : option battery_row) : jval :=
  match b with Some r => JStr (f r) | None => JNull end.

(** An element of the answer of GET /api/vehicles. *)
Definition row_json (r : list_row) : list (string * jval) :=
  vehicle_columns (lr_vehicle r) ++
  [("images", JArr (map JStr (lr_images r)));
   ("tyres", JArr (map tyre_obj_json (lr_tyres r)));
   ("documents", JObj (map (fun '(k, b) => (k, JBool b)) (lr_documents r)));
   ("battery_make", battery_column b_make (lr_battery r));
   ("battery_number", battery_column b_number (lr_battery r));
   ("battery_condition", battery_column b_condition (lr_battery r))].

Definition row_id (r : list_row) : nat := v_id (lr_vehicle r).

(** The body of GET /api/vehicles/:id (server.js 488-539): the row, or
    the 404 body [{ message }]. *)
Definition vehicle_json (o : option list_row) : list (string * jval) :=
  match o with
  | Some r => row_json r
  | None => [("message", JStr "Vehicle not found")]
  end.

(** ** Sorting *)

(** [new Date(x)] as a time value, [None] being [NaN]. *)
Definition js_date (o : option jval) : option Z :=
  match o with
  | Some (JNum z) => Some z
  | Some (JStr s) => js_date_of_string s
  | Some JNull => Some 0%Z
  | Some (JBool b) => Some (if b then 1 else 0)%Z
  | _ => None
  end.

(** A comparator's answer read as [> 0]; [NaN] is [+0]. *)
Definition cmp_pos (c : option Z) : bool :=
  match c with Some z => Z.ltb 0 z | None => false end.

(** Stable sort: [x] goes before the first element that must follow it. *)
Fixpoint js_sort_insert {A} (cmp : A -> A -> option Z) (x : A) (l : list A) : list A :=
  match l with
  | [] => [x]
  | y :: l' => if cmp_pos (cmp y x) then x :: y :: l' else y :: js_sort_insert cmp x l'
  end.

Definition js_sort {A} (cmp : A -> A -> option Z) (l : list A) : list A :=
  fold_left (fun acc x => js_sort_insert cmp x acc) l [].

Record sort_config := { sc_field : string; sc_direction : string }.

(** The two sortable headers: [handleSort('registrationNumber')] and
    [handleSort('inDate')]. *)
Inductive sort_header := RegistrationNoHeader | EntryDateHeader.

Definition header_field (h : sort_header) : string :=
  match h with RegistrationNoHeader => "registrationNumber" | EntryDateHeader => "inDate" end.

(** [handleSort]. *)
Definition handle_sort (field : string) (c : sort_config) : sort_config :=
  {| sc_field := field;
     sc_direction := if String.eqb (sc_field c) field && String.eqb (sc_direction c) "asc"
                     then "desc" else "asc" |}.

(** [direction * (new Date(b[field]) - new Date(a[field]))]. *)
Definition row_cmp (c : sort_config) (a b : list_row) : option Z :=
  let dir := if String.eqb (sc_direction c) "asc" then 1%Z else (-1)%Z in
  match js_date (obj_get (sc_field c) (row_json b)), js_date (obj_get (sc_field c) (row_json a)) with
  | Some tb, Some ta => Some (dir * (tb - ta))%Z
  | _, _ => None
  end.

(** ** Filtering *)

Definition matches_search (q : string) (r : list_row) : bool :=
  let i := v_data (lr_vehicle r) in let t := js_lower q in
  js_includes (js_lower (registration_number i)) t || js_includes (js_lower (owner_name i)) t ||
  js_includes (js_lower (vehicle_type i)) t.

Definition matches_location (loc : string) (r : list_row) : bool :=
  String.eqb loc "all" || String.eqb (in_place (v_data (lr_vehicle r))) loc.

Definition row_visible (q loc : string) (r : list_row) : bool :=
  matches_search q r && matches_location loc r.

(** [filteredVehicles]. *)
Definition filtered_vehicles (c : sort_config) (q loc : string) (rows : list list_row) : list list_row :=
  js_sort (row_cmp c) (List.filter (row_visible q loc) rows).

(** ** The print sheet *)

Definition ascii_upper (c : ascii) : ascii :=
  let n := nat_of_ascii c in
  if Nat.leb 97 n && Nat.leb n 122 then ascii_of_nat (n - 32) else c.

(** [word.charAt(0).toUpperCase() + word.slice(1).toLowerCase()]. *)
Definition capitalize (w : string) : string :=
  match w with EmptyString => EmptyString | String c w' => String (ascii_upper c) (js_lower w') end.

(** [doc.replace(/_/g, ' ')]. *)
Fixpoint underscores_to_spaces (s : string) : string :=
  match s with
  | EmptyString => EmptyString
  | String c s' => String (if Ascii.eqb c "_" then " " else c)%char (underscores_to_spaces s')
  end.

(** The label of a document: [.split(' ').map(capitalize).join(' ')]. *)
Definition doc_label (doc : string) : string :=
  join " " (map capitalize (js_split " " (underscores_to_spaces doc))).

Record print_sheet := {
  ps_title : string;
  ps_agreement_no : string; ps_financier_name : string; ps_owner_name : string;
  ps_vehicle_type : string; ps_make_model : string; ps_registration_number : string;
  ps_in_date : option jval; ps_in_time : string; ps_location : string;
  ps_engine_no : string; ps_chassis_no : string; ps_kms_run : string;
  ps_year : string; ps_make : string; ps_model : string;
  ps_battery_make : string; ps_battery_number : string; ps_battery_condition : string;
  ps_tyres : list (string * string * string * string);
  ps_documents : list (string * bool)
}.

(** A tyre of [generateBatteryTyreSection]: [${tyre.position}:] then
    [${tyre.make || '-'}] and the like. *)
Definition sheet_tyre_line (t : jval) : string * string * string * string :=
  match t with
  | JObj o => (plain (obj_get "position" o), or_dash (obj_get "make" o),
               or_dash (obj_get "number" o), or_dash (obj_get "condition" o))
  | _ => ("undefined", "-", "-", "-")
  end.

(** [handlePrint(vehicle)]: the report the print window shows. *)
Definition print_sheet_of (o : list (string * jval)) : print_sheet :=
  let get k := obj_get k o in
  {| ps_title := ("Vehicle Details - " ++ plain (get "registration_number"))%string;
     ps_agreement_no := or_dash (get "agreement_no");
     ps_financier_name := or_dash (get "financier_name");
     ps_owner_name := or_dash (get "owner_name");
     ps_vehicle_type := or_dash (get "vehicle_type");
     ps_make_model := (plain (get "make") ++ " " ++ or_dash (get "model"))%string;
     ps_registration_number := or_dash (get "registration_number");
     ps_in_date := get "in_date";
     ps_in_time := or_dash (get "in_time");
     ps_location := or_dash (get "in_place");
     ps_engine_no := or_dash (get "engine_no");
     ps_chassis_no := or_dash (get "chassis_no");
     ps_kms_run := or_dash (get "kms_run");
     ps_year := or_dash (get "year");
     ps_make := or_dash (get "make");
     ps_model := or_dash (get "model");
     ps_battery_make := or_dash (get "battery_make");
     ps_battery_number := or_dash (get "battery_number");
     ps_battery_condition := or_dash (get "battery_condition");
     ps_tyres := match get "tyres" with Some (JArr ts) => map sheet_tyre_line ts | _ => [] end;
     ps_documents := map (fun '(k, b) => (doc_label k, b)) (document_lines (get "documents")) |}.

(** ** The preview dialog *)

Record list_preview_view := {
  lp_fields : list (string * string);   (* the disabled text fields, label and value *)
  lp_documents : list (string * bool);  (* the document checkboxes *)
  lp_images : option (list string)      (* the image sources; [None]: "No images available" *)
}.

(** [PreviewDialog] (VehicleList.jsx 371-509) on [previewVehicle]: the
    basic, technical and battery fields as [vehicle?.x || ''], [Make &
    Model] as [`${make || ''} ${model || ''}`], the entries of
    [vehicle?.documents || {}], and the images when [images?.length > 0].
    [None] when the render throws: a non-empty string has a [length]
    but no [map]. *)
Definition list_preview_of (o : list (string * jval)) : option list_preview_view :=
  let get k := obj_get k o in
  let field '(l, k) := (l, or_empty (get k)) in
  match get "images" with
  | Some (JStr (String _ _)) => None
  | im =>
      Some {| lp_fields :=
                map field [("Agreement No", "agreement_no"); ("Financier Name", "financier_name");
                           ("Owner Name", "owner_name"); ("Registration Number", "registration_number");
                           ("Vehicle Type", "vehicle_type")] ++
                [("Make & Model", or_empty (get "make") ++ " " ++ or_empty (get "model"))] ++
                map field [("Engine No", "engine_no"); ("Chassis No", "chassis_no");
                           ("KMs Run", "kms_run"); ("Year", "year"); ("Battery Make", "battery_make");
                           ("Battery Number", "battery_number"); ("Battery Condition", "battery_condition")];
              lp_documents := document_lines (get "documents");
              lp_images := match im with
                           | Some (JArr (x :: xs)) =>
                               Some (map (fun i => "http://localhost:5000" ++ jtext i) (x :: xs))
                           | _ => None
                           end |}
  end%string.

(** ** The page *)

Record vfilters := {
  vf_vehicle_type : string; vf_start : string; vf_end : string; vf_status : string
}.

Definition vfilters_init : vfilters :=
  {| vf_vehicle_type := "all"; vf_start := ""; vf_end := ""; vf_status := "all" |}.

Record vl_screen := {
  vl_vehicles : list list_row;          (* [vehicles] *)
  vl_locations : list string;           (* [locations], by name *)
  vl_selected : list nat;               (* [selectedVehicles] *)
  vl_page : nat;                        (* [page] *)
  vl_rows_per_page : nat;               (* [rowsPerPage] *)
  vl_query : string;                    (* [searchQuery] *)
  vl_location : string;                 (* [selectedLocation] *)
  vl_sort : sort_config;                (* [sortConfig] *)
  vl_filters : vfilters;                (* [filters] *)
  vl_preview : option (option list_row); (* [previewVehicle]; [Some None] the 404 body *)
  vl_printed : list print_sheet;         (* the print windows opened, in order *)
  vl_bulk_open : bool                    (* [bulkPrintDialogOpen] *)
}.

(** [fetchVehicles] and [fetchLocations]; the latter keeps the names of
    the rows of GET /api/settings/locations, which are the table's
    whatever the collation ([Occupancy.location_counts_rows]). *)
Definition fetch_vehicles (d : db) (s : vl_screen) : vl_screen :=
  {| vl_vehicles := get_vehicles d; vl_locations := vl_locations s; vl_selected := vl_selected s;
     vl_page := vl_page s; vl_rows_per_page := vl_rows_per_page s; vl_query := vl_query s;
     vl_location := vl_location s; vl_sort := vl_sort s; vl_filters := vl_filters s;
     vl_preview := vl_preview s; vl_printed := vl_printed s;
     vl_bulk_open := vl_bulk_open s |}.

Definition fetch_location_names (d : db) (s : vl_screen) : vl_screen :=
  {| vl_vehicles := vl_vehicles s; vl_locations := map l_name (locations d);
     vl_selected := vl_selected s; vl_page := vl_page s; vl_rows_per_page := vl_rows_per_page s;
     vl_query := vl_query s; vl_location := vl_location s; vl_sort := vl_sort s;
     vl_filters := vl_filters s; vl_preview := vl_preview s; vl_printed := vl_printed s;
     vl_bulk_open := vl_bulk_open s |}.

(** The effect on [sortConfig] and [filters]. *)
Definition refetch (d : db) (s : vl_screen) : vl_screen :=
  fetch_location_names d (fetch_vehicles d s).

(** The page as mounted on a desktop ([rowsPerPage] 10). *)
Definition vl_init (d : db) : vl_screen :=
  refetch d {| vl_vehicles := []; vl_locations := []; vl_selected := []; vl_page := 0;
               vl_rows_per_page := 10; vl_query := ""; vl_location := "all";
               vl_sort := {| sc_field := "inDate"; sc_direction := "desc" |};
               vl_filters := vfilters_init; vl_preview := None; vl_printed := [];
               vl_bulk_open := false |}.

(** The rows of the table (and of the mobile cards): every filtered
    row; [TablePagination] shows a page count but the table is not
    sliced. *)
Definition table_rows (s : vl_screen) : list list_row :=
  filtered_vehicles (vl_sort s) (vl_query s) (vl_location s) (vl_vehicles s).

Definition with_selected (sel : list nat) (s : vl_screen) : vl_screen :=
  {| vl_vehicles := vl_vehicles s; vl_locations := vl_locations s; vl_selected := sel;
     vl_page := vl_page s; vl_rows_per_page := vl_rows_per_page s; vl_query := vl_query s;
     vl_location := vl_location s; vl_sort := vl_sort s; vl_filters := vl_filters s;
     vl_preview := vl_preview s; vl_printed := vl_printed s;
     vl_bulk_open := vl_bulk_open s |}.

Definition with_view (page rpp : nat) (q loc : string) (c : sort_config) (f : vfilters)
    (s : vl_screen) : vl_screen :=
  {| vl_vehicles := vl_vehicles s; vl_locations := vl_locations s; vl_selected := vl_selected s;
     vl_page := page; vl_rows_per_page := rpp; vl_query := q; vl_location := loc; vl_sort := c;
     vl_filters := f; vl_preview := vl_preview s; vl_printed := vl_printed s;
     vl_bulk_open := vl_bulk_open s |}.

Definition with_output (pv : option (option list_row)) (printed : list print_sheet)
    (s : vl_screen) : vl_screen :=
  {| vl_vehicles := vl_vehicles s; vl_locations := vl_locations s; vl_selected := vl_selected s;
     vl_page := vl_page s; vl_rows_per_page := vl_rows_per_page s; vl_query := vl_query s;
     vl_location := vl_location s; vl_sort := vl_sort s; vl_filters := vl_filters s;
     vl_preview := pv; vl_printed := printed; vl_bulk_open := vl_bulk_open s |}.

(** [handleSelectVehicle]: add the id, or remove every copy of it. *)
Definition handle_select_vehicle (id : nat) (sel : list nat) : list nat :=
  if bool_decide (id ∈ sel) then List.filter (fun x => negb (Nat.eqb x id)) sel else sel ++ [id].

(** [handleSelectAllClick]: the ids of the filtered rows, or none. *)
Definition handle_select_all (checked : bool) (s : vl_screen) : list nat :=
  if checked then map row_id (table_rows s) else [].

(** [vehicles.find(v => v.id === vehicleId)]. *)
Definition find_row (id : nat) (rows : list list_row) : option list_row :=
  List.find (fun r => Nat.eqb (row_id r) id) rows.

(** [handleBulkPrint]: a print window for every selected id found in
    [vehicles], in selection order, then the selection is cleared. *)
Definition handle_bulk_print (s : vl_screen) : vl_screen :=
  with_selected [] (with_output (vl_preview s)
    (vl_printed s ++ map (fun r => print_sheet_of (row_json r))
                         (omap (fun id => find_row id (vl_vehicles s)) (vl_selected s))) s).

Definition with_bulk_open (b : bool) (s : vl_screen) : vl_screen :=
  {| vl_vehicles := vl_vehicles s; vl_locations := vl_locations s; vl_selected := vl_selected s;
     vl_page := vl_page s; vl_rows_per_page := vl_rows_per_page s; vl_query := vl_query s;
     vl_location := vl_location s; vl_sort := vl_sort s; vl_filters := vl_filters s;
     vl_preview := vl_preview s; vl_printed := vl_printed s; vl_bulk_open := b |}.

(** [executeBulkPrint] (528-537), the [Print Selected] button of
    [BulkPrintDialog]: the sheets of the selection, without the check for
    an empty one, then the dialog closes. *)
Definition execute_bulk_print (s : vl_screen) : vl_screen :=
  with_bulk_open false (handle_bulk_print s).

Section Page.
Context (fault : stmt -> db -> bool).

(** [handleDelete]: after [window.confirm], DELETE /api/vehicles/:id and,
    on an OK answer, [fetchVehicles]; the selection is left as it is. *)
Definition handle_delete (id : nat) (confirmed : bool) (s : vl_screen) (d : db) : vl_screen * db :=
  if confirmed then
    match delete_vehicle fault id d with
    | (Ok _, d') => (fetch_vehicles d' s, d')
    | (Err _, d') => (s, d')
    end
  else (s, d).

Inductive vl_event :=
| SetSearchQuery (q : string)
| SelectLocation (loc : string)
| SortClick (h : sort_header)
| SelectAllClick (checked : bool)
| SelectVehicleClick (id : nat)
| PreviewClick (id : nat)
| PrintClick (id : nat)
| DeleteClick (id : nat) (confirmed : bool)
| PrintSelectedClick
| ApplyFilters (f : vfilters)
| PageChange (n : nat)
| RowsPerPageChange (n : nat)
| ClosePreviewClick       (* the dialog's close icon, Close, or a click outside *)
| BulkDialogClose         (* [BulkPrintDialog]'s close icon, Cancel, or a click outside *)
| BulkDialogPrint.        (* [BulkPrintDialog]'s Print Selected *)

Definition shown (id : nat) (s : vl_screen) : bool := existsb (fun r => Nat.eqb (row_id r) id) (table_rows s).

(** One user action; [None] when its control is not on the page (a row
    button of a row not shown, [Print Selected] with nothing selected, a
    location that is not an option of the select). *)
Definition vl_step (e : vl_event) (s : vl_screen) (d : db) : option (vl_screen * db) :=
  match e with
  | SetSearchQuery q =>
      Some (with_view (vl_page s) (vl_rows_per_page s) q (vl_location s) (vl_sort s) (vl_filters s) s, d)
  | SelectLocation loc =>
      if String.eqb loc "all" || existsb (String.eqb loc) (vl_locations s) then
        Some (with_view (vl_page s) (vl_rows_per_page s) (vl_query s) loc (vl_sort s) (vl_filters s) s, d)
      else None
  | SortClick h =>
      Some (refetch d (with_view (vl_page s) (vl_rows_per_page s) (vl_query s) (vl_location s)
                                 (handle_sort (header_field h) (vl_sort s)) (vl_filters s) s), d)
  | SelectAllClick b => Some (with_selected (handle_select_all b s) s, d)
  | SelectVehicleClick id =>
      if shown id s then Some (with_selected (handle_select_vehicle id (vl_selected s)) s, d) else None
  | PreviewClick id =>
      if shown id s then Some (with_output (Some (get_vehicle d id)) (vl_printed s) s, d) else None
  | PrintClick id =>
      match find_row id (table_rows s) with
      | Some r => Some (with_output (vl_preview s) (vl_printed s ++ [print_sheet_of (row_json r)]) s, d)
      | None => None
      end
  | DeleteClick id confirmed => if shown id s then Some (handle_delete id confirmed s d) else None
  | PrintSelectedClick =>
      match vl_selected s with [] => None | _ => Some (handle_bulk_print s, d) end
  | ApplyFilters f =>
      Some (refetch d (with_view (vl_page s) (vl_rows_per_page s) (vl_query s) (vl_location s)
                                 (vl_sort s) f s), d)
  | PageChange n =>
      Some (with_view n (vl_rows_per_page s) (vl_query s) (vl_location s) (vl_sort s) (vl_filters s) s, d)
  | RowsPerPageChange n =>
      Some (with_view 0 n (vl_query s) (vl_location s) (vl_sort s) (vl_filters s) s, d)
  | ClosePreviewClick =>
      match vl_preview s with Some _ => Some (with_output None (vl_printed s) s, d) | None => None end
  | BulkDialogClose => if vl_bulk_open s then Some (with_bulk_open false s, d) else None
  | BulkDialogPrint => if vl_bulk_open s then Some (execute_bulk_print s, d) else None
  end.

(** A sequence of actions; an action whose control is absent is skipped. *)
Fixpoint vl_run (es : list vl_event) (s : vl_screen) (d : db) : vl_screen * db :=
  match es with
  | [] => (s, d)
  | e :: es' => match vl_step e s d with
                | Some (s', d') => vl_run es' s' d'
                | None => vl_run es' s d
                end
  end.

End Page.

(** ** Lemmas *)

Lemma obj_get_absent {V} k (o : list (string * V)) : ~ In k (map fst o) -> obj_get k o = None.
Proof.
  induction o as [|[k' v'] o IH]; intros Hk; [done|]. cbn in *.
  destruct (String.eqb_spec k k') as [->|_]; [tauto|]. apply IH. tauto.
Qed.

Lemma omap_length_lt {A B} (f : A -> option B) l x :
  In x l -> f x = None -> length (omap f l) < length l.
Proof.
  induction l as [|y l IH]; intros Hx Hf; [done|]. cbn.
  assert (length (omap f l) <= length l).
  { clear. induction l as [|y l IH]; cbn; [lia|]. destruct (f y); cbn; lia. }
  destruct Hx as [->|Hx]; [rewrite Hf; lia|]. specialize (IH Hx Hf). destruct (f y); cbn; lia.
Qed.

(** The keys of a row of GET /api/vehicles. *)
Definition row_keys : list string :=
  ["id"; "agreement_no"; "financier_name"; "owner_name"; "address"; "registration_number";
   "vehicle_type"; "make"; "model"; "year"; "engine_no"; "chassis_no"; "kms_run"; "in_date";
   "in_time"; "in_place"; "additional_details"; "status"; "created_at"; "images"; "tyres";
   "documents"; "battery_make"; "battery_number"; "battery_condition"].

Lemma row_json_keys r : map fst (row_json r) = row_keys.
Proof. reflexivity. Qed.

(** The fields the headers sort by are not keys of the rows. *)
Lemma header_field_absent h r : obj_get (header_field h) (row_json r) = None.
Proof. apply obj_get_absent. rewrite row_json_keys. destruct h; vm_compute; intuition discriminate. Qed.

Lemma js_sort_insert_last {A} (cmp : A -> A -> option Z) x acc :
  (forall y, cmp_pos (cmp y x) = false) -> js_sort_insert cmp x acc = acc ++ [x].
Proof. intros H. induction acc as [|y acc IH]; cbn; [done|]. by rewrite H, IH. Qed.

(** A comparator that never answers a positive number leaves the order. *)
Lemma js_sort_id {A} (cmp : A -> A -> option Z) l :
  (forall a b, cmp_pos (cmp a b) = false) -> js_sort cmp l = l.
Proof.
  intros H. unfold js_sort. change l with ([] ++ l) at 2. generalize (@nil A) as acc.
  induction l as [|x l IH]; intros acc; cbn; [by rewrite app_nil_r|].
  rewrite js_sort_insert_last by done. rewrite IH, <- app_assoc. done.
Qed.

Lemma in_get_vehicles d r : In r (get_vehicles d) -> In (lr_vehicle r) (vehicles d).
Proof.
  unfold get_vehicles, vehicle_list. intros (v & <- & Hv)%in_map_iff.
  apply in_sort_by_created, filter_In in Hv. apply Hv.
Qed.

(** What the page keeps true: the list is the server's current answer,
    and the sort field is one a header sets. *)
Definition vl_inv (s : vl_screen) (d : db) : Prop :=
  vl_vehicles s = get_vehicles d /\ exists h, sc_field (vl_sort s) = header_field h.

Lemma vl_init_inv d : vl_inv (vl_init d) d.
Proof. split; [done|]. by exists EntryDateHeader. Qed.

Lemma vl_step_inv fault e s d s' d' :
  vl_inv s d -> vl_step fault e s d = Some (s', d') -> vl_inv s' d'.
Proof.
  intros [Hv Hf] Hst. destruct e; cbn in Hst;
    repeat match type of Hst with
           | context [if ?b then _ else _] => destruct b
           | context [match ?x with _ => _ end] => destruct x eqn:?
           end; simplify_eq; try done.
  - split; [done|]. by exists h.
  - unfold handle_delete in Hst. destruct confirmed; [|by simplify_eq].
    pose proof (delete_vehicle_all_or_nothing fault id d) as Ha.
    destruct (delete_vehicle fault id d) as [[] d1]; simplify_eq; [done|]. by subst.
Qed.

(** A property of the page and the store that every action keeps holds
    after every sequence of actions. *)
Lemma vl_run_preserves fault (I : vl_screen -> db -> Prop) :
  (forall e s d s' d', I s d -> vl_step fault e s d = Some (s', d') -> I s' d') ->
  forall es s d, I s d -> I (fst (vl_run fault es s d)) (snd (vl_run fault es s d)).
Proof.
  intros Hstep es. induction es as [|e es IH]; intros s d H; cbn; [done|].
  destruct (vl_step fault e s d) as [[s' d']|] eqn:E; apply IH; [|done]. by eapply Hstep.
Qed.

Lemma vl_run_inv fault es s d : vl_inv s d -> vl_inv (fst (vl_run fault es s d)) (snd (vl_run fault es s d)).
Proof. apply vl_run_preserves. intros e. apply vl_step_inv. Qed.

(** No action sets [bulkPrintDialogOpen]. *)
Lemma vl_step_bulk_closed fault e s d s' d' :
  vl_bulk_open s = false -> vl_step fault e s d = Some (s', d') -> vl_bulk_open s' = false.
Proof.
  intros Hb Hst. destruct e; cbn in Hst;
    repeat match type of Hst with
           | context [if ?b then _ else _] => destruct b
           | context [match ?x with _ => _ end] => destruct x eqn:?
           end; simplify_eq; try done.
  unfold handle_delete in Hst. destruct confirmed; [|by simplify_eq].
  destruct (delete_vehicle fault id d) as [[] d1]; by simplify_eq.
Qed.

Lemma or_empty_str s : or_empty (Some (JStr s)) = s.
Proof. cbn. by destruct (String.eqb_spec s ""). Qed.

Lemma or_empty_battery f b :
  or_empty (Some (battery_column f b)) = match b with Some r => f r | None => "" end.
Proof. destruct b; [apply or_empty_str|reflexivity]. Qed.

Lemma row_cmp_nan h dir a b : cmp_pos (row_cmp {| sc_field := header_field h; sc_direction := dir |} a b) = false.
Proof. unfold row_cmp. cbn [sc_field]. by rewrite !header_field_absent. Qed.

(** ** Theorems *)

(** C30: Whatever the user does on the vehicle list (search, location,
    clicks on the sortable headers, filters applied in the filter dialog,
    page changes, selections, prints and deletes, any of which the store
    may refuse), the table shows exactly the rows of the server's current
    GET /api/vehicles answer that match the search and the location, in
    the server's order (newest intake first): the headers sort by
    [registrationNumber] and [inDate], which the rows do not have, so the
    comparator is always [NaN]; the filters are never applied; and the
    pagination never slices the table. *)
Theorem list_in_server_order fault es d :
  let s := fst (vl_run fault es (vl_init d) d) in
  table_rows s = List.filter (row_visible (vl_query s) (vl_location s))
                             (get_vehicles (snd (vl_run fault es (vl_init d) d))).
Proof.
  cbn zeta. destruct (vl_run_inv fault es (vl_init d) d (vl_init_inv d)) as [Hv [h Hf]].
  unfold table_rows, filtered_vehicles. rewrite Hv. apply js_sort_id.
  intros a b. destruct (vl_sort _) as [f dir]. cbn in Hf. subst f. apply row_cmp_nan.
Qed.

Lemma find_row_deleted fault id d d1 :
  delete_vehicle fault id d = (Ok tt, d1) -> find_row id (get_vehicles d1) = None.
Proof.
  intros Hd. pose proof (delete_vehicle_all_or_nothing fault id d) as Ha. rewrite Hd in Ha. subst d1.
  apply find_none_intro. intros r Hr. apply in_get_vehicles in Hr. cbn in Hr.
  apply keep_unless_spec in Hr as [_ Hn]. unfold row_id. exact Hn.
Qed.

(** C31: Deleting a selected vehicle leaves its id in the selection: the
    [Print Selected (n)] button keeps counting it, and pressing it prints
    fewer sheets than the count it showed (the deleted vehicle is no
    longer in [vehicles]), then clears the selection. *)
Theorem deleted_selection_not_printed fault s d id s1 d1 :
  vl_step fault (DeleteClick id true) s d = Some (s1, d1) ->
  delete_vehicle fault id d = (Ok tt, d1) ->
  In id (vl_selected s) ->
  vl_selected s1 = vl_selected s /\
  exists s2, vl_step fault PrintSelectedClick s1 d1 = Some (s2, d1) /\
    length (vl_printed s2) - length (vl_printed s1) < length (vl_selected s1) /\
    vl_selected s2 = [].
Proof.
  intros Hst Hd Hin. cbn in Hst. destruct (shown id s); [|done].
  unfold handle_delete in Hst. rewrite Hd in Hst. simplify_eq. split; [done|].
  destruct (vl_selected s) as [|x sel] eqn:Hsel; [done|].
  eexists. split; [cbn; rewrite Hsel; reflexivity|]. split; [|done].
  unfold handle_bulk_print. cbn [vl_printed with_selected with_output vl_selected vl_vehicles fetch_vehicles].
  rewrite length_app, length_map, Hsel.
  pose proof (omap_length_lt (fun i => find_row i (get_vehicles d1)) (x :: sel) id Hin
                             (find_row_deleted fault id d d1 Hd)). lia.
Qed.

(** Two cars taken in at "Yard A". *)
Definition two_car_db : db :=
  snd (post_vehicles no_fault (sample_body "KA02CD5678" sample_tyres) 1 yard_db).

(** Both cars selected on the page. *)
Definition both_selected : vl_screen := with_selected [1; 2] (vl_init two_car_db).

Lemma deleted_selection_not_printed_witness :
  match vl_step no_fault (DeleteClick 1 true) both_selected two_car_db with
  | Some (s1, d1) =>
      vl_selected s1 = vl_selected both_selected /\
      exists s2, vl_step no_fault PrintSelectedClick s1 d1 = Some (s2, d1) /\
        length (vl_printed s2) - length (vl_printed s1) < length (vl_selected s1) /\
        vl_selected s2 = []
  | None => False
  end.
Proof.
  destruct (vl_step no_fault (DeleteClick 1 true) both_selected two_car_db) as [[s1 d1]|] eqn:E;
    [|vm_compute in E; discriminate].
  apply (deleted_selection_not_printed no_fault both_selected two_car_db 1 s1 d1 E).
  - vm_compute in E. injection E as _ <-. vm_compute. reflexivity.
  - vm_compute. by left.
Defined.

Lemma sheet_tyres_of_rows ts :
  map sheet_tyre_line (map tyre_obj_json (map tyre_obj_of ts)) =
  map (fun t => (t_position t, or_dash (Some (JStr (t_make t))), or_dash (Some (JStr (t_number t))),
                 or_dash (Some (JStr (t_condition t))))) ts.
Proof. induction ts as [|t ts IH]; [done|]. cbn [map]. rewrite IH. reflexivity. Qed.

(** C32: The sheet [handlePrint] prints from a row of the vehicle list
    shows the make, number and condition of the vehicle's battery row
    (['-'] for an empty value or no battery) and, when the tyre rows
    survive the route's encoding (no [","] or [":"] in their fields,
    distinct, within [group_concat_max_len]), one line per tyre row with
    its position, make, number and condition, unlike the checkout
    receipt; the documents are listed under [doc_label] of their keys. *)
Theorem print_sheet_keeps_battery_and_tyres d v :
  Forall (fun t => tyre_clean t = true) (tyres_of d (v_id v)) ->
  NoDup (map tyre_code (tyres_of d (v_id v))) ->
  String.length (join "," (map tyre_code (tyres_of d (v_id v)))) <= group_concat_max_len ->
  let p := print_sheet_of (row_json (list_row_of d v)) in
  (ps_battery_make p, ps_battery_number p, ps_battery_condition p) =
    match head (batteries_of d (v_id v)) with
    | Some b => (or_dash (Some (JStr (b_make b))), or_dash (Some (JStr (b_number b))),
                 or_dash (Some (JStr (b_condition b))))
    | None => ("-", "-", "-")
    end /\
  ps_tyres p = map (fun t => (t_position t, or_dash (Some (JStr (t_make t))),
                              or_dash (Some (JStr (t_number t))), or_dash (Some (JStr (t_condition t)))))
                   (tyres_of d (v_id v)) /\
  ps_documents p = map (fun '(k, b) => (doc_label k, b)) (lr_documents (list_row_of d v)).
Proof.
  intros Hc Hnd Hlen. pose proof (list_row_tyres_roundtrip d v Hc Hnd Hlen) as Ht.
  cbn zeta. unfold print_sheet_of, row_json, vehicle_columns.
  cbn [app obj_get String.eqb Ascii.eqb Bool.eqb andb]. split; [|split].
  - cbn [lr_battery list_row_of]. by destruct (head (batteries_of d (v_id v))).
  - rewrite Ht. apply sheet_tyres_of_rows.
  - by rewrite document_lines_of_snapshot.
Qed.

Lemma print_sheet_keeps_battery_and_tyres_witness :
  match vehicles yard_db with
  | v :: _ =>
      let p := print_sheet_of (row_json (list_row_of yard_db v)) in
      (ps_battery_make p, ps_battery_number p, ps_battery_condition p) =
        match head (batteries_of yard_db (v_id v)) with
        | Some b => (or_dash (Some (JStr (b_make b))), or_dash (Some (JStr (b_number b))),
                     or_dash (Some (JStr (b_condition b))))
        | None => ("-", "-", "-")
        end /\
      ps_tyres p = map (fun t => (t_position t, or_dash (Some (JStr (t_make t))),
                                  or_dash (Some (JStr (t_number t))), or_dash (Some (JStr (t_condition t)))))
                       (tyres_of yard_db (v_id v)) /\
      ps_documents p = map (fun '(k, b) => (doc_label k, b)) (lr_documents (list_row_of yard_db v))
  | [] => False
  end.
Proof.
  destruct (vehicles yard_db) as [|v vs] eqn:E; [vm_compute in E; discriminate|].
  apply (print_sheet_keeps_battery_and_tyres yard_db v).
  - vm_compute in E. injection E as <- _. vm_compute. repeat constructor.
  - vm_compute in E. injection E as <- _. apply (bool_decide_unpack _). vm_compute. reflexivity.
  - vm_compute in E. injection E as <- _. vm_compute. lia.
Defined.

(** The checklist keys of the intake form are camelCase: the sheet runs
    their words together. *)
Example doc_label_camel_case :
  map doc_label ["registrationCardBook"; "insurance_certificate"] =
  ["Registrationcardbook"; "Insurance Certificate"].
Proof. reflexivity. Qed.

(** C33: The preview button of a row opens [PreviewDialog] on the answer of
    GET /api/vehicles/:id.  For a stored vehicle the dialog shows its
    columns (make and model in one field, separated by a space), the
    battery row's make, number and condition ([''] without one), its
    documents and its images, but neither its tyres nor its intake date,
    place, address or details.  For a vehicle deleted since the list was
    loaded, [handlePreview] does not look at the 404 status: the dialog
    opens on [{ message }] with every field blank, [Make & Model] a
    single space, no documents and no images. *)
Theorem preview_shows_vehicle_or_blank fault s d id s' d' :
  vl_step fault (PreviewClick id) s d = Some (s', d') ->
  d' = d /\ vl_preview s' = Some (get_vehicle d id) /\
  list_preview_of (vehicle_json (get_vehicle d id)) =
  Some match get_vehicle d id with
  | Some r =>
      let i := v_data (lr_vehicle r) in
      let bat f := match lr_battery r with Some b => f b | None => "" end in
      {| lp_fields := [("Agreement No", agreement_no i); ("Financier Name", financier_name i);
                       ("Owner Name", owner_name i); ("Registration Number", registration_number i);
                       ("Vehicle Type", vehicle_type i); ("Make & Model", make i ++ " " ++ model i);
                       ("Engine No", engine_no i); ("Chassis No", chassis_no i); ("KMs Run", kms_run i);
                       ("Year", year i); ("Battery Make", bat b_make); ("Battery Number", bat b_number);
                       ("Battery Condition", bat b_condition)];
         lp_documents := lr_documents r;
         lp_images := match lr_images r with
                      | [] => None
                      | ims => Some (map (fun u => "http://localhost:5000" ++ u) ims)
                      end |}
  | None =>
      {| lp_fields := [("Agreement No", ""); ("Financier Name", ""); ("Owner Name", "");
                       ("Registration Number", ""); ("Vehicle Type", ""); ("Make & Model", " ");
                       ("Engine No", ""); ("Chassis No", ""); ("KMs Run", ""); ("Year", "");
                       ("Battery Make", ""); ("Battery Number", ""); ("Battery Condition", "")];
         lp_documents := []; lp_images := None |}
  end%string.
Proof.
  intros Hst. cbn in Hst. destruct (shown id s); [|done]. injection Hst as <- <-. split; [done|]. split; [done|].
  destruct (get_vehicle d id) as [r|]; [|reflexivity].
  unfold vehicle_json, row_json, vehicle_columns, list_preview_of.
  cbn -[or_empty battery_column document_lines jtext String.append].
  destruct (lr_images r) as [|u us]; cbn [map];
    rewrite ?or_empty_str, ?or_empty_battery, document_lines_of_snapshot, ?map_map; reflexivity.
Qed.

(** The first car, previewed from a list loaded before another tab
    deleted it. *)
Lemma preview_shows_vehicle_or_blank_witness :
  let d := snd (delete_vehicle no_fault 1 two_car_db) in
  match vl_step no_fault (PreviewClick 1) (vl_init two_car_db) d with
  | Some (s', d') =>
      d' = d /\ vl_preview s' = Some (get_vehicle d 1) /\
      list_preview_of (vehicle_json (get_vehicle d 1)) =
      Some {| lp_fields := [("Agreement No", ""); ("Financier Name", ""); ("Owner Name", "");
                            ("Registration Number", ""); ("Vehicle Type", ""); ("Make & Model", " ");
                            ("Engine No", ""); ("Chassis No", ""); ("KMs Run", ""); ("Year", "");
                            ("Battery Make", ""); ("Battery Number", ""); ("Battery Condition", "")];
              lp_documents := []; lp_images := None |}
  | None => False
  end%string.
Proof.
  cbn zeta. destruct (vl_step no_fault (PreviewClick 1) (vl_init two_car_db) _) as [[s' d']|] eqn:E;
    [|vm_compute in E; discriminate].
  pose proof (preview_shows_vehicle_or_blank no_fault _ _ 1 s' d' E) as H.
  assert (Hg : get_vehicle (snd (delete_vehicle no_fault 1 two_car_db)) 1 = None) by (vm_compute; reflexivity).
  rewrite Hg in H. exact H.
Defined.

(** C34: [BulkPrintDialog] and its [executeBulkPrint] never run: no handler
    sets [bulkPrintDialogOpen] to [true], so after any sequence of
    actions on the page the dialog is closed and its [Print Selected]
    button is not on screen ([Print Selected] of the toolbar prints
    directly through [handleBulkPrint]). *)
Theorem bulk_print_dialog_unreachable fault es d :
  let '(s, d') := vl_run fault es (vl_init d) d in
  vl_bulk_open s = false /\ vl_step fault BulkDialogPrint s d' = None.
Proof.
  pose proof (vl_run_preserves fault (fun s _ => vl_bulk_open s = false)
                (fun e s d s' d' => vl_step_bulk_closed fault e s d s' d') es (vl_init d) d eq_refl) as H.
  destruct (vl_run fault es (vl_init d) d) as [s d']. cbn in H |- *. by rewrite H.
Qed.
