(* ===== verification/Pool.v ===== *)
(** * Pool: the connection pool and the routes that keep a connection

    config/database.js creates mysql2's pool with [connectionLimit: 10],
    [waitForConnections: true] and [queueLimit: 0]: when ten connections
    are lent, a request for one waits in an unbounded queue until one is
    given back.  A route takes a connection with [db.getConnection()] and
    gives it back with [connection.release()], or runs [db.query], which
    takes one and gives it back itself.  Some routes of server.js return
    or throw on a path that skips [release()]; the connection they took
    is lent for good:
    - POST /api/settings/locations (313-350) answers 400 for a blank field
      with [return res.status(400)] before any [release()];
    - GET /api/vehicles/:id (488-539) answers 404 the same way, and GET
      /api/locations/:id/stats (228-284) for an unknown location or a
      failing computation;
    - GET /api/vehicles, GET /api/vehicles/checked-out and GET
      /api/settings/locations (66-129, 207-225) release inside [try], so
      a failing [SELECT] keeps the connection.
    The other routes release in [finally], on both branches, or use
    [db.query].

    [server] is the server process: the database and the number of
    connections lent for good; each request runs atomically (as in
    [System]), holding a connection only while it runs, so a request
    waits exactly when ten connections are lent for good, and then it
    waits forever since nothing gives one back.  [rfault] says when a
    route's [SELECT] fails (the reads of the other files are total; a
    failure only changes the answer, and here whether the connection is
    given back).  [tfault] says when [beginTransaction] fails in a
    route that opens a transaction: the route answers 500 before any
    statement, and POST and DELETE /api/vehicles (541-647), which call
    [release()] only inside the inner [try], keep the connection; the
    routes that release in [finally] give it back.  A failing
    [rollback], which needs a broken connection, is not modelled. *)

From stdpp Require Import base list strings decidable.
From Stdlib Require Import ZArith Lia.
From S2P Require Import Prelude Schema Store VehicleStore Settings System Occupancy Reads.

(** [connectionLimit: 10]. *)
Definition connection_limit : nat := 10.

(** The routes by the way they use the pool. *)
Inductive route :=
| RtServe (rq : request)                 (* the writing routes of [System.serve] *)
| RtGetVehicles                          (* GET /api/vehicles *)
| RtGetCheckedOut                        (* GET /api/vehicles/checked-out *)
| RtGetLocations                         (* GET /api/settings/locations *)
| RtLocationStats (id : nat) (show_checked_out : bool) (today : Z)
| RtGetVehicle (id : nat)                (* GET /api/vehicles/:id *)
| RtSearch (reg_no : string)             (* GET /api/vehicles/search/:regNo, [finally] *)
| RtPairPrice (vehicle_type location : string) (* GET /api/settings/prices/:vt/:l, [finally] *)
| RtDbQuery (path : string).             (* the routes that only use [db.query] *)

Record server := { sv_db : db; sv_lent : nat }.

Definition server_init (d : db) : server := {| sv_db := d; sv_lent := 0 |}.

Inductive reply := Answered | Queued.

Section Pool.
(** [collate] is the collation of the name columns, which decides
    GET /api/locations/:id/stats ([Occupancy.location_stats]). *)
Context (collate : string -> string) (fault : stmt -> db -> bool) (rfault tfault : route -> db -> bool).

(** The writing routes that open a transaction. *)
Definition opens_transaction (rq : request) : bool :=
  match rq with
  | RCreate _ _ | RDelete _ | RUpdate _ _ | RDeleteLocation _ | RDeleteVehicleType _ => true
  | _ => false
  end.

(** Whether the route gives its connection back on the path it takes. *)
Definition releases (rt : route) (d : db) : bool :=
  match rt with
  | RtServe (RAddLocation b) =>
      match fst (post_location fault b d) with Err BadRequest => false | _ => true end
  | RtServe (RCreate _ _) | RtServe (RDelete _) => negb (tfault rt d)
  | RtServe _ | RtSearch _ | RtPairPrice _ _ | RtDbQuery _ => true
  | RtGetVehicles | RtGetCheckedOut | RtGetLocations => negb (rfault rt d)
  | RtLocationStats id sc today => negb (rfault rt d) && is_ok (location_stats collate d id sc today)
  | RtGetVehicle id => negb (rfault rt d) && bool_decide (is_Some (get_vehicle d id))
  end.

(** What the route does to the database: only the writing routes change it. *)
Definition route_effect (rt : route) (d : db) : db :=
  match rt with
  | RtServe rq => if opens_transaction rq && tfault rt d then d else snd (serve fault rq d)
  | _ => d
  end.

(** A request: it runs when a connection can be had, else it waits. *)
Definition server_step (rt : route) (s : server) : reply * server :=
  if Nat.ltb (sv_lent s) connection_limit then
    (Answered, {| sv_db := route_effect rt (sv_db s);
                  sv_lent := if releases rt (sv_db s) then sv_lent s else S (sv_lent s) |})
  else (Queued, s).

Fixpoint server_run (rts : list route) (s : server) : list reply * server :=
  match rts with
  | [] => ([], s)
  | rt :: rts' =>
      let '(r, s') := server_step rt s in
      let '(rs, s'') := server_run rts' s' in (r :: rs, s'')
  end.

End Pool.

(** ** Lemmas *)

Section Lemmas.
Context (collate : string -> string) (fault : stmt -> db -> bool) (rfault tfault : route -> db -> bool).

(** Once ten connections are lent for good, every request waits. *)
Lemma server_run_exhausted rts s :
  connection_limit <= sv_lent s -> server_run collate fault rfault tfault rts s = (repeat Queued (length rts), s).
Proof.
  intros H. induction rts as [|rt rts IH]; [done|]. cbn.
  unfold server_step. destruct (Nat.ltb_spec (sv_lent s) connection_limit); [lia|]. by rewrite IH.
Qed.

(** Lent connections are never given back. *)
Lemma server_step_lent rt s : sv_lent s <= sv_lent (snd (server_step collate fault rfault tfault rt s)).
Proof. unfold server_step. destruct (Nat.ltb _ _), (releases collate fault rfault tfault rt (sv_db s)); cbn; lia. Qed.

(** A route that keeps its connection and leaves the database alone,
    sent [k] times while connections remain. *)
Lemma server_run_leaking rt d n k :
  releases collate fault rfault tfault rt d = false -> route_effect fault tfault rt d = d -> n + k <= connection_limit ->
  server_run collate fault rfault tfault (repeat rt k) {| sv_db := d; sv_lent := n |} =
  (repeat Answered k, {| sv_db := d; sv_lent := n + k |}).
Proof.
  intros Hr He. revert n. induction k as [|k IH]; intros n Hk; cbn; [by rewrite Nat.add_0_r|].
  unfold server_step. cbn [sv_lent sv_db]. destruct (Nat.ltb_spec n connection_limit); [|lia].
  rewrite Hr, He, IH by lia. by replace (n + S k) with (S n + k) by lia.
Qed.

(** Ten leaking requests from a fresh pool, then nothing is answered. *)
Lemma leaking_requests_exhaust rt d rts :
  releases collate fault rfault tfault rt d = false -> route_effect fault tfault rt d = d ->
  let run1 := server_run collate fault rfault tfault (repeat rt connection_limit) (server_init d) in
  fst run1 = repeat Answered connection_limit /\ sv_db (snd run1) = d /\
  fst (server_run collate fault rfault tfault rts (snd run1)) = repeat Queued (length rts) /\
  sv_db (snd (server_run collate fault rfault tfault rts (snd run1))) = d.
Proof.
  intros Hr He. cbn zeta. unfold server_init.
  rewrite (server_run_leaking rt d 0 connection_limit Hr He) by done. cbn [fst snd sv_db].
  rewrite server_run_exhausted by (cbn; lia). done.
Qed.

(** The 400 branch of POST /api/settings/locations. *)
Lemma post_location_blank b d :
  js_truthy (lb_name b) && js_truthy (lb_address b) && js_truthy (lb_capacity b) = false ->
  post_location fault b d = (Err BadRequest, d).
Proof. intros H. unfold post_location. by rewrite H. Qed.

Lemma blank_location_leaks b d :
  js_truthy (lb_name b) && js_truthy (lb_address b) && js_truthy (lb_capacity b) = false ->
  releases collate fault rfault tfault (RtServe (RAddLocation b)) d = false /\
  route_effect fault tfault (RtServe (RAddLocation b)) d = d.
Proof.
  intros H. cbn. unfold se_bind. rewrite (post_location_blank b d H). done.
Qed.

(** The 404 branch of GET /api/vehicles/:id: a preview of a vehicle
    deleted meanwhile keeps its connection. *)
Lemma missing_vehicle_leaks id d :
  get_vehicle d id = None ->
  releases collate fault rfault tfault (RtGetVehicle id) d = false /\ route_effect fault tfault (RtGetVehicle id) d = d.
Proof. intros H. cbn. rewrite H. split; [|done]. by destruct (rfault _ _). Qed.

(** C38: Ten previews (GET /api/vehicles/:id) of a vehicle that is no longer
    in the database, as the vehicle list sends for a row deleted by
    another screen, are each answered 404 before [connection.release()]
    (server.js 508-511): the pool has no connection left and every later
    request that uses the database waits forever. *)
Lemma missing_previews_exhaust_pool id d rts :
  get_vehicle d id = None ->
  fst (server_run collate fault rfault tfault rts
         (snd (server_run collate fault rfault tfault (repeat (RtGetVehicle id) connection_limit) (server_init d)))) =
  repeat Queued (length rts).
Proof.
  intros H. destruct (missing_vehicle_leaks id d H) as [Hr He].
  apply (leaking_requests_exhaust (RtGetVehicle id) d rts Hr He).
Qed.

(** A failing [beginTransaction] in POST or DELETE /api/vehicles: the
    answer is 500, nothing is written, and the connection is kept. *)
Lemma failed_begin_leaks rq d :
  match rq with RCreate _ _ | RDelete _ => True | _ => False end ->
  tfault (RtServe rq) d = true ->
  releases collate fault rfault tfault (RtServe rq) d = false /\ route_effect fault tfault (RtServe rq) d = d.
Proof. intros Hrq Ht. destruct rq; try contradiction; cbn; by rewrite Ht. Qed.

(** Ten intakes whose transaction cannot begin exhaust the pool. *)
Lemma failed_intakes_exhaust_pool b now d rts :
  tfault (RtServe (RCreate b now)) d = true ->
  fst (server_run collate fault rfault tfault rts
         (snd (server_run collate fault rfault tfault (repeat (RtServe (RCreate b now)) connection_limit)
                          (server_init d)))) = repeat Queued (length rts).
Proof.
  intros Ht. destruct (failed_begin_leaks (RCreate b now) d I Ht) as [Hr He].
  apply (leaking_requests_exhaust (RtServe (RCreate b now)) d rts Hr He).
Qed.

End Lemmas.

(** Routes that always give their connection back leave the pool as it
    is: every request is answered and the database evolves as the
    handlers alone make it evolve. *)
Lemma server_run_releasing collate fault rfault tfault rts s :
  sv_lent s < connection_limit ->
  Forall (fun rt => forall d, releases collate fault rfault tfault rt d = true) rts ->
  server_run collate fault rfault tfault rts s =
  (repeat Answered (length rts),
   {| sv_db := fold_left (fun d rt => route_effect fault tfault rt d) rts (sv_db s); sv_lent := sv_lent s |}).
Proof.
  revert s. induction rts as [|rt rts IH]; intros [d n] Hn Hall; cbn in *; [done|].
  inversion Hall as [|? ? Hrt Hall']; subst. unfold server_step. cbn [sv_lent sv_db].
  destruct (Nat.ltb_spec n connection_limit); [|lia]. by rewrite Hrt, IH.
Qed.

(** ** Theorems *)

(** C10: Ten POST /api/settings/locations with a blank name, address or
    capacity (the Settings page sends one for each press of Add on a
    dialog with an empty field) are each answered 400 and each keeps
    the connection it took: from then on no request to a route that
    uses the database is ever answered, each waiting in the pool's
    queue, and the database never changes again. *)
Theorem blank_locations_exhaust_pool collate fault rfault tfault d b rts :
  js_truthy (lb_name b) && js_truthy (lb_address b) && js_truthy (lb_capacity b) = false ->
  let run1 := server_run collate fault rfault tfault (repeat (RtServe (RAddLocation b)) connection_limit) (server_init d) in
  fst run1 = repeat Answered connection_limit /\ sv_db (snd run1) = d /\
  fst (server_run collate fault rfault tfault rts (snd run1)) = repeat Queued (length rts) /\
  sv_db (snd (server_run collate fault rfault tfault rts (snd run1))) = d.
Proof.
  intros H. destruct (blank_location_leaks collate fault rfault tfault b d H) as [Hr He].
  exact (leaking_requests_exhaust collate fault rfault tfault _ d rts Hr He).
Qed.

(** A location dialog submitted without a name. *)
Definition nameless_location : location_body :=
  {| lb_name := Some ""; lb_address := Some "Main Road"; lb_capacity := Some "20" |}.

Lemma blank_locations_exhaust_pool_witness :
  let run1 := server_run (fun x => x) no_fault (fun _ _ => false) (fun _ _ => false)
                (repeat (RtServe (RAddLocation nameless_location)) connection_limit) (server_init empty_db) in
  let rts := [RtGetVehicles; RtDbQuery "/api/settings/vehicle-types"; RtServe (RDelete 1)] in
  fst run1 = repeat Answered connection_limit /\ sv_db (snd run1) = empty_db /\
  fst (server_run (fun x => x) no_fault (fun _ _ => false) (fun _ _ => false) rts (snd run1)) = repeat Queued (length rts) /\
  sv_db (snd (server_run (fun x => x) no_fault (fun _ _ => false) (fun _ _ => false) rts (snd run1))) = empty_db.
Proof. apply blank_locations_exhaust_pool. vm_compute. reflexivity. Defined.

(** The parked car of the sample yard deleted from the list, then
    previewed ten times from a list that still shows it: the eleventh
    request waits. *)
Lemma missing_previews_exhaust_pool_witness :
  get_vehicle (snd (delete_vehicle no_fault 2 occupancy_db)) 2 = None /\
  fst (server_run (fun x => x) no_fault (fun _ _ => false) (fun _ _ => false) [RtGetVehicles]
         (snd (server_run (fun x => x) no_fault (fun _ _ => false) (fun _ _ => false)
                 (repeat (RtGetVehicle 2) connection_limit)
                 (server_init (snd (delete_vehicle no_fault 2 occupancy_db)))))) =
  repeat Queued (length [RtGetVehicles]).
Proof.
  split; [vm_compute; reflexivity|].
  apply (missing_previews_exhaust_pool (fun x => x) no_fault (fun _ _ => false) (fun _ _ => false) 2).
  vm_compute. reflexivity.
Defined.
