(* ===== verification/CheckoutScreen.v ===== *)
(** * CheckoutScreen: the checkout page

    Checkout.jsx 37-1099.  The page has a search area (the plate field,
    upper-cased as it is typed, line 960, and [Search], 982) that runs
    [handleSearch] ([Checkout.handle_search], lines 62-116); the quote
    card with [Proceed to Payment] (1066); the payment dialog (751-817)
    whose [Process Payment] runs [handlePayment] (454-482: POST
    /api/checkouts, then the success dialog and [printReceipt] of the
    body); the success dialog (818-865) with its own [Print Receipt];
    and, instead of the search area, the checked-out list
    ([CheckedOutList]) with a details button ([handleViewDetails],
    120-150, and the preview dialog, 238-430) and a print button per
    row.

    - The screen is [co_screen]; [co_step] runs one user action, [None]
      when its control is not on screen, and [co_run] a sequence.
    - Every request of the page goes to the same server (the deployed
      one, at the vercel URL); it is the database [d].  A request
      answers before the next action.
    - [printReceipt] is [Receipt.print_receipt] on the object it is
      given: [None] is a window left blank by a [TypeError].
    - [combinedData] of [handleViewDetails] is built with object spread
      ([js_spread]); a property whose value is [undefined] is left out,
      which no read can tell apart. *)

From stdpp Require Import base list strings decidable.
From Stdlib Require Import ZArith Lia Ascii.
From S2P Require Import Prelude Schema Store VehicleStore Pricing Checkout System Reads CheckedOutList Receipt VehicleListScreen.

(** ** JavaScript helpers *)

(** [toUpperCase] on ASCII. *)
Fixpoint js_upper (s : string) : string :=
  match s with EmptyString => EmptyString | String c s' => String (ascii_upper c) (js_upper s') end.

(** [{ ...into, ...o }]: each property of [o] set on [into], in order. *)
Definition js_spread (o into : list (string * jval)) : list (string * jval) :=
  fold_left (fun acc '(k, v) => obj_set k v acc) o into.

(** A property [k: x] whose value may be [undefined]. *)
Definition defined (k : string) (o : option jval) : list (string * jval) :=
  match o with Some x => [(k, x)] | None => [] end.

(** [x || dflt]. *)
Definition or_default (o : option jval) (dflt : jval) : jval :=
  match o with Some x => if jtruthy o then x else dflt | None => dflt end.

(** ** The checked-out rows and the details dialog *)

(** A row of GET /api/vehicles/checked-out as the page holds it: [c.*]
    and four columns of the vehicle. *)
Definition checked_out_json (r : checked_out_row) : list (string * jval) :=
  checkout_row_json (co_checkout r) ++
  [("registration_number", JStr (co_registration_number r)); ("owner_name", JStr (co_owner_name r));
   ("vehicle_type", JStr (co_vehicle_type r)); ("in_place", JStr (co_in_place r))].

(** The answer of GET /api/vehicles/:id: the row, or the 404 body. *)
Definition full_vehicle_json (d : db) (vid : nat) : list (string * jval) :=
  vehicle_json (get_vehicle d vid).

(** [handleViewDetails(vehicle)]: [combinedData]. *)
Definition view_details (d : db) (r : checked_out_row) : list (string * jval) :=
  let v := checked_out_json r in
  let full := full_vehicle_json d (c_vehicle_id (co_checkout r)) in
  let vd := snapshot_json (c_vehicle_details (co_checkout r)) in
  js_spread
    (defined "checkout_date" (obj_get "checkout_date" v) ++
     defined "checkout_time" (obj_get "checkout_time" v) ++
     defined "days_stayed" (obj_get "days_stayed" v) ++
     defined "price_per_day" (obj_get "price_per_day" v) ++
     defined "total_amount" (obj_get "total_amount" v) ++
     [("tyres", or_default (obj_get "tyres" vd) (JArr []));
      ("documents", or_default (obj_get "documents" vd) (JObj []));
      ("battery_details", or_default (obj_get "battery_details" vd) (JObj []));
      ("images", or_default (obj_get "images" full) (JArr []))])
    (js_spread vd (js_spread full [])).

(** [{x}] in a table cell: [undefined] and [null] render nothing. *)
Definition cell (o : option jval) : string :=
  match o with Some JNull | None => "" | Some v => jtext v end.

Record preview_view := {
  pv_fields : list (string * string);
  pv_tyres : list (string * string * string * string);
  pv_documents : list (string * bool);
  pv_billing : list (string * string);
  pv_checkout_date : option jval
}.

(** The details dialog on [previewVehicle] (Checkout.jsx 238-430). *)
Definition preview_of (o : list (string * jval)) : preview_view :=
  let get k := obj_get k o in
  {| pv_fields := map (fun '(l, k) => (l, or_empty (get k)))
       [("Agreement No", "agreement_no"); ("Financier Name", "financier_name");
        ("Owner Name", "owner_name"); ("Registration Number", "registration_number");
        ("Vehicle Type", "vehicle_type"); ("Make", "make"); ("Model", "model"); ("Year", "year");
        ("Engine Number", "engine_no"); ("Chassis Number", "chassis_no");
        ("Kilometers Run", "kms_run"); ("Battery Make", "battery_make");
        ("Battery Number", "battery_number"); ("Battery Condition", "battery_condition")];
     pv_tyres := match get "tyres" with
                 | Some (JArr ts) =>
                     map (fun t => match t with
                                   | JObj to => (cell (obj_get "position" to), cell (obj_get "make" to),
                                                 cell (obj_get "number" to), cell (obj_get "condition" to))
                                   | _ => ("", "", "", "")
                                   end) ts
                 | _ => []
                 end;
     pv_documents := document_lines (get "documents");
     pv_billing := [("Days Stayed", or_empty (get "days_stayed"));
                    ("Rate per Day", "₹" ++ or_empty (get "price_per_day"));
                    ("Total Amount", "₹" ++ or_empty (get "total_amount"))]%string;
     pv_checkout_date := get "checkout_date" |}.

(** [printReceipt(x)] where [x] may be [null]. *)
Definition print_receipt_js (o : option (list (string * jval))) : option receipt :=
  match o with Some v => print_receipt v | None => None end.

(** ** The page *)

Record co_screen := {
  cs_query : string;                    (* [searchQuery] *)
  cs_vehicle : option search_result;    (* [vehicleDetails] *)
  cs_billing : option billing;          (* [billingDetails] *)
  cs_error : option quote_error;        (* [error], [None] for [''] *)
  cs_payment_open : bool;               (* [showPaymentDialog] *)
  cs_success_open : bool;               (* [showSuccessDialog] *)
  cs_list : list_screen;                (* the checked-out list *)
  cs_preview : option (list (string * jval)); (* [previewVehicle] *)
  cs_preview_open : bool;               (* [openPreviewDialog] *)
  cs_printed : list (option receipt)    (* the print windows, in order *)
}.

Definition co_init : co_screen :=
  {| cs_query := ""; cs_vehicle := None; cs_billing := None; cs_error := None;
     cs_payment_open := false; cs_success_open := false; cs_list := list_screen_init;
     cs_preview := None; cs_preview_open := false; cs_printed := [] |}.

Definition with_quote (q : string) (v : option search_result) (b : option billing)
    (e : option quote_error) (s : co_screen) : co_screen :=
  {| cs_query := q; cs_vehicle := v; cs_billing := b; cs_error := e;
     cs_payment_open := cs_payment_open s; cs_success_open := cs_success_open s;
     cs_list := cs_list s; cs_preview := cs_preview s; cs_preview_open := cs_preview_open s;
     cs_printed := cs_printed s |}.

Definition with_dialogs (pay success : bool) (printed : list (option receipt)) (s : co_screen) : co_screen :=
  {| cs_query := cs_query s; cs_vehicle := cs_vehicle s; cs_billing := cs_billing s;
     cs_error := cs_error s; cs_payment_open := pay; cs_success_open := success;
     cs_list := cs_list s; cs_preview := cs_preview s; cs_preview_open := cs_preview_open s;
     cs_printed := printed |}.

Definition with_list (l : list_screen) (pv : option (list (string * jval))) (pv_open : bool)
    (printed : list (option receipt)) (s : co_screen) : co_screen :=
  {| cs_query := cs_query s; cs_vehicle := cs_vehicle s; cs_billing := cs_billing s;
     cs_error := cs_error s; cs_payment_open := cs_payment_open s;
     cs_success_open := cs_success_open s; cs_list := l; cs_preview := pv;
     cs_preview_open := pv_open; cs_printed := printed |}.

Section Page.
Context (collate : string -> string) (fault : stmt -> db -> bool) (status_fault : bool).

(** [handleSearch] at instant [now]: an empty query only sets the error;
    a failed search clears the vehicle but keeps the billing. *)
Definition on_search (now : Z) (s : co_screen) (d : db) : co_screen :=
  match handle_search collate deployed_rate status_fault (cs_query s) now d with
  | Ok (sr, bl) => with_quote (cs_query s) (Some sr) (Some bl) None s
  | Err EmptyQuery => with_quote (cs_query s) (cs_vehicle s) (cs_billing s) (Some EmptyQuery) s
  | Err e => with_quote (cs_query s) None (cs_billing s) (Some e) s
  end.

(** [handlePayment]: on an OK answer the payment dialog closes, the
    success dialog opens and the receipt of the body is printed; the
    quote stays on the page. *)
Definition on_payment (s : co_screen) (d : db) : co_screen * db :=
  match cs_vehicle s, cs_billing s with
  | Some sr, Some bl =>
      let body := payment_body sr bl in
      match post_checkouts fault body d with
      | (Ok _, d') => (with_dialogs false true (cs_printed s ++ [print_receipt (checkout_json body)]) s, d')
      | (Err _, d') => (s, d')
      end
  | _, _ => (s, d)
  end.

Inductive co_event :=
| TypeQuery (v : string)
| SearchClick (now : Z)
| ProceedClick
| CancelPayment
| ProcessPayment
| CloseSuccess
| PrintFromSuccess
| ListAction (e : list_event)
| ListViewDetails (i : nat)
| ListPrint (i : nat)
| ClosePreview
| PrintFromPreview.

Definition co_step (e : co_event) (s : co_screen) (d : db) : option (co_screen * db) :=
  let searching := negb (ls_shown (cs_list s)) in
  match e with
  | TypeQuery v =>
      if searching then Some (with_quote (js_upper v) (cs_vehicle s) (cs_billing s) (cs_error s) s, d)
      else None
  | SearchClick now => if searching then Some (on_search now s d, d) else None
  | ProceedClick =>
      match cs_vehicle s, cs_billing s with
      | Some _, Some _ =>
          if searching then Some (with_dialogs true (cs_success_open s) (cs_printed s) s, d) else None
      | _, _ => None
      end
  | CancelPayment =>
      if cs_payment_open s then Some (with_dialogs false (cs_success_open s) (cs_printed s) s, d) else None
  | ProcessPayment => if cs_payment_open s then Some (on_payment s d) else None
  | CloseSuccess =>
      if cs_success_open s then Some (with_dialogs (cs_payment_open s) false (cs_printed s) s, d) else None
  | PrintFromSuccess =>
      if cs_success_open s
      then Some (with_dialogs (cs_payment_open s) true
                   (cs_printed s ++ [print_receipt_js (option_map snapshot_json (cs_vehicle s))]) s, d)
      else None
  | ListAction le =>
      match list_step le (cs_list s) d with
      | Some l => Some (with_list l (cs_preview s) (cs_preview_open s) (cs_printed s) s, d)
      | None => None
      end
  | ListViewDetails i =>
      match ls_shown (cs_list s), nth_error (ls_filtered (cs_list s)) i with
      | true, Some r => Some (with_list (cs_list s) (Some (view_details d r)) true (cs_printed s) s, d)
      | _, _ => None
      end
  | ListPrint i =>
      match ls_shown (cs_list s), nth_error (ls_filtered (cs_list s)) i with
      | true, Some r =>
          Some (with_list (cs_list s) (cs_preview s) (cs_preview_open s)
                          (cs_printed s ++ [print_receipt (checked_out_json r)]) s, d)
      | _, _ => None
      end
  | ClosePreview =>
      if cs_preview_open s then Some (with_list (cs_list s) (cs_preview s) false (cs_printed s) s, d)
      else None
  | PrintFromPreview =>
      if cs_preview_open s
      then Some (with_list (cs_list s) (cs_preview s) true
                           (cs_printed s ++ [print_receipt_js (cs_preview s)]) s, d)
      else None
  end.

Fixpoint co_run (es : list co_event) (s : co_screen) (d : db) : co_screen * db :=
  match es with
  | [] => (s, d)
  | e :: es' => match co_step e s d with
                | Some (s', d') => co_run es' s' d'
                | None => co_run es' s d
                end
  end.

End Page.

(** ** Lemmas *)

Lemma js_spread_get_other k o into :
  ~ In k (map fst o) -> obj_get k (js_spread o into) = obj_get k into.
Proof.
  unfold js_spread. revert into. induction o as [|[k' v] o IH]; intros into Hk; [done|].
  cbn in *. rewrite IH by tauto. apply obj_get_set_ne. intros ->. tauto.
Qed.

Lemma snapshot_no_vehicle_details sr : obj_get "vehicle_details" (snapshot_json sr) = None.
Proof. reflexivity. Qed.

Lemma defined_keys k o : map fst (defined k o) = match o with Some _ => [k] | None => [] end.
Proof. by destruct o. Qed.

(** [combinedData] has no [vehicle_details]: neither the vehicle row, nor
    the snapshot, nor the properties set after them. *)
Lemma view_details_no_vehicle_details d r : obj_get "vehicle_details" (view_details d r) = None.
Proof.
  unfold view_details. rewrite js_spread_get_other.
  - rewrite js_spread_get_other by (cbn; intuition discriminate).
    unfold full_vehicle_json, vehicle_json. destruct (get_vehicle d _) as [lr|].
    + rewrite js_spread_get_other; [done|]. rewrite row_json_keys. vm_compute. intuition discriminate.
    + reflexivity.
  - cbn. intuition discriminate.
Qed.

(** Only the details button sets [previewVehicle], always to [combinedData]. *)
Definition preview_ok (s : co_screen) : Prop :=
  forall o, cs_preview s = Some o -> obj_get "vehicle_details" o = None.

Lemma on_search_preview collate status_fault now s d :
  cs_preview (on_search collate status_fault now s d) = cs_preview s.
Proof. unfold on_search. by destruct (handle_search _ _ _ _ _ _) as [[? ?]|[]]. Qed.

Lemma on_payment_preview fault s d : cs_preview (fst (on_payment fault s d)) = cs_preview s.
Proof.
  unfold on_payment. destruct (cs_vehicle s), (cs_billing s); try done.
  by destruct (post_checkouts _ _ _) as [[] ?].
Qed.

Lemma co_step_preview_ok collate fault status_fault e s d s' d' :
  preview_ok s -> co_step collate fault status_fault e s d = Some (s', d') -> preview_ok s'.
Proof.
  intros Hp Hst. unfold co_step in Hst. destruct e.
  - destruct (negb _); simplify_eq. exact Hp.
  - destruct (negb _); simplify_eq. intros o Ho. apply Hp. by rewrite on_search_preview in Ho.
  - destruct (cs_vehicle s), (cs_billing s); try discriminate. destruct (negb _); simplify_eq. exact Hp.
  - destruct (cs_payment_open s); simplify_eq. exact Hp.
  - destruct (cs_payment_open s); [|discriminate]. injection Hst as Hst.
    intros o Ho. apply Hp. rewrite <- (on_payment_preview fault s d), Hst. exact Ho.
  - destruct (cs_success_open s); simplify_eq. exact Hp.
  - destruct (cs_success_open s); simplify_eq. exact Hp.
  - destruct (list_step _ _ _); simplify_eq. exact Hp.
  - destruct (ls_shown (cs_list s)), (nth_error (ls_filtered (cs_list s)) i); simplify_eq.
    intros o [= <-]. apply view_details_no_vehicle_details.
  - destruct (ls_shown (cs_list s)), (nth_error (ls_filtered (cs_list s)) i); simplify_eq. exact Hp.
  - destruct (cs_preview_open s); simplify_eq. exact Hp.
  - destruct (cs_preview_open s); simplify_eq. exact Hp.
Qed.

Lemma co_run_preview_ok collate fault status_fault es s d :
  preview_ok s -> preview_ok (fst (co_run collate fault status_fault es s d)).
Proof.
  revert s d. induction es as [|e es IH]; intros s d Hp; [done|]. cbn.
  destruct (co_step collate fault status_fault e s d) as [[s' d']|] eqn:E; apply IH; [|done].
  by eapply co_step_preview_ok.
Qed.

(** The database under the page: it keeps [System.db_inv], and the quote
    on screen names a vehicle that was taken in. *)
Definition page_inv (s : co_screen) (d : db) : Prop :=
  db_inv d /\ forall sr, cs_vehicle s = Some sr -> v_id (sr_vehicle sr) < next_vehicle_id d.

Lemma page_inv_same s s' d : cs_vehicle s' = cs_vehicle s -> page_inv s d -> page_inv s' d.
Proof. intros E [Hinv Hv]. split; [done|]. intros sr. rewrite E. apply Hv. Qed.

Lemma checkout_effect_next r d : next_vehicle_id (checkout_effect r d) = next_vehicle_id d.
Proof. reflexivity. Qed.

(** A quote comes from [search_by_plate] on the same database. *)
Lemma on_search_page_inv collate status_fault now s d :
  page_inv s d -> page_inv (on_search collate status_fault now s d) d.
Proof.
  intros [Hinv Hv]. split; [done|]. intros sr. unfold on_search.
  destruct (handle_search _ _ _ _ _ _) as [[sr' bl]|e] eqn:E.
  - intros [= <-]. apply handle_search_ok in E as [Hs _].
    apply (db_inv_vehicle_lt d); [done|]. by eapply search_by_plate_in.
  - destruct e; cbn; first [apply Hv | discriminate].
Qed.

(** A payment commits [checkout_effect] of the quote or nothing. *)
Lemma on_payment_page_inv fault s d :
  page_inv s d -> page_inv (fst (on_payment fault s d)) (snd (on_payment fault s d)).
Proof.
  intros Hp. unfold on_payment.
  destruct (cs_vehicle s) as [sr|] eqn:Ev, (cs_billing s) as [bl|]; try done.
  pose proof (post_checkouts_all_or_nothing fault (payment_body sr bl) d) as Hpc.
  destruct (post_checkouts _ _ _) as [[u|e] d']; cbn in Hpc |- *; subst d'; [|done].
  destruct Hp as [Hinv Hv]. split.
  - apply db_inv_checkout; [by apply Hv|done].
  - intros sr'. rewrite checkout_effect_next. apply Hv.
Qed.

Lemma co_step_page_inv collate fault status_fault e s d s' d' :
  page_inv s d -> co_step collate fault status_fault e s d = Some (s', d') -> page_inv s' d'.
Proof.
  intros Hp Hst. unfold co_step in Hst.
  destruct e;
    repeat match type of Hst with
           | context [if ?b then _ else _] => destruct b
           | context [match ?x with Some _ => _ | None => _ end] => destruct x
           | context [match ?x with (_, _) => _ end] => destruct x
           end; simplify_eq;
    try (eapply page_inv_same; [reflexivity|exact Hp]).
  - by apply on_search_page_inv.
  - pose proof (on_payment_page_inv fault s d Hp) as H. rewrite Hst in H. exact H.
Qed.

Lemma co_run_page_inv collate fault status_fault es s d :
  page_inv s d -> page_inv (fst (co_run collate fault status_fault es s d))
                           (snd (co_run collate fault status_fault es s d)).
Proof.
  revert s d. induction es as [|e es IH]; intros s d Hp; [done|]. cbn.
  destruct (co_step collate fault status_fault e s d) as [[s' d']|] eqn:E; apply IH; [|done].
  by eapply co_step_page_inv.
Qed.

(** ** Theorems *)

(** C35: After a successful payment the quote stays on the checkout page:
    closing the success dialog and pressing [Proceed to Payment] and
    [Process Payment] again checks the same car out a second time (the
    page does not search again and the route does not check), storing
    two identical checkout rows and printing two receipts. *)
Theorem pay_twice_double_checkout collate status_fault plate now d sr bl :
  handle_search collate deployed_rate status_fault (js_upper plate) now d = Ok (sr, bl) ->
  let '(s, d') := co_run collate no_fault status_fault
      [TypeQuery plate; SearchClick now; ProceedClick; ProcessPayment; CloseSuccess;
       ProceedClick; ProcessPayment] co_init d in
  checkouts d' = checkouts d ++ [payment_body sr bl; payment_body sr bl] /\
  cs_printed s = [receipt_of (payment_body sr bl); receipt_of (payment_body sr bl)].
Proof.
  intros H. cbn -[handle_search post_checkouts print_receipt checkout_json].
  unfold on_search. cbn -[handle_search post_checkouts print_receipt checkout_json]. rewrite H.
  cbn -[print_receipt checkout_json]. rewrite <- app_assoc. done.
Qed.

(** A car typed in lower case at the search field, quoted and paid twice. *)
Lemma pay_twice_double_checkout_witness :
  match handle_search (fun s => s) deployed_rate false "KA01AB1234" spec_example_now yard_db with
  | Ok (sr, bl) =>
      let '(s, d') := co_run (fun s => s) no_fault false
          [TypeQuery "ka01ab1234"; SearchClick spec_example_now; ProceedClick; ProcessPayment;
           CloseSuccess; ProceedClick; ProcessPayment] co_init yard_db in
      checkouts d' = checkouts yard_db ++ [payment_body sr bl; payment_body sr bl] /\
      cs_printed s = [receipt_of (payment_body sr bl); receipt_of (payment_body sr bl)]
  | Err _ => False
  end.
Proof.
  destruct (handle_search (fun s => s) deployed_rate false "KA01AB1234" spec_example_now yard_db)
    as [[sr bl]|e] eqn:E; [|vm_compute in E; discriminate].
  apply (pay_twice_double_checkout (fun s => s) false "ka01ab1234" spec_example_now yard_db sr bl).
  change (js_upper "ka01ab1234") with "KA01AB1234". exact E.
Defined.

(** C37: On every state the checkout page reaches, the [Print Receipt]
    buttons of the success dialog and of the details dialog open a blank
    window: they pass [vehicleDetails] (the search answer) and
    [combinedData] to [printReceipt], neither of which has the
    [vehicle_details] property it reads, so the template throws.  Only
    the receipt printed by the payment itself and the list's print
    button show a receipt. *)
Theorem dialog_receipts_blank collate fault status_fault es d e s' d' :
  e = PrintFromSuccess \/ e = PrintFromPreview ->
  let '(s, d1) := co_run collate fault status_fault es co_init d in
  co_step collate fault status_fault e s d1 = Some (s', d') ->
  d' = d1 /\ cs_printed s' = cs_printed s ++ [None].
Proof.
  intros He. pose proof (co_run_preview_ok collate fault status_fault es co_init d) as Hp.
  destruct (co_run collate fault status_fault es co_init d) as [s d1]. cbn in Hp.
  specialize (Hp ltac:(by intros o)). intros Hst. unfold co_step in Hst.
  destruct He as [->| ->].
  - destruct (cs_success_open s); simplify_eq. split; [done|]. cbn.
    by destruct (cs_vehicle s).
  - destruct (cs_preview_open s); simplify_eq. split; [done|]. cbn.
    destruct (cs_preview s) as [o|] eqn:Eo; [|done]. cbn. unfold print_receipt.
    by rewrite (Hp o Eo).
Qed.

(** The car paid for, then the success dialog's [Print Receipt]; and the
    checked-out list's details of the same car, then its [Print Receipt]. *)
Lemma dialog_receipts_blank_witness :
  let es := [TypeQuery "KA01AB1234"; SearchClick spec_example_now; ProceedClick; ProcessPayment] in
  let es2 := es ++ [ListAction ViewCheckedOut; ListViewDetails 0] in
  (let '(s, d1) := co_run (fun s => s) no_fault false es co_init yard_db in
   match co_step (fun s => s) no_fault false PrintFromSuccess s d1 with
   | Some (s', d') => d' = d1 /\ cs_printed s' = cs_printed s ++ [None]
   | None => False
   end) /\
  (let '(s, d1) := co_run (fun s => s) no_fault false es2 co_init yard_db in
   match co_step (fun s => s) no_fault false PrintFromPreview s d1 with
   | Some (s', d') => d' = d1 /\ cs_printed s' = cs_printed s ++ [None]
   | None => False
   end).
Proof.
  cbn zeta. split.
  - pose proof (dialog_receipts_blank (fun s => s) no_fault false
      [TypeQuery "KA01AB1234"; SearchClick spec_example_now; ProceedClick; ProcessPayment]
      yard_db PrintFromSuccess) as H.
    destruct (co_run _ _ _ _ _ _) as [s d1] eqn:E.
    destruct (co_step _ _ _ PrintFromSuccess s d1) as [[s' d']|] eqn:E2.
    + exact (H s' d' (or_introl eq_refl) eq_refl).
    + vm_compute in E. injection E as <- <-. vm_compute in E2. discriminate.
  - pose proof (dialog_receipts_blank (fun s => s) no_fault false
      ([TypeQuery "KA01AB1234"; SearchClick spec_example_now; ProceedClick; ProcessPayment] ++
       [ListAction ViewCheckedOut; ListViewDetails 0]) yard_db PrintFromPreview) as H.
    destruct (co_run _ _ _ _ _ _) as [s d1] eqn:E.
    destruct (co_step _ _ _ PrintFromPreview s d1) as [[s' d']|] eqn:E2.
    + exact (H s' d' (or_intror eq_refl) eq_refl).
    + vm_compute in E. injection E as <- <-. vm_compute in E2. discriminate.
Defined.

(** C3: Whatever the user does on the checkout page (quotes, payments,
    a second payment of the same quote, the checked-out list and its
    dialogs), and whichever statements fail, the database keeps the
    invariant of [System.db_inv]: distinct vehicle ids below the id
    counter, a vehicle [checked_out] exactly when it has a checkout row,
    and every checkout row naming an id that was issued.  The second
    payment, which [System.step] does not produce, is among these runs. *)
Theorem checkout_page_keeps_inv collate fault status_fault es d :
  db_inv d -> db_inv (snd (co_run collate fault status_fault es co_init d)).
Proof.
  intros H. apply (co_run_page_inv collate fault status_fault es co_init d). by split.
Qed.

(** A car quoted and paid for twice, from the sample yard. *)
Lemma checkout_page_keeps_inv_witness :
  db_inv (snd (co_run (fun s => s) no_fault false
     [TypeQuery "ka01ab1234"; SearchClick spec_example_now; ProceedClick; ProcessPayment;
      CloseSuccess; ProceedClick; ProcessPayment] co_init yard_db)).
Proof. apply checkout_page_keeps_inv. apply db_invb_spec. vm_compute. reflexivity. Defined.
