(* ===== verification/Interleave.v ===== *)
(** * Interleave: requests in flight at the same time

    server.js runs on Node's event loop: a handler runs without
    interruption up to its next [await], and while it waits for MySQL
    the loop runs the other requests.  A request in flight is a [task]:
    finished with its answer ([Done]), or waiting at an [await] for one
    statement ([Await eff next]): when the scheduler lets the statement
    run, it changes the database by [eff], and the handler goes on with
    [next] applied to the database the statement saw.

    - [await m k] is [const b = await m; k(b)] for a handler [m] of
      [Store]: a failing statement ends the request with its error, as
      the [catch] of every route does.
    - The routes that run a transaction (POST, PUT and DELETE
      /api/vehicles, POST /api/checkouts, DELETE of a location or a
      vehicle type) and the routes of one statement are one step
      ([atomic]): the model takes InnoDB's transactions as serializable.
    - POST /api/settings/prices (server.js 404-429) runs its [DELETE]
      and its [INSERT] as two [await db.query(...)] outside any
      transaction: two steps ([post_prices_task]).
    - GET /api/settings/prices (464-471) is one [SELECT]
      ([get_prices_task]).
    - A pool is a list of tasks; a schedule lists the positions of the
      tasks the loop resumes, in order; resuming a finished task does
      nothing ([pool_step]). *)

From stdpp Require Import base list strings decidable.
From Stdlib Require Import ZArith Lia.
From S2P Require Import Prelude Schema Store VehicleStore Pricing Settings Checkout System.

(** ** Tasks *)

Inductive task (A : Type) : Type :=
| Done (r : result A err)
| Await (eff : db -> db) (next : db -> task A).
Arguments Done {A} r.
Arguments Await {A} eff next.

(** [const b = await m; k(b)]. *)
Definition await {A B} (m : handler B) (k : B -> task A) : task A :=
  Await (fun d => snd (m d))
        (fun d => match fst (m d) with Ok b => k b | Err e => Done (Err e) end).

(** A handler that runs as one step. *)
Definition atomic {A} (m : handler A) : task A := await m (fun a => Done (Ok a)).

(** The request alone: every step at once. *)
Fixpoint run_task {A} (t : task A) (d : db) : result A err * db :=
  match t with
  | Done r => (r, d)
  | Await eff next => run_task (next d) (eff d)
  end.

(** The answer mapped by [f]. *)
Fixpoint tmap {A B} (f : A -> B) (t : task A) : task B :=
  match t with
  | Done r => Done (match r with Ok a => Ok (f a) | Err e => Err e end)
  | Await eff next => Await eff (fun d => tmap f (next d))
  end.

(** ** The routes as tasks *)

Section Tasks.
Context (fault : stmt -> db -> bool).

(** POST /api/settings/prices: [DELETE], then [INSERT], two statements. *)
Definition post_prices_task (prices : option (list price_row)) : task unit :=
  match prices with
  | None => Done (Err BadRequest)
  | Some ps =>
      await (exec fault DeleteAllPrices) (fun _ =>
      await (exec fault (InsertPrices ps)) (fun _ => Done (Ok tt)))
  end.

(** The writing routes of [System.serve], with their [await]s. *)
Definition request_task (rq : request) : task unit :=
  match rq with
  | RPrices ps => post_prices_task ps
  | _ => atomic (serve fault rq)
  end.
End Tasks.

(** The answers of the routes of a pool. *)
Inductive answer := Written | PriceRows (rows : list price_row).

Definition write_task (fault : stmt -> db -> bool) (rq : request) : task answer :=
  tmap (fun _ => Written) (request_task fault rq).

(** GET /api/settings/prices: the rows of the table. *)
Definition get_prices_task : task answer :=
  Await (fun d => d) (fun d => Done (Ok (PriceRows (location_vehicle_prices d)))).

(** ** The event loop *)

Definition pool := list (task answer).

Definition pool_step (i : nat) (p : list (task answer)) (d : db) : pool * db :=
  match p !! i with
  | Some (Await eff next) => (<[i := next d]> p, eff d)
  | _ => (p, d)
  end.

Fixpoint interleave (sch : list nat) (p : pool) (d : db) : pool * db :=
  match sch with
  | [] => (p, d)
  | i :: sch' => let '(p', d') := pool_step i p d in interleave sch' p' d'
  end.

(** A price of the sample yard's only pair. *)
Definition sample_price (z : Z) : price_row :=
  {| p_location_id := 1; p_vehicle_type_id := 1; p_price := z |}.

(** ** Lemmas *)

Lemma run_task_await {A B} (m : handler B) (k : B -> task A) d :
  run_task (await m k) d =
  match m d with (Ok b, d') => run_task (k b) d' | (Err e, d') => (Err e, d') end.
Proof. cbn. by destruct (m d) as [[b|e] d']. Qed.

Lemma run_task_atomic {A} (m : handler A) d : run_task (atomic m) d = m d.
Proof. unfold atomic. rewrite run_task_await. by destruct (m d) as [[] ?]. Qed.

(** Run alone, a request split at its [await]s does what the atomic
    handler of [System.serve] does: the answer and the database are
    the same, for every request and every pattern of statement
    failures.  The tasks only add the points where other requests can
    run. *)
Lemma request_task_serial fault rq d : run_task (request_task fault rq) d = serve fault rq d.
Proof.
  destruct rq; try apply run_task_atomic. destruct ps as [ps|]; [|reflexivity].
  cbn [request_task post_prices_task serve post_prices]. rewrite run_task_await. unfold se_bind.
  destruct (exec fault DeleteAllPrices d) as [[pk|e] d1]; [|done].
  rewrite run_task_await. by destruct (exec fault (InsertPrices ps) d1) as [[pk'|e] d2].
Qed.

(** ** Theorems *)

(** C12: Two saves of the price table whose statements interleave ([DELETE],
    [DELETE], [INSERT], [INSERT]) both answer OK and leave the rows of
    both in the table, an outcome neither order of the two saves gives
    (each leaves only its own rows). *)
Theorem interleaved_saves_merge_prices ps1 ps2 d :
  ps1 <> [] -> ps2 <> [] ->
  let saves := [write_task no_fault (RPrices (Some ps1)); write_task no_fault (RPrices (Some ps2))] in
  interleave [0; 1; 0; 1] saves d = ([Done (Ok Written); Done (Ok Written)], set_prices (ps1 ++ ps2) d) /\
  snd (interleave [0; 0; 1; 1] saves d) = set_prices ps2 d /\
  snd (interleave [1; 1; 0; 0] saves d) = set_prices ps1 d.
Proof.
  destruct ps1 as [|p1 ps1]; [done|]. destruct ps2 as [|p2 ps2]; [done|]. intros _ _.
  repeat split; reflexivity.
Qed.

(** Two admins saving 150 and 200 for the same pair. *)
Lemma interleaved_saves_merge_prices_witness :
  let saves := [write_task no_fault (RPrices (Some [sample_price 150]));
                write_task no_fault (RPrices (Some [sample_price 200]))] in
  interleave [0; 1; 0; 1] saves yard_ref_db =
    ([Done (Ok Written); Done (Ok Written)], set_prices [sample_price 150; sample_price 200] yard_ref_db) /\
  snd (interleave [0; 0; 1; 1] saves yard_ref_db) = set_prices [sample_price 200] yard_ref_db /\
  snd (interleave [1; 1; 0; 0] saves yard_ref_db) = set_prices [sample_price 150] yard_ref_db.
Proof. apply (interleaved_saves_merge_prices [sample_price 150] [sample_price 200]); discriminate. Defined.
